(* ===== verification/_CoqProject ===== *)
-Q . S2P
Prelude.v
Json.v
Regex.v
MemoryUnit.v
MemoryStore.v
Consistency.v
Retriever.v
Updater.v
Pipeline.v
LlmResponse.v
Prompting.v
Refinement.v
QueryInterface.v
QueryCli.v
Scoring.v
EvalUtils.v
Evaluations.v
ReportTypes.v
EvalSuite.v
Summaries.v
Generator.v
