(* ===== verification/Prelude.v ===== *)
(** * Verification of sekai-memory-for-chatbot: the temporal memory core

    The program (Python, under src/) builds a chapter-indexed store of
    facts ("memories") from a story synopsis, answers questions about it
    and evaluates it:
    - src/models/memory_unit.py: the fact record [MemoryUnit], its
      canonical key and the update score;
    - src/storage/simple_memory_store.py: [SimpleMemoryStore], the
      temporal store, with the update resolver [smart_update_or_create]
      and the point-in-time, timeline and evolution queries;
    - src/llm/memory_extractor.py and src/generate_memory_sets.py: the
      ingestion pipeline, which turns each synopsis sentence into a
      candidate through a language model (or the rule-based
      [MockMemoryExtractor]) and resolves it in the store, and the
      generator's command line, which loads the chapters, opens the store
      on its output file and saves it back;
    - src/retrieval/simple_memory_retriever.py: relevance ranking of the
      records visible at a chapter;
    - src/query_memories.py: the free-text query front-end, which
      classifies a question with regular expressions and answers it from
      the store and the retriever, and its command line with an
      interactive loop;
    - src/eval/consistency_eval.py: four invariant scans of a store;
    - src/eval/retrieval_eval.py, coverage_eval.py, utils.py: retrieval
      and coverage scores of a store against gold files;
    - src/eval/scoring.py: pass/fail gates over the three reports;
    - src/eval/sekai_eval.py: the evaluation command line, whose
      sub-commands communicate through results files;
    - src/updates/memory_updater.py: an alternative time-priority updater
      written against a store interface.
    The pipeline feeds the resolver, the resolver mutates the store, the
    retriever, the query front-end, the scans and the evaluations read it,
    the evaluations write JSON reports and the gates read them back.

    ** Library layout (one file per component, in dependency order)
    - [Prelude] (this file): Python semantics shared by all files: [in] on
      strings ([py_in]), [lower], [split], [strip], slicing ([py_take]),
      [range], stable [sorted]/[list.sort] ([sort_by], [py_sort_desc]),
      [max] with its first-maximum tie rule ([py_max_by]), [min] on floats,
      [str] and [int] on integers ([py_str_Z], [py_int]), [str * n],
      insertion-ordered dicts as association lists ([dict_get],
      [dict_set], [dict_in]), the nested pair loop [py_pairs]; the lemmas
      on them (among them cancellation of string concatenation and the
      injectivity of [str] on integers); the hint databases [sekai] and
      [sekai_rw].
    - [Json]: JSON values, Python's exception classes and the error monad
      [res] with stdpp's [x ← m; k] notation, [.get], [in], [d[k]],
      [.items()], truthiness, [<] and [sum] on JSON values.
    - [Regex]: a backtracking model of [re.search] and [re.sub] for the
      constructs of the sources' patterns (literals, [\w \s \d], bracket
      ranges, [.] under [re.DOTALL], [? * +], alternation, groups), its
      declarative semantics [in_lang], soundness ([matcher_sound],
      [re_search_sound]) and the adequacy of the fuel of its [*] loop
      ([star_fuel_adequate]) and of [re_sub] ([re_sub_go_fuel]).
    - [MemoryUnit]: the two pydantic models as records, [get_key],
      [can_update], [get_update_score].
    - [MemoryStore]: the store as an object heap plus the two dicts
      [all_memories] (id -> object) and [chapter_memories] (chapter ->
      objects) holding heap locations, because the Python objects are
      shared by both dicts and mutated in place; every method of
      [SimpleMemoryStore] is a function on this state, [uuid.uuid4()] is a
      generator [uuid4 : nat -> string] read at the counter [uuid_ctr].
      The ingestion step relation [ingest] and [reachable] (from the
      empty store) carry the invariants [store_wf] (indexes agree with the
      heap), [chain_ok] (supersede links), id freshness.
    - [Consistency]: the four scans, [run_consistency_eval]; the symmetry
      scan's [ValueError] is [None].
    - [Retriever]: the scoring helpers, the four retrieval methods and the
      chapter summary of [SimpleMemoryRetriever].
    - [Updater]: [MemoryUpdater] against the typeclass [MemoryStoreOps]
      (its imported store module is absent from the repository) with the
      law [MemoryStoreLaws]; [DictStore] is a lawful instance.
    - [Pipeline]: configuration fallbacks, [_create_memory_unit],
      [validate_memory], sentence splitting and
      [process_chapters_sequentially].  The chapter loop reaches its
      extractor through the interface [SentenceExtractor] (the duck-typed
      [extract_memories_from_sentence] call) whose law [extractor_fresh]
      says every candidate is fresh and dated at its chapter; the
      language-model extractor ([llm_extractor], the model an oracle) and
      Module [MockMemoryExtractor] (its [if]/[elif] keyword chain) are the
      two instances, and the loop's theorems are proved against the law.
    - [LlmResponse] (Module [LlmResponse]): [_parse_llm_response] and
      [_repair_json_response] in the error monad, with [json.loads] a
      Section variable (the theorems hold for every loader) and the
      regular expressions run on [Regex].
    - [Prompting] (Module [Prompting]): the language-model extractor end
      to end: [_create_system_prompt] and [_create_user_prompt] as the
      strings the code builds, the predicate vocabulary printed by a model
      of [json.dumps(..., indent=2)] ([json_dumps], with the
      [ensure_ascii] escapes), and [extract_memories_from_sentence]
      ([llm_extract_memories_from_sentence]): client check, chat call
      (the Section variable [chat]), [_parse_llm_response], the [emit]
      test, [_create_memory_unit] reading the parsed dict
      ([memory_data_of]), every exception caught.
    - [Refinement]: the spec's abstract machine on fact lists
      ([spec_step]: Create and Supersede) and the simulation of the
      store's ingestion step by it, through the abstraction [all_values].
    - [QueryInterface] (Module [QueryInterface]): [MemoryQueryInterface],
      [query], [_parse_query] with the transcribed pattern lists, and the
      six [_query_*] handlers with their answer text.
    - [QueryCli] (Module [QueryCli]): the [main] of query_memories.py as
      an interaction tree (ITree) over [input]/[print] events; the
      [while True] loop is [ITree.iter] of [interactive_step], whose
      branches are the quit words, the empty line, a query,
      [KeyboardInterrupt] and the [except Exception] clause.  A scripted
      stdin is the state of the handler [h_cli] run by [interp_state].
    - [Scoring] (Module [Scoring]): [apply_gates] in the error monad,
      [consolidate_metrics], [run_scoring]'s report loop, the default
      configuration, and the consistency report as JSON.
    - [EvalUtils]: [canonical_key], [text_similarity],
      [calculate_precision_recall_mrr].
    - [Evaluations] (Modules [Coverage], [Retrieval] and the theorem
      modules): [run_coverage_eval] with [check_fact_coverage],
      [run_retrieval_eval] with [_evaluate_query] and
      [_generate_detailed_report], and the reports as the JSON they are
      dumped to; Module [SekaiEval]: the [all] command of
      src/eval/sekai_eval.py as the pure composition of the three
      evaluations and [run_scoring].
    - [ReportTypes] (Module [ReportTypes]): a type language [jtype] for
      JSON values and the executable judgement [has_type]; the shapes
      [apply_gates] needs of its metrics and configuration.
    - [EvalSuite] (Module [EvalSuite]): the file system as a finite map
      from paths to parsed file contents ([fsys], a stdpp [gmap]) and the
      state and error monad [io]; the loading and saving of the three
      [run_*] functions and of [run_scoring], and [sekai_eval.py]'s
      [main] with its five sub-commands ([sekai_main]).
    - [Summaries] (Module [Summaries]): the three [print_*] summary
      functions in a writer and error monad [pr] (the lines printed and
      the outcome), reading the results dicts with Python's [KeyError];
      and the [__main__] blocks of the three evaluation modules
      ([consistency_eval_script] and the like) on the [EvalSuite] file
      system: the evaluation with the fixed paths, then the printer.
    - [Generator] (Module [Generator]): [load_chapters] and the [main] of
      generate_memory_sets.py over the same file system.

    ** What the theorems show
    - Store invariants: every reachable store is well formed, with sound
      supersede links and fresh ids ([reachable_store_inv]); the pipeline
      only produces reachable stores, with either extractor
      ([process_chapters_reachable]).
    - Refinement: the fact list of every reachable store is reached by
      the spec's Create/Supersede machine, whose own invariant gives
      distinct ids ([reachable_refines]); the evaluation command line
      over its files refines the pure composition of the evaluations and
      the gates, each results file being read back as written
      ([sekai_main_refines]); the end-to-end language-model extractor is
      [Pipeline]'s oracle extractor for one oracle ([chat_llm]), so the
      extractor law [extractor_fresh] holds of it
      ([chat_extractor_fresh]).
    - Resolver: the create/supersede decision, the postconditions of a
      supersede, first-maximum tie breaking, score bounds (the
      "high_confidence_update" branch is dead), no supersede without a
      confidence gain for confidences up to 0.99 (stated with a margin
      that float rounding cannot close).
    - Queries: [get_memories_at_chapter] returns exactly the active
      records started by the chapter and not ended before it, and so does
      every retrieval method, and a superseded record is returned at no
      chapter, even inside its validity window; timeline order and
      stability; save/load
      round trip, but duplicate ids load silently; evolution chains
      terminate on reachable stores and have the expected shape, but loop
      forever on a cyclic file.
    - Scans: exact characterisations of the overlap scan (it misses
      same-chapter duplicates) and the future-leak scan (substring
      markers), soundness of the crosstalk scan (one report per private
      record), the symmetry scan's reverse check proved dead and its
      [ValueError] on names with ["::"], and the spec's examples.
    - Updater: one active record per similarity class on any lawful
      store; the journal skips "kept_existing"; merges close open facts;
      replacements cut history and let an older restatement win.
    - Extraction: the mock's intimacy branch is dead and three of its
      records fail [validate_memory]; [_parse_llm_response] returns only
      answers with every required field, but its repair path skips the
      [emit] and [object] checks, and the repair's quoting turns [false]
      and [null] into strings and breaks values holding a colon; the
      generator re-run on its own output stores every fact a second time
      ([generate_main_rerun]); [validate_memory] is never called, so every
      record the language-model extractor returns is the model's answer
      as is, and the chapter loop stores records that fail it
      ([unvalidated_candidates_stored]); the user prompt determines the sentence
      and the chapter it was built from
      ([create_user_prompt_determines]); the prompts ask for every memory
      of a sentence, but an answer listing two objects yields none
      ([multiple_memories_dropped]).
    - Query front-end: chapter-scoped answers list exactly the visible
      records; the two personal patterns with an upper-case "I" can never
      match a lower-cased query, and the help text's examples are
      classified accordingly; a relationship query with a chapter limit
      repeats a record once per chapter.  Liveness of the command line
      ([interactive_main_liveness]): the interactive session ends exactly
      at the first quit word, after one transcript per earlier line, but
      on a closed stdin the loop never ends (every [input()] raises
      [EOFError], which [except Exception] swallows).
    - Evaluation and gates: the default scoring configuration always
      raises, and with it so does the evaluation suite's [all] command;
      consistency gates never fail on the consistency report, and a gate
      named after one of its lists makes [run_scoring] raise when it
      prints; a "PASS" report has only passing gates, but name
      collisions hide failures; type safety ([apply_gates_type_safety]):
      the consolidated reports are well typed and [apply_gates] never
      raises under a well-typed configuration, which the default one is
      not; precision ignores the query's gold ids and recall can exceed
      1; the retrieval averages raise without queries and lie in [0, 1]
      otherwise; the per-chapter and overall coverage gates disagree;
      [text_similarity] is symmetric and bounded; [score] writes its
      results file before its report loop raises, and on the configuration
      [create_default_scoring_config] writes it raises before writing
      anything; the consistency summary
      raises [KeyError] exactly when there is an overlap conflict, also
      when consistency_eval.py runs as a script, after it has written its
      results file ([consistency_summary_raises]).
    Theorems about defects are stated as what the code does, on concrete
    inputs where that is the point (collisions of [get_key], a cyclic
    store, duplicate ids, substring matching, the help text's examples,
    a second generator run).

    ** Modelling choices, bounds and fuel
    Python [int] is [Z], [float] is [Q] (exact; IEEE rounding is not
    modelled, so a bound on a float sum is stated with a margin larger
    than the rounding of its few additions, as in [update_score_bounds]), [str] is an ASCII [string] ([lower], [title], [isspace],
    [\w], [\d] on ASCII; the answer bullet "•" is its UTF-8 bytes).  JSON
    values are the inductive [json]; a raising operation returns [Err]
    with its exception class.  The unbounded loop of
    [get_memory_evolution]'s [while] is a [Fixpoint] with fuel; on a
    reachable store [length heap + 1] units are enough because each step
    follows a supersede link to a strictly older heap object, and more
    fuel gives the same answer; on a cyclic store it returns [None] for
    every fuel.  The regular-expression loop [*] has the length of the
    remaining input as fuel, which is enough because an iteration must
    consume a character; [star_fuel_adequate] shows more fuel changes
    nothing.  [s.replace(old, new)] for a non-empty [old] and [re.sub]
    run on the length of [s]: every step consumes a character ([re_sub]
    treats an empty match as none; the patterns given to it never match
    empty).  The interactive loop of query_memories.py needs no fuel: it
    is an interaction tree, its termination at a quit word is an
    equivalence of interpreted trees ([eutt]) and its divergence on a
    closed stdin a coinductive predicate proved with paco.
    [datetime.now()] is a clock, [uuid.uuid4()] a generator (one per run
    when a command is run twice), the iteration order of a Python [set]
    an arbitrary function, whether [ollama.Client()] succeeded a
    boolean, [timestamp_dir()] a string, and [str()] and the [:.3f] and
    [:.1%] formats of a float parameters; so are the chat call of the
    language model, [json.loads], pydantic's validation of a [float]
    field and the [repr] of a float inside [json.dumps].  The prompts and
    [json_dumps] were compared with Python's output byte for byte on the
    fallback configuration and on values with control and non-ASCII
    characters.  A file of the model file
    system holds its parsed content; paths are strings, [Path(d) / n] and
    [f"{d}/{n}"] both [d ++ "/" ++ n].

    ** Not modelled
    JSON/YAML text of files (files hold parsed values; [json.loads] of
    the extractor is a parameter), the network behind the chat call,
    pydantic's coercions beyond its [str] and [List[str]] fields (the
    [float] field is a parameter), [timestamp_dir] and the never-called
    [save_jsonl] of utils.py, the configuration
    loaders' JSON files (absent from the repository, so the fallback
    values, which are modelled, are used), main.py (it imports modules
    that do not exist under src/ and cannot run), [MockMemoryUpdater]
    (it imports the missing [storage.memory_store]), the lines the
    [run_*] functions print while they work, and directories ([mkdir]). *)

From Stdlib Require Export QArith ZArith Lqa String Ascii.
From stdpp Require Export base list sets strings sorting.
From Stdlib Require Import DecimalPos.

Declare Scope py_scope.
Delimit Scope py_scope with py.
Open Scope string_scope.

Create HintDb sekai discriminated.
Create Rewrite HintDb sekai_rw.

(** ** Python strings

    Python's [str] is modelled as [string] (a list of ASCII characters);
    the operations used by the sources are [x in s] (substring test),
    [s.lower()] and [s.split()] with no argument. *)

(** [needle in hay]: [True] when [needle] occurs at some position of [hay];
    the empty string occurs everywhere. *)
Fixpoint py_in (needle hay : string) : bool :=
  String.prefix needle hay ||
  match hay with
  | EmptyString => false
  | String _ rest => py_in needle rest
  end.

Infix "∈ₛ" := py_in (at level 70) : py_scope.

(** [str.lower] on ASCII letters: 'A'..'Z' become 'a'..'z'. *)
Definition ascii_lower (c : ascii) : ascii :=
  let n := nat_of_ascii c in
  if (65 <=? n)%nat && (n <=? 90)%nat then ascii_of_nat (n + 32) else c.

Fixpoint py_lower (s : string) : string :=
  match s with
  | EmptyString => EmptyString
  | String c rest => String (ascii_lower c) (py_lower rest)
  end.

(** [str.isspace] on ASCII: tab, newline, vertical tab, form feed, carriage
    return, the four separators 0x1c..0x1f, and space. *)
Definition py_isspace (c : ascii) : bool :=
  let n := nat_of_ascii c in
  ((9 <=? n)%nat && (n <=? 13)%nat) || ((28 <=? n)%nat && (n <=? 32)%nat).

(** [s.split()]: maximal runs of non-space characters, in order.  [cur]
    is the word being read, reversed. *)
Fixpoint py_split_go (cur : string) (s : string) : list string :=
  match s with
  | EmptyString => if String.eqb cur "" then [] else [String.rev cur]
  | String c rest =>
      if py_isspace c
      then (if String.eqb cur "" then [] else [String.rev cur]) ++ py_split_go "" rest
      else py_split_go (String c cur) rest
  end.

Definition py_split (s : string) : list string := py_split_go "" s.


(** [str_free c s]: the character [c] does not occur in [s]. *)
Fixpoint str_free (c : ascii) (s : string) : bool :=
  match s with
  | EmptyString => true
  | String a rest => negb (Ascii.eqb a c) && str_free c rest
  end.

Definition cons_head (a : ascii) (l : list string) : list string :=
  match l with
  | [] => [String a ""]
  | x :: xs => String a x :: xs
  end.

(** [s.split(sep)] for a separator of two characters [c1 c2]: the
    occurrences of the separator are found left to right without overlap,
    and the pieces between them (empty ones included) are returned. *)
Fixpoint py_split2 (c1 c2 : ascii) (s : string) : list string :=
  match s with
  | EmptyString => [""]
  | String a rest =>
      match rest with
      | EmptyString => [String a ""]
      | String b rest' =>
          if Ascii.eqb a c1 && Ascii.eqb b c2 then "" :: py_split2 c1 c2 rest'
          else cons_head a (py_split2 c1 c2 rest)
      end
  end.

(** [s.split(c)] for a one-character separator: the pieces between the
    occurrences of [c], empty ones included. *)
Fixpoint py_split1 (c : ascii) (s : string) : list string :=
  match s with
  | EmptyString => [""]
  | String a rest => if Ascii.eqb a c then "" :: py_split1 c rest else cons_head a (py_split1 c rest)
  end.

Fixpoint py_lstrip (s : string) : string :=
  match s with
  | EmptyString => EmptyString
  | String a rest => if py_isspace a then py_lstrip rest else s
  end.

(** [s.strip()]. *)
(** ["\n"] *)
Definition nl : string := String "010"%char "".

(** [str * n] *)
Fixpoint str_repeat (n : nat) (str : string) : string :=
  match n with O => "" | S n' => (str ++ str_repeat n' str)%string end.

Definition py_strip (s : string) : string := String.rev (py_lstrip (String.rev (py_lstrip s))).

(** ** Python lists *)

(** [l[:k]] for an [int] [k]; a negative [k] counts from the end. *)
Definition py_take {A} (k : Z) (l : list A) : list A :=
  if (0 <=? k)%Z then take (Z.to_nat k) l
  else take (length l - Z.to_nat (- k)) l.

(** [range(lo, hi)] for [int] bounds. *)
Definition py_range (lo hi : Z) : list Z :=
  map (fun i => (lo + Z.of_nat i)%Z) (seq 0 (Z.to_nat (hi - lo))).

(** [sorted(l, key=...)] and [list.sort]: Python's sort is stable, so the
    result is determined by the comparison: [insert_by] puts [x] before
    the first element [y] with [le x y]. With [le x y := key x <= key y]
    this is the ascending sort; with [le x y := key y <= key x] it is the
    [reverse=True] sort, which keeps equal elements in their original
    order. *)
Fixpoint insert_by {A} (le : A -> A -> bool) (x : A) (l : list A) : list A :=
  match l with
  | [] => [x]
  | y :: l' => if le x y then x :: y :: l' else y :: insert_by le x l'
  end.

Fixpoint sort_by {A} (le : A -> A -> bool) (l : list A) : list A :=
  match l with
  | [] => []
  | x :: l' => insert_by le x (sort_by le l')
  end.

(** [sorted(l, key=key, reverse=True)] and [l.sort(key=key, reverse=True)]
    for a [float] key: descending and stable. *)
Definition py_sort_desc {A} (key : A -> Q) (l : list A) : list A :=
  sort_by (fun a b => Qle_bool (key b) (key a)) l.

(** [max(l, key=k)]: the first element whose key is maximal; [max] of an
    empty sequence raises [ValueError], here [None]. *)
Definition Qltb (a b : Q) : bool := negb (Qle_bool b a).

Fixpoint py_max_by_go {A} (key : A -> Q) (best : A) (l : list A) : A :=
  match l with
  | [] => best
  | x :: l' => py_max_by_go key (if Qltb (key best) (key x) then x else best) l'
  end.

Definition py_max_by {A} (key : A -> Q) (l : list A) : option A :=
  match l with
  | [] => None
  | x :: l' => Some (py_max_by_go key x l')
  end.

(** [min(a, b)] on floats: [b] when [b < a], else [a]. *)
Definition py_min (a b : Q) : Q := if Qltb b a then b else a.


(** The pairs [(l[i], l[j])] with [i < j], in the order of the nested
    loop [for i, x in enumerate(l): for y in l[i+1:]]. *)
Fixpoint py_pairs {A} (l : list A) : list (A * A) :=
  match l with
  | [] => []
  | x :: rest => (map (pair x) rest ++ py_pairs rest)%list
  end.

(** ** Python dicts

    A [dict] iterates in insertion order, and assigning to a present key
    keeps its position; it is modelled as an association list. *)
Fixpoint dict_get {K V} `{EqDecision K} (k : K) (d : list (K * V)) : option V :=
  match d with
  | [] => None
  | (k', v) :: d' => if decide (k = k') then Some v else dict_get k d'
  end.

Fixpoint dict_set {K V} `{EqDecision K} (k : K) (v : V) (d : list (K * V)) : list (K * V) :=
  match d with
  | [] => [(k, v)]
  | (k', v') :: d' => if decide (k = k') then (k, v) :: d' else (k', v') :: dict_set k v d'
  end.


(** [k in d]. *)
Definition dict_in {K V} `{EqDecision K} (k : K) (d : list (K * V)) : bool :=
  bool_decide (k ∈ map fst d).

(** ** Python integers and their decimal text

    [str(n)] and [int(s)] for the strings [int] is applied to in the
    sources: the groups of [\d+], non-empty runs of ASCII digits.  A
    string that is empty or holds another character raises [ValueError],
    modelled as [None].  Digit lists are the Standard Library's
    [Decimal.uint], most significant digit first. *)
Fixpoint string_of_uint (u : Decimal.uint) : string :=
  match u with
  | Decimal.Nil => ""
  | Decimal.D0 u => String "0" (string_of_uint u)
  | Decimal.D1 u => String "1" (string_of_uint u)
  | Decimal.D2 u => String "2" (string_of_uint u)
  | Decimal.D3 u => String "3" (string_of_uint u)
  | Decimal.D4 u => String "4" (string_of_uint u)
  | Decimal.D5 u => String "5" (string_of_uint u)
  | Decimal.D6 u => String "6" (string_of_uint u)
  | Decimal.D7 u => String "7" (string_of_uint u)
  | Decimal.D8 u => String "8" (string_of_uint u)
  | Decimal.D9 u => String "9" (string_of_uint u)
  end.

Definition digit_of (c : ascii) : option (Decimal.uint -> Decimal.uint) :=
  match c with
  | "0"%char => Some Decimal.D0 | "1"%char => Some Decimal.D1
  | "2"%char => Some Decimal.D2 | "3"%char => Some Decimal.D3
  | "4"%char => Some Decimal.D4 | "5"%char => Some Decimal.D5
  | "6"%char => Some Decimal.D6 | "7"%char => Some Decimal.D7
  | "8"%char => Some Decimal.D8 | "9"%char => Some Decimal.D9
  | _ => None
  end.

Fixpoint uint_of_string (s : string) : option Decimal.uint :=
  match s with
  | EmptyString => Some Decimal.Nil
  | String c rest => d ← digit_of c; u ← uint_of_string rest; Some (d u)
  end.

(** [str(n)]. *)
Definition py_str_Z (z : Z) : string :=
  match z with
  | Z0 => "0"
  | Zpos p => string_of_uint (Pos.to_uint p)
  | Zneg p => String "-" (string_of_uint (Pos.to_uint p))
  end.

(** [int(s)] on a string of digits (leading zeros allowed). *)
Definition py_int (s : string) : option Z :=
  match s with
  | EmptyString => None
  | _ => (fun u => Z.of_N (N.of_uint u)) <$> uint_of_string s
  end.

(** ** Shared lemmas *)

Lemma Qltb_spec a b : Qltb a b = true <-> (a < b)%Q.
Proof.
  unfold Qltb. rewrite negb_true_iff.
  split; intros H.
  - apply Qnot_le_lt. intros Hle. apply Qle_bool_iff in Hle. congruence.
  - destruct (Qle_bool b a) eqn:E; [|done]. apply Qle_bool_iff in E.
    exfalso. apply (Qlt_not_le a b); auto.
Qed.

Lemma Qltb_false a b : Qltb a b = false <-> (b <= a)%Q.
Proof.
  unfold Qltb. rewrite negb_false_iff. apply Qle_bool_iff.
Qed.

Lemma py_min_le_l a b : (py_min a b <= a)%Q.
Proof.
  unfold py_min. destruct (Qltb b a) eqn:E; [apply Qltb_spec in E; lra|lra].
Qed.

Lemma py_min_le_r a b : (py_min a b <= b)%Q.
Proof.
  unfold py_min. destruct (Qltb b a) eqn:E; [lra|apply Qltb_false in E; lra].
Qed.

Lemma py_min_glb a b c : (c <= a)%Q -> (c <= b)%Q -> (c <= py_min a b)%Q.
Proof. unfold py_min. by destruct (Qltb b a). Qed.

Lemma py_min_r a b : (b <= a)%Q -> (py_min a b == b)%Q.
Proof.
  intros H. unfold py_min. destruct (Qltb b a) eqn:E; [lra|apply Qltb_false in E; lra].
Qed.

(** [py_min] respects the equality of rationals, so [Qeq] rewrites
    under it. *)
#[export] Instance py_min_proper : Proper (Qeq ==> Qeq ==> Qeq) py_min.
Proof.
  intros a a' Ha b b' Hb. unfold py_min.
  destruct (Qltb b a) eqn:E1, (Qltb b' a') eqn:E2;
    rewrite ?Qltb_spec, ?Qltb_false in E1; rewrite ?Qltb_spec, ?Qltb_false in E2; lra.
Qed.

Lemma insert_by_perm {A} (le : A -> A -> bool) x l : insert_by le x l ≡ₚ x :: l.
Proof.
  induction l as [|y l IH]; simpl; [done|].
  destruct (le x y); [done|]. rewrite IH. constructor.
Qed.

Lemma sort_by_perm {A} (le : A -> A -> bool) l : sort_by le l ≡ₚ l.
Proof.
  induction l as [|x l IH]; simpl; [done|]. by rewrite insert_by_perm, IH.
Qed.

Section SortBy.
Context {A : Type} (le : A -> A -> bool).
Hypothesis le_total : forall x y, le x y = false -> le y x = true.

Lemma insert_by_sorted x l :
  Sorted (fun a b => le a b = true) l ->
  Sorted (fun a b => le a b = true) (insert_by le x l).
Proof.
  induction 1 as [|y l Hs IH Hhd]; simpl; [by repeat constructor|].
  destruct (le x y) eqn:Hxy; [by repeat constructor|].
  constructor; [done|].
  destruct l as [|z l]; simpl; [constructor; auto|].
  inversion Hhd; subst. destruct (le x z); constructor; auto.
Qed.

Lemma sort_by_sorted l : Sorted (fun a b => le a b = true) (sort_by le l).
Proof. induction l; simpl; [constructor|]. by apply insert_by_sorted. Qed.
End SortBy.

(** Stability: elements of one class (pairwise [le]) keep their order. *)
Lemma sort_by_stable {A} (le : A -> A -> bool) (P : A -> bool) l :
  (forall x y, P x = true -> P y = true -> le x y = true) ->
  List.filter P (sort_by le l) = List.filter P l.
Proof.
  intros Hcls. induction l as [|x l IH]; simpl; [done|].
  rewrite <- IH. clear IH. generalize (sort_by le l) as s.
  induction s as [|y s IHs]; simpl; [done|].
  destruct (le x y) eqn:Hxy; [done|]. simpl.
  rewrite IHs. simpl.
  destruct (P x) eqn:Px, (P y) eqn:Py; auto.
  rewrite (Hcls x y) in Hxy by done. congruence.
Qed.

Lemma py_max_by_go_spec {A} (key : A -> Q) best l :
  let r := py_max_by_go key best l in
  (r = best \/ r ∈ l) /\ (key best <= key r)%Q /\ Forall (fun y => (key y <= key r)%Q) l.
Proof.
  revert best. induction l as [|x l IH]; intros best; simpl.
  - split; [by left|]. split; [apply Qle_refl|constructor].
  - destruct (Qltb (key best) (key x)) eqn:Hlt.
    + apply Qltb_spec in Hlt. destruct (IH x) as (Hin & Hle & Hall).
      split; [destruct Hin as [->|]; right; set_solver|].
      split; [apply Qlt_le_weak; eapply Qlt_le_trans; eauto|]. by constructor.
    + apply Qltb_false in Hlt. destruct (IH best) as (Hin & Hle & Hall).
      split; [destruct Hin; [by left|right; set_solver]|].
      split; [done|]. constructor; [eapply Qle_trans; eauto|done].
Qed.

Lemma py_max_by_spec {A} (key : A -> Q) l r :
  py_max_by key l = Some r -> r ∈ l /\ Forall (fun y => (key y <= key r)%Q) l.
Proof.
  destruct l as [|x l]; simpl; [done|]. intros [= <-].
  destruct (py_max_by_go_spec key x l) as (Hin & Hle & Hall).
  split; [destruct Hin as [->|]; set_solver|]. by constructor.
Qed.

Lemma dict_get_set_eq {K V} `{EqDecision K} (k : K) (v : V) d :
  dict_get k (dict_set k v d) = Some v.
Proof.
  induction d as [|[k' v'] d IH]; simpl; [by rewrite decide_True|].
  destruct (decide (k = k')); simpl; [by rewrite decide_True|].
  by rewrite decide_False.
Qed.

Lemma dict_get_set_ne {K V} `{EqDecision K} (k j : K) (v : V) d :
  k <> j -> dict_get j (dict_set k v d) = dict_get j d.
Proof.
  intros Hne. induction d as [|[k' v'] d IH]; simpl.
  - by rewrite decide_False.
  - destruct (decide (k = k')) as [->|]; simpl.
    + by rewrite !decide_False.
    + by destruct (decide (j = k')); [|rewrite IH].
Qed.


Lemma dict_get_None {K V} `{EqDecision K} (k : K) (d : list (K * V)) :
  dict_get k d = None <-> k ∉ map fst d.
Proof.
  induction d as [|[k' v'] d IH]; simpl; [set_solver|].
  destruct (decide (k = k')) as [->|]; [set_solver|]. rewrite IH. set_solver.
Qed.

Lemma dict_get_Some {K V} `{EqDecision K} (k : K) (v : V) (d : list (K * V)) :
  dict_get k d = Some v -> (k, v) ∈ d.
Proof.
  induction d as [|[k' v'] d IH]; simpl; [done|].
  destruct (decide (k = k')) as [->|]; [intros [= ->]; set_solver|set_solver].
Qed.

Lemma dict_get_elem {K V} `{EqDecision K} (k : K) (v : V) (d : list (K * V)) :
  NoDup (map fst d) -> (k, v) ∈ d -> dict_get k d = Some v.
Proof.
  induction d as [|[k' v'] d IH]; simpl; [set_solver|].
  intros Hnd Hin. apply NoDup_cons in Hnd as [Hk Hnd].
  apply elem_of_cons in Hin as [[= -> ->]|Hin]; [by rewrite decide_True|].
  destruct (decide (k = k')) as [->|]; [|by apply IH].
  exfalso. apply Hk, list_elem_of_In, in_map_iff. exists (k', v). by rewrite <- list_elem_of_In.
Qed.

Lemma dict_set_fresh {K V} `{EqDecision K} (k : K) (v : V) (d : list (K * V)) :
  dict_get k d = None -> dict_set k v d = (d ++ [(k, v)])%list.
Proof.
  induction d as [|[k' v'] d IH]; simpl; [done|].
  destruct (decide (k = k')); [done|]. intros H. by rewrite IH.
Qed.

Lemma in_py_range lo hi x : In x (py_range lo hi) <-> (lo <= x < hi)%Z.
Proof.
  unfold py_range. rewrite in_map_iff. split.
  - intros (i & <- & Hi). apply in_seq in Hi. lia.
  - intros Hx. exists (Z.to_nat (x - lo)). split; [lia|]. apply in_seq. lia.
Qed.

Lemma in_omap {A B} (f : A -> option B) l y : In y (omap f l) <-> exists x, In x l /\ f x = Some y.
Proof.
  rewrite <- list_elem_of_In, list_elem_of_omap.
  by setoid_rewrite <- list_elem_of_In.
Qed.

Lemma filter_nil_Forall {A} (f : A -> bool) l :
  List.filter f l = [] <-> Forall (fun x => f x = false) l.
Proof.
  induction l as [|x l IH]; simpl; [split; [constructor|done]|].
  rewrite Forall_cons. destruct (f x); [split; [done|intros [? _]; done]|].
  rewrite IH. tauto.
Qed.

Lemma filter_length_le {A} (f g : A -> bool) l :
  (forall x, f x = true -> g x = true) -> length (List.filter f l) <= length (List.filter g l).
Proof.
  intros Hfg. induction l as [|x l IH]; simpl; [lia|].
  destruct (f x) eqn:Ef; [rewrite (Hfg x Ef); simpl; lia|].
  destruct (g x); simpl; lia.
Qed.

Lemma filter_length_lt {A} (f g : A -> bool) l y :
  (forall x, f x = true -> g x = true) -> In y l -> g y = true -> f y = false ->
  length (List.filter f l) < length (List.filter g l).
Proof.
  intros Hfg Hy Hg Hf. induction l as [|x l IH]; [done|].
  destruct Hy as [<-|Hy]; simpl.
  - rewrite Hf, Hg. simpl. pose proof (filter_length_le f g l Hfg). lia.
  - specialize (IH Hy). destruct (f x) eqn:Ef; [rewrite (Hfg x Ef); simpl; lia|].
    destruct (g x); simpl; lia.
Qed.

Lemma omap_cons {A B} (f : A -> option B) x l :
  omap f (x :: l) = match f x with Some y => y :: omap f l | None => omap f l end.
Proof. reflexivity. Qed.

Lemma omap_ext_in {A B} (f g : A -> option B) l :
  (forall x, In x l -> f x = g x) -> omap f l = omap g l.
Proof.
  intros H. induction l as [|x l IH]; [done|].
  change (omap f (x :: l)) with (match f x with Some y => y :: omap f l | None => omap f l end).
  change (omap g (x :: l)) with (match g x with Some y => y :: omap g l | None => omap g l end).
  rewrite (H x (or_introl eq_refl)), IH by (intros; apply H; by right). done.
Qed.

Lemma omap_app_l {A B} (f : A -> option B) (l1 l2 : list A) :
  omap f (l1 ++ l2)%list = (omap f l1 ++ omap f l2)%list.
Proof.
  induction l1 as [|x l1 IH]; [done|].
  change (omap f ((x :: l1) ++ l2)%list) with
    (match f x with Some y => y :: omap f (l1 ++ l2)%list | None => omap f (l1 ++ l2)%list end).
  change (omap f (x :: l1)) with (match f x with Some y => y :: omap f l1 | None => omap f l1 end).
  destruct (f x); by rewrite IH.
Qed.

(** Filtering before or after a partial map. *)
Lemma omap_filter {A B} (f : A -> option B) (P : B -> bool) l :
  omap f (List.filter (fun x => match f x with Some y => P y | None => false end) l) =
  List.filter P (omap f l).
Proof.
  induction l as [|x l IH]; [done|].
  change (omap f (x :: l)) with (match f x with Some y => y :: omap f l | None => omap f l end).
  cbn [List.filter]. destruct (f x) as [y|] eqn:E; [|exact IH].
  destruct (P y) eqn:Py; cbn [List.filter]; rewrite ?Py; [|exact IH].
  change (omap f (x :: ?t)) with (match f x with Some y => y :: omap f t | None => omap f t end).
  by rewrite E, IH.
Qed.

Lemma py_max_by_go_first {A} (key : A -> Q) best l :
  let r := py_max_by_go key best l in
  (r = best /\ Forall (fun y => (key y <= key best)%Q) l) \/
  (exists pre post, l = (pre ++ r :: post)%list /\ (key best < key r)%Q /\
     Forall (fun y => (key y < key r)%Q) pre /\ Forall (fun y => (key y <= key r)%Q) post).
Proof.
  revert best. induction l as [|x l IH]; intros best; simpl; [by left|].
  destruct (Qltb (key best) (key x)) eqn:Hlt.
  - apply Qltb_spec in Hlt. right.
    destruct (IH x) as [[Hr Hall]|(pre & post & Hl & Hxr & Hpre & Hpost)].
    + exists [], l. rewrite Hr. split_and!; auto.
    + exists (x :: pre), post.
      split_and!; [simpl; by f_equal|eapply Qlt_trans; eauto|by constructor|done].
  - apply Qltb_false in Hlt.
    destruct (IH best) as [[Hr Hall]|(pre & post & Hl & Hxr & Hpre & Hpost)].
    + left. split; [done|]. by constructor.
    + right. exists (x :: pre), post.
      split_and!; [simpl; by f_equal|done|constructor; [eapply Qle_lt_trans; eauto|done]|done].
Qed.

(** [max] returns the first element of maximal key. *)
Lemma py_max_by_first {A} (key : A -> Q) l r :
  py_max_by key l = Some r ->
  exists pre post, l = (pre ++ r :: post)%list /\
    Forall (fun y => (key y < key r)%Q) pre /\ Forall (fun y => (key y <= key r)%Q) post.
Proof.
  destruct l as [|x l]; simpl; [done|]. intros [= <-].
  destruct (py_max_by_go_first key x l) as [[Hr Hall]|(pre & post & Hl & Hxr & Hpre & Hpost)].
  - exists [], l. rewrite Hr. split_and!; auto.
  - exists (x :: pre), post. split_and!; [simpl; by f_equal|by constructor|done].
Qed.


Lemma py_split2_free c1 c2 s : str_free c1 s = true -> py_split2 c1 c2 s = [s].
Proof.
  induction s as [|a s IH]; simpl; [done|]. intros [Ha Hs]%andb_prop.
  apply negb_true_iff in Ha. destruct s as [|b s']; [done|].
  rewrite Ha. cbn [andb]. by rewrite IH.
Qed.

Lemma py_split2_cons2 c1 c2 a b rest :
  py_split2 c1 c2 (String a (String b rest)) =
  if Ascii.eqb a c1 && Ascii.eqb b c2 then "" :: py_split2 c1 c2 rest
  else cons_head a (py_split2 c1 c2 (String b rest)).
Proof. reflexivity. Qed.

Lemma str_app_nil s : ("" ++ s)%string = s.
Proof. reflexivity. Qed.

Lemma str_app_cons a s t : (String a s ++ t)%string = String a (s ++ t).
Proof. reflexivity. Qed.

(** Splitting [a ++ sep ++ b] gives back [a] and [b] when [a] and [b]
    hold no character of the separator's first character. *)
Lemma py_split2_join c1 c2 a b :
  str_free c1 a = true -> str_free c1 b = true ->
  py_split2 c1 c2 (a ++ String c1 (String c2 b)) = [a; b].
Proof.
  intros Ha Hb. induction a as [|x a IH]; rewrite ?str_app_nil, ?str_app_cons.
  - rewrite py_split2_cons2, !Ascii.eqb_refl. cbn [andb]. by rewrite py_split2_free.
  - cbn [str_free] in Ha. apply andb_prop in Ha as [Hx Ha]. apply negb_true_iff in Hx.
    specialize (IH Ha). destruct (a ++ String c1 (String c2 b)) as [|h t] eqn:E.
    { by destruct a. }
    rewrite py_split2_cons2, Hx. cbn [andb]. by rewrite IH.
Qed.

Lemma elem_of_py_pairs {A} (l : list A) a b :
  (a, b) ∈ py_pairs l <-> exists i j, i < j /\ l !! i = Some a /\ l !! j = Some b.
Proof.
  induction l as [|x l IH]; simpl.
  - split; [set_solver|]. by intros (i & j & _ & ? & _).
  - rewrite elem_of_app, IH, list_elem_of_fmap. split.
    + intros [(y & [= -> ->] & Hy)|(i & j & Hij & Hi & Hj)].
      * apply list_elem_of_lookup in Hy as [j Hj]. exists 0, (S j). simpl. split_and!; auto with lia.
      * exists (S i), (S j). simpl. split_and!; auto with lia.
    + intros ([|i] & [|j] & Hij & Hi & Hj); simpl in *; [lia|..|lia|].
      * left. exists b. split; [congruence|]. by eapply list_elem_of_lookup_2.
      * right. exists i, j. split_and!; auto with lia.
Qed.

Lemma elem_of_dict_set {K V} `{EqDecision K} (k k' : K) (v v' : V) d :
  (k', v') ∈ dict_set k v d -> (k', v') = (k, v) \/ (k', v') ∈ d.
Proof.
  induction d as [|[k0 v0] d IH]; simpl; [set_solver|].
  destruct (decide (k = k0)); set_solver.
Qed.

Lemma dict_in_spec {K V} `{EqDecision K} (k : K) (d : list (K * V)) :
  dict_in k d = true <-> exists v, (k, v) ∈ d.
Proof.
  unfold dict_in. rewrite bool_decide_eq_true, list_elem_of_fmap. split.
  - intros ([k0 v] & -> & Hin). by exists v.
  - intros [v Hin]. by exists (k, v).
Qed.

(** [List.find] returns the first element satisfying the test. *)
Lemma find_first {A} (f : A -> bool) l x :
  List.find f l = Some x ->
  exists pre post, l = (pre ++ x :: post)%list /\ f x = true /\ Forall (fun y => f y = false) pre.
Proof.
  induction l as [|y l IH]; simpl; [done|]. destruct (f y) eqn:Ey.
  - intros [= <-]. by exists [], l.
  - intros H. destruct (IH H) as (pre & post & -> & Hx & Hpre).
    exists (y :: pre), post. split_and!; [done|done|by constructor].
Qed.

Lemma find_existsb {A} (f : A -> bool) l :
  existsb f l = match List.find f l with Some _ => true | None => false end.
Proof. induction l as [|y l IH]; simpl; [done|]. by destruct (f y). Qed.

(** An invariant of the accumulator of a left fold. *)
Lemma foldl_inv {A B} (f : A -> B -> A) (P : A -> Prop) (Q : B -> Prop) a l :
  P a -> (forall a b, P a -> Q b -> P (f a b)) -> Forall Q l -> P (foldl f a l).
Proof.
  intros Ha Hstep Hl. revert a Ha. induction Hl as [|b l Hb Hl IH]; simpl; [done|].
  intros a Ha. apply IH. by apply Hstep.
Qed.

(** [mapM] in the option monad succeeds when every call does. *)
Lemma mapM_Some_map {A B} (f : A -> option B) (g : A -> B) l :
  (forall x, In x l -> f x = Some (g x)) -> mapM f l = Some (map g l).
Proof.
  induction l as [|x l IH]; intros H; simpl; [done|].
  rewrite (H x (or_introl eq_refl)). simpl. rewrite IH by (intros; apply H; by right). done.
Qed.

Lemma py_take_prefix {A} (k : Z) (l : list A) : exists rest, l = (py_take k l ++ rest)%list.
Proof.
  unfold py_take. destruct (0 <=? k)%Z; eexists; symmetry; apply take_drop.
Qed.

Lemma py_take_length {A} (k : Z) (l : list A) : (0 <= k)%Z -> length (py_take k l) <= Z.to_nat k.
Proof.
  intros Hk. unfold py_take. destruct (Z.leb_spec 0 k); [|lia]. rewrite length_take. lia.
Qed.

Lemma py_sort_desc_perm {A} (key : A -> Q) l : py_sort_desc key l ≡ₚ l.
Proof. apply sort_by_perm. Qed.

Lemma py_sort_desc_sorted {A} (key : A -> Q) l :
  Sorted (fun a b => (key b <= key a)%Q) (py_sort_desc key l).
Proof.
  unfold py_sort_desc.
  assert (Hs : Sorted (fun a b => Qle_bool (key b) (key a) = true)
                 (sort_by (fun a b => Qle_bool (key b) (key a)) l)).
  { apply sort_by_sorted. intros x y Hxy. apply Qle_bool_iff.
    apply not_true_iff_false in Hxy. rewrite Qle_bool_iff in Hxy. apply Qnot_le_lt in Hxy.
    by apply Qlt_le_weak. }
  induction Hs as [|a l' Hs IH Hhd]; constructor; [done|].
  destruct Hhd; constructor. by apply Qle_bool_iff.
Qed.

(** In a list sorted by descending key, an element of strictly larger key
    than [y] comes before [y]. *)
Lemma sorted_desc_before {A} (key : A -> Q) l pre y post x :
  Sorted (fun a b => (key b <= key a)%Q) l -> l = (pre ++ y :: post)%list ->
  x ∈ l -> (key y < key x)%Q -> x ∈ pre.
Proof.
  intros Hs -> Hx Hlt. apply Sorted_StronglySorted in Hs; [|intros a b c H1 H2; eapply Qle_trans; eauto].
  apply elem_of_app in Hx as [Hx|Hx]; [done|]. exfalso.
  apply StronglySorted_app in Hs as (_ & _ & Hs). apply StronglySorted_inv in Hs as [_ Hall].
  apply elem_of_cons in Hx as [->|Hx]; [by apply Qlt_irrefl in Hlt|].
  rewrite List.Forall_forall in Hall. apply list_elem_of_In, Hall in Hx.
  apply (Qlt_not_le _ _ Hlt Hx).
Qed.

(** [d[k] = d.get(k, 0) + 1] adds one to the sum of the counts. *)
Lemma dict_incr_sum {K} `{EqDecision K} (k : K) (d : list (K * nat)) :
  sum_list (map snd (dict_set k (default 0 (dict_get k d) + 1) d)) = sum_list (map snd d) + 1.
Proof.
  induction d as [|[k' v] d IH]; simpl; [done|].
  destruct (decide (k = k')); simpl; lia.
Qed.

Lemma elem_of_List_filter {A} (f : A -> bool) l x :
  x ∈ List.filter f l <-> f x = true /\ x ∈ l.
Proof. rewrite !list_elem_of_In, filter_In. tauto. Qed.

Lemma uint_of_string_of_uint u : uint_of_string (string_of_uint u) = Some u.
Proof. induction u; simpl; rewrite ?IHu; reflexivity. Qed.

Lemma py_int_string_of_uint u :
  u <> Decimal.Nil -> py_int (string_of_uint u) = Some (Z.of_N (N.of_uint u)).
Proof. destruct u; [done|..]; intros _; simpl; by rewrite uint_of_string_of_uint. Qed.

(** [int(str(n)) = n] for [n >= 0]. *)
Lemma py_int_str n : (0 <= n)%Z -> py_int (py_str_Z n) = Some n.
Proof.
  destruct n as [|p|p]; [done| |lia]. intros _. unfold py_str_Z.
  rewrite py_int_string_of_uint by apply DecimalPos.Unsigned.to_uint_nonnil.
  unfold N.of_uint. by rewrite DecimalPos.Unsigned.of_to.
Qed.

Lemma str_app_assoc (s t u : string) : ((s ++ t) ++ u)%string = (s ++ (t ++ u))%string.
Proof. induction s as [|a s IH]; [done|]. rewrite !str_app_cons. by f_equal. Qed.

Lemma str_length_app (s t : string) : String.length (s ++ t) = String.length s + String.length t.
Proof. induction s as [|a s IH]; [done|]. rewrite str_app_cons. simpl. by rewrite IH. Qed.

Lemma str_app_cancel_l (p a b : string) : (p ++ a)%string = (p ++ b)%string -> a = b.
Proof. induction p as [|c p IH]; [done|]. rewrite !str_app_cons. intros [=]. auto. Qed.

Lemma str_app_nil_r (s : string) : (s ++ "")%string = s.
Proof. induction s as [|a s IH]; [done|]. rewrite str_app_cons. by f_equal. Qed.

Lemma str_free_app c s t : str_free c (s ++ t) = str_free c s && str_free c t.
Proof. induction s as [|a s IH]; [done|]. rewrite str_app_cons; simpl. by rewrite IH, andb_assoc. Qed.

Lemma str_app_inj_len (s1 s2 t1 t2 : string) :
  String.length s1 = String.length s2 -> (s1 ++ t1)%string = (s2 ++ t2)%string -> s1 = s2 /\ t1 = t2.
Proof.
  revert s2. induction s1 as [|a s1 IH]; intros [|b s2]; simpl; intros Hl E; try done.
  injection Hl as Hl. injection E as -> E. by destruct (IH s2 Hl E) as [-> ->].
Qed.

Lemma str_app_cancel_r (s1 s2 t : string) : (s1 ++ t)%string = (s2 ++ t)%string -> s1 = s2.
Proof.
  intros E. apply (str_app_inj_len s1 s2 t t); [|done].
  apply (f_equal String.length) in E. rewrite !str_length_app in E. lia.
Qed.

(** Of two splits of one string, the shorter prefix is a prefix of the
    longer. *)
Lemma str_app_split_le (s1 s2 t1 t2 : string) :
  (s1 ++ t1)%string = (s2 ++ t2)%string -> String.length s1 <= String.length s2 ->
  exists w, s2 = (s1 ++ w)%string /\ t1 = (w ++ t2)%string.
Proof.
  revert s2. induction s1 as [|a s1 IH]; intros s2 E Hl; [by exists s2|].
  destruct s2 as [|b s2]; simpl in Hl; [lia|]. injection E as -> E.
  destruct (IH s2 E ltac:(lia)) as (w & -> & ->). by exists w.
Qed.

(** Two strings each ending in [c] followed by a [c]-free suffix: the
    last [c] splits them alike. *)
Lemma str_free_app_cancel_r c p1 p2 n1 n2 :
  str_free c n1 = true -> str_free c n2 = true ->
  (p1 ++ String c n1)%string = (p2 ++ String c n2)%string -> p1 = p2 /\ n1 = n2.
Proof.
  assert (Hlt : forall p1 p2 n1 n2, str_free c n1 = true -> str_free c n2 = true ->
            (p1 ++ String c n1)%string = (p2 ++ String c n2)%string ->
            String.length p1 <= String.length p2 -> p1 = p2 /\ n1 = n2).
  { intros q1 q2 m1 m2 H1 H2 E Hl. destruct (str_app_split_le _ _ _ _ E Hl) as ([|a w] & -> & Hw).
    - rewrite str_app_nil_r. by injection Hw.
    - injection Hw as -> Hw. rewrite Hw, str_free_app in H1. simpl in H1.
      rewrite Ascii.eqb_refl, andb_false_r in H1. discriminate. }
  intros H1 H2 E. destruct (Nat.le_ge_cases (String.length p1) (String.length p2)).
  - by apply Hlt.
  - destruct (Hlt p2 p1 n2 n1) as [-> ->]; auto.
Qed.

Lemma string_of_uint_free_nl u : str_free "010" (string_of_uint u) = true.
Proof. induction u; simpl; rewrite ?IHu; reflexivity. Qed.

(** [str(n)] is one line. *)
Lemma py_str_Z_free_nl z : str_free "010" (py_str_Z z) = true.
Proof. destruct z; simpl; rewrite ?string_of_uint_free_nl; reflexivity. Qed.

(** [str] is injective on integers: [int] reads the numeral back, and a
    negative numeral starts with ["-"], which no numeral of a
    non-negative integer does. *)
Lemma py_str_Z_inj z1 z2 : py_str_Z z1 = py_str_Z z2 -> z1 = z2.
Proof.
  assert (Hpos : forall z1 z2, (0 <= z1)%Z -> py_str_Z z1 = py_str_Z z2 -> z1 = z2 \/ (z2 < 0)%Z).
  { intros a b Ha E. destruct (Z_le_gt_dec 0 b) as [Hb|Hb]; [left|right; lia].
    pose proof (py_int_str a Ha) as H. rewrite E, py_int_str in H by done. congruence. }
  assert (Hneg : forall p z, (0 <= z)%Z -> py_str_Z z <> py_str_Z (Zneg p)).
  { intros p z Hz E. pose proof (py_int_str z Hz) as H. rewrite E in H. discriminate. }
  intros E. destruct (Z_le_gt_dec 0 z1) as [H1|H1], (Z_le_gt_dec 0 z2) as [H2|H2].
  - destruct (Hpos z1 z2 H1 E); [done|lia].
  - exfalso. destruct z2 as [| |p]; try lia. exact (Hneg p z1 H1 E).
  - exfalso. destruct z1 as [| |p]; try lia. exact (Hneg p z2 H2 (eq_sym E)).
  - destruct z1 as [| |p1], z2 as [| |p2]; try lia. simpl in E. injection E as E.
    change (py_str_Z (Zpos p1) = py_str_Z (Zpos p2)) in E.
    destruct (Hpos (Zpos p1) (Zpos p2) ltac:(lia) E) as [[= ->]|]; [done|lia].
Qed.

(** [s[n:n+m]] has at most [m] characters. *)
Lemma substring_length_le n m s : (String.length (String.substring n m s) <= m)%nat.
Proof.
  revert n m. induction s as [|a s IH]; intros [|n] [|m]; simpl; try lia; try apply IH.
  specialize (IH 0%nat m). lia.
Qed.

Lemma ascii_lower_not_upper c a :
  (65 <= nat_of_ascii a <= 90)%nat -> ascii_lower c <> a.
Proof.
  intros Ha <-. revert Ha. destruct c as [[] [] [] [] [] [] [] []]; vm_compute; lia.
Qed.

(** [s.lower()] holds no upper-case ASCII letter. *)
Lemma py_lower_upper_free a s :
  (65 <= nat_of_ascii a <= 90)%nat -> str_free a (py_lower s) = true.
Proof.
  intros Ha. induction s as [|c s IH]; simpl; [done|]. rewrite IH, andb_true_r.
  apply negb_true_iff, Ascii.eqb_neq, ascii_lower_not_upper, Ha.
Qed.

Lemma map_seq_shift {A} (f : nat -> A) k m :
  map f (seq k m) = map (fun i => f (k + i)%nat) (seq 0 m).
Proof.
  revert k f. induction m as [|m IH]; intros k f; [done|]. simpl.
  rewrite Nat.add_0_r, IH, (IH 1%nat). f_equal. apply map_ext. intros i. f_equal. lia.
Qed.

(** [range(lo, hi) = range(lo, a) + range(a, hi)] for [lo <= a <= hi]. *)
Lemma py_range_split lo a hi :
  (lo <= a <= hi)%Z -> py_range lo hi = (py_range lo a ++ py_range a hi)%list.
Proof.
  intros Ha. unfold py_range.
  replace (Z.to_nat (hi - lo)) with (Z.to_nat (a - lo) + Z.to_nat (hi - a))%nat by lia.
  rewrite seq_app, map_app, (map_seq_shift _ (0 + Z.to_nat (a - lo))).
  f_equal. apply map_ext. intros i. lia.
Qed.

Lemma py_range_length lo hi : length (py_range lo hi) = Z.to_nat (hi - lo).
Proof. unfold py_range. by rewrite length_map, length_seq. Qed.

Lemma filter_all {A} (f : A -> bool) l :
  (forall x, In x l -> f x = true) -> List.filter f l = l.
Proof. induction l as [|x l IH]; simpl; intros H; [done|]. rewrite H by auto. f_equal. auto. Qed.

(** The elements of [range(lo, hi)] from [a] on. *)
Lemma filter_py_range_ge lo a hi :
  (lo <= a <= hi)%Z -> List.filter (fun x => (a <=? x)%Z) (py_range lo hi) = py_range a hi.
Proof.
  intros Ha. rewrite (py_range_split lo a hi Ha), List.filter_app.
  rewrite (proj2 (filter_nil_Forall _ _)), filter_all; [done| |].
  - intros x Hx%in_py_range. apply Z.leb_le. lia.
  - apply List.Forall_forall. intros x Hx%in_py_range. apply Z.leb_gt. lia.
Qed.

(** Counting in a concatenation: at least one hit in each of the pieces
    selected by [g]. *)
Lemma filter_concat_length {A B} (P : B -> bool) (f : A -> list B) (g : A -> bool) xs :
  (forall x, In x xs -> g x = true -> exists y, In y (f x) /\ P y = true) ->
  length (List.filter g xs) <= length (List.filter P (List.concat (map f xs))).
Proof.
  induction xs as [|x xs IH]; simpl; intros H; [lia|].
  rewrite List.filter_app, length_app. specialize (IH (fun y Hy => H y (or_intror Hy))).
  destruct (g x) eqn:Hg; simpl; [|lia].
  destruct (H x (or_introl eq_refl) Hg) as (y & Hy & Hp).
  assert (In y (List.filter P (f x))) as Hin by (apply filter_In; done).
  destruct (List.filter P (f x)); simpl in *; [done|lia].
Qed.

(** A ratio of counts [n / m] with [n <= m] and [m > 0] lies in [[0, 1]]. *)
Lemma nat_ratio_bounds (n m : nat) :
  (n <= m)%nat -> (0 < m)%nat ->
  (0 <= inject_Z (Z.of_nat n) / inject_Z (Z.of_nat m) <= 1)%Q.
Proof.
  intros Hle Hm.
  assert (Hpos : (0 < inject_Z (Z.of_nat m))%Q) by (change 0%Q with (inject_Z 0); rewrite <- Zlt_Qlt; lia).
  split.
  - apply Qle_shift_div_l; [done|]. rewrite Qmult_0_l. change 0%Q with (inject_Z 0).
    rewrite <- Zle_Qle. lia.
  - apply Qle_shift_div_r; [done|]. rewrite Qmult_1_l. rewrite <- Zle_Qle. lia.
Qed.

#[export] Hint Resolve sort_by_perm insert_by_perm py_min_le_l py_min_le_r : sekai.
#[export] Hint Rewrite @dict_get_set_eq : sekai_rw.
