(* ===== verification/Json.v ===== *)
(** * Json: JSON values, Python's exceptions and the dict operations of the
    evaluation layer

    The evaluation scripts (src/eval/*.py) exchange [json.load]ed values
    and read them with [d.get(k, default)], [k in d], [d[k]] and
    [d.items()], compare numbers with [<], and add them with [sum].  A
    JSON value is the inductive [json] (as in the JSON model of QCert);
    a JSON object is an association list in key order, which is the
    order of a Python [dict] loaded from JSON.  Integers and floats stay
    apart ([JInt] and [JFloat]); [True] and [False] are numbers for
    [isinstance(x, (int, float))], [<] and [+], as in Python.

    An operation that raises is a value of the error monad [res]: [Ok a]
    or [Err e] with the exception's class, and [x ← m; k] threads it (the
    monad instances plug into stdpp's notation). *)

From S2P Require Import Prelude.

Inductive json :=
| JNull
| JBool (b : bool)
| JInt (z : Z)
| JFloat (q : Q)
| JStr (s : string)
| JArray (l : list json)
| JObject (l : list (string * json)).

Inductive py_error :=
  AttributeError | TypeError | KeyError | ZeroDivisionError | ValueError | FileNotFoundError.

Inductive res (A : Type) :=
| Ok (a : A)
| Err (e : py_error).
Arguments Ok {A} a.
Arguments Err {A} e.

#[export] Instance res_ret : MRet res := fun A a => Ok a.
#[export] Instance res_bind : MBind res :=
  fun A B f m => match m with Ok a => f a | Err e => Err e end.

Definition is_ok {A} (r : res A) : bool := match r with Ok _ => true | Err _ => false end.

(** A loop whose body may raise: [for x in l: acc = f(acc, x)]. *)
Fixpoint res_foldl {A B} (f : A -> B -> res A) (a : A) (l : list B) : res A :=
  match l with
  | [] => Ok a
  | x :: rest => a' ← f a x; res_foldl f a' rest
  end.

(** [all(f(x) for x in l)] with a body that may raise: it stops at the
    first [False]. *)
Fixpoint res_all {A} (f : A -> res bool) (l : list A) : res bool :=
  match l with
  | [] => Ok true
  | x :: rest =>
      match f x with
      | Ok true => res_all f rest
      | Ok false => Ok false
      | Err e => Err e
      end
  end.

(** ** Dict operations *)

(** [v.get(k, default)]: [AttributeError] when [v] is not a dict. *)
Definition py_get (v : json) (k : string) (dflt : json) : res json :=
  match v with
  | JObject d => Ok (default dflt (dict_get k d))
  | _ => Err AttributeError
  end.

(** [k in v] for a string [k]: a key of a dict, an element of a list, a
    substring of a string; [TypeError] on other values. *)
Definition py_contains (k : string) (v : json) : res bool :=
  match v with
  | JObject d => Ok (dict_in k d)
  | JArray l => Ok (existsb (fun x => match x with JStr s => String.eqb s k | _ => false end) l)
  | JStr s => Ok (py_in k s)
  | _ => Err TypeError
  end.

(** [v[k]] for a string [k]: [KeyError] when a dict lacks it, [TypeError]
    on a list, a string or a scalar. *)
Definition py_index (v : json) (k : string) : res json :=
  match v with
  | JObject d => match dict_get k d with Some x => Ok x | None => Err KeyError end
  | _ => Err TypeError
  end.

(** [v.items()]. *)
Definition py_items (v : json) : res (list (string * json)) :=
  match v with
  | JObject d => Ok d
  | _ => Err AttributeError
  end.

(** ** Numbers and comparisons *)

(** The value of an [int], [float] or [bool]. *)
Definition num_of (v : json) : option Q :=
  match v with
  | JBool b => Some (if b then 1 else 0)%Q
  | JInt z => Some (inject_Z z)
  | JFloat q => Some q
  | _ => None
  end.

(** [isinstance(v, (int, float))]. *)
Definition is_number (v : json) : bool := match num_of v with Some _ => true | None => false end.

(** [isinstance(v, (list, dict))]. *)
Definition is_list_or_dict (v : json) : bool :=
  match v with JArray _ | JObject _ => true | _ => false end.

(** Python truthiness of a loaded JSON value. *)
Definition py_truthy (v : json) : bool :=
  match v with
  | JNull => false
  | JBool b => b
  | JInt z => negb (Z.eqb z 0)
  | JFloat q => negb (Qeq_bool q 0)
  | JStr s => negb (String.eqb s "")
  | JArray l => negb (Nat.eqb (length l) 0)
  | JObject d => negb (Nat.eqb (length d) 0)
  end.

(** [str < str]: code-point order. *)
Fixpoint str_ltb (s t : string) : bool :=
  match s, t with
  | _, EmptyString => false
  | EmptyString, String _ _ => true
  | String a s', String b t' =>
      if (nat_of_ascii a <? nat_of_ascii b)%nat then true
      else if (nat_of_ascii b <? nat_of_ascii a)%nat then false
      else str_ltb s' t'
  end.

(** [a < b] on the values the gates compare: numbers with numbers,
    strings with strings; any other pair raises [TypeError] (lists and
    dicts are replaced by [0.0] before the gates compare them). *)
Definition py_lt (a b : json) : res bool :=
  match num_of a, num_of b with
  | Some x, Some y => Ok (Qltb x y)
  | _, _ =>
      match a, b with
      | JStr s, JStr t => Ok (str_ltb s t)
      | _, _ => Err TypeError
      end
  end.

(** [acc + v] inside [sum(...)], on numbers. *)
Definition py_add_num (acc : Q) (v : json) : res Q :=
  match num_of v with
  | Some q => Ok (acc + q)%Q
  | None => Err TypeError
  end.

(** [s.replace(old, new)] for a non-empty [old]: the occurrences are
    replaced from left to right without overlap.  Every step consumes a
    character, so the length of [s] is enough fuel. *)
Fixpoint py_replace_go (fuel : nat) (old new s : string) : string :=
  match fuel with
  | O => s
  | S f =>
      match s with
      | EmptyString => EmptyString
      | String a rest =>
          if String.prefix old s
          then new ++ py_replace_go f old new (String.substring (String.length old)
                                                 (String.length s - String.length old) s)
          else String a (py_replace_go f old new rest)
      end
  end.

Definition py_replace (old new s : string) : string := py_replace_go (String.length s) old new s.

(** ** Lemmas *)

Lemma res_bind_Ok {A B} (f : A -> res B) a : (x ← Ok a; f x) = f a.
Proof. reflexivity. Qed.

Lemma res_bind_Err {A B} (f : A -> res B) e : (x ← (Err e : res A); f x) = Err e.
Proof. reflexivity. Qed.

Lemma res_bind_inv {A B} (f : A -> res B) m b :
  (x ← m; f x) = Ok b -> exists a, m = Ok a /\ f a = Ok b.
Proof. destruct m as [a|e]; [by exists a|done]. Qed.

(** An invariant of the state of a loop that may raise. *)
Lemma res_foldl_inv {A B} (f : A -> B -> res A) (P : A -> Prop) (Q : B -> Prop) a l a' :
  P a -> Forall Q l -> (forall x y y', Q x -> P y -> f y x = Ok y' -> P y') ->
  res_foldl f a l = Ok a' -> P a'.
Proof.
  intros Ha Hl Hf. revert a Ha. induction Hl as [|x l Hx Hl IH]; intros a Ha; simpl.
  - by intros [= <-].
  - intros (y & Hy & Hr)%res_bind_inv. eapply IH; [|exact Hr]. eauto.
Qed.

(** A loop whose body returns on every element it meets returns. *)
Lemma res_foldl_total {A B} (f : A -> B -> res A) (Q : B -> Prop) a l :
  Forall Q l -> (forall y x, Q x -> exists y', f y x = Ok y') ->
  exists a', res_foldl f a l = Ok a'.
Proof.
  intros Hl Hf. revert a. induction Hl as [|x l Hx Hl IH]; intros a; simpl; [by eexists|].
  destruct (Hf a x Hx) as [y' ->]. apply IH.
Qed.

Lemma res_mapM_Ok {A B} (f : A -> res B) l rs :
  mapM f l = Ok rs -> Forall2 (fun x r => f x = Ok r) l rs.
Proof.
  revert rs. induction l as [|x l IH]; intros rs; simpl.
  - intros [= <-]. constructor.
  - intros (y & Hy & H)%res_bind_inv. apply res_bind_inv in H as (ys & Hys & H).
    injection H as <-. constructor; auto.
Qed.

#[export] Hint Rewrite @res_bind_Ok @res_bind_Err : sekai_rw.
