(* ===== verification/Regex.v ===== *)
(** * Regex: the fragment of Python's [re] used by the query front-end

    query_memories.py classifies a question with [re.search] over lists
    of patterns.  This file models the constructs those patterns use:
    literal characters, the classes [\w], [\s] and [\d] (ASCII), the
    quantifiers [?], [*] and [+] (greedy), alternation, non-capturing
    groups [(?:...)] and numbered capturing groups.

    [matcher] is a backtracking matcher in continuation-passing style, as
    the [sre] engine runs: alternatives are tried left to right, a greedy
    loop first tries one more iteration and falls back to stopping, and a
    capturing group records the text of its last iteration.  [re_search]
    tries the start positions from left to right and returns the groups
    of the first match.  The loop of [*] is a [Fixpoint] over fuel equal
    to the length of the remaining input, with an iteration that consumes
    nothing refused; since every accepted iteration consumes a character,
    this fuel never runs out before the loop could stop by itself
    ([star_loop_fuel]).  The patterns of the sources have no loop whose
    body can match the empty string, so the refusal never changes their
    outcome.

    [in_lang] is the declarative semantics (the language of a pattern);
    [matcher_sound] shows that every match found by the engine is a word
    of the language followed by the rest of the input. *)

From S2P Require Import Prelude.

Module Regex.

(** ** Syntax *)

Inductive cclass :=
| CLit (a : ascii)   (** a literal character *)
| CWord              (** [\w] *)
| CSpace             (** [\s] *)
| CDigit             (** [\d] *)
| CRange (rs : list (ascii * ascii))  (** a bracket class [[a-zA-Z_]]: its ranges *)
| CAny.              (** [.] under [re.DOTALL]: any character *)

Inductive regex :=
| Eps                           (** the empty pattern *)
| Chr (k : cclass)
| Seq (r1 r2 : regex)
| Alt (r1 r2 : regex)           (** [r1|r2] *)
| Opt (r : regex)               (** [r?] *)
| Star (r : regex)              (** [r*] *)
| Group (i : nat) (r : regex).  (** the capturing group number [i] *)

Definition is_digit (c : ascii) : bool :=
  let n := nat_of_ascii c in (48 <=? n)%nat && (n <=? 57)%nat.

Definition is_alpha (c : ascii) : bool :=
  let n := nat_of_ascii c in
  ((65 <=? n)%nat && (n <=? 90)%nat) || ((97 <=? n)%nat && (n <=? 122)%nat).

Definition is_word (c : ascii) : bool := is_alpha c || is_digit c || Ascii.eqb c "_".

Definition class_match (k : cclass) (c : ascii) : bool :=
  match k with
  | CLit a => Ascii.eqb a c
  | CWord => is_word c
  | CSpace => py_isspace c
  | CDigit => is_digit c
  | CRange rs =>
      existsb (fun '(lo, hi) => (nat_of_ascii lo <=? nat_of_ascii c)%nat &&
                               (nat_of_ascii c <=? nat_of_ascii hi)%nat) rs
  | CAny => true
  end.

(** [r+] *)
Definition Plus (r : regex) : regex := Seq r (Star r).

(** A literal string. *)
Fixpoint lit (s : string) : regex :=
  match s with
  | EmptyString => Eps
  | String a EmptyString => Chr (CLit a)
  | String a rest => Seq (Chr (CLit a)) (lit rest)
  end.

(** A concatenation of patterns. *)
Fixpoint seqs (l : list regex) : regex :=
  match l with
  | [] => Eps
  | [r] => r
  | r :: rest => Seq r (seqs rest)
  end.

(** [\s+], [\w+] and [\d+]. *)
Definition ws : regex := Plus (Chr CSpace).
Definition word : regex := Plus (Chr CWord).
Definition digits : regex := Plus (Chr CDigit).

(** ** The backtracking matcher *)

(** The groups captured so far, by number. *)
Definition caps := list (nat * string).

Definition cont := string -> caps -> option caps.

(** The greedy loop of [r*]: [m] matches one iteration of [r], [k] is
    what follows the loop. *)
Fixpoint star_loop (m : string -> caps -> cont -> option caps) (k : cont)
    (fuel : nat) (s : string) (c : caps) : option caps :=
  match fuel with
  | O => k s c
  | S fuel' =>
      match m s c (fun s' c' =>
              if (String.length s' <? String.length s)%nat
              then star_loop m k fuel' s' c' else None) with
      | Some x => Some x
      | None => k s c
      end
  end.

Fixpoint matcher (r : regex) (s : string) (c : caps) (k : cont) {struct r} : option caps :=
  match r with
  | Eps => k s c
  | Chr cl =>
      match s with
      | String a rest => if class_match cl a then k rest c else None
      | EmptyString => None
      end
  | Seq r1 r2 => matcher r1 s c (fun s' c' => matcher r2 s' c' k)
  | Alt r1 r2 =>
      match matcher r1 s c k with
      | Some x => Some x
      | None => matcher r2 s c k
      end
  | Opt r1 =>
      match matcher r1 s c k with
      | Some x => Some x
      | None => k s c
      end
  | Star r1 => star_loop (matcher r1) k (String.length s) s c
  | Group i r1 =>
      matcher r1 s c (fun s' c' =>
        k s' (dict_set i (String.substring 0 (String.length s - String.length s') s) c'))
  end.

(** [re.search(pattern, s)]: the groups of the leftmost match, [None]
    when there is none. *)
Fixpoint re_search (r : regex) (s : string) : option caps :=
  match matcher r s [] (fun _ c => Some c) with
  | Some c => Some c
  | None =>
      match s with
      | EmptyString => None
      | String _ rest => re_search r rest
      end
  end.

(** [match.group(i)]: [None] when the group did not take part. *)
Definition group (i : nat) (c : caps) : option string := dict_get i c.

(** [re.sub(pattern, repl, s)]: from left to right, where the pattern
    matches at the current position the match is replaced by [repl] of its
    groups and the scan resumes after it; elsewhere the character is kept
    and the scan moves on by one.  The group 0 around the pattern gives
    the text of the match.  An empty match counts as no match (Python
    would insert [repl] there): the patterns given to [re_sub] in the
    sources never match the empty string.  Every step consumes a
    character, so the length of [s] is enough fuel ([re_sub_go_fuel]). *)
Fixpoint re_sub_go (fuel : nat) (r : regex) (repl : caps -> string) (s : string) : string :=
  match fuel, s with
  | O, _ => s
  | _, EmptyString => EmptyString
  | S f, String a rest =>
      match matcher (Group 0 r) s [] (fun _ c => Some c) with
      | Some c =>
          let w := default "" (group 0 c) in
          if (0 <? String.length w)%nat
          then (repl c ++ re_sub_go f r repl
                  (String.substring (String.length w) (String.length s - String.length w) s))%string
          else String a (re_sub_go f r repl rest)
      | None => String a (re_sub_go f r repl rest)
      end
  end.

Definition re_sub (r : regex) (repl : caps -> string) (s : string) : string :=
  re_sub_go (String.length s) r repl s.

(** ** Declarative semantics *)

Inductive in_lang : regex -> string -> Prop :=
| in_eps : in_lang Eps ""
| in_chr k a : class_match k a = true -> in_lang (Chr k) (String a "")
| in_seq r1 r2 s1 s2 : in_lang r1 s1 -> in_lang r2 s2 -> in_lang (Seq r1 r2) (s1 ++ s2)
| in_alt_l r1 r2 s : in_lang r1 s -> in_lang (Alt r1 r2) s
| in_alt_r r1 r2 s : in_lang r2 s -> in_lang (Alt r1 r2) s
| in_opt_some r s : in_lang r s -> in_lang (Opt r) s
| in_opt_none r : in_lang (Opt r) ""
| in_star_nil r : in_lang (Star r) ""
| in_star_cons r s1 s2 : in_lang r s1 -> in_lang (Star r) s2 -> in_lang (Star r) (s1 ++ s2)
| in_group i r s : in_lang r s -> in_lang (Group i r) s.

#[export] Hint Constructors in_lang : sekai.

(** [must_have a r]: every word of [r] contains the character [a]. *)
Fixpoint must_have (a : ascii) (r : regex) : bool :=
  match r with
  | Chr (CLit b) => Ascii.eqb a b
  | Seq r1 r2 => must_have a r1 || must_have a r2
  | Alt r1 r2 => must_have a r1 && must_have a r2
  | Group _ r1 => must_have a r1
  | _ => false
  end.

(** ** Soundness of the matcher *)

(** The shape of a successful match: the input splits into a word of the
    pattern and a rest on which the continuation succeeds. *)
Definition match_ok (r : regex) (s : string) (k : cont) (x : caps) : Prop :=
  exists s1 s2 c', s = (s1 ++ s2)%string /\ in_lang r s1 /\ k s2 c' = Some x.

Lemma match_ok_stop r s c k x : in_lang r "" -> k s c = Some x -> match_ok r s k x.
Proof. intros. by exists "", s, c. Qed.

(** Running [r1] with the continuation [r2; k]: the two matches compose. *)
Lemma match_ok_seq r1 r2 s k x :
  match_ok r1 s (fun s' c' => matcher r2 s' c' k) x ->
  (forall s c, matcher r2 s c k = Some x -> match_ok r2 s k x) ->
  match_ok (Seq r1 r2) s k x.
Proof.
  intros (s1 & s2 & c' & -> & H1 & H2) IH2.
  destruct (IH2 _ _ H2) as (t1 & t2 & c'' & -> & Ht & Hk).
  exists (s1 ++ t1)%string, t2, c''. rewrite str_app_assoc. auto with sekai.
Qed.

Section StarLoop.
Variable r : regex.
Variable m : string -> caps -> cont -> option caps.
Hypothesis Hm : forall s c k x, m s c k = Some x -> match_ok r s k x.

Lemma star_loop_sound k n s c x :
    star_loop m k n s c = Some x -> match_ok (Star r) s k x.
  Proof.
    revert s c. induction n as [|n IH]; intros s c; simpl.
    { by apply match_ok_stop; constructor. }
    destruct (m s c _) as [y|] eqn:E; [intros [= <-]|by apply match_ok_stop; constructor].
    apply Hm in E as (s1 & s2 & c' & -> & H1 & H2).
    destruct (_ <? _)%nat; [|done].
    apply IH in H2 as (t1 & t2 & c'' & -> & Ht & Hk).
    exists (s1 ++ t1)%string, t2, c''. rewrite str_app_assoc. auto with sekai.
  Qed.
End StarLoop.

(** Every match the engine reports is a word of the pattern's language
    followed by the rest of the input. *)
Lemma matcher_sound r : forall s c k x, matcher r s c k = Some x -> match_ok r s k x.
Proof.
  induction r as [|kl|r1 IH1 r2 IH2|r1 IH1 r2 IH2|r1 IH1|r1 IH1|i r1 IH1];
    intros s c k x; simpl.
  - by apply match_ok_stop; constructor.
  - destruct s as [|a rest]; [done|]. destruct (class_match kl a) eqn:Ha; [|done].
    intros H. exists (String a ""), rest, c. auto with sekai.
  - intros H. eapply match_ok_seq; [by eapply IH1|]. intros; by eapply IH2.
  - destruct (matcher r1 s c k) eqn:E; [intros [= <-]|intros H].
    + destruct (IH1 _ _ _ _ E) as (s1 & s2 & c' & ? & ? & ?). exists s1, s2, c'. auto with sekai.
    + destruct (IH2 _ _ _ _ H) as (s1 & s2 & c' & ? & ? & ?). exists s1, s2, c'. auto with sekai.
  - destruct (matcher r1 s c k) eqn:E; [intros [= <-]|by apply match_ok_stop; constructor].
    destruct (IH1 _ _ _ _ E) as (s1 & s2 & c' & ? & ? & ?). exists s1, s2, c'. auto with sekai.
  - by apply star_loop_sound.
  - intros H. destruct (IH1 _ _ _ _ H) as (s1 & s2 & c' & ? & ? & ?). eexists s1, s2, _. eauto with sekai.
Qed.

(** A match found by [re.search] is a word of the language occurring in
    the input. *)
Lemma re_search_sound r s c :
  re_search r s = Some c ->
  exists pre w post, s = (pre ++ w ++ post)%string /\ in_lang r w.
Proof.
  induction s as [|a s IH]; simpl;
    destruct (matcher r _ [] _) eqn:E;
    try (intros [= <-]; apply matcher_sound in E as (s1 & s2 & c' & Hs & Hw & _);
         by exists "", s1, s2).
  intros (pre & w & post & -> & Hw)%IH. by exists (String a pre), w, post.
Qed.

Lemma must_have_sound a r w : in_lang r w -> must_have a r = true -> str_free a w = false.
Proof.
  induction 1 as [|[b| | | | |] c Hc|r1 r2 s1 s2 _ IH1 _ IH2|r1 r2 s _ IH|r1 r2 s _ IH| | | | |];
    simpl; try discriminate; intros Hm.
  - apply Ascii.eqb_eq in Hm, Hc. subst. by rewrite Ascii.eqb_refl.
  - rewrite str_free_app. apply orb_true_iff in Hm as [Hm|Hm];
      [by rewrite IH1|by rewrite IH2, andb_false_r].
  - apply andb_prop in Hm as [Hm _]. auto.
  - apply andb_prop in Hm as [_ Hm]. auto.
  - auto.
Qed.

(** A pattern that must contain the character [a] finds no match in a
    string without [a]. *)
Lemma re_search_must_have a r s :
  must_have a r = true -> str_free a s = true -> re_search r s = None.
Proof.
  intros Hm Hs. destruct (re_search r s) eqn:E; [|done].
  apply re_search_sound in E as (pre & w & post & -> & Hw).
  rewrite !str_free_app, (must_have_sound a r w) in Hs by done.
  by rewrite andb_false_r in Hs.
Qed.

(** ** The fuel of [*] is enough *)

Section StarFuel.
Variable m : string -> caps -> cont -> option caps.
  (** [m] only looks at its continuation on suffixes of its input ... *)
Hypothesis Hext : forall s c k1 k2,
    (forall s' c', (String.length s' <= String.length s)%nat -> k1 s' c' = k2 s' c') ->
    m s c k1 = m s c k2.
  (** ... and fails when its continuation always fails. *)
Hypothesis Hfail : forall s c, m s c (fun _ _ => None) = None.

Lemma star_loop_ext k1 k2 n s c :
    (forall s' c', (String.length s' <= String.length s)%nat -> k1 s' c' = k2 s' c') ->
    star_loop m k1 n s c = star_loop m k2 n s c.
  Proof.
    revert s c. induction n as [|n IH]; intros s c Hk; simpl; [apply Hk; lia|].
    rewrite (Hext s c _ (fun s' c' => if (String.length s' <? String.length s)%nat
                                   then star_loop m k2 n s' c' else None)).
    { destruct (m s c _); [done|apply Hk; lia]. }
    intros s' c' _. destruct (Nat.ltb_spec (String.length s') (String.length s)); [|done].
    apply IH. intros; apply Hk; lia.
  Qed.

Lemma star_loop_fail n s c : star_loop m (fun _ _ => None) n s c = None.
  Proof.
    revert s c. induction n as [|n IH]; intros s c; simpl; [done|].
    rewrite (Hext s c _ (fun _ _ => None)), Hfail; [done|].
    intros s' c' _. by destruct (_ <? _)%nat.
  Qed.

  (** With an empty input the loop cannot iterate. *)
Lemma star_loop_empty k n s c :
    String.length s = 0%nat -> star_loop m k n s c = k s c.
  Proof.
    intros Hl. destruct n; simpl; [done|].
    rewrite (Hext s c _ (fun _ _ => None)), Hfail; [done|].
    intros s' c' _. destruct (Nat.ltb_spec (String.length s') (String.length s)); [lia|done].
  Qed.

  (** Any fuel at least the length of the input gives the same result. *)
Lemma star_loop_fuel k n1 n2 s c :
    (String.length s <= n1)%nat -> (String.length s <= n2)%nat ->
    star_loop m k n1 s c = star_loop m k n2 s c.
  Proof.
    revert n2 s c. induction n1 as [|n1 IH]; intros [|n2] s c H1 H2; [done| | |].
    - rewrite (star_loop_empty k (S n2)) by lia. done.
    - rewrite (star_loop_empty k (S n1)) by lia. done.
    - simpl. rewrite (Hext s c _ (fun s' c' => if (String.length s' <? String.length s)%nat
                                   then star_loop m k n2 s' c' else None)); [done|].
      intros s' c' _.
      destruct (Nat.ltb_spec (String.length s') (String.length s)); [apply IH; lia|done].
  Qed.
End StarFuel.

Lemma matcher_ext r : forall s c k1 k2,
  (forall s' c', (String.length s' <= String.length s)%nat -> k1 s' c' = k2 s' c') ->
  matcher r s c k1 = matcher r s c k2.
Proof.
  induction r as [|kl|r1 IH1 r2 IH2|r1 IH1 r2 IH2|r1 IH1|r1 IH1|i r1 IH1];
    intros s c k1 k2 Hk; simpl.
  - apply Hk; lia.
  - destruct s as [|a rest]; [done|]. destruct (class_match kl a); [apply Hk; simpl; lia|done].
  - apply IH1. intros s' c' Hs. apply IH2. intros; apply Hk; lia.
  - by rewrite (IH1 s c k1 k2), (IH2 s c k1 k2).
  - rewrite (IH1 s c k1 k2) by done. destruct (matcher r1 s c k2); [done|apply Hk; lia].
  - by apply star_loop_ext.
  - apply IH1. intros s' c' Hs. apply Hk. lia.
Qed.

Lemma matcher_fail r : forall s c, matcher r s c (fun _ _ => None) = None.
Proof.
  induction r as [|kl|r1 IH1 r2 IH2|r1 IH1 r2 IH2|r1 IH1|r1 IH1|i r1 IH1];
    intros s c; simpl.
  - done.
  - destruct s; [done|]. by destruct (class_match _ _).
  - transitivity (matcher r1 s c (fun _ _ => None)); [|apply IH1].
    apply matcher_ext. intros; apply IH2.
  - by rewrite IH1, IH2.
  - by rewrite IH1.
  - apply star_loop_fail; [apply matcher_ext|apply IH1].
  - transitivity (matcher r1 s c (fun _ _ => None)); [|apply IH1].
    by apply matcher_ext.
Qed.

(** The loop of [r*] gives the same answer for any fuel at least the
    length of the remaining input: the bound [String.length s] chosen by
    [matcher] never cuts a match short. *)
Lemma star_fuel_adequate r k n s c :
  (String.length s <= n)%nat ->
  star_loop (matcher r) k n s c = matcher (Star r) s c k.
Proof.
  intros Hn. simpl. apply star_loop_fuel; [apply matcher_ext|apply matcher_fail|lia|lia].
Qed.

(** ** The fuel of [re_sub] *)

(** Any fuel at least the length of the input gives the same result:
    the length is enough. *)
Lemma re_sub_go_fuel r repl n1 n2 s :
  (String.length s <= n1)%nat -> (String.length s <= n2)%nat ->
  re_sub_go n1 r repl s = re_sub_go n2 r repl s.
Proof.
  revert n2 s. induction n1 as [|n1 IH]; intros n2 s H1 H2.
  - destruct s; simpl in H1; [|lia]. by destruct n2.
  - destruct s as [|a rest]; [by destruct n2|]. destruct n2 as [|n2]; [simpl in H2; lia|].
    cbn [re_sub_go]. destruct (matcher _ _ _ _) as [c|]; [|f_equal; apply IH; simpl in *; lia].
    set (w := default "" (group 0 c)).
    destruct (Nat.ltb_spec 0 (String.length w)); [|f_equal; apply IH; simpl in *; lia].
    f_equal. pose proof (substring_length_le (String.length w)
                           (String.length (String a rest) - String.length w) (String a rest)).
    apply IH; lia.
Qed.

(** A pattern that must contain [a] matches nowhere in a string without
    [a], so [re.sub] leaves such a string unchanged. *)
Lemma matcher_must_have a r s k x :
  must_have a r = true -> str_free a s = true -> matcher r s [] k = Some x -> False.
Proof.
  intros Hm Hs (s1 & s2 & c' & -> & Hw & _)%matcher_sound.
  rewrite str_free_app, (must_have_sound a r s1 Hw Hm) in Hs. discriminate.
Qed.

Lemma re_sub_go_must_have a r repl n s :
  must_have a r = true -> str_free a s = true -> re_sub_go n r repl s = s.
Proof.
  intros Hm. revert s. induction n as [|n IH]; intros [|b rest] Hs; [done..|]. cbn [re_sub_go].
  destruct (matcher _ _ _ _) eqn:E.
  - exfalso. by apply (matcher_must_have a (Group 0 r) _ _ _ Hm Hs E).
  - f_equal. apply IH. cbn in Hs. by apply andb_prop in Hs as [_ Hs].
Qed.

End Regex.
