(* ===== verification/MemoryUnit.v ===== *)
(** * MemoryUnit: the versioned fact record (src/models/memory_unit.py)

    The pydantic models [Provenance] and [MemoryUnit] become records with
    the same fields; [get_key], the three type predicates, [can_update]
    and [get_update_score] become functions.  Python [int] is [Z], Python
    [float] is [Q] (exact rationals: the development does not model
    IEEE rounding), [Optional[...]] is [option], [str] is [string]. *)

From S2P Require Import Prelude.

Record Provenance := mkProvenance {
  chapter : Z;
  source : string;
  timestamp : string
}.

Record MemoryUnit := mkMemoryUnit {
  id : string;
  mem_type : string;
  subjects : list string;
  predicate : string;
  object : string;
  fact_text : string;
  chapter_start : Z;
  chapter_end : option Z;
  visibility : string;
  confidence : Q;
  is_active : bool;
  provenance : Provenance;
  version : Z;
  supersedes : option string;
  superseded_by : option string;
  update_reason : option string;
  update_confidence : option Q;
  embedding : option (list Q);
  attrs : list (string * string)
}.

(** [sorted(self.subjects)]: Python compares [str] by code point, which on
    ASCII is [String.le]. *)
Definition sorted_subjects (l : list string) : list string := merge_sort String.le l.

(** [get_key]: [f"{'::'.join(sorted(subjects))}::{predicate}::{object}"]. *)
Definition get_key (m : MemoryUnit) : string :=
  String.append (String.concat "::" (sorted_subjects m.(subjects)))
    (String.append "::" (String.append m.(predicate) (String.append "::" m.(object)))).

Definition is_world_memory (m : MemoryUnit) : bool :=
  String.eqb m.(mem_type) "WM" && bool_decide (m.(subjects) = ["world"]).

Definition is_character_memory (m : MemoryUnit) : bool :=
  String.eqb m.(mem_type) "IC" && (length m.(subjects) =? 2)%nat.

Definition is_user_memory (m : MemoryUnit) : bool :=
  String.eqb m.(mem_type) "C2U" && bool_decide ("user_123" ∈ m.(subjects)).

(** [self.can_update(new_memory)]: same key, [self] active, and
    [new_memory] from a strictly later chapter. *)
Definition can_update (self new_memory : MemoryUnit) : bool :=
  if negb (String.eqb (get_key self) (get_key new_memory)) then false
  else if negb self.(is_active) then false
  else if (new_memory.(chapter_start) <=? self.(chapter_start))%Z then false
  else true.

Local Open Scope Q_scope.

(** [self.get_update_score(new_memory)]. *)
Definition get_update_score (self new_memory : MemoryUnit) : Q :=
  if negb (can_update self new_memory) then 0
  else
    let score := new_memory.(confidence) * 0.3 in
    let recency_bonus :=
      py_min 0.2 (inject_Z (new_memory.(chapter_start) - self.(chapter_start)) * 0.05) in
    let score := score + recency_bonus in
    let score := if Qltb self.(confidence) new_memory.(confidence) then score + 0.2 else score in
    let score :=
      if (self.(chapter_start) <? new_memory.(chapter_start) - 5)%Z then score + 0.1 else score in
    py_min 1 score.

(** The pydantic defaults of [MemoryUnit]: a record built from its
    required fields alone. *)
Definition default_memory (id0 mem_type0 : string) (subjects0 : list string)
    (predicate0 object0 fact_text0 : string) (chapter_start0 : Z) (prov : Provenance)
    : MemoryUnit :=
  {| id := id0; mem_type := mem_type0; subjects := subjects0; predicate := predicate0;
     object := object0; fact_text := fact_text0; chapter_start := chapter_start0;
     chapter_end := None; visibility := "shared"; confidence := 0.9; is_active := true;
     provenance := prov; version := 1%Z; supersedes := None; superseded_by := None;
     update_reason := None; update_confidence := None; embedding := None; attrs := [] |}.

(** ** Canonical key *)

Lemma sorted_subjects_perm l1 l2 :
  l1 ≡ₚ l2 -> sorted_subjects l1 = sorted_subjects l2.
Proof.
  intros Hp. unfold sorted_subjects.
  apply (Sorted_unique String.le); [apply Sorted_merge_sort, _..|].
  pose proof (merge_sort_Permutation String.le l1).
  pose proof (merge_sort_Permutation String.le l2).
  etrans; [eassumption|]. etrans; [exact Hp|]. by symmetry.
Qed.

Lemma sorted_subjects_is_perm l : sorted_subjects l ≡ₚ l.
Proof. apply merge_sort_Permutation. Qed.

Definition prov0 : Provenance := mkProvenance 1 "synopsis" "t0".

(** C29. The canonical key ignores the order of the subjects: two records
    whose subject lists are permutations of each other, with the same
    predicate and object, have the same key.  The key is not injective,
    though: [get_key] joins the sorted subjects, the predicate and the
    object with ["::"], so a subject that itself contains ["::"] gives two
    different fact slots the same key. *)
Theorem get_key_subject_order :
  (forall m1 m2 : MemoryUnit,
     m1.(subjects) ≡ₚ m2.(subjects) ->
     m1.(predicate) = m2.(predicate) -> m1.(object) = m2.(object) ->
     get_key m1 = get_key m2) /\
  (let m1 := default_memory "m1" "IC" ["byleth"; "dimitri"] "contact" "private_meeting"
               "Byleth and Dimitri meet privately" 2 prov0 in
   let m2 := default_memory "m2" "WM" ["byleth::dimitri"] "contact" "private_meeting"
               "A private meeting" 2 prov0 in
   get_key m1 = get_key m2 /\ sorted_subjects m1.(subjects) <> sorted_subjects m2.(subjects)).
Proof.
  split; [|split; vm_compute; [reflexivity|discriminate]].
  intros m1 m2 Hp Hpred Hobj. unfold get_key.
  by rewrite (sorted_subjects_perm _ _ Hp), Hpred, Hobj.
Qed.

Lemma get_key_subject_order_witness :
  let m1 := default_memory "m1" "IC" ["dimitri"; "byleth"] "relationship_status"
              "started_affair" "Byleth and Dimitri start an affair" 3 prov0 in
  let m2 := default_memory "m2" "IC" ["byleth"; "dimitri"] "relationship_status"
              "started_affair" "Dimitri and Byleth start an affair" 7 prov0 in
  get_key m1 = get_key m2 /\
  get_key m1 = "byleth::dimitri::relationship_status::started_affair".
Proof.
  split.
  - apply (proj1 get_key_subject_order); simpl; [apply Permutation_swap|done|done].
  - vm_compute. reflexivity.
Defined.

(** ** Update score *)

Lemma can_update_true (self n : MemoryUnit) :
  can_update self n = true <->
  get_key self = get_key n /\ self.(is_active) = true /\ (self.(chapter_start) < n.(chapter_start))%Z.
Proof.
  unfold can_update.
  destruct (String.eqb_spec (get_key self) (get_key n)), (is_active self),
    (Z.leb_spec (chapter_start n) (chapter_start self));
    simpl; intuition (try congruence; try lia).
Qed.

Lemma inject_Z_ge_1 (a b : Z) : (b < a)%Z -> 1 <= inject_Z (a - b).
Proof. intros H. change 1 with (inject_Z 1). rewrite <- Zle_Qle. lia. Qed.

(** Unfold the score of an admissible update into its four terms. *)
Ltac score_cases H :=
  unfold get_update_score; rewrite H; cbn [negb];
  repeat match goal with
  | |- context [Qltb ?a ?b] =>
      let E := fresh "E" in destruct (Qltb a b) eqn:E;
      [apply Qltb_spec in E|apply Qltb_false in E]
  | |- context [(?a <? ?b)%Z] => destruct (Z.ltb_spec a b)
  end.

(** C30. Score bounds: for an admissible update whose confidence lies in
    [0, 1], the score lies between [0.3 * confidence + 0.05] and [0.8].
    In particular the [min(1.0, score)] clamp never acts and the
    ["high_confidence_update"] reason ([score > 0.8]) of
    [smart_update_or_create] is unreachable.  And without a gain in
    confidence an update is never strong enough to supersede: if the new
    confidence is at most the old one and at most 0.99, the score is at
    most 0.597, under the default threshold 0.6.  The margins are stated
    so that they survive Python's float arithmetic: the score is a sum
    of four terms, whose rounding is below 1e-15, far less than the
    0.003 left to the threshold and the gap to 0.8.  (Without the margin
    the exact-rational bound would not carry over: at confidence
    0.9999999999999999 against 1.0, six chapters later, the float sum
    rounds to exactly 0.6.) *)
Theorem update_score_bounds :
  (forall self n : MemoryUnit,
     can_update self n = true -> 0 <= n.(confidence) <= 1 ->
     n.(confidence) * 0.3 + 0.05 <= get_update_score self n <= 0.8) /\
  (forall self n : MemoryUnit,
     n.(confidence) <= self.(confidence) -> n.(confidence) <= 99 # 100 ->
     get_update_score self n <= 597 # 1000).
Proof.
  split.
  - intros self n Hc Hconf. pose proof Hc as Hlt. apply can_update_true in Hlt as (_ & _ & Hlt).
    pose proof (inject_Z_ge_1 _ _ Hlt) as Hd.
    assert (0.05 <= py_min 0.2 (inject_Z (chapter_start n - chapter_start self) * 0.05) <= 0.2)
      by (split; [apply py_min_glb; lra|apply py_min_le_l]).
    score_cases Hc; (split; [apply py_min_glb; lra|eapply Qle_trans; [apply py_min_le_r|lra]]).
  - intros self n Hle H1. destruct (can_update self n) eqn:Hc.
    2: { unfold get_update_score. rewrite Hc. simpl. lra. }
    pose proof (py_min_le_l 0.2 (inject_Z (chapter_start n - chapter_start self) * 0.05)).
    score_cases Hc; try lra; eapply Qle_trans; try apply py_min_le_r; lra.
Qed.

Lemma update_score_bounds_witness :
  let e := default_memory "e" "IC" ["a"; "b"] "contact" "private_meeting" "a met b" 1 prov0 in
  let n := default_memory "n" "IC" ["b"; "a"] "contact" "private_meeting" "b met a" 9 prov0 in
  let n' := default_memory "n" "IC" ["a"; "b"] "contact" "private_meeting" "a met b" 20 prov0 in
  (can_update e n = true /\ 0 <= n.(confidence) <= 1 /\
   n.(confidence) * 0.3 + 0.05 <= get_update_score e n <= 0.8) /\
  (n'.(confidence) <= e.(confidence) /\ n'.(confidence) <= 99 # 100 /\ get_update_score e n' <= 597 # 1000).
Proof.
  assert (Hc : can_update (default_memory "e" "IC" ["a"; "b"] "contact" "private_meeting" "a met b" 1 prov0)
            (default_memory "n" "IC" ["b"; "a"] "contact" "private_meeting" "b met a" 9 prov0) = true)
    by (vm_compute; reflexivity).
  split.
  - split; [exact Hc|]. split; [simpl; lra|].
    apply (proj1 update_score_bounds); [exact Hc|simpl; lra].
  - split; [simpl; lra|]. split; [simpl; lra|].
    apply (proj2 update_score_bounds); simpl; lra.
Defined.
