(* ===== verification/MemoryStore.v ===== *)
(** * MemoryStore: the temporal fact store and the update resolver
    (src/storage/simple_memory_store.py, class [SimpleMemoryStore])

    Python objects are shared: the same [MemoryUnit] object sits in
    [self.all_memories] (id -> object) and in one list of
    [self.chapter_memories] (chapter -> objects), and
    [update_existing_memory] mutates the predecessor in place, which both
    indexes then see.  The store is therefore modelled with an object
    heap: [heap] holds every object ever created, a location is its
    index, and both dicts hold locations.  [uuid.uuid4()] is a generator
    [uuid4 : nat -> string] (a section variable) read at the counter
    [uuid_ctr]. *)

From S2P Require Import Prelude MemoryUnit.

Record SimpleMemoryStore := mkStore {
  heap : list MemoryUnit;
  all_memories : list (string * nat);
  chapter_memories : list (Z * list nat);
  uuid_ctr : nat
}.

(** The result string of [smart_update_or_create]:
    [f"updated_existing_score_{score:.2f}"] or ["created_new"]. *)
Inductive Action :=
  | UpdatedExisting (score : Q)
  | CreatedNew.

Definition empty_store : SimpleMemoryStore := mkStore [] [] [] 0.

(** ** Object heap *)

Definition deref (st : SimpleMemoryStore) (l : nat) : option MemoryUnit := st.(heap) !! l.

Definition alloc (st : SimpleMemoryStore) (m : MemoryUnit) : nat * SimpleMemoryStore :=
  (length st.(heap),
   mkStore (st.(heap) ++ [m]) st.(all_memories) st.(chapter_memories) st.(uuid_ctr)).

Definition heap_write (st : SimpleMemoryStore) (l : nat) (m : MemoryUnit) : SimpleMemoryStore :=
  mkStore (<[l := m]> st.(heap)) st.(all_memories) st.(chapter_memories) st.(uuid_ctr).

(** [self.all_memories.values()], with the location of each object. *)
Definition all_entries (st : SimpleMemoryStore) : list (nat * MemoryUnit) :=
  omap (fun '(_, l) => (fun m => (l, m)) <$> deref st l) st.(all_memories).

Definition all_values (st : SimpleMemoryStore) : list MemoryUnit := map snd (all_entries st).

(** ** Record mutations made by the store *)

(** [add_new_memory]: [memory.id], [memory.chapter_start] and
    [memory.provenance.chapter] are overwritten. *)
Definition stamp_new (m : MemoryUnit) (new_id : string) (ch : Z) : MemoryUnit :=
  {| id := new_id; mem_type := m.(mem_type); subjects := m.(subjects);
     predicate := m.(predicate); object := m.(object); fact_text := m.(fact_text);
     chapter_start := ch; chapter_end := m.(chapter_end); visibility := m.(visibility);
     confidence := m.(confidence); is_active := m.(is_active);
     provenance := mkProvenance ch m.(provenance).(source) m.(provenance).(timestamp);
     version := m.(version); supersedes := m.(supersedes);
     superseded_by := m.(superseded_by); update_reason := m.(update_reason);
     update_confidence := m.(update_confidence); embedding := m.(embedding);
     attrs := m.(attrs) |}.

(** [existing.is_active = False], [existing.chapter_end = chapter - 1],
    [existing.superseded_by = sb]. *)
Definition close_record (m : MemoryUnit) (end_ : Z) (sb : string) : MemoryUnit :=
  {| id := m.(id); mem_type := m.(mem_type); subjects := m.(subjects);
     predicate := m.(predicate); object := m.(object); fact_text := m.(fact_text);
     chapter_start := m.(chapter_start); chapter_end := Some end_;
     visibility := m.(visibility); confidence := m.(confidence); is_active := false;
     provenance := m.(provenance); version := m.(version); supersedes := m.(supersedes);
     superseded_by := Some sb; update_reason := m.(update_reason);
     update_confidence := m.(update_confidence); embedding := m.(embedding);
     attrs := m.(attrs) |}.

Definition set_superseded_by (m : MemoryUnit) (sb : string) : MemoryUnit :=
  {| id := m.(id); mem_type := m.(mem_type); subjects := m.(subjects);
     predicate := m.(predicate); object := m.(object); fact_text := m.(fact_text);
     chapter_start := m.(chapter_start); chapter_end := m.(chapter_end);
     visibility := m.(visibility); confidence := m.(confidence); is_active := m.(is_active);
     provenance := m.(provenance); version := m.(version); supersedes := m.(supersedes);
     superseded_by := Some sb; update_reason := m.(update_reason);
     update_confidence := m.(update_confidence); embedding := m.(embedding);
     attrs := m.(attrs) |}.

(** The [MemoryUnit(...)] built by [update_existing_memory]. *)
Definition successor (existing new_info : MemoryUnit) (new_id : string) (ch : Z)
    (reason : string) : MemoryUnit :=
  {| id := new_id; mem_type := existing.(mem_type); subjects := existing.(subjects);
     predicate := existing.(predicate); object := existing.(object);
     fact_text := new_info.(fact_text); chapter_start := ch; chapter_end := None;
     visibility := existing.(visibility); confidence := new_info.(confidence);
     is_active := true; provenance := new_info.(provenance);
     version := (existing.(version) + 1)%Z; supersedes := Some existing.(id);
     superseded_by := None; update_reason := Some reason;
     update_confidence := Some new_info.(confidence); embedding := None;
     attrs := existing.(attrs) |}.

Section Store.
Variable uuid4 : nat -> string.

Definition next_uuid (st : SimpleMemoryStore) : string * SimpleMemoryStore :=
  (uuid4 st.(uuid_ctr),
   mkStore st.(heap) st.(all_memories) st.(chapter_memories) (S st.(uuid_ctr))).

(** [_add_memory_to_chapter]. *)
Definition add_memory_to_chapter (st : SimpleMemoryStore) (l : nat) (ch : Z)
    : SimpleMemoryStore :=
  let ls := default [] (dict_get ch st.(chapter_memories)) in
  mkStore st.(heap) st.(all_memories) (dict_set ch (ls ++ [l])%list st.(chapter_memories))
    st.(uuid_ctr).

(** [self.all_memories[k] = memory]. *)
Definition index_id (st : SimpleMemoryStore) (k : string) (l : nat) : SimpleMemoryStore :=
  mkStore st.(heap) (dict_set k l st.(all_memories)) st.(chapter_memories) st.(uuid_ctr).

(** [load_memories], one parsed line at a time ([json.loads] and the
    pydantic validation are not modelled). *)
Definition load_one (st : SimpleMemoryStore) (m : MemoryUnit) : SimpleMemoryStore :=
  let '(l, st1) := alloc st m in
  index_id (add_memory_to_chapter st1 l m.(chapter_start)) m.(id) l.

Definition load_memories (ms : list MemoryUnit) : SimpleMemoryStore :=
  foldl load_one empty_store ms.

(** [save_memories]: one line per value of [all_memories], in order. *)
Definition save_memories (st : SimpleMemoryStore) : list MemoryUnit := all_values st.

Definition add_new_memory (st : SimpleMemoryStore) (m : MemoryUnit) (chapter : Z)
    : nat * SimpleMemoryStore :=
  let '(new_id, st1) := next_uuid st in
  let m' := stamp_new m new_id chapter in
  let '(l, st2) := alloc st1 m' in
  (l, index_id (add_memory_to_chapter st2 l chapter) new_id l).

(** [find_existing_memory]: the first active record with the key. *)
Definition find_existing_memory (st : SimpleMemoryStore) (m : MemoryUnit)
    : option (nat * MemoryUnit) :=
  head (List.filter (fun '(_, e) => e.(is_active) && String.eqb (get_key e) (get_key m))
          (all_entries st)).

Definition find_all_candidate_memories (st : SimpleMemoryStore) (m : MemoryUnit)
    : list (nat * MemoryUnit) :=
  List.filter (fun '(_, e) => String.eqb (get_key e) (get_key m) && can_update e m)
    (all_entries st).

(** [find_best_update_candidate]: the candidates scoring at least
    [min_score], and among them [max(..., key=score)], the first one of
    maximal score in [all_memories] order. *)
Definition find_best_update_candidate (st : SimpleMemoryStore) (m : MemoryUnit)
    (min_score : Q) : option ((nat * MemoryUnit) * Q) :=
  match find_all_candidate_memories st m with
  | [] => None
  | candidates =>
      let scored := List.filter (fun '(_, s) => Qle_bool min_score s)
                      (map (fun c => (c, get_update_score c.2 m)) candidates) in
      match scored with
      | [] => None
      | _ => py_max_by snd scored
      end
  end.

(** [update_existing_memory]: close the predecessor in place (its
    [superseded_by] first gets a throw-away uuid, then the successor's
    id), build the successor, index it under [chapter]. *)
Definition update_existing_memory (st : SimpleMemoryStore) (l : nat) (new_info : MemoryUnit)
    (chapter : Z) (reason : string) : nat * SimpleMemoryStore :=
  match deref st l with
  | None => (l, st)
  | Some existing =>
      let '(tmp, st1) := next_uuid st in
      let closed := close_record existing (chapter - 1) tmp in
      let st2 := heap_write st1 l closed in
      let '(new_id, st3) := next_uuid st2 in
      let updated := successor closed new_info new_id chapter reason in
      let st4 := heap_write st3 l (set_superseded_by closed new_id) in
      let '(l', st5) := alloc st4 updated in
      (l', index_id (add_memory_to_chapter st5 l' chapter) new_id l')
  end.

Definition update_reason_of (score : Q) : string :=
  if Qltb 0.8 score then "high_confidence_update"
  else if Qltb 0.6 score then "moderate_update"
  else "low_confidence_update".

Definition default_update_threshold : Q := 0.6.

(** [smart_update_or_create]. *)
Definition smart_update_or_create (st : SimpleMemoryStore) (m : MemoryUnit) (chapter : Z)
    (update_threshold : Q) : nat * Action * SimpleMemoryStore :=
  match find_best_update_candidate st m update_threshold with
  | Some ((l, _), score) =>
      let '(l', st') := update_existing_memory st l m chapter (update_reason_of score) in
      (l', UpdatedExisting score, st')
  | None =>
      let '(l', st') := add_new_memory st m chapter in
      (l', CreatedNew, st')
  end.

(** ** Read API *)

Definition lookup_id (st : SimpleMemoryStore) (i : string) : option MemoryUnit :=
  dict_get i st.(all_memories) ≫= deref st.

(** [get_memory_evolution]: the [while current_id:] loop follows
    [supersedes] links; it stops on [None] or [""] (falsy) and on an id
    missing from [all_memories].  Each iteration costs one unit of fuel;
    [None] means the fuel ran out while the loop was still running. *)
Fixpoint evolution_go (fuel : nat) (st : SimpleMemoryStore) (cur : option string)
    (acc : list MemoryUnit) : option (list MemoryUnit) :=
  match fuel with
  | O => None
  | S fuel' =>
      match cur with
      | None | Some EmptyString => Some acc
      | Some i =>
          match lookup_id st i with
          | None => Some acc
          | Some m => evolution_go fuel' st m.(supersedes) (m :: acc)
          end
      end
  end.

Definition get_memory_evolution (fuel : nat) (st : SimpleMemoryStore) (memory_id : string)
    : option (list MemoryUnit) :=
  evolution_go fuel st (Some memory_id) [].

(** [get_memory_timeline]: records with the key, stably sorted by
    [chapter_start]. *)
Definition get_memory_timeline (st : SimpleMemoryStore) (canonical_key : string)
    : list MemoryUnit :=
  sort_by (fun a b => (a.(chapter_start) <=? b.(chapter_start))%Z)
    (List.filter (fun m => String.eqb (get_key m) canonical_key) (all_values st)).

Definition visible_at (chapter : Z) (m : MemoryUnit) : bool :=
  m.(is_active) && match m.(chapter_end) with None => true | Some e => (chapter <=? e)%Z end.

(** [get_memories_at_chapter]: chapters [1 .. chapter] in order, each
    chapter's list in insertion order, filtered by [visible_at]. *)
Definition chapter_list (st : SimpleMemoryStore) (ch : Z) : list nat :=
  default [] (dict_get ch st.(chapter_memories)).

Definition get_memories_at_chapter (st : SimpleMemoryStore) (chapter : Z) : list MemoryUnit :=
  concat (map (fun ch => List.filter (visible_at chapter) (omap (deref st) (chapter_list st ch)))
                (py_range 1 (chapter + 1))).

Definition get_chapter_summary (st : SimpleMemoryStore) : list (Z * nat) :=
  map (fun '(ch, ls) => (ch, length ls)) st.(chapter_memories).

Definition get_total_memories (st : SimpleMemoryStore) : nat := length st.(all_memories).

Definition get_chapters_with_memories (st : SimpleMemoryStore) : list Z :=
  sort_by Z.leb (map fst st.(chapter_memories)).
End Store.

(** ** Store invariants *)

(** Candidates handed to the store by the extraction front-end
    ([MemoryExtractor._create_memory_unit] builds them with
    [chapter_end=None], [is_active=True], [supersedes=None] and no
    [superseded_by]). *)
Definition fresh_candidate (m : MemoryUnit) : bool :=
  bool_decide (m.(supersedes) = None) && bool_decide (m.(superseded_by) = None) &&
  m.(is_active) && bool_decide (m.(chapter_end) = None).

(** Both indexes agree with the heap: every id maps to the object with
    that id, every object is reachable from its id, and the list of
    chapter [ch] holds exactly the objects starting at [ch], in
    [all_memories] order. *)
Definition cs_at (st : SimpleMemoryStore) (ch : Z) (l : nat) : bool :=
  match deref st l with Some r => (r.(chapter_start) =? ch)%Z | None => false end.

Record store_wf (st : SimpleMemoryStore) : Prop := {
  wf_ids : forall k l, dict_get k st.(all_memories) = Some l ->
             exists r, deref st l = Some r /\ r.(id) = k;
  wf_heap : forall l r, deref st l = Some r -> dict_get r.(id) st.(all_memories) = Some l;
  wf_chapters : forall ch, chapter_list st ch = List.filter (cs_at st ch) (map snd st.(all_memories));
  wf_nodup : NoDup (map fst st.(all_memories))
}.

(** The version chain: a [supersedes] link points at a closed, inactive,
    earlier predecessor that links back; a [superseded_by] link is
    answered by a [supersedes] link; an inactive record has a successor. *)
Record chain_ok (st : SimpleMemoryStore) : Prop := {
  chain_back : forall l r i, deref st l = Some r -> r.(supersedes) = Some i ->
    exists p, lookup_id st i = Some p /\ (p.(chapter_start) < r.(chapter_start))%Z /\
      p.(superseded_by) = Some r.(id) /\ p.(is_active) = false /\
      p.(chapter_end) = Some (r.(chapter_start) - 1)%Z /\ r.(version) = (p.(version) + 1)%Z;
  chain_fwd : forall l r j, deref st l = Some r -> r.(superseded_by) = Some j ->
    exists s, lookup_id st j = Some s /\ s.(supersedes) = Some r.(id);
  chain_inactive : forall l r, deref st l = Some r -> r.(is_active) = false ->
    r.(superseded_by) <> None
}.

Lemma store_wf_empty : store_wf empty_store.
Proof.
  assert (Hnil : forall l, deref empty_store l = None) by (intros l; apply lookup_nil).
  split; cbn -[deref]; intros *; rewrite ?Hnil; try done; constructor.
Qed.

(** ** Extending a store *)

(** Both store operations append one fresh object, possibly after
    rewriting one existing object in place. *)
Definition extend_store (st : SimpleMemoryStore) (w : option (nat * MemoryUnit))
    (new : MemoryUnit) (ctr : nat) : SimpleMemoryStore :=
  let h := match w with None => st.(heap) | Some (l, x) => <[l := x]> st.(heap) end in
  mkStore (h ++ [new]) (dict_set new.(id) (length st.(heap)) st.(all_memories))
    (dict_set new.(chapter_start) (chapter_list st new.(chapter_start) ++ [length st.(heap)])%list
       st.(chapter_memories)) ctr.

Definition apply_write (w : option (nat * MemoryUnit)) (k : nat) (o : option MemoryUnit)
    : option MemoryUnit :=
  match w with
  | Some (l, x) => if decide (l = k) then (fun _ => x) <$> o else o
  | None => o
  end.

Lemma deref_extend st w new c k :
  deref (extend_store st w new c) k =
  if decide (k = length st.(heap)) then Some new else apply_write w k (deref st k).
Proof using.
  unfold deref, extend_store, apply_write. cbn [heap].
  set (h := match w with None => heap st | Some (l, x) => <[l:=x]> (heap st) end).
  assert (Hlen : length h = length (heap st))
    by (unfold h; destruct w as [[]|]; auto using length_insert).
  rewrite lookup_app, Hlen.
  destruct (decide (k = length (heap st))) as [->|Hne].
  { rewrite (lookup_ge_None_2 h) by lia. by rewrite Nat.sub_diag. }
  assert (Htail : k < length (heap st) \/ ([new] !! (k - length (heap st)) = None /\
                    heap st !! k = None)).
  { destruct (decide (k < length (heap st))); [by left|right].
    split; [destruct (k - length (heap st)) eqn:?; [lia|done]|apply lookup_ge_None_2; lia]. }
  unfold h. destruct w as [[l x]|].
  - rewrite list_lookup_insert.
    destruct (decide (l = k ∧ l < length (heap st))) as [[-> Hlt]|Hn].
    + rewrite decide_True; [|done]. by destruct (lookup_lt_is_Some_2 (heap st) k Hlt) as [r ->].
    + destruct Htail as [Hlt|[-> ->]].
      * destruct (lookup_lt_is_Some_2 (heap st) k Hlt) as [r ->].
        case_decide as Hlk; [subst; exfalso; apply Hn; split; [done|lia]|done].
      * by case_decide.
  - destruct Htail as [Hlt|[-> ->]]; [|done].
    by destruct (lookup_lt_is_Some_2 (heap st) k Hlt) as [r ->].
Qed.

Definition write_ok (st : SimpleMemoryStore) (w : option (nat * MemoryUnit)) : Prop :=
  match w with
  | None => True
  | Some (l, x) => exists p, deref st l = Some p /\ x.(id) = p.(id) /\
                     x.(chapter_start) = p.(chapter_start)
  end.

Lemma apply_write_of_some st w k p :
  write_ok st w -> deref st k = Some p ->
  exists r, apply_write w k (deref st k) = Some r /\ r.(id) = p.(id) /\
            r.(chapter_start) = p.(chapter_start).
Proof.
  intros Hw Hk. rewrite Hk. destruct w as [[l x]|]; simpl; [|eauto].
  case_decide as Hl; [subst l|eauto].
  destruct Hw as (p' & Hp' & Hid & Hcs). rewrite Hk in Hp'. injection Hp' as <-. eauto.
Qed.

Lemma apply_write_to_some st w k r :
  write_ok st w -> apply_write w k (deref st k) = Some r ->
  exists p, deref st k = Some p /\ r.(id) = p.(id) /\ r.(chapter_start) = p.(chapter_start).
Proof.
  intros Hw Hr. destruct (deref st k) as [p|] eqn:Hk.
  - destruct (apply_write_of_some st w k p Hw Hk) as (r' & Hr' & ?). rewrite Hk in Hr'.
    rewrite Hr in Hr'. injection Hr' as ->. eauto.
  - destruct w as [[l x]|]; simpl in Hr; [case_decide|]; done.
Qed.

Lemma store_wf_loc st k l : store_wf st -> (k, l) ∈ st.(all_memories) -> l < length st.(heap).
Proof.
  intros Hwf Hin. apply dict_get_elem in Hin; [|apply Hwf].
  destruct (wf_ids _ Hwf _ _ Hin) as (r & Hr & _). by eapply lookup_lt_Some.
Qed.

Lemma cs_at_extend st w new c ch l :
  write_ok st w -> l < length st.(heap) ->
  cs_at (extend_store st w new c) ch l = cs_at st ch l.
Proof.
  intros Hw Hl. unfold cs_at. rewrite deref_extend, decide_False by lia.
  destruct (deref st l) as [p|] eqn:Hk.
  - destruct (apply_write_of_some st w l p Hw Hk) as (r & Hr & _ & Hcs).
    rewrite Hk in Hr. by rewrite Hr, Hcs.
  - destruct w as [[l' x]|]; simpl; [case_decide|]; done.
Qed.

Lemma chapter_list_extend st w new c ch :
  chapter_list (extend_store st w new c) ch =
  if decide (ch = new.(chapter_start)) then (chapter_list st ch ++ [length st.(heap)])%list
  else chapter_list st ch.
Proof.
  unfold chapter_list at 1. cbn. case_decide as Hch.
  - subst. by rewrite dict_get_set_eq.
  - by rewrite dict_get_set_ne.
Qed.

Lemma store_wf_extend st w new c :
  store_wf st -> dict_get new.(id) st.(all_memories) = None -> write_ok st w ->
  store_wf (extend_store st w new c).
Proof.
  intros Hwf Hfresh Hw. split; cbn [all_memories extend_store].
  - intros k l Hk. rewrite deref_extend.
    destruct (decide (k = id new)) as [->|Hne].
    + rewrite dict_get_set_eq in Hk. injection Hk as <-. rewrite decide_True; eauto.
    + rewrite dict_get_set_ne in Hk by done.
      destruct (wf_ids _ Hwf _ _ Hk) as (p & Hp & <-).
      pose proof (lookup_lt_Some _ _ _ Hp).
      rewrite decide_False by lia.
      destruct (apply_write_of_some st w l p Hw Hp) as (r & Hr & Hid & _). eauto.
  - intros l r. rewrite deref_extend. case_decide as Hl.
    + intros [= <-]. subst. apply dict_get_set_eq.
    + intros Hr. destruct (apply_write_to_some st w l r Hw Hr) as (p & Hp & -> & _).
      rewrite dict_get_set_ne; [by apply Hwf|].
      intros Heq. rewrite Heq, (wf_heap _ Hwf _ _ Hp) in Hfresh. done.
  - intros ch. rewrite chapter_list_extend, dict_set_fresh by done.
    rewrite map_app, List.filter_app. simpl.
    rewrite (List.filter_ext_in (cs_at (extend_store st w new c) ch) (cs_at st ch)).
    2: { intros l Hl. apply list_elem_of_In, list_elem_of_fmap in Hl as ([k l'] & -> & Hin).
         apply cs_at_extend; [done|]. eapply store_wf_loc; eauto. }
    rewrite <- (wf_chapters _ Hwf ch).
    assert (Hlast : cs_at (extend_store st w new c) ch (length (heap st)) =
                    (chapter_start new =? ch)%Z)
      by (unfold cs_at; rewrite deref_extend; case_decide; [done|lia]).
    rewrite Hlast. case_decide as Hch; subst.
    + by rewrite Z.eqb_refl.
    + rewrite (proj2 (Z.eqb_neq _ _)) by congruence. by rewrite app_nil_r.
  - rewrite dict_set_fresh by done. rewrite map_app. simpl.
    apply NoDup_app. split_and!; [apply Hwf| |constructor; [set_solver|constructor]].
    intros k Hk. apply dict_get_None in Hfresh. set_solver.
Qed.

Lemma lookup_id_extend st w new c i :
  store_wf st -> dict_get new.(id) st.(all_memories) = None ->
  lookup_id (extend_store st w new c) i =
  if decide (i = new.(id)) then Some new
  else dict_get i st.(all_memories) ≫= (fun l => apply_write w l (deref st l)).
Proof.
  intros Hwf Hfresh. unfold lookup_id. cbn [extend_store all_memories].
  case_decide as Hi.
  - subst. rewrite dict_get_set_eq. simpl. by rewrite deref_extend, decide_True.
  - rewrite dict_get_set_ne by congruence.
    destruct (dict_get i (all_memories st)) as [l|] eqn:E; simpl; [|done].
    pose proof (store_wf_loc _ _ _ Hwf (dict_get_Some _ _ _ E)).
    rewrite deref_extend, decide_False by lia. done.
Qed.

Lemma lookup_id_create st new c i :
  store_wf st -> dict_get new.(id) st.(all_memories) = None ->
  lookup_id (extend_store st None new c) i =
  if decide (i = new.(id)) then Some new else lookup_id st i.
Proof. intros. by rewrite lookup_id_extend. Qed.

Lemma lookup_id_update st l p x new c i :
  store_wf st -> deref st l = Some p -> dict_get new.(id) st.(all_memories) = None ->
  lookup_id (extend_store st (Some (l, x)) new c) i =
  if decide (i = new.(id)) then Some new
  else if decide (i = p.(id)) then Some x else lookup_id st i.
Proof.
  intros Hwf Hp Hfresh. rewrite lookup_id_extend by done.
  case_decide; [done|]. unfold lookup_id. case_decide as Hip.
  - subst. rewrite (wf_heap _ Hwf _ _ Hp). simpl. rewrite decide_True, Hp; done.
  - destruct (dict_get i (all_memories st)) as [l0|] eqn:E; simpl; [|done].
    case_decide; [subst l0|done].
    destruct (wf_ids _ Hwf _ _ E) as (r & Hr & <-). congruence.
Qed.

Lemma all_entries_deref st l p : (l, p) ∈ all_entries st -> deref st l = Some p.
Proof.
  unfold all_entries. intros Hin. apply list_elem_of_omap in Hin as ([k l'] & _ & Hl).
  destruct (deref st l') eqn:E; simpl in Hl; [by injection Hl as -> ->|done].
Qed.

Lemma find_best_update_candidate_spec st m thr l p score :
  find_best_update_candidate st m thr = Some ((l, p), score) ->
  deref st l = Some p /\ can_update p m = true /\ score = get_update_score p m /\
  (thr <= score)%Q.
Proof.
  unfold find_best_update_candidate. destruct (find_all_candidate_memories st m) as [|c cs] eqn:Hc;
    [done|].
  remember (List.filter _ _) as scored eqn:Hs. intros Hmax.
  destruct scored as [|s0 ss]; [done|]. apply py_max_by_spec in Hmax as [Hin _].
  rewrite Hs in Hin.
  apply list_elem_of_In, filter_In in Hin as [Hin Hthr]. apply Qle_bool_iff in Hthr.
  apply in_map_iff in Hin as ([l' p'] & [= <- <- <-] & Hin).
  rewrite <- Hc in Hin. apply filter_In in Hin as [Hin Hok].
  apply andb_prop in Hok as [_ Hok]. apply list_elem_of_In, all_entries_deref in Hin. auto.
Qed.

Lemma lookup_id_indexed st i p :
  lookup_id st i = Some p -> dict_get i st.(all_memories) <> None.
Proof. unfold lookup_id. by destruct (dict_get i _). Qed.

Lemma lookup_id_of_deref st l p : store_wf st -> deref st l = Some p -> lookup_id st p.(id) = Some p.
Proof. intros Hwf Hp. unfold lookup_id. by rewrite (wf_heap _ Hwf _ _ Hp). Qed.

(** No record supersedes a record that is still active. *)
Lemma chain_no_successor st l p l' r :
  store_wf st -> chain_ok st -> deref st l = Some p -> p.(is_active) = true ->
  deref st l' = Some r -> r.(supersedes) <> Some p.(id).
Proof.
  intros Hwf Hch Hp Hact Hr Hs.
  destruct (chain_back _ Hch _ _ _ Hr Hs) as (q & Hq & _ & _ & Hqa & _).
  rewrite (lookup_id_of_deref _ _ _ Hwf Hp) in Hq. congruence.
Qed.

Lemma chain_ok_create st new c :
  store_wf st -> chain_ok st -> dict_get new.(id) st.(all_memories) = None ->
  new.(supersedes) = None -> new.(superseded_by) = None -> new.(is_active) = true ->
  chain_ok (extend_store st None new c).
Proof.
  intros Hwf Hch Hfresh Hs Hsb Ha.
  assert (Hold : forall i q, lookup_id st i = Some q ->
            lookup_id (extend_store st None new c) i = Some q).
  { intros i q Hq. rewrite lookup_id_create by done. case_decide; [|done].
    subst. by apply lookup_id_indexed in Hq. }
  split.
  - intros l r i. rewrite deref_extend. case_decide; simpl; [intros [= <-]; congruence|].
    intros Hr Hi. destruct (chain_back _ Hch _ _ _ Hr Hi) as (q & Hq & ?). eauto.
  - intros l r j. rewrite deref_extend. case_decide; simpl; [intros [= <-]; congruence|].
    intros Hr Hj. destruct (chain_fwd _ Hch _ _ _ Hr Hj) as (q & Hq & ?). eauto.
  - intros l r. rewrite deref_extend. case_decide; simpl; [intros [= <-]; congruence|].
    apply Hch.
Qed.

Lemma chain_ok_update st l p m nid ch reason c :
  store_wf st -> chain_ok st -> deref st l = Some p -> p.(is_active) = true ->
  (p.(chapter_start) < ch)%Z -> dict_get nid st.(all_memories) = None ->
  chain_ok (extend_store st (Some (l, close_record p (ch - 1) nid))
              (successor p m nid ch reason) c).
Proof.
  intros Hwf Hch Hp Hact Hlt Hfresh.
  pose proof (lookup_id_of_deref _ _ _ Hwf Hp) as Hpid.
  assert (Hne : p.(id) <> nid) by (intros <-; by rewrite (wf_heap _ Hwf _ _ Hp) in Hfresh).
  assert (Hlk : forall i, lookup_id (extend_store st (Some (l, close_record p (ch - 1) nid))
                   (successor p m nid ch reason) c) i =
                if decide (i = nid) then Some (successor p m nid ch reason)
                else if decide (i = p.(id)) then Some (close_record p (ch - 1) nid)
                else lookup_id st i)
    by (intros i; by rewrite (lookup_id_update _ _ p) by done).
  assert (Hidx : forall i q, lookup_id st i = Some q -> i <> nid)
    by (intros i q Hq ->; by apply lookup_id_indexed in Hq).
  split.
  - intros l' r i. rewrite deref_extend. case_decide as Hl'; simpl.
    + intros [= <-] [= <-]. eexists. rewrite Hlk, decide_False, decide_True by done.
      simpl. split_and!; auto with lia.
    + case_decide as Hll; [subst l'; rewrite Hp; intros [= <-]|intros Hr]; simpl; intros Hi.
      * destruct (chain_back _ Hch _ _ _ Hp Hi) as (q & Hq & Hq1 & Hq2 & Hq3 & Hq4 & Hq5).
        exists q. rewrite Hlk, decide_False, decide_False; [by eauto| |by eauto].
        intros ->. congruence.
      * destruct (chain_back _ Hch _ _ _ Hr Hi) as (q & Hq & ?).
        exists q. rewrite Hlk, decide_False by eauto.
        rewrite decide_False; [done|]. intros ->.
        by apply (chain_no_successor st l p l' r).
  - intros l' r j. rewrite deref_extend. case_decide as Hl'; simpl.
    + intros [= <-] Hj. done.
    + case_decide as Hll; [subst l'; rewrite Hp; intros [= <-]|intros Hr]; simpl.
      * intros [= <-]. eexists. rewrite Hlk, decide_True by done. done.
      * intros Hj. destruct (chain_fwd _ Hch _ _ _ Hr Hj) as (s & Hs & Hss).
        rewrite Hlk, decide_False by eauto. case_decide; [subst j|by eauto].
        rewrite Hpid in Hs. injection Hs as <-. eexists. split; [done|]. done.
  - intros l' r. rewrite deref_extend. case_decide as Hl'; simpl.
    + intros [= <-]. done.
    + case_decide as Hll; [subst l'; rewrite Hp; intros [= <-]; done|]. apply Hch.
Qed.

Lemma fresh_candidate_spec m :
  fresh_candidate m = true ->
  m.(supersedes) = None /\ m.(superseded_by) = None /\ m.(is_active) = true /\
  m.(chapter_end) = None.
Proof.
  unfold fresh_candidate. intros H. repeat (apply andb_prop in H as [H ?]).
  apply bool_decide_eq_true in H. do 2 (match goal with
  | Hb : bool_decide _ = true |- _ => apply bool_decide_eq_true in Hb end). auto.
Qed.

(** ** Point-in-time query *)

Lemma in_chapter_list st ch l r :
  store_wf st -> deref st l = Some r ->
  (In l (chapter_list st ch) <-> r.(chapter_start) = ch).
Proof.
  intros Hwf Hr. rewrite (wf_chapters _ Hwf), filter_In. unfold cs_at. rewrite Hr, Z.eqb_eq.
  split; [tauto|]. intros Hch. split; [|done].
  apply in_map_iff. exists (r.(id), l). split; [done|].
  apply list_elem_of_In, dict_get_Some. by apply Hwf.
Qed.

Lemma in_get_memories_at_chapter st c r :
  store_wf st ->
  (r ∈ get_memories_at_chapter st c <->
   exists l, deref st l = Some r /\ (1 <= r.(chapter_start) <= c)%Z /\
             r.(is_active) = true /\
             match r.(chapter_end) with None => True | Some e => (c <= e)%Z end).
Proof.
  intros Hwf. unfold get_memories_at_chapter.
  rewrite list_elem_of_In, in_concat.
  assert (Hvis : visible_at c r = true <->
            r.(is_active) = true /\
            match r.(chapter_end) with None => True | Some e => (c <= e)%Z end).
  { unfold visible_at. destruct (chapter_end r); rewrite andb_true_iff, ?Z.leb_le; tauto. }
  split.
  - intros (rs & Hrs & Hin). apply in_map_iff in Hrs as (ch & <- & Hch).
    apply in_py_range in Hch. apply filter_In in Hin as [Hin Hv].
    apply in_omap in Hin as (l & Hl & Hr). exists l.
    apply (in_chapter_list st ch l r Hwf Hr) in Hl. subst. split; [done|]. split; [lia|].
    by apply Hvis.
  - intros (l & Hr & Hch & Hv). eexists. split.
    + apply in_map_iff. exists r.(chapter_start). split; [reflexivity|].
      apply in_py_range. lia.
    + apply filter_In. split; [|by apply Hvis]. apply in_omap. exists l.
      split; [|done]. by apply (in_chapter_list st _ l r Hwf Hr).
Qed.



(** ** The update resolver *)

Lemma find_best_update_candidate_None st m thr :
  find_best_update_candidate st m thr = None <->
  Forall (fun '(_, e) => can_update e m = true -> (get_update_score e m < thr)%Q)
    (all_entries st).
Proof.
  assert (Hfil : find_best_update_candidate st m thr = None <->
    List.filter (fun '(_, s) => Qle_bool thr s)
      (map (fun c => (c, get_update_score c.2 m)) (find_all_candidate_memories st m)) = []).
  { unfold find_best_update_candidate.
    destruct (find_all_candidate_memories st m); [done|].
    destruct (List.filter _ _); [done|]. simpl. done. }
  rewrite Hfil, filter_nil_Forall, Forall_map. unfold find_all_candidate_memories.
  rewrite !Forall_forall. setoid_rewrite list_elem_of_In. setoid_rewrite filter_In.
  split.
  - intros H [l e] Hin Hcu. apply Qnot_le_lt. intros Hle. apply Qle_bool_iff in Hle.
    assert (Hf : Qle_bool thr (get_update_score e m) = false).
    { apply (H (l, e)). split; [done|]. rewrite Hcu, andb_true_r.
      apply can_update_true in Hcu as [-> _]. apply String.eqb_refl. }
    congruence.
  - intros H [l e] [Hin Hok]. apply andb_prop in Hok as [_ Hcu].
    specialize (H (l, e) Hin Hcu). simpl. destruct (Qle_bool thr _) eqn:E; [|done].
    apply Qle_bool_iff in E. lra.
Qed.

(** ** Evolution chains *)

(** The number of objects that started strictly before [r]: it decreases
    along every [supersedes] link. *)
Definition depth (st : SimpleMemoryStore) (r : MemoryUnit) : nat :=
  length (List.filter (fun q => (q.(chapter_start) <? r.(chapter_start))%Z) st.(heap)).

Lemma depth_lt st p r :
  In p st.(heap) -> (p.(chapter_start) < r.(chapter_start))%Z -> depth st p < depth st r.
Proof.
  intros Hp Hlt. apply (filter_length_lt _ _ _ p); [|done| |].
  - intros x Hx. apply Z.ltb_lt in Hx. apply Z.ltb_lt. lia.
  - by apply Z.ltb_lt.
  - apply Z.ltb_ge. lia.
Qed.

Lemma depth_bound st r : In r st.(heap) -> depth st r < length st.(heap).
Proof.
  intros Hr. unfold depth. rewrite <- (List.filter_true st.(heap)) at 2.
  apply (filter_length_lt _ (fun _ => true) _ r); [done|done|done|]. apply Z.ltb_irrefl.
Qed.

Lemma lookup_id_in_heap st i r : lookup_id st i = Some r -> exists l, deref st l = Some r.
Proof. unfold lookup_id. destruct (dict_get i _) as [l|]; simpl; eauto; done. Qed.

Lemma evolution_go_total st fuel cur acc :
  chain_ok st ->
  (forall i m, cur = Some i -> lookup_id st i = Some m -> depth st m + 2 <= fuel) ->
  1 <= fuel -> exists res, evolution_go fuel st cur acc = Some res.
Proof.
  intros Hch. revert cur acc. induction fuel as [|f IH]; intros cur acc Hd Hf; [lia|].
  simpl. destruct cur as [[|c i]|]; eauto.
  destruct (lookup_id st (String c i)) as [m|] eqn:Hm; eauto.
  pose proof (Hd _ m eq_refl Hm) as Hdm. apply IH; [|lia].
  intros j p Hj Hp. destruct (lookup_id_in_heap _ _ _ Hm) as [l Hl].
  destruct (chain_back _ Hch _ _ _ Hl Hj) as (p' & Hp' & Hlt & _).
  rewrite Hp in Hp'. injection Hp' as <-.
  destruct (lookup_id_in_heap _ _ _ Hp) as [lp Hlp].
  pose proof (depth_lt st p m (proj1 (list_elem_of_In _ _) (list_elem_of_lookup_2 _ _ _ Hlp)) Hlt).
  lia.
Qed.

Lemma evolution_go_mono st f f' cur acc res :
  evolution_go f st cur acc = Some res -> f <= f' -> evolution_go f' st cur acc = Some res.
Proof.
  revert f' cur acc. induction f as [|f IH]; intros f' cur acc; [done|].
  destruct f' as [|f']; [lia|]. intros H Hle. simpl in *.
  destruct cur as [[|c i]|]; try done.
  destruct (lookup_id st (String c i)); [|done]. apply IH; [done|lia].
Qed.

(** Consecutive records of an evolution list are linked by [supersedes]
    and strictly ordered by [chapter_start]. *)
Fixpoint linked (l : list MemoryUnit) : Prop :=
  match l with
  | a :: ((b :: _) as t) =>
      b.(supersedes) = Some a.(id) /\ (a.(chapter_start) < b.(chapter_start))%Z /\ linked t
  | _ => True
  end.

Lemma lookup_id_id st i p : store_wf st -> lookup_id st i = Some p -> p.(id) = i.
Proof.
  unfold lookup_id. intros Hwf. destruct (dict_get i _) as [l|] eqn:E; simpl; [|done].
  intros Hp. destruct (wf_ids _ Hwf _ _ E) as (r & Hr & <-). congruence.
Qed.

(** ** Timeline *)

(** C34. [get_memory_timeline key] holds exactly the stored records with
    that canonical key, superseded versions included, ordered by
    [chapter_start]; records of one chapter keep their [all_memories]
    (insertion) order, as Python's stable [list.sort] does. *)
Theorem get_memory_timeline_spec st key :
  get_memory_timeline st key ≡ₚ List.filter (fun m => String.eqb (get_key m) key) (all_values st) /\
  Sorted (fun a b => (a.(chapter_start) <=? b.(chapter_start))%Z = true) (get_memory_timeline st key) /\
  forall c, List.filter (fun m => (m.(chapter_start) =? c)%Z) (get_memory_timeline st key) =
            List.filter (fun m => (m.(chapter_start) =? c)%Z)
              (List.filter (fun m => String.eqb (get_key m) key) (all_values st)).
Proof.
  unfold get_memory_timeline. split_and!.
  - apply sort_by_perm.
  - apply sort_by_sorted. intros a b H. apply Z.leb_gt in H. apply Z.leb_le. lia.
  - intros c. apply sort_by_stable. intros a b Ha Hb.
    apply Z.eqb_eq in Ha, Hb. apply Z.leb_le. lia.
Qed.

(** ** Saving and loading *)

Lemma load_one_extend st m : load_one st m = extend_store st None m st.(uuid_ctr).
Proof. reflexivity. Qed.

Lemma all_values_alt st : all_values st = omap (fun '(_, l) => deref st l) st.(all_memories).
Proof.
  unfold all_values, all_entries. induction (all_memories st) as [|[k l] d IH]; [done|].
  rewrite !omap_cons. destruct (deref st l); simpl; by rewrite IH.
Qed.

Lemma all_values_extend_fresh st m c :
  store_wf st -> dict_get m.(id) st.(all_memories) = None ->
  all_values (extend_store st None m c) = (all_values st ++ [m])%list.
Proof.
  intros Hwf Hfresh. rewrite !all_values_alt. cbn [extend_store all_memories].
  rewrite dict_set_fresh, omap_app_l by done.
  rewrite (omap_cons _ (id m, length (heap st)) []). cbn zeta beta iota.
  rewrite deref_extend, decide_True by done. f_equal.
  apply omap_ext_in. intros [k l] Hin. rewrite deref_extend, decide_False; [done|].
  pose proof (store_wf_loc st k l Hwf (proj2 (list_elem_of_In _ _) Hin)). lia.
Qed.

Lemma all_values_ids st : store_wf st -> map id (all_values st) = map fst st.(all_memories).
Proof.
  intros Hwf. rewrite all_values_alt.
  assert (H : forall k l, In (k, l) st.(all_memories) -> exists r, deref st l = Some r /\ r.(id) = k).
  { intros k l Hin. apply (wf_ids _ Hwf), dict_get_elem; [apply Hwf|by apply list_elem_of_In]. }
  induction (all_memories st) as [|[k l] d IH]; [done|]. rewrite omap_cons.
  destruct (H k l (or_introl eq_refl)) as (r & -> & <-). simpl. f_equal.
  apply IH. intros. apply H. by right.
Qed.

Lemma load_memories_spec vals :
  NoDup (map id vals) -> store_wf (load_memories vals) /\ all_values (load_memories vals) = vals.
Proof.
  induction vals as [|m vals IH] using rev_ind.
  - intros _. split; [apply store_wf_empty|done].
  - rewrite map_app. simpl. intros Hnd. apply NoDup_app in Hnd as (Hnd & Hdis & _).
    destruct (IH Hnd) as [Hwf Hvals]. unfold load_memories. rewrite foldl_app. simpl.
    fold (load_memories vals). rewrite load_one_extend.
    assert (Hfresh : dict_get m.(id) (load_memories vals).(all_memories) = None).
    { apply dict_get_None. rewrite <- all_values_ids, Hvals by done.
      intros Hin. by apply (Hdis _ Hin), list_elem_of_singleton. }
    split; [by apply store_wf_extend|]. rewrite all_values_extend_fresh by done.
    by rewrite Hvals.
Qed.

Lemma get_memories_at_chapter_values st c :
  store_wf st ->
  get_memories_at_chapter st c =
  concat (map (fun ch => List.filter (visible_at c)
                 (List.filter (fun r => (r.(chapter_start) =? ch)%Z) (all_values st)))
              (py_range 1 (c + 1))).
Proof.
  intros Hwf. unfold get_memories_at_chapter. f_equal. apply map_ext. intros ch. f_equal.
  unfold chapter_list. fold (chapter_list st ch). rewrite (wf_chapters _ Hwf).
  rewrite all_values_alt, <- omap_filter. unfold cs_at.
  induction (all_memories st) as [|[k l] d IH]; [done|].
  cbn [map List.filter snd]. cbn beta iota zeta.
  destruct (deref st l) as [r|] eqn:E; [destruct (chapter_start r =? ch)%Z|];
    rewrite ?omap_cons, ?E, IH; done.
Qed.

(** The candidates that [find_best_update_candidate] chooses among, in
    [all_memories] order. *)
Definition admissible_candidates (st : SimpleMemoryStore) (m : MemoryUnit) (thr : Q)
    : list (nat * MemoryUnit) :=
  List.filter (fun '(_, e) => can_update e m && Qle_bool thr (get_update_score e m))
    (all_entries st).

Lemma scored_candidates st m thr :
  let scored := List.filter (fun '(_, s) => Qle_bool thr s)
                  (map (fun c => (c, get_update_score c.2 m)) (find_all_candidate_memories st m)) in
  map fst scored = admissible_candidates st m thr /\
  Forall (fun cs => cs.2 = get_update_score cs.1.2 m) scored.
Proof.
  unfold find_all_candidate_memories, admissible_candidates.
  induction (all_entries st) as [|[l e] d IH]; simpl; [split; [done|constructor]|].
  destruct IH as [IH1 IH2].
  destruct (can_update e m) eqn:Hcu.
  2: { rewrite andb_false_r. simpl. split; [exact IH1|exact IH2]. }
  pose proof Hcu as Hk. apply can_update_true in Hk as [Hk _].
  rewrite Hk, String.eqb_refl. simpl.
  destruct (Qle_bool thr (get_update_score e m)); simpl; [|by split].
  split; [by f_equal|by constructor].
Qed.

(** C31. Tie-breaking of the resolver: among the candidates that reach
    the threshold, [smart_update_or_create] supersedes the first one, in
    [all_memories] (insertion) order, of maximal score: every earlier
    admissible candidate scores strictly less, every later one at most
    as much.  Ties are broken silently by insertion order; the spec asks
    for an [AmbiguousUpdateError]. *)
Theorem find_best_first_max st m thr l p s :
  find_best_update_candidate st m thr = Some ((l, p), s) ->
  s = get_update_score p m /\
  exists pre post, admissible_candidates st m thr = (pre ++ (l, p) :: post)%list /\
    Forall (fun '(_, e) => (get_update_score e m < s)%Q) pre /\
    Forall (fun '(_, e) => (get_update_score e m <= s)%Q) post.
Proof.
  intros Hf. pose proof Hf as Hspec. apply find_best_update_candidate_spec in Hspec as (_ & _ & Hs & _).
  split; [done|]. destruct (scored_candidates st m thr) as [Hmap Hall]. revert Hmap Hall.
  unfold find_best_update_candidate in Hf.
  destruct (find_all_candidate_memories st m) as [|c cs]; [done|].
  set (scored := List.filter _ _) in *. intros Hmap Hall.
  assert (Hsome : py_max_by snd scored = Some (l, p, s)) by (destruct scored; done).
  apply py_max_by_first in Hsome as (pre & post & Hsc & Hpre & Hpost).
  rewrite Hsc in Hall, Hmap. rewrite map_app in Hmap. simpl in Hmap.
  apply Forall_app in Hall as [Hallpre Hallpost]. apply Forall_cons in Hallpost as [_ Hallpost].
  exists (map fst pre), (map fst post). split; [done|].
  split; apply Forall_map.
  - apply (Forall_impl _ _ _ (proj2 (Forall_and _ _) (conj Hpre Hallpre))).
    intros [[l' e'] s'] [Hy Hy']. simpl in *. by rewrite <- Hy'.
  - apply (Forall_impl _ _ _ (proj2 (Forall_and _ _) (conj Hpost Hallpost))).
    intros [[l' e'] s'] [Hy Hy']. simpl in *. by rewrite <- Hy'.
Qed.

Section Proofs.
Variable uuid4 : nat -> string.
Hypothesis uuid4_inj : Inj eq eq uuid4.


Definition ids_fresh (st : SimpleMemoryStore) : Prop :=
  forall l r k, deref st l = Some r -> (st.(uuid_ctr) <= k)%nat -> r.(id) <> uuid4 k.

Lemma add_new_memory_extend st m ch :
  add_new_memory uuid4 st m ch =
  (length st.(heap), extend_store st None (stamp_new m (uuid4 st.(uuid_ctr)) ch) (S st.(uuid_ctr))).
Proof. reflexivity. Qed.

Lemma update_existing_memory_extend st l p m ch reason :
  deref st l = Some p ->
  update_existing_memory uuid4 st l m ch reason =
  (length st.(heap),
   extend_store st (Some (l, close_record p (ch - 1) (uuid4 (S st.(uuid_ctr)))))
     (successor p m (uuid4 (S st.(uuid_ctr))) ch reason) (S (S st.(uuid_ctr)))).
Proof.
  intros Hp. unfold update_existing_memory. rewrite Hp. cbn.
  rewrite !length_insert, list_insert_insert_eq. reflexivity.
Qed.


Lemma fresh_not_indexed st k :
  store_wf st -> ids_fresh st -> (st.(uuid_ctr) <= k)%nat ->
  dict_get (uuid4 k) st.(all_memories) = None.
Proof.
  intros Hwf Hfr Hk. destruct (dict_get (uuid4 k) _) as [l|] eqn:E; [|done].
  destruct (wf_ids _ Hwf _ _ E) as (r & Hr & Hid). by destruct (Hfr l r k Hr Hk).
Qed.

Lemma ids_fresh_extend st w new c :
  ids_fresh st -> write_ok st w -> (forall k, (c <= k)%nat -> new.(id) <> uuid4 k) ->
  (st.(uuid_ctr) <= c)%nat -> ids_fresh (extend_store st w new c).
Proof.
  intros Hfr Hw Hnew Hc l r k. cbn [uuid_ctr extend_store]. rewrite deref_extend.
  case_decide.
  - intros [= <-] Hk. by apply Hnew.
  - intros Hr Hk. destruct (apply_write_to_some st w l r Hw Hr) as (p & Hp & -> & _).
    apply (Hfr l p k Hp). lia.
Qed.

Lemma ids_gen_extend st w new c :
  write_ok st w -> (forall l r, deref st l = Some r -> exists k, r.(id) = uuid4 k) ->
  (exists k, new.(id) = uuid4 k) ->
  forall l r, deref (extend_store st w new c) l = Some r -> exists k, r.(id) = uuid4 k.
Proof.
  intros Hw Hgen Hnew l r. rewrite deref_extend. case_decide; [by intros [= <-]|].
  intros Hr. destruct (apply_write_to_some st w l r Hw Hr) as (p & Hp & -> & _). eauto.
Qed.

(** ** Ingestion: the pipeline's step relation

    [process_chapters_sequentially] (src/generate_memory_sets.py) hands
    each extracted candidate to [smart_update_or_create] with the chapter
    it was extracted from, which is also the candidate's
    [chapter_start]. *)
Inductive ingest : SimpleMemoryStore -> SimpleMemoryStore -> Prop :=
| ingest_step st m chapter thr l a st' :
    fresh_candidate m = true -> m.(chapter_start) = chapter ->
    smart_update_or_create uuid4 st m chapter thr = (l, a, st') -> ingest st st'.

Inductive reachable : SimpleMemoryStore -> Prop :=
| reach_empty : reachable empty_store
| reach_step st st' : reachable st -> ingest st st' -> reachable st'.

Record store_inv (st : SimpleMemoryStore) : Prop := {
  inv_wf : store_wf st;
  inv_chain : chain_ok st;
  inv_fresh : ids_fresh st;
  inv_gen : forall l r, deref st l = Some r -> exists k, r.(id) = uuid4 k
}.

Lemma store_inv_empty : store_inv empty_store.
Proof.
  assert (Hnil : forall l, deref empty_store l = None) by (intros l; apply lookup_nil).
  split; [split|split| |]; cbn -[deref]; intros *; rewrite ?Hnil; try done; constructor.
Qed.

Lemma smart_update_or_create_inv st m ch thr l a st' :
  store_inv st -> fresh_candidate m = true -> m.(chapter_start) = ch ->
  smart_update_or_create uuid4 st m ch thr = (l, a, st') -> store_inv st'.
Proof.
  intros [Hwf Hch Hfr Hgen] Hm Hcs. unfold smart_update_or_create.
  destruct (find_best_update_candidate st m thr) as [[[l0 p] score]|] eqn:Hf.
  - apply find_best_update_candidate_spec in Hf as (Hp & Hcu & _).
    apply can_update_true in Hcu as (_ & Hact & Hlt).
    rewrite (update_existing_memory_extend _ _ p) by done. intros [= <- <- <-].
    assert (Hnew : dict_get (uuid4 (S (uuid_ctr st))) (all_memories st) = None)
      by (apply fresh_not_indexed; auto).
    split.
    + apply store_wf_extend; [done|done|]. by exists p.
    + apply chain_ok_update; auto. lia.
    + apply ids_fresh_extend; [done|by exists p| |lia].
      intros k Hk Heq. apply uuid4_inj in Heq. simpl in Hk. lia.
    + apply ids_gen_extend; [by exists p|done|]. eauto.
  - rewrite add_new_memory_extend. intros [= <- <- <-].
    destruct (fresh_candidate_spec m Hm) as (Hs & Hsb & Ha & _).
    assert (Hnew : dict_get (uuid4 (uuid_ctr st)) (all_memories st) = None)
      by (apply fresh_not_indexed; auto).
    split.
    + by apply store_wf_extend.
    + by apply chain_ok_create.
    + apply ids_fresh_extend; [done|done| |lia].
      intros k Hk Heq. apply uuid4_inj in Heq. simpl in Hk. lia.
    + apply ids_gen_extend; [done|done|]. eauto.
Qed.

Lemma reachable_inv st : reachable st -> store_inv st.
Proof.
  induction 1 as [|st st' _ IH Hstep]; [apply store_inv_empty|].
  destruct Hstep as [st m ch thr l a st' Hm Hcs Hsu].
  by eapply smart_update_or_create_inv.
Qed.

(** C1. Every store reachable from the empty store by the ingestion
    pipeline keeps its indexes consistent with its objects (ids unique,
    every object indexed under its id and under its [chapter_start], in
    insertion order) and keeps a well-formed version chain: a
    [supersedes] link points at an earlier, closed, inactive predecessor
    whose [superseded_by] points back, with [chapter_end] one before the
    successor's start and the version one less; every inactive record has
    a successor. *)
Theorem reachable_store_inv st : reachable st -> store_inv st.
Proof. apply reachable_inv. Qed.

(** C5. Decision rule of [smart_update_or_create]: it creates a new
    record exactly when no stored record admits the candidate as an
    update ([can_update]: same key, active, strictly earlier chapter)
    with a score reaching the threshold; otherwise it supersedes. *)
Theorem smart_update_decision st m ch thr :
  (exists l st', smart_update_or_create uuid4 st m ch thr = (l, CreatedNew, st')) <->
  Forall (fun '(_, e) => can_update e m = true -> (get_update_score e m < thr)%Q)
    (all_entries st).
Proof.
  rewrite <- find_best_update_candidate_None. unfold smart_update_or_create.
  destruct (find_best_update_candidate st m thr) as [[[l0 p] s]|].
  - destruct (update_existing_memory uuid4 st l0 m ch _). split; [|done].
    by intros (? & ? & ?).
  - destruct (add_new_memory uuid4 st m ch). split; [done|intros _; eauto].
Qed.

(** C6. Postconditions of a supersession: when [smart_update_or_create]
    answers [updated_existing], the chosen predecessor is marked inactive
    in place, closed at [chapter - 1] and linked to the new record, which
    is active, open, starts at [chapter], links back, has the next
    version number, carries the candidate's text and confidence, and has
    the predecessor's canonical key. *)
Theorem smart_update_supersede st m ch thr l score st' :
  smart_update_or_create uuid4 st m ch thr = (l, UpdatedExisting score, st') ->
  exists l0 p old new,
    deref st l0 = Some p /\ deref st' l0 = Some old /\ deref st' l = Some new /\
    old.(id) = p.(id) /\ old.(is_active) = false /\
    old.(chapter_end) = Some (ch - 1)%Z /\ old.(superseded_by) = Some new.(id) /\
    new.(supersedes) = Some p.(id) /\ new.(version) = (p.(version) + 1)%Z /\
    new.(chapter_start) = ch /\ new.(is_active) = true /\ new.(chapter_end) = None /\
    new.(fact_text) = m.(fact_text) /\ new.(confidence) = m.(confidence) /\
    get_key new = get_key p.
Proof.
  unfold smart_update_or_create.
  destruct (find_best_update_candidate st m thr) as [[[l0 p] s]|] eqn:Hf.
  2: { destruct (add_new_memory uuid4 st m ch). done. }
  apply find_best_update_candidate_spec in Hf as (Hp & _).
  rewrite (update_existing_memory_extend _ _ p) by done. intros [= <- _ <-].
  pose proof (lookup_lt_Some _ _ _ Hp) as Hl0.
  exists l0, p, (close_record p (ch - 1) (uuid4 (S (uuid_ctr st)))),
    (successor p m (uuid4 (S (uuid_ctr st))) ch (update_reason_of s)).
  rewrite !deref_extend, decide_False, decide_True by lia. simpl.
  rewrite decide_True, Hp by done. split_and!; done.
Qed.

(** On a reachable store the evolution loop has returned after
    [length heap + 1] iterations, and more fuel gives the same result. *)
Lemma evolution_terminates_reachable st i :
  reachable st ->
  exists res, forall fuel, S (length st.(heap)) <= fuel ->
    get_memory_evolution fuel st i = Some res.
Proof.
  intros Hr. destruct (reachable_inv st Hr) as [_ Hch _ _].
  destruct (evolution_go_total st (S (length st.(heap))) (Some i) [] Hch) as [res Hres].
  - intros j m [= <-] Hm. destruct (lookup_id_in_heap _ _ _ Hm) as [l Hl].
    pose proof (depth_bound st m (proj1 (list_elem_of_In _ _) (list_elem_of_lookup_2 _ _ _ Hl))). lia.
  - lia.
  - exists res. intros fuel Hf. by eapply evolution_go_mono.
Qed.

Lemma evolution_go_chain st f h t res :
  store_inv st -> (forall k, uuid4 k <> "") -> (exists l, deref st l = Some h) ->
  linked (h :: t) ->
  evolution_go f st h.(supersedes) (h :: t) = Some res ->
  exists pre, res = (pre ++ h :: t)%list /\ linked res /\
    exists h', head res = Some h' /\ h'.(supersedes) = None.
Proof.
  intros [Hwf Hch _ Hgen] Hne. revert h t. induction f as [|f IH]; intros h t [lh Hh] Hl; [done|].
  simpl. destruct (supersedes h) as [j|] eqn:Hs.
  2: { intros [= <-]. exists []. split; [done|]. split; [done|]. eauto. }
  destruct (chain_back _ Hch _ _ _ Hh Hs) as (p & Hp & Hlt & _).
  pose proof (lookup_id_id _ _ _ Hwf Hp) as <-.
  destruct (lookup_id_in_heap _ _ _ Hp) as [lp Hlp].
  destruct (Hgen _ _ Hlp) as [k Hk].
  assert (Hlink : linked (p :: h :: t)) by (simpl; auto).
  destruct (id p) as [|c i] eqn:Hpid; [by destruct (Hne k)|]. rewrite Hp.
  intros Hres. destruct (IH p (h :: t) ltac:(eauto) Hlink Hres)
    as (pre & -> & Hlr & Hhd).
  exists (pre ++ [p])%list. rewrite <- app_assoc. auto.
Qed.

(** C10. Shape of an evolution chain: on a reachable store (with
    non-empty uuids), the list returned for the id of a stored record
    ends with that record, starts with a record that supersedes nothing,
    and each record is the one superseding its left neighbour, at a
    strictly later chapter: the chain oldest to newest. *)
Theorem get_memory_evolution_chain st i r fuel res :
  (forall k, uuid4 k <> "") -> reachable st -> lookup_id st i = Some r ->
  get_memory_evolution fuel st i = Some res ->
  last res = Some r /\ linked res /\ exists h, head res = Some h /\ h.(supersedes) = None.
Proof.
  intros Hne Hr Hi. pose proof (reachable_inv st Hr) as Hinv.
  pose proof (lookup_id_id _ _ _ (inv_wf _ Hinv) Hi) as <-.
  destruct (lookup_id_in_heap _ _ _ Hi) as [l Hl].
  destruct fuel as [|f]; [done|]. unfold get_memory_evolution. simpl.
  destruct (inv_gen _ Hinv _ _ Hl) as [k Hk].
  destruct (id r) as [|c i] eqn:Hrid; [by destruct (Hne k)|]. rewrite Hi.
  intros Hres. destruct (evolution_go_chain st f r [] res Hinv Hne ltac:(eauto) I Hres)
    as (pre & -> & Hlk & Hhd).
  split; [|done]. by rewrite last_app.
Qed.

(** Superseded history is lost to point-in-time queries: on a
    reachable store an inactive record has a non-empty validity window
    [chapter_start .. chapter_end], yet it is returned at no chapter at
    all, not even inside that window, because [get_memories_at_chapter]
    filters on [is_active] before it looks at [chapter_end]. *)
Lemma superseded_never_visible st l r :
  reachable st -> deref st l = Some r -> r.(is_active) = false ->
  (exists e, r.(chapter_end) = Some e /\ (r.(chapter_start) <= e)%Z) /\
  forall c, r ∉ get_memories_at_chapter st c.
Proof.
  intros Hreach Hr Hact. destruct (reachable_inv st Hreach) as [Hwf Hch _ _].
  split.
  - destruct (superseded_by r) as [j|] eqn:Hsb; [|by destruct (chain_inactive _ Hch _ _ Hr Hact)].
    destruct (chain_fwd _ Hch _ _ _ Hr Hsb) as (s & Hs & Hss).
    destruct (lookup_id_in_heap _ _ _ Hs) as [ls Hls].
    destruct (chain_back _ Hch _ _ _ Hls Hss) as (p & Hp & Hlt & _ & _ & Hend & _).
    rewrite (lookup_id_of_deref _ _ _ Hwf Hr) in Hp. injection Hp as <-.
    eexists. split; [done|lia].
  - intros c Hin. apply in_get_memories_at_chapter in Hin as (l' & _ & _ & Ha & _); [|done].
    congruence.
Qed.

End Proofs.

(** ** A concrete run

    The spec's example: an affair between byleth and dimitri extracted
    in chapter 3 and again, with more confidence, in chapter 10. *)
Fixpoint marks (n : nat) : string :=
  match n with O => "" | S n => String "x" (marks n) end.

Definition test_uuid (n : nat) : string := String "u" (marks n).

Lemma test_uuid_inj : Inj eq eq test_uuid.
Proof.
  intros n. unfold test_uuid. induction n as [|n IH]; intros [|k] H; simpl in *; try done.
  injection H as H. f_equal. apply IH. by rewrite H.
Qed.

Definition affair_ch3 : MemoryUnit :=
  default_memory "e1" "IC" ["dimitri"; "byleth"] "relationship_status" "started_affair"
    "Byleth and Dimitri start an affair" 3 (mkProvenance 3 "synopsis" "t3").

Definition affair_ch10 : MemoryUnit :=
  {| id := "e2"; mem_type := "IC"; subjects := ["byleth"; "dimitri"];
     predicate := "relationship_status"; object := "started_affair";
     fact_text := "Byleth and Dimitri continue their affair"; chapter_start := 10;
     chapter_end := None; visibility := "shared"; confidence := 1; is_active := true;
     provenance := mkProvenance 10 "synopsis" "t10"; version := 1; supersedes := None;
     superseded_by := None; update_reason := None; update_confidence := None;
     embedding := None; attrs := [] |}.

Definition store_of (r : nat * Action * SimpleMemoryStore) : SimpleMemoryStore :=
  let '(_, _, st) := r in st.

Definition store_ch3 : SimpleMemoryStore :=
  store_of (smart_update_or_create test_uuid empty_store affair_ch3 3 default_update_threshold).

Definition store_ch10 : SimpleMemoryStore :=
  store_of (smart_update_or_create test_uuid store_ch3 affair_ch10 10 default_update_threshold).

Lemma store_ch10_reachable : reachable test_uuid store_ch10.
Proof.
  apply (reach_step _ store_ch3).
  - apply (reach_step _ empty_store); [constructor|].
    eapply (ingest_step _ _ affair_ch3 3 default_update_threshold);
      [vm_compute; reflexivity|reflexivity|vm_compute; reflexivity].
  - eapply (ingest_step _ _ affair_ch10 10 default_update_threshold);
      [vm_compute; reflexivity|reflexivity|vm_compute; reflexivity].
Qed.

Lemma store_ch10_wf : store_wf store_ch10.
Proof.
  apply (inv_wf test_uuid), reachable_inv; [apply test_uuid_inj|apply store_ch10_reachable].
Qed.

Lemma reachable_store_inv_witness :
  reachable test_uuid store_ch10 /\ store_inv test_uuid store_ch10.
Proof.
  split; [apply store_ch10_reachable|].
  apply reachable_store_inv; [apply test_uuid_inj|apply store_ch10_reachable].
Defined.


(** C7. [get_memories_at_chapter c] returns exactly the objects of the
    store that started in a chapter between 1 and [c], are active, and
    whose [chapter_end] is unset or at least [c]: it aggregates every
    earlier chapter, never returns a record from a later chapter, and
    never returns one that ended before [c].  Records starting at a
    chapter below 1 are never returned.  So superseded history is lost to
    point-in-time queries: on a reachable store an inactive record has a
    non-empty validity window [chapter_start .. chapter_end], yet it is
    returned at no chapter at all, not even inside that window, because
    the filter tests [is_active] before it looks at [chapter_end]. *)
Theorem get_memories_at_chapter_spec :
  (forall st c r,
     store_wf st ->
     (r ∈ get_memories_at_chapter st c <->
      exists l, deref st l = Some r /\ (1 <= r.(chapter_start) <= c)%Z /\
                r.(is_active) = true /\
                match r.(chapter_end) with None => True | Some e => (c <= e)%Z end)) /\
  (forall uuid4, Inj eq eq uuid4 -> forall st l r,
     reachable uuid4 st -> deref st l = Some r -> r.(is_active) = false ->
     (exists e, r.(chapter_end) = Some e /\ (r.(chapter_start) <= e)%Z) /\
     forall c, r ∉ get_memories_at_chapter st c).
Proof.
  split; [intros st c r; apply in_get_memories_at_chapter|exact superseded_never_visible].
Qed.

Lemma get_memories_at_chapter_spec_witness :
  (forall r, r ∈ get_memories_at_chapter store_ch10 12 <->
   exists l, deref store_ch10 l = Some r /\ (1 <= r.(chapter_start) <= 12)%Z /\
             r.(is_active) = true /\
             match r.(chapter_end) with None => True | Some e => (12 <= e)%Z end) /\
  exists r, deref store_ch10 0 = Some r /\ r.(is_active) = false /\
  ((exists e, r.(chapter_end) = Some e /\ (r.(chapter_start) <= e)%Z) /\
   forall c, r ∉ get_memories_at_chapter store_ch10 c).
Proof.
  split.
  - intros r. apply (proj1 get_memories_at_chapter_spec).
    apply (inv_wf test_uuid), reachable_inv; [apply test_uuid_inj|apply store_ch10_reachable].
  - eexists. split; [vm_compute; reflexivity|]. split; [reflexivity|].
    eapply (proj2 get_memories_at_chapter_spec test_uuid test_uuid_inj store_ch10 0);
      [apply store_ch10_reachable|vm_compute; reflexivity|reflexivity].
Defined.

Lemma test_uuid_nonempty k : test_uuid k <> "".
Proof. discriminate. Qed.

Lemma smart_update_supersede_witness :
  exists l score,
    smart_update_or_create test_uuid store_ch3 affair_ch10 10 default_update_threshold =
      (l, UpdatedExisting score, store_ch10) /\
    exists l0 p old new,
      deref store_ch3 l0 = Some p /\ deref store_ch10 l0 = Some old /\
      deref store_ch10 l = Some new /\
      old.(id) = p.(id) /\ old.(is_active) = false /\
      old.(chapter_end) = Some (10 - 1)%Z /\ old.(superseded_by) = Some new.(id) /\
      new.(supersedes) = Some p.(id) /\ new.(version) = (p.(version) + 1)%Z /\
      new.(chapter_start) = 10%Z /\ new.(is_active) = true /\ new.(chapter_end) = None /\
      new.(fact_text) = affair_ch10.(fact_text) /\
      new.(confidence) = affair_ch10.(confidence) /\ get_key new = get_key p.
Proof.
  eexists _, _. split; [vm_compute; reflexivity|].
  eapply (smart_update_supersede test_uuid _ _ _ default_update_threshold).
  vm_compute. reflexivity.
Defined.

(** The spec's two-hop example: the evolution of the chapter-10 record
    is [chapter-3 record; chapter-10 record]. *)
Lemma get_memory_evolution_chain_witness :
  exists r res,
    lookup_id store_ch10 "uxx" = Some r /\
    get_memory_evolution 3 store_ch10 "uxx" = Some res /\
    map chapter_start res = [3; 10]%Z /\
    (last res = Some r /\ linked res /\ exists h, head res = Some h /\ h.(supersedes) = None).
Proof.
  eexists _, _. split; [vm_compute; reflexivity|]. split; [vm_compute; reflexivity|].
  split; [vm_compute; reflexivity|].
  eapply (get_memory_evolution_chain test_uuid test_uuid_inj store_ch10 "uxx" _ 3);
    [apply test_uuid_nonempty|apply store_ch10_reachable|vm_compute; reflexivity|
     vm_compute; reflexivity].
Defined.


(** ** Stores loaded from a file *)

Definition with_supersedes (m : MemoryUnit) (s : option string) : MemoryUnit :=
  {| id := m.(id); mem_type := m.(mem_type); subjects := m.(subjects);
     predicate := m.(predicate); object := m.(object); fact_text := m.(fact_text);
     chapter_start := m.(chapter_start); chapter_end := m.(chapter_end);
     visibility := m.(visibility); confidence := m.(confidence); is_active := m.(is_active);
     provenance := m.(provenance); version := m.(version); supersedes := s;
     superseded_by := m.(superseded_by); update_reason := m.(update_reason);
     update_confidence := m.(update_confidence); embedding := m.(embedding);
     attrs := m.(attrs) |}.

Definition memo_a : MemoryUnit :=
  with_supersedes (default_memory "a" "WM" ["world"] "alert" "company_memo"
    "A memo circulates" 1 prov0) (Some "b").

Definition memo_b : MemoryUnit :=
  with_supersedes (default_memory "b" "WM" ["world"] "alert" "company_memo"
    "The memo is discussed" 2 prov0) (Some "a").

Definition cyclic_store : SimpleMemoryStore := load_memories [memo_a; memo_b].

(** C9. [get_memory_evolution] terminates on every reachable store: the
    [while current_id:] loop runs at most once per stored object plus
    once, so with [length heap + 1] iterations of fuel it has returned,
    and more fuel gives the same result.  It does not terminate on a
    store loaded from a file whose [supersedes] links form a cycle: the
    loop keeps no set of visited ids, so for every amount of fuel it is
    still running.  The spec asks for a [ChainCycleError]. *)
Theorem get_memory_evolution_terminates :
  (forall uuid4, Inj eq eq uuid4 ->
   forall st i, reachable uuid4 st ->
   exists res, forall fuel, S (length st.(heap)) <= fuel ->
     get_memory_evolution fuel st i = Some res) /\
  (forall fuel, get_memory_evolution fuel cyclic_store "a" = None).
Proof.
  split; [intros uuid4 Hinj st i; apply (evolution_terminates_reachable uuid4 Hinj)|].
  intros fuel.
  assert (Ha : lookup_id cyclic_store "a" = Some memo_a) by (vm_compute; reflexivity).
  assert (Hb : lookup_id cyclic_store "b" = Some memo_b) by (vm_compute; reflexivity).
  unfold get_memory_evolution. generalize (@nil MemoryUnit) as acc.
  enough (H : forall acc, evolution_go fuel cyclic_store (Some "a") acc = None /\
                          evolution_go fuel cyclic_store (Some "b") acc = None) by apply H.
  induction fuel as [|f IH]; intros acc; [done|].
  cbn [evolution_go]. rewrite Ha, Hb. split; apply IH.
Qed.

Lemma get_memory_evolution_terminates_witness :
  reachable test_uuid store_ch10 /\
  exists res, forall fuel, 3 <= fuel -> get_memory_evolution fuel store_ch10 "uxx" = Some res.
Proof.
  split; [apply store_ch10_reachable|].
  apply (proj1 get_memory_evolution_terminates test_uuid test_uuid_inj store_ch10 "uxx"),
    store_ch10_reachable.
Defined.

Definition memo_c : MemoryUnit :=
  default_memory "d" "WM" ["world"] "alert" "virus_warning" "A virus warning circulates"
    2 prov0.

Definition memo_d : MemoryUnit :=
  default_memory "d" "WM" ["world"] "alert" "health_alert_circulated"
    "A health alert circulates" 2 prov0.

(** C32. Round trip through the file: saving a well-formed store and
    loading the saved lines back gives a store whose point-in-time
    answers are the same at every chapter and which saves the same
    lines.  Loading two lines with the same id raises no error, though:
    the second record replaces the first in [all_memories], but both stay
    in the chapter index, so the first is still returned by point-in-time
    queries while it is no longer counted, no longer saved, and no longer
    seen by the consistency checks.  The spec asks for a
    [DuplicateIdError]. *)
Theorem save_load_roundtrip :
  (forall st c,
     store_wf st ->
     get_memories_at_chapter (load_memories (save_memories st)) c = get_memories_at_chapter st c /\
     save_memories (load_memories (save_memories st)) = save_memories st) /\
  (let st := load_memories [memo_c; memo_d] in
   get_total_memories st = 1%nat /\ save_memories st = [memo_d] /\
   get_memories_at_chapter st 2 = [memo_c; memo_d]).
Proof.
  split; [|vm_compute; split; [reflexivity|]; split; reflexivity].
  intros st c Hwf.
  unfold save_memories.
  assert (Hnd : NoDup (map id (all_values st))) by (rewrite all_values_ids; apply Hwf || done).
  destruct (load_memories_spec _ Hnd) as [Hwf' Hvals].
  split; [|done]. rewrite !get_memories_at_chapter_values by done. by rewrite Hvals.
Qed.

Lemma save_load_roundtrip_witness :
  store_wf store_ch10 /\
  (get_memories_at_chapter (load_memories (save_memories store_ch10)) 10 =
     get_memories_at_chapter store_ch10 10 /\
   save_memories (load_memories (save_memories store_ch10)) = save_memories store_ch10).
Proof.
  assert (Hwf : store_wf store_ch10)
    by (apply (inv_wf test_uuid), reachable_inv;
        [apply test_uuid_inj|apply store_ch10_reachable]).
  split; [exact Hwf|]. by apply (proj1 save_load_roundtrip).
Defined.

Definition affair_ch8 : MemoryUnit :=
  {| id := "e3"; mem_type := "IC"; subjects := ["byleth"; "dimitri"];
     predicate := "relationship_status"; object := "started_affair";
     fact_text := "The affair goes on"; chapter_start := 8;
     chapter_end := None; visibility := "shared"; confidence := 1; is_active := true;
     provenance := mkProvenance 8 "synopsis" "t8"; version := 1; supersedes := None;
     superseded_by := None; update_reason := None; update_confidence := None;
     embedding := None; attrs := [] |}.

(** [smart_update_or_create] scores the candidate with its own
    [chapter_start] but dates the update with its [chapter] argument;
    when the two differ it can close a record before it started and give
    the successor an earlier chapter than its predecessor. *)
Theorem chapter_argument_mismatch :
  let r := smart_update_or_create test_uuid store_ch3 affair_ch8 2 default_update_threshold in
  exists score old new,
    r.1.2 = UpdatedExisting score /\
    lookup_id (store_of r) "u" = Some old /\ lookup_id (store_of r) "uxx" = Some new /\
    old.(chapter_start) = 3%Z /\ old.(chapter_end) = Some 1%Z /\
    new.(supersedes) = Some "u" /\ new.(chapter_start) = 2%Z.
Proof.
  eexists _, _, _. vm_compute. split_and!; reflexivity.
Qed.

(** Two equally old, equally confident records of one fact slot: the
    candidate scores the same against both. *)
Definition tie_store : SimpleMemoryStore :=
  load_memories
    [default_memory "t1" "IC" ["annette"; "sylvain"] "contact" "exchanged_numbers"
       "Annette and Sylvain exchange numbers" 1 prov0;
     default_memory "t2" "IC" ["sylvain"; "annette"] "contact" "exchanged_numbers"
       "Sylvain and Annette swap numbers" 1 prov0].

Definition tie_candidate : MemoryUnit :=
  {| id := "t3"; mem_type := "IC"; subjects := ["annette"; "sylvain"];
     predicate := "contact"; object := "exchanged_numbers";
     fact_text := "They text each other"; chapter_start := 9; chapter_end := None;
     visibility := "shared"; confidence := 1; is_active := true;
     provenance := mkProvenance 9 "synopsis" "t9"; version := 1; supersedes := None;
     superseded_by := None; update_reason := None; update_confidence := None;
     embedding := None; attrs := [] |}.

Lemma find_best_first_max_witness :
  exists p s,
    find_best_update_candidate tie_store tie_candidate default_update_threshold =
      Some ((0%nat, p), s) /\ p.(id) = "t1" /\
    (s = get_update_score p tie_candidate /\
     exists pre post,
       admissible_candidates tie_store tie_candidate default_update_threshold =
         (pre ++ (0%nat, p) :: post)%list /\
       Forall (fun '(_, e) => (get_update_score e tie_candidate < s)%Q) pre /\
       Forall (fun '(_, e) => (get_update_score e tie_candidate <= s)%Q) post).
Proof.
  eexists _, _. split; [vm_compute; reflexivity|]. split; [reflexivity|].
  apply find_best_first_max. vm_compute. reflexivity.
Defined.
