(* ===== verification/Consistency.v ===== *)
(** * Consistency: the four invariant scans of src/eval/consistency_eval.py

    [check_time_overlap_conflicts], [check_world_future_leaks],
    [check_crosstalk_violations] and [check_symmetry_violations] read a
    [SimpleMemoryStore] snapshot ([all_memories.values()], i.e.
    [all_values]) and return lists of violation dicts; each dict becomes a
    record with the same fields, except the formatted ["description"]
    string, which is derived from the other fields.  [x in s] on strings
    is [py_in], [s.lower()] is [py_lower].  The symmetry scan can raise
    [ValueError] (tuple unpacking of [rel_key.split("::")]): its result is
    an [option], [None] standing for the exception. *)

From S2P Require Import Prelude MemoryUnit MemoryStore.

Local Open Scope py_scope.

(** ** Time-overlap conflicts *)

Record OverlapConflict := mkOverlapConflict {
  oc_memory1_id : string;
  oc_memory2_id : string;
  oc_canonical_key : string;
  oc_memory1_chapter : Z;
  oc_memory2_chapter : Z;
  oc_memory1_fact : string;
  oc_memory2_fact : string
}.

Definition overlap_record (m1 m2 : MemoryUnit) : OverlapConflict :=
  mkOverlapConflict m1.(id) m2.(id) (get_key m1) m1.(chapter_start) m2.(chapter_start)
    m1.(fact_text) m2.(fact_text).

(** The body of the inner loop for the pair [(memory1, memory2)]. *)
Definition overlap_of (m1 m2 : MemoryUnit) : option OverlapConflict :=
  if String.eqb (get_key m1) (get_key m2) then
    if negb (m1.(chapter_start) =? m2.(chapter_start))%Z then
      if m1.(is_active) && m2.(is_active) then Some (overlap_record m1 m2) else None
    else None
  else None.

Definition check_time_overlap_conflicts (st : SimpleMemoryStore) : list OverlapConflict :=
  omap (fun '(m1, m2) => overlap_of m1 m2) (py_pairs (all_values st)).

(** ** World future leaks *)

Definition future_indicators : list string :=
  ["will"; "going to"; "plan to"; "intend to"; "future"; "upcoming";
   "next week"; "next month"; "next year"; "tomorrow"; "later"].

Record FutureLeak := mkFutureLeak {
  fl_memory_id : string;
  fl_canonical_key : string;
  fl_chapter : Z;
  fl_fact_text : string;
  fl_future_indicator : string
}.

(** The first indicator found in the lowered text: the loop [break]s
    after the first hit. *)
Definition leak_of (m : MemoryUnit) : option FutureLeak :=
  if String.eqb m.(mem_type) "WM" && m.(is_active) then
    (fun ind => mkFutureLeak m.(id) (get_key m) m.(chapter_start) m.(fact_text) ind)
      <$> List.find (fun ind => ind ∈ₛ py_lower m.(fact_text)) future_indicators
  else None.

Definition check_world_future_leaks (st : SimpleMemoryStore) : list FutureLeak :=
  omap leak_of (all_values st).

(** ** Crosstalk violations *)

(** [character_knowledge]: subject -> chapter -> records, both dicts in
    insertion order. *)
Definition Knowledge := list (string * list (Z * list MemoryUnit)).

(** [character_knowledge[subject][chapter].append(memory)], creating the
    missing inner dict and list first. *)
Definition ck_add (ck : Knowledge) (subject : string) (m : MemoryUnit) : Knowledge :=
  let inner := default [] (dict_get subject ck) in
  let lst := default [] (dict_get m.(chapter_start) inner) in
  dict_set subject (dict_set m.(chapter_start) (lst ++ [m])%list inner) ck.

Definition ck_subject (m : MemoryUnit) (ck : Knowledge) (subject : string) : Knowledge :=
  if negb (String.eqb subject "world") && negb (String.eqb subject "user_123")
  then ck_add ck subject m else ck.

Definition ck_memory (ck : Knowledge) (m : MemoryUnit) : Knowledge :=
  if m.(is_active) then foldl (ck_subject m) ck m.(subjects) else ck.

Definition character_knowledge (st : SimpleMemoryStore) : Knowledge :=
  foldl ck_memory [] (all_values st).

Record CrosstalkViolation := mkCrosstalkViolation {
  cv_memory_id : string;
  cv_character : string;
  cv_chapter : Z;
  cv_referenced_character : string;
  cv_referenced_chapter : Z;
  cv_fact_text : string
}.

(** The loops over [other_char, other_chapters] for one [memory] of
    [character] at [chapter]: one violation per future private (C2U)
    record of a character whose lowered name occurs in the text. *)
Definition crosstalk_of (ck : Knowledge) (character : string) (chapter : Z)
    (m : MemoryUnit) : list CrosstalkViolation :=
  let fact_lower := py_lower m.(fact_text) in
  flat_map (fun '(other_char, other_chapters) =>
    if negb (String.eqb other_char character) then
      flat_map (fun '(other_chapter, other_memories) =>
        if (chapter <? other_chapter)%Z then
          flat_map (fun other_memory =>
            if String.eqb other_memory.(mem_type) "C2U" then
              if py_lower other_char ∈ₛ fact_lower then
                [mkCrosstalkViolation m.(id) character chapter other_char other_chapter
                   m.(fact_text)]
              else []
            else []) other_memories
        else []) other_chapters
    else []) ck.

(** [for chapter in sorted(chapters.keys())]; the set [known_facts] the
    source builds here is never read, and is left out. *)
Definition check_crosstalk_violations (st : SimpleMemoryStore) : list CrosstalkViolation :=
  let ck := character_knowledge st in
  flat_map (fun '(character, chapters) =>
    flat_map (fun chapter =>
      flat_map (crosstalk_of ck character chapter)
        (default [] (dict_get chapter chapters)))
      (sort_by Z.leb (map fst chapters))) ck.

(** ** Symmetry violations *)

Definition asymmetric_indicators : list string :=
  ["likes"; "hates"; "loves"; "dislikes"; "admires"; "despises";
   "trusts"; "distrusts"; "respects"; "disrespects"].

(** [f"{a}::{b}"]. *)
Definition join2 (a b : string) : string := (a ++ "::" ++ b)%string.

(** [relationships]: [f"{char1}::{char2}"] of the sorted pair -> records. *)
Definition rel_add (rel : list (string * list MemoryUnit)) (m : MemoryUnit)
    : list (string * list MemoryUnit) :=
  if String.eqb m.(mem_type) "IC" && m.(is_active) && (length m.(subjects) =? 2)%nat then
    match sorted_subjects m.(subjects) with
    | [char1; char2] =>
        let rel_key := join2 char1 char2 in
        dict_set rel_key (default [] (dict_get rel_key rel) ++ [m])%list rel
    | _ => rel
    end
  else rel.

Definition relationships (st : SimpleMemoryStore) : list (string * list MemoryUnit) :=
  foldl rel_add [] (all_values st).

Record SymmetryViolation := mkSymmetryViolation {
  sv_memory_id : string;
  sv_relationship_key : string;
  sv_character1 : string;
  sv_character2 : string;
  sv_fact_text : string;
  sv_asymmetric_indicator : string
}.

(** One group [(rel_key, memories)]: [None] is the [ValueError] raised when
    [rel_key.split("::")] does not give exactly two pieces. *)
Definition symmetry_of (rel : list (string * list MemoryUnit))
    (group : string * list MemoryUnit) : option (list SymmetryViolation) :=
  let '(rel_key, memories) := group in
  match memories with
  | [m] =>
      match List.find (fun ind => ind ∈ₛ py_lower m.(fact_text)) asymmetric_indicators with
      | None => Some []
      | Some ind =>
          match py_split2 ":" ":" rel_key with
          | [char1; char2] =>
              if negb (dict_in (join2 char2 char1) rel) then
                Some [mkSymmetryViolation m.(id) rel_key char1 char2 m.(fact_text) ind]
              else Some []
          | _ => None
          end
      end
  | _ => Some []
  end.

Definition check_symmetry_violations (st : SimpleMemoryStore)
    : option (list SymmetryViolation) :=
  let rel := relationships st in
  (fun vs => List.concat vs) <$> mapM (symmetry_of rel) rel.

(** ** The run *)

Record ConsistencyResults := mkConsistencyResults {
  time_overlap_conflicts : list OverlapConflict;
  world_future_leaks : list FutureLeak;
  crosstalk_violations : list CrosstalkViolation;
  symmetry_violations : list SymmetryViolation;
  total_conflicts : nat
}.

(** [run_consistency_eval] without the printing and the JSON dump; the
    four checks run in the source's order and the exception of the last
    one aborts the run. *)
Definition run_consistency_eval (st : SimpleMemoryStore) : option ConsistencyResults :=
  let t := check_time_overlap_conflicts st in
  let w := check_world_future_leaks st in
  let c := check_crosstalk_violations st in
  s ← check_symmetry_violations st;
  Some (mkConsistencyResults t w c s (length t + length w + length c + length s)).

(** ** Reference for the symmetry scan

    What [check_symmetry_violations] computes when no paired name holds
    a [':']: a group with a single record whose text holds an asymmetric
    term is reported unless its two characters are equal, with the
    characters taken from the record's sorted subjects. *)

Definition rel_guard (m : MemoryUnit) : bool :=
  String.eqb m.(mem_type) "IC" && m.(is_active) && (length m.(subjects) =? 2)%nat.

(** No subject of an active two-subject IC record holds a [':']. *)
Definition pair_names_plain (st : SimpleMemoryStore) : bool :=
  forallb (fun m => negb (rel_guard m) || forallb (str_free ":") m.(subjects)) (all_values st).

Definition symmetry_ref_of (group : string * list MemoryUnit) : list SymmetryViolation :=
  let '(rel_key, memories) := group in
  match memories with
  | [m] =>
      match List.find (fun ind => ind ∈ₛ py_lower m.(fact_text)) asymmetric_indicators with
      | None => []
      | Some ind =>
          match sorted_subjects m.(subjects) with
          | [char1; char2] =>
              if String.eqb char1 char2 then []
              else [mkSymmetryViolation m.(id) rel_key char1 char2 m.(fact_text) ind]
          | _ => []
          end
      end
  | _ => []
  end.

(** ** Time-overlap conflicts: theorems *)

Lemma overlap_of_Some m1 m2 c :
  overlap_of m1 m2 = Some c <->
  get_key m1 = get_key m2 /\ m1.(chapter_start) <> m2.(chapter_start) /\
  m1.(is_active) = true /\ m2.(is_active) = true /\ c = overlap_record m1 m2.
Proof.
  unfold overlap_of.
  destruct (String.eqb_spec (get_key m1) (get_key m2)),
    (Z.eqb_spec (chapter_start m1) (chapter_start m2)), (is_active m1), (is_active m2);
    simpl; intuition congruence.
Qed.

(** ** World future leaks: theorems *)

Definition leaks_future (m : MemoryUnit) : bool :=
  String.eqb m.(mem_type) "WM" && m.(is_active) &&
  existsb (fun ind => ind ∈ₛ py_lower m.(fact_text)) future_indicators.

Lemma leak_of_spec m :
  match leak_of m with
  | Some lk => leaks_future m = true /\ fl_memory_id lk = m.(id)
  | None => leaks_future m = false
  end.
Proof.
  unfold leak_of, leaks_future. rewrite find_existsb.
  destruct (_ && _); [|done]. by destruct (List.find _ _).
Qed.

(** ** Examples on stores built by the resolver *)

(** The affair restated in chapter 7 with the same confidence: the score
    0.9 * 0.3 + 0.2 = 0.47 is under the threshold, so a second active
    record is created. *)
Definition affair_ch7 : MemoryUnit :=
  default_memory "e3" "IC" ["byleth"; "dimitri"] "relationship_status" "started_affair"
    "Dimitri and Byleth are still having an affair" 7 (mkProvenance 7 "synopsis" "t7").

Definition store_ch7 : SimpleMemoryStore :=
  store_of (smart_update_or_create test_uuid store_ch3 affair_ch7 7 default_update_threshold).

(** The same candidate resolved twice in chapter 3. *)
Definition store_dup3 : SimpleMemoryStore :=
  store_of (smart_update_or_create test_uuid store_ch3 affair_ch3 3 default_update_threshold).

Lemma ingest_test_step st m :
  fresh_candidate m = true ->
  ingest test_uuid st (store_of (smart_update_or_create test_uuid st m m.(chapter_start)
                                    default_update_threshold)).
Proof.
  intros Hf. unfold store_of.
  destruct (smart_update_or_create _ _ _ _ _) as [[l a] st'] eqn:E.
  by eapply ingest_step.
Qed.

Lemma store_ch3_reachable : reachable test_uuid store_ch3.
Proof. econstructor; [constructor|]. apply ingest_test_step. by vm_compute. Qed.

(** The spec's examples on stores the resolver builds: a restatement
    of the affair in chapter 7 that is not confident enough to supersede
    leaves two active records of the key at chapters 3 and 7, which the
    scan reports once; after the chapter-10 supersede the older record is
    inactive and nothing is reported. *)
Theorem time_overlap_examples :
  reachable test_uuid store_ch7 /\
  map (fun c => (oc_canonical_key c, oc_memory1_chapter c, oc_memory2_chapter c))
    (check_time_overlap_conflicts store_ch7) =
    [("byleth::dimitri::relationship_status::started_affair", 3%Z, 7%Z)] /\
  reachable test_uuid store_ch10 /\ check_time_overlap_conflicts store_ch10 = [].
Proof.
  split_and!.
  - econstructor; [apply store_ch3_reachable|]. apply ingest_test_step. by vm_compute.
  - by vm_compute.
  - apply store_ch10_reachable.
  - by vm_compute.
Qed.

(** World records of chapter 2 with the given text. *)
Definition world_fact (i text : string) : MemoryUnit :=
  default_memory i "WM" ["world"] "announcement" "layoffs" text 2 prov0.

(** [check_world_future_leaks] reports each active world record whose
    lowered text contains a futurity marker exactly once, in store order,
    and the marker it reports is the first marker of the lexicon found in
    the text.  On the spec's examples, "The company will announce layoffs
    next month" is reported once, with the first marker "will", and "The
    company announced layoffs." is not reported; but since markers are
    matched as substrings, not words, past-tense facts mentioning a willow
    or collateral damage are reported too. *)
Lemma check_world_future_leaks_spec st :
  (map fl_memory_id (check_world_future_leaks st) =
    map id (List.filter leaks_future (all_values st)) /\
  Forall (fun lk => exists pre post,
            future_indicators = (pre ++ fl_future_indicator lk :: post)%list /\
            (fl_future_indicator lk ∈ₛ py_lower (fl_fact_text lk)) = true /\
            Forall (fun i => (i ∈ₛ py_lower (fl_fact_text lk)) = false) pre)
    (check_world_future_leaks st)) /\
  map (fun lk => (fl_memory_id lk, fl_future_indicator lk))
    (check_world_future_leaks
       (load_memories [world_fact "w1" "The company will announce layoffs next month";
                       world_fact "w2" "The company announced layoffs.";
                       world_fact "w3" "Workers sheltered under the willow";
                       world_fact "w4" "The raid caused collateral damage"])) =
    [("w1", "will"); ("w3", "will"); ("w4", "later")].
Proof.
  split; [|by vm_compute].
  unfold check_world_future_leaks, leaks_future. split.
  - induction (all_values st) as [|m l IH]; [done|]. rewrite omap_cons. cbn [List.filter].
    pose proof (leak_of_spec m) as Hm. unfold leaks_future in Hm.
    destruct (leak_of m) as [lk|]; [destruct Hm as [Hf Hid]|rewrite Hm; exact IH].
    rewrite Hf. cbn [map]. by rewrite Hid, IH.
  - apply Forall_forall. intros lk Hin%list_elem_of_In. apply in_omap in Hin as (m & _ & Hm).
    unfold leak_of in Hm. destruct (_ && _); [|done].
    destruct (List.find _ _) as [ind|] eqn:E; [|done].
    injection Hm as <-. cbn [fl_future_indicator fl_fact_text]. by apply find_first in E.
Qed.

(** C11. [check_time_overlap_conflicts] reports exactly the pairs of
    records at positions [i < j] of [all_memories] that share a canonical
    key, start at different chapters and are both active, once each, with
    the earlier record first.  So two active records of one key that
    start in the same chapter are not reported: resolving the same
    candidate twice in chapter 3 (no record of an earlier chapter exists,
    so nothing can be updated) stores two active copies, and the scan
    finds no conflict.  [check_world_future_leaks] reports each active
    world record whose lowered text contains a futurity marker exactly
    once, in store order, with the first marker of the lexicon found in
    the text; markers are matched as substrings, so past-tense facts
    mentioning a willow or collateral damage are reported too. *)
Theorem check_time_overlap_conflicts_spec :
  (forall st c,
     In c (check_time_overlap_conflicts st) <->
     exists i j m1 m2, i < j /\ all_values st !! i = Some m1 /\ all_values st !! j = Some m2 /\
       get_key m1 = get_key m2 /\ m1.(chapter_start) <> m2.(chapter_start) /\
       m1.(is_active) = true /\ m2.(is_active) = true /\ c = overlap_record m1 m2) /\
  (reachable test_uuid store_dup3 /\
   map (fun m => (get_key m, m.(chapter_start), m.(is_active))) (all_values store_dup3) =
     [("byleth::dimitri::relationship_status::started_affair", 3%Z, true);
      ("byleth::dimitri::relationship_status::started_affair", 3%Z, true)] /\
   check_time_overlap_conflicts store_dup3 = []) /\
  (forall st,
     (map fl_memory_id (check_world_future_leaks st) =
       map id (List.filter leaks_future (all_values st)) /\
      Forall (fun lk => exists pre post,
                future_indicators = (pre ++ fl_future_indicator lk :: post)%list /\
                (fl_future_indicator lk ∈ₛ py_lower (fl_fact_text lk)) = true /\
                Forall (fun i => (i ∈ₛ py_lower (fl_fact_text lk)) = false) pre)
        (check_world_future_leaks st)) /\
     map (fun lk => (fl_memory_id lk, fl_future_indicator lk))
       (check_world_future_leaks
          (load_memories [world_fact "w1" "The company will announce layoffs next month";
                          world_fact "w2" "The company announced layoffs.";
                          world_fact "w3" "Workers sheltered under the willow";
                          world_fact "w4" "The raid caused collateral damage"])) =
       [("w1", "will"); ("w3", "will"); ("w4", "later")]).
Proof.
  split; [|split; [|exact check_world_future_leaks_spec]].
  2: { split_and!; [|by vm_compute..].
       econstructor; [apply store_ch3_reachable|]. apply ingest_test_step. by vm_compute. }
  intros st c.
  unfold check_time_overlap_conflicts. rewrite in_omap. split.
  - intros ([m1 m2] & Hin & Ho). apply list_elem_of_In, elem_of_py_pairs in Hin
      as (i & j & Hij & Hi & Hj). apply overlap_of_Some in Ho.
    exists i, j, m1, m2. tauto.
  - intros (i & j & m1 & m2 & Hij & Hi & Hj & Ho). exists (m1, m2). split.
    + apply list_elem_of_In, elem_of_py_pairs. eauto.
    + by apply overlap_of_Some.
Qed.

(** ** Symmetry violations: theorems *)

Lemma sorted_pair_le l c1 c2 : sorted_subjects l = [c1; c2] -> String.le c1 c2.
Proof.
  intros H. pose proof (Sorted_merge_sort String.le l) as Hs.
  unfold sorted_subjects in H. rewrite H in Hs. by inversion_clear Hs as [|? ? _ Hhd]; inversion Hhd.
Qed.

Lemma sorted_pair_in l c1 c2 : sorted_subjects l = [c1; c2] -> c1 ∈ l /\ c2 ∈ l.
Proof.
  intros H. pose proof (sorted_subjects_is_perm l) as Hp. rewrite H in Hp.
  split; rewrite <- Hp; set_solver.
Qed.

Lemma join2_eq a b : join2 a b = (a ++ String ":" (String ":" b))%string.
Proof. reflexivity. Qed.

(** Every group of [relationships] is non-empty, and each of its records
    is a stored active two-subject IC record whose sorted subjects give
    the group's key. *)
Definition rel_entry (st : SimpleMemoryStore) (k : string) (m : MemoryUnit) : Prop :=
  In m (all_values st) /\ rel_guard m = true /\
  exists c1 c2, sorted_subjects m.(subjects) = [c1; c2] /\ k = join2 c1 c2.

Lemma relationships_inv st k ms :
  (k, ms) ∈ relationships st -> ms <> [] /\ Forall (rel_entry st k) ms.
Proof.
  revert k ms. unfold relationships.
  apply (foldl_inv _ (fun rel => forall k ms, (k, ms) ∈ rel -> ms <> [] /\ Forall (rel_entry st k) ms)
           (fun m => In m (all_values st))); [set_solver| |by apply List.Forall_forall].
  intros rel m Hrel Hm k ms. unfold rel_add. fold (rel_guard m).
  destruct (rel_guard m) eqn:G; [|apply Hrel].
  destruct (sorted_subjects (subjects m)) as [|c1 [|c2 [|]]] eqn:S; try apply Hrel.
  intros [[= -> ->]|Hin]%elem_of_dict_set; [|by apply Hrel].
  split; [by destruct (default _ _)|]. apply Forall_app. split.
  - destruct (dict_get _ rel) as [old|] eqn:D; [|constructor].
    apply dict_get_Some, Hrel in D. apply D.
  - repeat constructor; eauto.
Qed.

Lemma rel_entry_free st k m :
  pair_names_plain st = true -> rel_entry st k m ->
  exists c1 c2, sorted_subjects m.(subjects) = [c1; c2] /\ k = join2 c1 c2 /\
    str_free ":" c1 = true /\ str_free ":" c2 = true.
Proof.
  intros Hp (Hin & G & c1 & c2 & S & ->). exists c1, c2. split_and!; [done|done|..];
    unfold pair_names_plain in Hp; rewrite forallb_forall in Hp;
    specialize (Hp m Hin); rewrite G in Hp; simpl in Hp; rewrite forallb_forall in Hp;
    apply Hp, list_elem_of_In, (sorted_pair_in _ _ _ S).
Qed.

(** The reverse key [f"{char2}::{char1}"] of a group is a key of
    [relationships] exactly when the two characters are equal. *)
Lemma dict_in_reverse st k m c1 c2 :
  pair_names_plain st = true -> (k, [m]) ∈ relationships st ->
  sorted_subjects m.(subjects) = [c1; c2] -> k = join2 c1 c2 ->
  dict_in (join2 c2 c1) (relationships st) = String.eqb c1 c2.
Proof.
  intros Hp Hk S ->. destruct (String.eqb_spec c1 c2) as [<-|Hne].
  { apply dict_in_spec. eauto. }
  apply not_true_iff_false. intros [ms' Hin]%dict_in_spec.
  destruct (relationships_inv _ _ _ Hin) as [Hne' Hall].
  destruct ms' as [|m' ms']; [done|]. apply Forall_cons in Hall as [He _].
  destruct (rel_entry_free _ _ _ Hp He) as (d1 & d2 & S' & Hj & F1 & F2).
  destruct (relationships_inv _ _ _ Hk) as [_ Hm%Forall_inv].
  destruct (rel_entry_free _ _ _ Hp Hm) as (e1 & e2 & S2 & Hj2 & G1 & G2).
  rewrite S in S2. injection S2 as <- <-.
  pose proof (f_equal (py_split2 ":" ":") Hj) as Hs. rewrite !join2_eq, !py_split2_join in Hs by done.
  injection Hs as -> ->. apply Hne, (anti_symm String.le); [apply (sorted_pair_le _ _ _ S)|].
  apply (sorted_pair_le _ _ _ S').
Qed.

Lemma symmetry_of_ref st g :
  pair_names_plain st = true -> g ∈ relationships st ->
  symmetry_of (relationships st) g = Some (symmetry_ref_of g).
Proof.
  destruct g as [k [|m [|m2 ms]]]; intros Hp Hg; [done| |done]. cbn [symmetry_of symmetry_ref_of].
  destruct (List.find _ _) as [ind|]; [|done].
  destruct (relationships_inv _ _ _ Hg) as [_ Hm%Forall_inv].
  destruct (rel_entry_free _ _ _ Hp Hm) as (c1 & c2 & S & -> & F1 & F2).
  rewrite S, join2_eq, py_split2_join by done. rewrite <- join2_eq.
  by rewrite (dict_in_reverse st _ m c1 c2 Hp Hg S eq_refl); destruct (String.eqb c1 c2).
Qed.

(** Active IC records of chapter 4 between two characters. *)
Definition rel_fact (i : string) (subj : list string) (text : string) : MemoryUnit :=
  default_memory i "IC" subj "relationship" "trust" text 4 prov0.

Definition lone_trust : MemoryUnit :=
  rel_fact "r1" ["sylvain"; "annette"] "Sylvain trusts Annette".

(** The spec's examples: a lone record "Sylvain trusts Annette" is
    reported, with the characters in sorted order; once a record for the
    reverse pair exists nothing is reported (the two records share the
    unordered pair, so the group no longer has a single record). *)
Theorem symmetry_examples :
  map (fun v => (sv_memory_id v, sv_character1 v, sv_character2 v, sv_asymmetric_indicator v))
    <$> check_symmetry_violations (load_memories [lone_trust]) =
    Some [("r1", "annette", "sylvain", "trusts")] /\
  check_symmetry_violations
    (load_memories [lone_trust; rel_fact "r2" ["annette"; "sylvain"] "Annette trusts Sylvain"]) =
    Some [].
Proof. split; by vm_compute. Qed.

(** C35. The reverse-order check of the symmetry scan is dead code: the
    relationship key is built from the sorted subjects, so the reverse key
    [f"{char2}::{char1}"] is present only when the two characters are
    equal.  When no paired name holds a [':'], the scan never raises and
    reports exactly the groups with a single record, an asymmetric term in
    its text and two distinct characters ([symmetry_ref_of]).  A subject
    name holding ["::"] makes the scan raise: [rel_key.split("::")] gives
    three pieces, the unpacking [char1, char2 = ...] fails with
    [ValueError], and the whole consistency run aborts. *)
Theorem symmetry_reverse_check_dead :
  (forall st, pair_names_plain st = true ->
   check_symmetry_violations st = Some (flat_map symmetry_ref_of (relationships st))) /\
  (let m := rel_fact "r3" ["house::blue_lions"; "claude"] "Claude respects House::Blue_Lions" in
   check_symmetry_violations (load_memories [m]) = None /\
   run_consistency_eval (load_memories [m]) = None).
Proof.
  split; [|split; by vm_compute].
  intros st Hp. unfold check_symmetry_violations.
  rewrite (mapM_Some_map _ symmetry_ref_of).
  - simpl. by rewrite flat_map_concat_map.
  - intros g Hg. apply symmetry_of_ref; [done|by apply list_elem_of_In].
Qed.

Lemma symmetry_reverse_check_dead_witness :
  pair_names_plain (load_memories [lone_trust]) = true /\
  check_symmetry_violations (load_memories [lone_trust]) =
    Some (flat_map symmetry_ref_of (relationships (load_memories [lone_trust]))).
Proof.
  assert (Hp : pair_names_plain (load_memories [lone_trust]) = true) by (vm_compute; reflexivity).
  split; [exact Hp|]. apply (proj1 symmetry_reverse_check_dead). exact Hp.
Defined.

(** ** Crosstalk violations: theorems *)

(** [m] is a stored active record of the character [s] (neither
    ["world"] nor ["user_123"]) starting at chapter [ch]: what
    [character_knowledge[s][ch]] holds. *)
Definition knows (st : SimpleMemoryStore) (s : string) (ch : Z) (m : MemoryUnit) : Prop :=
  In m (all_values st) /\ m.(is_active) = true /\ s ∈ m.(subjects) /\
  s <> "world" /\ s <> "user_123" /\ m.(chapter_start) = ch.

Definition knowledge_ok (st : SimpleMemoryStore) (ck : Knowledge) : Prop :=
  forall s chs ch ms m, (s, chs) ∈ ck -> (ch, ms) ∈ chs -> m ∈ ms -> knows st s ch m.

Lemma ck_add_ok st ck s m :
  knowledge_ok st ck -> knows st s m.(chapter_start) m -> knowledge_ok st (ck_add ck s m).
Proof.
  intros Hck Hm s' chs ch ms m'. unfold ck_add.
  intros [[= -> ->]|Hs]%elem_of_dict_set; [|by apply Hck].
  intros [[= -> ->]|Hch]%elem_of_dict_set.
  - intros [Hin|Hm']%elem_of_app; [|by apply list_elem_of_singleton in Hm' as ->].
    destruct (dict_get s ck) as [inner|] eqn:D1; simpl in Hin; [|set_solver].
    destruct (dict_get _ inner) as [lst|] eqn:D2; [|set_solver].
    eapply Hck; [by apply dict_get_Some|by apply dict_get_Some|done].
  - destruct (dict_get s ck) as [inner|] eqn:D1; [|set_solver].
    eapply Hck; [by apply dict_get_Some|done].
Qed.

Lemma character_knowledge_ok st : knowledge_ok st (character_knowledge st).
Proof.
  unfold character_knowledge.
  apply (foldl_inv _ (knowledge_ok st) (fun m => In m (all_values st)));
    [intros ?????; set_solver| |by apply List.Forall_forall].
  intros ck m Hck Hm. unfold ck_memory. destruct (is_active m) eqn:Ha; [|done].
  apply (foldl_inv _ (knowledge_ok st) (fun s => s ∈ m.(subjects))); [done| |by apply Forall_forall].
  intros ck' s Hck' Hs. unfold ck_subject.
  destruct (String.eqb_spec s "world"), (String.eqb_spec s "user_123"); simpl; [done..|].
  apply ck_add_ok; [done|]. repeat split; done.
Qed.

(** Sylvain's chapter-2 record names Annette, who confides in the user in
    chapter 5. *)
Definition suspects_ch2 : MemoryUnit :=
  default_memory "x1" "IC" ["sylvain"; "annette"] "suspicion" "secret"
    "Sylvain suspects Annette's secret" 2 prov0.

Definition confides_ch5 (i : string) : MemoryUnit :=
  default_memory i "C2U" ["annette"; "user_123"] "confides" "secret"
    "Annette confides her secret to you" 5 prov0.

Definition crosstalk_store : SimpleMemoryStore :=
  load_memories [suspects_ch2; confides_ch5 "x2"].

(** C36. Every crosstalk violation is backed by the store: the reported
    record is an active record of the reported character at the reported
    chapter, the referenced character is another character with an
    active private (C2U) record at a strictly later chapter, and the
    lowered name of the referenced character occurs in the lowered text
    of the reported record.  One violation is reported per private
    record, not per referenced character: with two chapter-5 C2U records
    of Annette, Sylvain's single chapter-2 mention is reported twice,
    identically, and counted twice in the run's total. *)
Theorem check_crosstalk_violations_sound :
  (forall st v, In v (check_crosstalk_violations st) ->
   exists m om,
     knows st v.(cv_character) v.(cv_chapter) m /\ m.(id) = v.(cv_memory_id) /\
     m.(fact_text) = v.(cv_fact_text) /\
     knows st v.(cv_referenced_character) v.(cv_referenced_chapter) om /\
     om.(mem_type) = "C2U" /\ v.(cv_referenced_character) <> v.(cv_character) /\
     (v.(cv_chapter) < v.(cv_referenced_chapter))%Z /\
     (py_lower v.(cv_referenced_character) ∈ₛ py_lower v.(cv_fact_text)) = true) /\
  (let st := load_memories [suspects_ch2; confides_ch5 "x2"; confides_ch5 "x3"] in
   check_crosstalk_violations st =
     [mkCrosstalkViolation "x1" "sylvain" 2 "annette" 5 "Sylvain suspects Annette's secret";
      mkCrosstalkViolation "x1" "sylvain" 2 "annette" 5 "Sylvain suspects Annette's secret"] /\
   total_conflicts <$> run_consistency_eval st = Some 2).
Proof.
  split; [|split; by vm_compute].
  intros st v.
  pose proof (character_knowledge_ok st) as Hok. unfold check_crosstalk_violations.
  intros ([c chs] & Hc & Hv)%in_flat_map. apply in_flat_map in Hv as (ch & _ & Hv).
  apply in_flat_map in Hv as (m & Hm & Hv).
  destruct (dict_get ch chs) as [ms|] eqn:D; [|done]. simpl in Hm.
  unfold crosstalk_of in Hv. apply in_flat_map in Hv as ([oc ochs] & Hoc & Hv).
  destruct (String.eqb_spec oc c) as [|Hne]; [done|]. apply in_flat_map in Hv as ([och oms] & Hoch & Hv).
  destruct (Z.ltb_spec ch och) as [Hlt|]; [|done]. apply in_flat_map in Hv as (om & Hom & Hv).
  destruct (String.eqb_spec (mem_type om) "C2U") as [Ht|]; [|done].
  destruct (py_in _ _) eqn:Hin; [|done]. destruct Hv as [<-|[]]. cbn.
  exists m, om. split_and!; try done.
  - eapply Hok; [by apply list_elem_of_In|by apply dict_get_Some|by apply list_elem_of_In].
  - eapply Hok; by apply list_elem_of_In.
Qed.

Lemma check_crosstalk_violations_sound_witness :
  let v := mkCrosstalkViolation "x1" "sylvain" 2 "annette" 5 "Sylvain suspects Annette's secret" in
  In v (check_crosstalk_violations crosstalk_store) /\
  exists m om,
    knows crosstalk_store v.(cv_character) v.(cv_chapter) m /\ m.(id) = v.(cv_memory_id) /\
    m.(fact_text) = v.(cv_fact_text) /\
    knows crosstalk_store v.(cv_referenced_character) v.(cv_referenced_chapter) om /\
    om.(mem_type) = "C2U" /\ v.(cv_referenced_character) <> v.(cv_character) /\
    (v.(cv_chapter) < v.(cv_referenced_chapter))%Z /\
    (py_lower v.(cv_referenced_character) ∈ₛ py_lower v.(cv_fact_text)) = true.
Proof.
  assert (H : In (mkCrosstalkViolation "x1" "sylvain" 2 "annette" 5 "Sylvain suspects Annette's secret")
                 (check_crosstalk_violations crosstalk_store)) by (vm_compute; left; reflexivity).
  split; [exact H|]. exact (proj1 check_crosstalk_violations_sound _ _ H).
Defined.
