(* ===== verification/Retriever.v ===== *)
(** * Retriever: chapter-scoped retrieval and relevance ranking
    (src/retrieval/simple_memory_retriever.py, class [SimpleMemoryRetriever])

    The retriever reads a [SimpleMemoryStore] through
    [get_memories_at_chapter] and ranks the visible records by
    [_calculate_relevance_score].  The Ollama client is only tested for
    presence ([self.client] is [None] when [ollama.Client()] raised): it is
    a boolean field.  Python [set]s of words become duplicate-free lists,
    whose cardinalities give the Jaccard ratio; [float]s are [Q]. *)

From stdpp Require Import gmap.
From S2P Require Import Prelude MemoryUnit MemoryStore.

Local Open Scope py_scope.
Local Open Scope Q_scope.

Record SimpleMemoryRetriever := mkRetriever {
  memory_store : SimpleMemoryStore;
  model_name : string;
  client : bool
}.

(** ** Scoring *)

(** [_calculate_chapter_relevance]. *)
Definition calculate_chapter_relevance (m : MemoryUnit) (target_chapter : Z) : Q :=
  if (m.(chapter_start) =? target_chapter)%Z then 1
  else if (m.(chapter_start) <? target_chapter)%Z then
    let recency := (target_chapter - m.(chapter_start))%Z in
    if (recency <=? 3)%Z then 0.8
    else if (recency <=? 10)%Z then 0.6
    else 0.4
  else 0.

(** [set(text.lower().split())]. *)
Definition word_set (text : string) : list string := remove_dups (py_split (py_lower text)).

Definition set_inter_size (a b : list string) : nat :=
  length (List.filter (fun w => bool_decide (w ∈ b)) a).

Definition set_union_size (a b : list string) : nat :=
  (length a + length (List.filter (fun w => negb (bool_decide (w ∈ a))) b))%nat.

(** [_calculate_semantic_similarity]: the Jaccard ratio of the word sets,
    or 0.5 without a query, without a client, or without query words.  The
    [try] block raises nothing on these operations. *)
Definition calculate_semantic_similarity (r : SimpleMemoryRetriever) (m : MemoryUnit)
    (query : string) : Q :=
  if String.eqb query "" || negb r.(client) then 0.5
  else
    let query_words := word_set query in
    let memory_words := word_set m.(fact_text) in
    if (length query_words =? 0)%nat then 0.5
    else
      let intersection := set_inter_size query_words memory_words in
      let union := set_union_size query_words memory_words in
      if (union =? 0)%nat then 0.5
      else inject_Z (Z.of_nat intersection) / inject_Z (Z.of_nat union).

Definition world_words : list string := ["world"; "company"; "office"; "policy"].
Definition ic_words : list string := ["relationship"; "interaction"; "meeting"; "conversation"].
Definition user_words : list string := ["user"; "me"; "my"; "personal"].

(** [_calculate_type_relevance]: [any(word in query_lower for word in ...)]
    is a substring test. *)
Definition calculate_type_relevance (m : MemoryUnit) (query : string) : Q :=
  let query_lower := py_lower query in
  let hit ws := existsb (fun w => w ∈ₛ query_lower) ws in
  if String.eqb m.(mem_type) "WM" && hit world_words then 1
  else if String.eqb m.(mem_type) "IC" && hit ic_words then 1
  else if String.eqb m.(mem_type) "C2U" && hit user_words then 1
  else 0.5.

(** [_calculate_relevance_score]. *)
Definition calculate_relevance_score (r : SimpleMemoryRetriever) (m : MemoryUnit)
    (query : string) (target_chapter : Z) : Q :=
  let score := 0 in
  let score := score + m.(confidence) * 0.3 in
  let score := score + calculate_chapter_relevance m target_chapter * 0.25 in
  let score := score + calculate_semantic_similarity r m query * 0.25 in
  score + calculate_type_relevance m query * 0.2.

(** ** Retrieval *)

(** Score, sort by score descending (stable), keep the first [k]. *)
Definition rank_by_relevance (r : SimpleMemoryRetriever) (memories : list MemoryUnit)
    (query : string) (chapter : Z) (k : Z) : list MemoryUnit :=
  let scored_memories := map (fun m => (m, calculate_relevance_score r m query chapter)) memories in
  map fst (py_take k (py_sort_desc snd scored_memories)).

Definition retrieve_by_chapter (r : SimpleMemoryRetriever) (chapter : Z) (query : string)
    (k : Z) : list MemoryUnit :=
  let memories := get_memories_at_chapter r.(memory_store) chapter in
  if String.eqb query "" then py_take k (py_sort_desc confidence memories)
  else rank_by_relevance r memories query chapter k.

Definition retrieve_by_character_at_chapter (r : SimpleMemoryRetriever) (character : string)
    (chapter : Z) (k : Z) : list MemoryUnit :=
  let memories := get_memories_at_chapter r.(memory_store) chapter in
  let character_memories := List.filter (fun m => bool_decide (character ∈ m.(subjects))) memories in
  py_take k (py_sort_desc confidence character_memories).

Definition retrieve_by_type_at_chapter (r : SimpleMemoryRetriever) (mem_type0 : string)
    (chapter : Z) (k : Z) : list MemoryUnit :=
  let memories := get_memories_at_chapter r.(memory_store) chapter in
  let type_memories := List.filter (fun m => String.eqb m.(mem_type) mem_type0) memories in
  py_take k (py_sort_desc confidence type_memories).

(** Without a query (or without memories) the visible records are
    returned in store order, unsorted. *)
Definition search_memories_at_chapter (r : SimpleMemoryRetriever) (query : string)
    (chapter : Z) (k : Z) : list MemoryUnit :=
  let memories := get_memories_at_chapter r.(memory_store) chapter in
  match memories with
  | [] => py_take k memories
  | _ => if String.eqb query "" then py_take k memories
         else rank_by_relevance r memories query chapter k
  end.

(** ** Delegation to the store *)

(** [get_memory_timeline] and [get_memory_evolution] of the retriever
    call the store's methods of the same name. *)
Definition retriever_memory_timeline (r : SimpleMemoryRetriever) (canonical_key : string)
    : list MemoryUnit :=
  get_memory_timeline r.(memory_store) canonical_key.

Definition retriever_memory_evolution (fuel : nat) (r : SimpleMemoryRetriever) (memory_id : string)
    : option (list MemoryUnit) :=
  get_memory_evolution fuel r.(memory_store) memory_id.

(** ** Chapter summary *)

Record TopMemory := mkTopMemory {
  tm_id : string;
  tm_fact_text : string;
  tm_confidence : Q;
  tm_mem_type : string
}.

(** [summary["characters"]] is [list(set(...))], whose order is Python's
    hash order: it is modelled as the set itself. *)
Record RetrieverSummary := mkRetrieverSummary {
  rs_chapter : Z;
  rs_total_memories : nat;
  rs_by_type : list (string * nat);
  rs_high : nat;
  rs_medium : nat;
  rs_low : nat;
  rs_characters : gset string;
  rs_top_memories : list TopMemory
}.

(** [m.fact_text[:100] + "..." if len(m.fact_text) > 100 else m.fact_text]. *)
Definition preview (text : string) : string :=
  if (100 <? String.length text)%nat then (String.substring 0 100 text ++ "...")%string
  else text.

Definition summary_step (s : RetrieverSummary) (m : MemoryUnit) : RetrieverSummary :=
  let by_type := dict_set m.(mem_type) (default 0 (dict_get m.(mem_type) s.(rs_by_type)) + 1)%nat
                   s.(rs_by_type) in
  let '(h, md, lo) :=
    if Qle_bool 0.8 m.(confidence) then (S s.(rs_high), s.(rs_medium), s.(rs_low))
    else if Qle_bool 0.6 m.(confidence) then (s.(rs_high), S s.(rs_medium), s.(rs_low))
    else (s.(rs_high), s.(rs_medium), S s.(rs_low)) in
  mkRetrieverSummary s.(rs_chapter) s.(rs_total_memories) by_type h md lo
    (s.(rs_characters) ∪ list_to_set m.(subjects)) s.(rs_top_memories).

(** [get_chapter_summary] of the retriever. *)
Definition retriever_chapter_summary (r : SimpleMemoryRetriever) (chapter : Z) : RetrieverSummary :=
  let memories := get_memories_at_chapter r.(memory_store) chapter in
  let s0 := mkRetrieverSummary chapter (length memories) [] 0%nat 0%nat 0%nat ∅ [] in
  let s := foldl summary_step s0 memories in
  let top := py_take 5%Z (py_sort_desc confidence memories) in
  mkRetrieverSummary s.(rs_chapter) s.(rs_total_memories) s.(rs_by_type) s.(rs_high)
    s.(rs_medium) s.(rs_low) s.(rs_characters)
    (map (fun m => mkTopMemory m.(id) (preview m.(fact_text)) m.(confidence) m.(mem_type)) top).

(** ** Score components *)

Lemma set_inter_le_union a b : (set_inter_size a b <= set_union_size a b)%nat.
Proof.
  unfold set_inter_size, set_union_size.
  enough (length (List.filter (fun w => bool_decide (w ∈ b)) a) <= length a)%nat by lia.
  induction a as [|x a IH]; simpl; [lia|]. destruct (bool_decide _); simpl; lia.
Qed.

Lemma semantic_similarity_bounds r m query :
  0 <= calculate_semantic_similarity r m query <= 1.
Proof.
  unfold calculate_semantic_similarity.
  destruct (_ || _); [lra|]. destruct (length _ =? 0)%nat; [lra|].
  pose proof (set_inter_le_union (word_set query) (word_set (fact_text m))) as Hle.
  destruct (Nat.eqb_spec (set_union_size (word_set query) (word_set (fact_text m))) 0) as [|Hu]; [lra|].
  apply nat_ratio_bounds; lia.
Qed.

Lemma zero_div (x : Q) : inject_Z (Z.of_nat 0) / x == 0.
Proof. unfold Qdiv. apply Qmult_0_l. Qed.

(** A record sharing no word with the query scores at most the semantic
    similarity of any other record: the fallbacks to 0.5 do not depend on
    the record. *)
Lemma semantic_similarity_no_overlap r m1 m2 query :
  set_inter_size (word_set query) (word_set m2.(fact_text)) = 0%nat ->
  calculate_semantic_similarity r m2 query <= calculate_semantic_similarity r m1 query.
Proof.
  intros H0. pose proof (semantic_similarity_bounds r m1 query) as [Hs1 _].
  revert Hs1. unfold calculate_semantic_similarity.
  destruct (_ || _); [lra|]. destruct (length _ =? 0)%nat eqn:Hq; [lra|].
  apply Nat.eqb_neq in Hq.
  assert (Hu : forall b, (set_union_size (word_set query) b =? 0)%nat = false)
    by (intros b; apply Nat.eqb_neq; unfold set_union_size; lia).
  rewrite !Hu, H0, zero_div. lra.
Qed.

Lemma chapter_relevance_bounds m ch : 0 <= calculate_chapter_relevance m ch <= 1.
Proof.
  unfold calculate_chapter_relevance.
  repeat match goal with |- context [if ?b then _ else _] => destruct b end; lra.
Qed.

Lemma type_relevance_bounds m query : 1 # 2 <= calculate_type_relevance m query <= 1.
Proof.
  unfold calculate_type_relevance.
  repeat match goal with |- context [if ?b then _ else _] => destruct b end; lra.
Qed.

(** For a confidence in [0, 1] the relevance score lies in
    [0.1, 1]: the four weights sum to 1 and the type match is at least
    0.5. *)
Theorem relevance_score_bounds r m query ch :
  0 <= m.(confidence) <= 1 ->
  1 # 10 <= calculate_relevance_score r m query ch <= 1.
Proof.
  intros Hc. unfold calculate_relevance_score.
  pose proof (semantic_similarity_bounds r m query).
  pose proof (chapter_relevance_bounds m ch). pose proof (type_relevance_bounds m query).
  lra.
Qed.

Lemma relevance_score_witness_record :
  0 <= (default_memory "m" "IC" ["a"; "b"] "contact" "meeting" "a met b" 2 prov0).(confidence) <= 1.
Proof. simpl. lra. Qed.

Lemma relevance_score_bounds_witness :
  let m := default_memory "m" "IC" ["a"; "b"] "contact" "meeting" "a met b" 2 prov0 in
  0 <= m.(confidence) <= 1 /\
  1 # 10 <= calculate_relevance_score (mkRetriever empty_store "mistral:7b" true) m "who met" 5 <= 1.
Proof.
  split; [exact relevance_score_witness_record|].
  apply relevance_score_bounds. exact relevance_score_witness_record.
Defined.

(** ** Ranking *)

(** In the ranked list, a record that scores strictly higher than [m2]
    comes before it. *)
Lemma rank_by_relevance_before r ms query ch k m1 m2 pre post :
  m1 ∈ ms ->
  calculate_relevance_score r m2 query ch < calculate_relevance_score r m1 query ch ->
  rank_by_relevance r ms query ch k = (pre ++ m2 :: post)%list -> m1 ∈ pre.
Proof.
  intros Hm1 Hlt H. unfold rank_by_relevance in H.
  set (scored := map (fun m => (m, calculate_relevance_score r m query ch)) ms) in *.
  apply map_eq_app in H as (preL & rest & Htake & <- & Hrest).
  apply map_eq_cons in Hrest as ([m2' s] & postL & -> & Hm2 & _). simpl in Hm2. subst m2'.
  destruct (py_take_prefix k (py_sort_desc snd scored)) as [tail Hs]. rewrite Htake in Hs.
  assert (Hin : forall x, x ∈ py_sort_desc snd scored <-> x ∈ scored)
    by (intros x; by rewrite py_sort_desc_perm).
  assert (Hx : (m2, s) ∈ scored) by (apply Hin; rewrite Hs; set_solver).
  apply list_elem_of_fmap in Hx as (m & [= <- ->] & _).
  apply (list_elem_of_fmap_2 fst preL (m1, calculate_relevance_score r m1 query ch)).
  eapply (sorted_desc_before snd); [apply py_sort_desc_sorted|by rewrite Hs, <- app_assoc| |done].
  apply Hin, list_elem_of_fmap. by exists m1.
Qed.

Lemma relevance_score_gap r m1 m2 query ch :
  m1.(chapter_start) = ch -> (m2.(chapter_start) + 10 < ch)%Z ->
  m2.(confidence) <= m1.(confidence) ->
  set_inter_size (word_set query) (word_set m2.(fact_text)) = 0%nat ->
  calculate_relevance_score r m2 query ch < calculate_relevance_score r m1 query ch.
Proof.
  intros H1 H2 Hc Hw. unfold calculate_relevance_score.
  assert (E1 : calculate_chapter_relevance m1 ch = 1)
    by (unfold calculate_chapter_relevance; by rewrite H1, Z.eqb_refl).
  assert (E2 : calculate_chapter_relevance m2 ch = 0.4).
  { unfold calculate_chapter_relevance.
    destruct (Z.eqb_spec (chapter_start m2) ch); [lia|].
    destruct (Z.ltb_spec (chapter_start m2) ch); [|lia].
    destruct (Z.leb_spec (ch - chapter_start m2) 3); [lia|].
    destruct (Z.leb_spec (ch - chapter_start m2) 10); [lia|done]. }
  rewrite E1, E2. pose proof (semantic_similarity_no_overlap r m1 m2 query Hw).
  pose proof (type_relevance_bounds m1 query). pose proof (type_relevance_bounds m2 query).
  lra.
Qed.

(** The spec's ranking example: an exact-chapter, confident record about
    the affair, and a low-confidence world record fifteen chapters older. *)
Definition affair_ch16 : MemoryUnit :=
  default_memory "q1" "IC" ["byleth"; "dimitri"] "relationship_status" "started_affair"
    "Byleth and Dimitri start an affair" 16 prov0.

Definition festival_ch1 : MemoryUnit :=
  {| id := "q2"; mem_type := "WM"; subjects := ["world"]; predicate := "event";
     object := "festival"; fact_text := "Garreg Mach hosts a festival"; chapter_start := 1;
     chapter_end := None; visibility := "shared"; confidence := 0.5; is_active := true;
     provenance := prov0; version := 1; supersedes := None; superseded_by := None;
     update_reason := None; update_confidence := None; embedding := None; attrs := [] |}.

Definition ranking_retriever : SimpleMemoryRetriever :=
  mkRetriever (load_memories [festival_ch1; affair_ch16]) "mistral:7b" true.

(** ** What the retrieval functions return *)

Lemma py_take_sub {A} (k : Z) (l : list A) x : x ∈ py_take k l -> x ∈ l.
Proof. intros Hx. destruct (py_take_prefix k l) as [rest ->]. set_solver. Qed.

Lemma rank_by_relevance_sub r ms query ch k m : m ∈ rank_by_relevance r ms query ch k -> m ∈ ms.
Proof.
  unfold rank_by_relevance. intros ([m' s] & -> & Hx)%list_elem_of_fmap.
  apply py_take_sub in Hx. rewrite py_sort_desc_perm in Hx.
  by apply list_elem_of_fmap in Hx as (m & [= -> _] & Hm).
Qed.

Lemma retrieval_sub r ch query character t k m :
  m ∈ retrieve_by_chapter r ch query k \/
  m ∈ retrieve_by_character_at_chapter r character ch k \/
  m ∈ retrieve_by_type_at_chapter r t ch k \/
  m ∈ search_memories_at_chapter r query ch k ->
  m ∈ get_memories_at_chapter r.(memory_store) ch.
Proof.
  unfold retrieve_by_chapter, retrieve_by_character_at_chapter, retrieve_by_type_at_chapter,
    search_memories_at_chapter.
  intros [H|[H|[H|H]]].
  - destruct (String.eqb _ _); [|by eapply rank_by_relevance_sub].
    apply py_take_sub in H. by rewrite py_sort_desc_perm in H.
  - apply py_take_sub in H. rewrite py_sort_desc_perm in H.
    apply list_elem_of_In, filter_In in H as [H _]. by apply list_elem_of_In.
  - apply py_take_sub in H. rewrite py_sort_desc_perm in H.
    apply list_elem_of_In, filter_In in H as [H _]. by apply list_elem_of_In.
  - destruct (get_memories_at_chapter _ _); [by apply py_take_sub in H|].
    destruct (String.eqb _ _); [by apply py_take_sub in H|by eapply rank_by_relevance_sub].
Qed.

(** C8. Point-in-time safety of retrieval: on a well-formed store, every
    record returned by [retrieve_by_chapter], [retrieve_by_character_at_chapter],
    [retrieve_by_type_at_chapter] or [search_memories_at_chapter] for
    chapter [ch] is a stored active record that started in a chapter
    between 1 and [ch] and has not ended before [ch]: no record from a
    future chapter is ever returned. *)
Theorem retrieval_visible r ch query character t k m :
  store_wf r.(memory_store) ->
  m ∈ retrieve_by_chapter r ch query k \/
  m ∈ retrieve_by_character_at_chapter r character ch k \/
  m ∈ retrieve_by_type_at_chapter r t ch k \/
  m ∈ search_memories_at_chapter r query ch k ->
  (exists l, deref r.(memory_store) l = Some m) /\ m.(is_active) = true /\
  (1 <= m.(chapter_start) <= ch)%Z /\
  match m.(chapter_end) with None => True | Some e => (ch <= e)%Z end.
Proof.
  intros Hwf Hm. apply retrieval_sub in Hm.
  apply in_get_memories_at_chapter in Hm as (l & Hl & Hcs & Ha & He); [|done].
  split; [eauto|]. split; [done|]. split; [lia|done].
Qed.

Definition ch10_retriever : SimpleMemoryRetriever := mkRetriever store_ch10 "mistral:7b" true.

Lemma retrieval_visible_witness :
  let m := default affair_ch16 (head (retrieve_by_chapter ch10_retriever 12 "" 10)) in
  store_wf ch10_retriever.(memory_store) /\ m ∈ retrieve_by_chapter ch10_retriever 12 "" 10 /\
  (exists l, deref ch10_retriever.(memory_store) l = Some m) /\ m.(is_active) = true /\
  (1 <= m.(chapter_start) <= 12)%Z /\
  match m.(chapter_end) with None => True | Some e => (12 <= e)%Z end.
Proof.
  assert (Hwf : store_wf ch10_retriever.(memory_store))
    by (apply (inv_wf test_uuid), reachable_inv;
        [apply test_uuid_inj|apply store_ch10_reachable]).
  assert (Hin : default affair_ch16 (head (retrieve_by_chapter ch10_retriever 12 "" 10)) ∈
                retrieve_by_chapter ch10_retriever 12 "" 10)
    by (apply list_elem_of_In; vm_compute; left; reflexivity).
  split; [exact Hwf|]. split; [exact Hin|].
  apply (retrieval_visible ch10_retriever 12 "" "" "" 10); [exact Hwf|by left].
Defined.

(** ** Divergences from the ranking contract *)

Definition affair_text_record : MemoryUnit :=
  default_memory "q3" "IC" ["byleth"; "dimitri"] "relationship_status" "started_affair"
    "Byleth and Dimitri start an affair" 3 prov0.

Definition private_record : MemoryUnit :=
  default_memory "q4" "C2U" ["annette"; "user_123"] "confides" "secret"
    "Annette confides in you" 4 prov0.

(** C37. The spec's ranking example, in general form: for a non-empty
    query, a visible record of the target chapter ranks above any record
    more than ten chapters older that shares no word with the query and
    has no higher confidence, whatever the type match and the client.
    The lexical parts of the score differ from the ranking contract,
    though: the text overlap does not strip punctuation (the query
    "affair?" shares no word with "Byleth and Dimitri start an affair",
    while "affair" scores 1/6); without an Ollama client the overlap is
    never computed and every record gets 0.5; and type keywords are
    matched as substrings, so "me" in "meeting" gives a private (C2U)
    record the full type score. *)
Theorem retrieve_ranks_current_first :
  (forall r ch query k m1 m2 pre post,
     query <> "" ->
     m1 ∈ get_memories_at_chapter r.(memory_store) ch ->
     m1.(chapter_start) = ch -> (m2.(chapter_start) + 10 < ch)%Z ->
     m2.(confidence) <= m1.(confidence) ->
     set_inter_size (word_set query) (word_set m2.(fact_text)) = 0%nat ->
     retrieve_by_chapter r ch query k = (pre ++ m2 :: post)%list ->
     m1 ∈ pre) /\
  (let on := mkRetriever empty_store "mistral:7b" true in
   let off := mkRetriever empty_store "mistral:7b" false in
   calculate_semantic_similarity on affair_text_record "affair?" == 0 /\
   calculate_semantic_similarity on affair_text_record "affair" == (1 # 6) /\
   calculate_semantic_similarity off affair_text_record "affair" == (1 # 2) /\
   calculate_type_relevance private_record "When was the staff meeting" = 1 /\
   calculate_type_relevance private_record "When was the staff party" = 0.5).
Proof.
  split; [|split_and!; vm_compute; reflexivity].
  intros r ch query k m1 m2 pre post Hq Hm1 H1 H2 Hc Hw. unfold retrieve_by_chapter.
  rewrite (proj2 (String.eqb_neq _ _) Hq).
  apply rank_by_relevance_before; [done|]. by apply relevance_score_gap.
Qed.

Lemma retrieve_ranks_current_first_witness :
  let q := "Who started an affair" in
  q <> "" /\ affair_ch16 ∈ get_memories_at_chapter ranking_retriever.(memory_store) 16 /\
  retrieve_by_chapter ranking_retriever 16 q 10 = ([affair_ch16] ++ festival_ch1 :: [])%list /\
  affair_ch16 ∈ [affair_ch16].
Proof.
  assert (Hin : affair_ch16 ∈ get_memories_at_chapter ranking_retriever.(memory_store) 16)
    by (apply list_elem_of_In; vm_compute; right; left; reflexivity).
  assert (Hr : retrieve_by_chapter ranking_retriever 16 "Who started an affair" 10 =
               ([affair_ch16] ++ festival_ch1 :: [])%list) by (vm_compute; reflexivity).
  split; [discriminate|]. split; [exact Hin|]. split; [exact Hr|].
  apply (proj1 retrieve_ranks_current_first ranking_retriever 16%Z "Who started an affair" 10%Z
           affair_ch16 festival_ch1 [affair_ch16] []);
    [discriminate|exact Hin|reflexivity|simpl; lia|simpl; lra|vm_compute; reflexivity|exact Hr].
Defined.

(** ** Chapter summary *)

Lemma summary_step_counts s m :
  let s' := summary_step s m in
  (s'.(rs_high) + s'.(rs_medium) + s'.(rs_low) = S (s.(rs_high) + s.(rs_medium) + s.(rs_low)))%nat /\
  sum_list (map snd s'.(rs_by_type)) = S (sum_list (map snd s.(rs_by_type))) /\
  s'.(rs_characters) = s.(rs_characters) ∪ list_to_set m.(subjects) /\
  s'.(rs_total_memories) = s.(rs_total_memories).
Proof.
  unfold summary_step. cbv zeta.
  destruct (Qle_bool 0.8 (confidence m)), (Qle_bool 0.6 (confidence m)); simpl;
    rewrite dict_incr_sum; split_and!; lia || done.
Qed.

Lemma summary_fold_counts s l :
  let s' := foldl summary_step s l in
  (s'.(rs_high) + s'.(rs_medium) + s'.(rs_low) = s.(rs_high) + s.(rs_medium) + s.(rs_low) + length l)%nat /\
  sum_list (map snd s'.(rs_by_type)) = (sum_list (map snd s.(rs_by_type)) + length l)%nat /\
  (forall c, c ∈ s'.(rs_characters) <-> c ∈ s.(rs_characters) \/ exists m, m ∈ l /\ c ∈ m.(subjects)) /\
  s'.(rs_total_memories) = s.(rs_total_memories).
Proof.
  revert s. induction l as [|m l IH]; intros s; simpl.
  - split_and!; [lia|lia|set_solver|done].
  - destruct (IH (summary_step s m)) as (H1 & H2 & H3 & H4).
    destruct (summary_step_counts s m) as (G1 & G2 & G3 & G4).
    split_and!; [lia|lia| |congruence].
    intros c. rewrite H3, G3, elem_of_union, elem_of_list_to_set. set_solver.
Qed.

(** The retriever's chapter summary is consistent: the three
    confidence buckets and the per-type counts each add up to the number
    of visible records, the character set is the union of their subjects,
    and at most five top records are listed. *)
Theorem retriever_chapter_summary_counts r ch :
  let s := retriever_chapter_summary r ch in
  let ms := get_memories_at_chapter r.(memory_store) ch in
  s.(rs_total_memories) = length ms /\
  (s.(rs_high) + s.(rs_medium) + s.(rs_low) = length ms)%nat /\
  sum_list (map snd s.(rs_by_type)) = length ms /\
  (forall c, c ∈ s.(rs_characters) <-> exists m, m ∈ ms /\ c ∈ m.(subjects)) /\
  (length s.(rs_top_memories) <= 5)%nat.
Proof.
  unfold retriever_chapter_summary. cbn zeta.
  set (ms := get_memories_at_chapter _ _).
  destruct (summary_fold_counts (mkRetrieverSummary ch (length ms) [] 0%nat 0%nat 0%nat ∅ []) ms)
    as (H1 & H2 & H3 & H4). simpl in *.
  split_and!; [done|lia|lia| |].
  - intros c. rewrite H3. set_solver.
  - rewrite length_map. by apply (py_take_length 5).
Qed.
