(* ===== verification/Updater.v ===== *)
(** * Updater: the time-priority updater (src/updates/memory_updater.py)

    [MemoryUpdater] is written against [storage.memory_store.MemoryStore],
    a module that is not part of the repository: only its two methods
    [get_all_active()] and [upsert(memory)] are used.  They form the
    interface [MemoryStore] (a typeclass), with the laws [MemoryStoreLaws]
    that an id-keyed store satisfies; the updater's theorems are proved
    against the interface, and [DictStore] is an instance that discharges
    the laws.  [datetime.now()] is read from a clock [now : nat -> string]
    advanced at each call, and the iteration order of the Python set in
    [_merge_provenance] is an arbitrary permutation [set_iter]. *)

From Stdlib Require Import Qminmax.
From S2P Require Import Prelude MemoryUnit MemoryStore.

Local Open Scope Q_scope.

(** ** The store interface *)

Class MemoryStoreOps (St : Type) := {
  get_all_active : St -> list MemoryUnit;
  upsert : St -> MemoryUnit -> St
}.

(** [upsert] keys records by id: after [upsert s m] the active records
    are [m] (when active) and the active records of [s] with another id. *)
Class MemoryStoreLaws (St : Type) `{MemoryStoreOps St} := {
  upsert_spec : forall s m x,
    x ∈ get_all_active (upsert s m) <->
    (x = m /\ m.(is_active) = true) \/ (x ∈ get_all_active s /\ x.(id) <> m.(id))
}.

(** ** Updater state *)

Record LogEntry := mkLogEntry {
  log_timestamp : string;
  log_action : string;
  old_memory_id : option string;
  new_memory_id : string;
  result_memory_id : string;
  log_chapter_start : Z;
  log_fact_text : string
}.

Record MemoryUpdater (St : Type) := mkUpdater {
  memory_store : St;
  update_log : list LogEntry;
  clock : nat
}.
Arguments mkUpdater {St}.
Arguments memory_store {St}.
Arguments update_log {St}.
Arguments clock {St}.

(** ** Record comparisons *)

(** [_is_similar_memory]: same type, same subject set, same predicate,
    same visibility. *)
Definition is_similar_memory (existing new : MemoryUnit) : bool :=
  String.eqb existing.(mem_type) new.(mem_type) &&
  bool_decide (existing.(subjects) ⊆ new.(subjects) /\ new.(subjects) ⊆ existing.(subjects)) &&
  String.eqb existing.(predicate) new.(predicate) &&
  String.eqb existing.(visibility) new.(visibility).

Definition same_fact (existing new : MemoryUnit) : bool := String.eqb existing.(object) new.(object).

Definition same_time_period (existing new : MemoryUnit) : bool :=
  (Z.abs (new.(chapter_start) - existing.(chapter_start)) <=? 5)%Z.

(** [_calculate_merged_confidence]: the mean plus 0.1, capped at 1. *)
Definition calculate_merged_confidence (existing new : MemoryUnit) : Q :=
  let existing_weight := 1 in
  let new_weight := 1 in
  let source_bonus := 0.1 in
  let merged_confidence :=
    (existing.(confidence) * existing_weight + new.(confidence) * new_weight)
      / (existing_weight + new_weight) + source_bonus in
  py_min merged_confidence 1.

(** [x.chapter_end or x.chapter_start]: [None] and [0] are false. *)
Definition end_or_start (m : MemoryUnit) : Z :=
  match m.(chapter_end) with
  | Some e => if (e =? 0)%Z then m.(chapter_start) else e
  | None => m.(chapter_start)
  end.

Section Updater.
Context {St : Type} `{MemoryStoreOps St}.
(** [datetime.now().isoformat()] at the [n]-th call. *)
Variable now : nat -> string.
(** The iteration order of [set(sources)]. *)
Variable set_iter : list string -> list string.

Definition find_similar_memory (s : St) (new : MemoryUnit) : option MemoryUnit :=
  List.find (fun m => is_similar_memory m new) (get_all_active s).

(** [_merge_provenance]; reads the clock once. *)
Definition merge_provenance (t : nat) (existing_prov new_prov : Provenance) : Provenance :=
  let source_chapter := Z.min existing_prov.(chapter) new_prov.(chapter) in
  let sources := [existing_prov.(source); new_prov.(source)] in
  let src := if bool_decide ("synopsis" ∈ sources) then "synopsis"
             else String.concat " + " (set_iter (remove_dups sources)) in
  mkProvenance source_chapter src (now t).

(** [_log_update]; reads the clock once. *)
Definition log_update (u : MemoryUpdater St) (action : string) (old : option MemoryUnit)
    (new result : MemoryUnit) : MemoryUpdater St :=
  let entry := mkLogEntry (now u.(clock)) action (id <$> old) new.(id) result.(id)
                 new.(chapter_start) (String.append (String.substring 0 50 new.(fact_text)) "...") in
  mkUpdater u.(memory_store) (u.(update_log) ++ [entry])%list (S u.(clock)).

(** [_merge_memories]: a fresh [MemoryUnit] keeping the existing id and
    text; the fields the constructor call omits take their defaults. *)
Definition merged_record (t : nat) (existing new : MemoryUnit) : MemoryUnit :=
  {| id := existing.(id); mem_type := existing.(mem_type); subjects := existing.(subjects);
     predicate := existing.(predicate); object := existing.(object);
     fact_text := existing.(fact_text);
     chapter_start := Z.min existing.(chapter_start) new.(chapter_start);
     chapter_end := Some (Z.max (end_or_start existing) (end_or_start new));
     visibility := existing.(visibility);
     confidence := calculate_merged_confidence existing new; is_active := true;
     provenance := merge_provenance t existing.(provenance) new.(provenance);
     version := (existing.(version) + 1)%Z; supersedes := existing.(supersedes);
     superseded_by := None; update_reason := None; update_confidence := None;
     embedding := existing.(embedding); attrs := existing.(attrs) |}.

Definition merge_memories (u : MemoryUpdater St) (existing new : MemoryUnit)
    : MemoryUnit * MemoryUpdater St :=
  let merged := merged_record u.(clock) existing new in
  let u1 := mkUpdater (upsert u.(memory_store) merged) u.(update_log) (S u.(clock)) in
  (merged, log_update u1 "merge" (Some existing) new merged).

(** [_replace_memory]: the existing object is deactivated, closed and
    loses its [supersedes] link before it is written back; the new object
    links to it. *)
Definition deactivated (existing new : MemoryUnit) : MemoryUnit :=
  {| id := existing.(id); mem_type := existing.(mem_type); subjects := existing.(subjects);
     predicate := existing.(predicate); object := existing.(object);
     fact_text := existing.(fact_text); chapter_start := existing.(chapter_start);
     chapter_end := Some (new.(chapter_start) - 1)%Z; visibility := existing.(visibility);
     confidence := existing.(confidence); is_active := false;
     provenance := existing.(provenance); version := existing.(version); supersedes := None;
     superseded_by := existing.(superseded_by); update_reason := existing.(update_reason);
     update_confidence := existing.(update_confidence); embedding := existing.(embedding);
     attrs := existing.(attrs) |}.

Definition linked_record (existing new : MemoryUnit) : MemoryUnit :=
  {| id := new.(id); mem_type := new.(mem_type); subjects := new.(subjects);
     predicate := new.(predicate); object := new.(object); fact_text := new.(fact_text);
     chapter_start := new.(chapter_start); chapter_end := new.(chapter_end);
     visibility := new.(visibility); confidence := new.(confidence); is_active := new.(is_active);
     provenance := new.(provenance); version := (existing.(version) + 1)%Z;
     supersedes := Some existing.(id); superseded_by := new.(superseded_by);
     update_reason := new.(update_reason); update_confidence := new.(update_confidence);
     embedding := new.(embedding); attrs := new.(attrs) |}.

Definition replace_memory (u : MemoryUpdater St) (existing new : MemoryUnit)
    : MemoryUnit * MemoryUpdater St :=
  let old := deactivated existing new in
  let s1 := upsert u.(memory_store) old in
  let nm := linked_record old new in
  let s2 := upsert s1 nm in
  (nm, log_update (mkUpdater s2 u.(update_log) u.(clock)) "replace" (Some old) nm nm).

Definition create_new_memory (u : MemoryUpdater St) (m : MemoryUnit) : MemoryUnit * MemoryUpdater St :=
  let u1 := mkUpdater (upsert u.(memory_store) m) u.(update_log) u.(clock) in
  (m, log_update u1 "create" None m m).

(** [update_memory]: the result and the action string. *)
Definition update_memory (u : MemoryUpdater St) (new : MemoryUnit)
    : (MemoryUnit * string) * MemoryUpdater St :=
  match find_similar_memory u.(memory_store) new with
  | Some existing =>
      if same_fact existing new then
        if same_time_period existing new then
          let '(r, u') := merge_memories u existing new in ((r, "merged"), u')
        else
          let '(r, u') := replace_memory u existing new in ((r, "replaced_same_fact"), u')
      else if (existing.(chapter_start) <? new.(chapter_start))%Z then
        let '(r, u') := replace_memory u existing new in ((r, "replaced_different_fact"), u')
      else ((existing, "kept_existing"), u)
  | None =>
      let '(r, u') := create_new_memory u new in ((r, "created_new"), u')
  end.

Definition batch_update (u : MemoryUpdater St) (new_memories : list MemoryUnit)
    : list (MemoryUnit * string) * MemoryUpdater St :=
  foldl (fun '(results, u) m => let '(ra, u') := update_memory u m in ((results ++ [ra])%list, u'))
    ([], u) new_memories.

(** [get_update_log]: the journal itself. *)
Definition get_update_log (u : MemoryUpdater St) : list LogEntry := u.(update_log).

Definition clear_update_log (u : MemoryUpdater St) : MemoryUpdater St :=
  mkUpdater u.(memory_store) [] u.(clock).

End Updater.

(** ** An id-keyed instance of the interface *)

(** A dict from id to record in insertion order, as the list of its
    values: [upsert] overwrites the value of a present id in place and
    appends a new one. *)
Definition DictStore := list MemoryUnit.

Definition dict_upsert (s : DictStore) (m : MemoryUnit) : DictStore :=
  if existsb (fun x => String.eqb x.(id) m.(id)) s
  then map (fun x => if String.eqb x.(id) m.(id) then m else x) s
  else (s ++ [m])%list.

#[export] Instance dict_store_ops : MemoryStoreOps DictStore := {
  get_all_active s := List.filter is_active s;
  upsert := dict_upsert
}.

(** ** The instance satisfies the laws *)

Lemma dict_upsert_elem s m x :
  x ∈ dict_upsert s m <-> x = m \/ (x ∈ s /\ x.(id) <> m.(id)).
Proof.
  unfold dict_upsert. destruct (existsb _ s) eqn:E.
  - apply existsb_exists in E as (y & Hy & Hyid). apply String.eqb_eq in Hyid.
    rewrite list_elem_of_fmap. split.
    + intros (z & -> & Hz). destruct (String.eqb_spec (id z) (id m)); [by left|right; done].
    + intros [ ->|[Hx Hne]].
      * exists y. split; [by rewrite Hyid, String.eqb_refl|by apply list_elem_of_In].
      * exists x. split; [by rewrite (proj2 (String.eqb_neq _ _) Hne)|done].
  - rewrite elem_of_app, list_elem_of_singleton. split; [|intuition].
    intros [Hx| ->]; [right|by left]. split; [done|]. intros Hid.
    assert (existsb (fun x => String.eqb x.(id) m.(id)) s = true) as E'
      by (apply existsb_exists; exists x; split; [by apply list_elem_of_In|by apply String.eqb_eq]).
    congruence.
Qed.

#[export] Instance dict_store_laws : MemoryStoreLaws DictStore.
Proof.
  constructor. intros s m x. cbn [get_all_active upsert dict_store_ops].
  rewrite !elem_of_List_filter, dict_upsert_elem. intuition congruence.
Qed.

(** ** Similarity is an equivalence on four fields *)

Lemma is_similar_memory_spec a b :
  is_similar_memory a b = true <->
  a.(mem_type) = b.(mem_type) /\ (forall x, x ∈ a.(subjects) <-> x ∈ b.(subjects)) /\
  a.(predicate) = b.(predicate) /\ a.(visibility) = b.(visibility).
Proof.
  unfold is_similar_memory. rewrite !andb_true_iff, !String.eqb_eq, bool_decide_eq_true.
  split; [intros [[[? [H1 H2]] ?] ?]; split_and!; try done; intros x; split; [apply H1|apply H2]|].
  intros (? & Hs & ? & ?). split_and!; try done; intros x; apply Hs.
Qed.

Lemma is_similar_memory_sym a b : is_similar_memory a b = is_similar_memory b a.
Proof.
  apply Bool.eq_true_iff_eq. rewrite !is_similar_memory_spec.
  split; intros (? & Hs & ? & ?); split_and!; try done; intros x; by rewrite Hs.
Qed.

Lemma is_similar_memory_trans a b c :
  is_similar_memory a b = true -> is_similar_memory b c = true -> is_similar_memory a c = true.
Proof.
  rewrite !is_similar_memory_spec. intros (Ta & Sa & Pa & Va) (Tb & Sb & Pb & Vb).
  split_and!; try congruence. intros x. by rewrite Sa, Sb.
Qed.

Lemma is_similar_memory_fields a b c :
  a.(mem_type) = b.(mem_type) -> a.(subjects) = b.(subjects) ->
  a.(predicate) = b.(predicate) -> a.(visibility) = b.(visibility) ->
  is_similar_memory a c = is_similar_memory b c.
Proof. intros H1 H2 H3 H4. unfold is_similar_memory. by rewrite H1, H2, H3, H4. Qed.

(** ** The updater against any lawful store *)

Section UpdaterJournal.
Context {St : Type} `{MemoryStoreOps St}.
Variable now : nat -> string.
Variable set_iter : list string -> list string.

(** The update journal records every decision but one: merging,
    replacing and creating each append exactly one entry (["merge"],
    ["replace"], ["create"]), while ["kept_existing"] leaves the store and
    the journal unchanged, so a discarded candidate is never journaled. *)
Lemma update_memory_log u new :
  let '((r, a), u') := update_memory now set_iter u new in
  (a = "kept_existing" /\ u' = u) \/
  (a <> "kept_existing" /\ exists e, u'.(update_log) = (u.(update_log) ++ [e])%list /\
     e.(log_action) ∈ ["merge"; "replace"; "create"] /\ e.(new_memory_id) = new.(id)).
Proof.
  unfold update_memory.
  destruct (find_similar_memory _ new) as [e|];
    [destruct (same_fact e new), (same_time_period e new),
       (chapter_start e <? chapter_start new)%Z|];
    cbn [merge_memories replace_memory create_new_memory];
    first [left; by split | right; split; [discriminate|]; eexists; split_and!; [reflexivity|set_solver|reflexivity]].
Qed.
End UpdaterJournal.

Section UpdaterProofs.
Context {St : Type} `{MemoryStoreLaws St}.
Variable now : nat -> string.
Variable set_iter : list string -> list string.

(** No two active records with different ids are similar. *)
Definition similar_unique (s : St) : Prop :=
  forall x y, x ∈ get_all_active s -> y ∈ get_all_active s ->
    is_similar_memory x y = true -> x.(id) = y.(id).

Lemma similar_unique_upsert s m :
  similar_unique s ->
  (forall y, y ∈ get_all_active s -> y.(id) <> m.(id) -> is_similar_memory m y = false) ->
  similar_unique (upsert s m).
Proof.
  intros Hu Hm x y Hx Hy Hs. apply upsert_spec in Hx, Hy.
  destruct Hx as [[-> _]|[Hx Hxid]], Hy as [[-> _]|[Hy Hyid]]; [done| | |by apply Hu].
  - destruct (decide (y.(id) = m.(id))); [done|]. by rewrite Hm in Hs.
  - destruct (decide (x.(id) = m.(id))); [done|].
    rewrite is_similar_memory_sym, Hm in Hs; done.
Qed.

Lemma similar_unique_upsert_inactive s m :
  similar_unique s -> m.(is_active) = false -> similar_unique (upsert s m).
Proof.
  intros Hu Ha x y Hx Hy. apply upsert_spec in Hx, Hy.
  destruct Hx as [[-> ?]|[Hx _]]; [congruence|]. destruct Hy as [[-> ?]|[Hy _]]; [congruence|].
  by apply Hu.
Qed.

Lemma log_update_store (u : MemoryUpdater St) a o (n r : MemoryUnit) :
  memory_store (log_update now u a o n r) = memory_store u.
Proof. reflexivity. Qed.

Lemma find_similar_memory_None s new y :
  find_similar_memory s new = None -> y ∈ get_all_active s -> is_similar_memory new y = false.
Proof.
  intros Hf Hy. unfold find_similar_memory in Hf. rewrite is_similar_memory_sym.
  apply (find_none _ _ Hf), list_elem_of_In, Hy.
Qed.

Lemma find_similar_memory_Some s new e :
  find_similar_memory s new = Some e -> e ∈ get_all_active s /\ is_similar_memory e new = true.
Proof.
  unfold find_similar_memory. intros Hf. apply find_some in Hf as [Hin Hs].
  split; [by apply list_elem_of_In|done].
Qed.

Lemma similar_unique_replace u e new :
  similar_unique (memory_store u) -> e ∈ get_all_active (memory_store u) ->
  is_similar_memory e new = true ->
  similar_unique (memory_store (replace_memory now u e new).2).
Proof.
  intros Hu He Hs. cbn [replace_memory snd]. rewrite log_update_store. cbn [memory_store].
  apply similar_unique_upsert; [by apply similar_unique_upsert_inactive|].
  intros y Hy Hne. apply upsert_spec in Hy as [[-> Ha]|[Hy Hyid]]; [done|].
  apply not_true_iff_false. intros Hny. cbn [id deactivated] in Hyid.
  rewrite (is_similar_memory_fields _ new) in Hny by reflexivity.
  apply Hyid. symmetry. apply (Hu e y He Hy). eapply is_similar_memory_trans; eauto.
Qed.

(** C12. The updater keeps at most one active record per similarity
    class (type, subject set, predicate, visibility) on any store whose
    [upsert] is keyed by id: merging rewrites the existing record under
    its id, replacing deactivates it before the successor is written, and
    a new record is created only when no active record is similar.  The
    update journal records every decision but one: merging, replacing and
    creating each append exactly one entry (["merge"], ["replace"],
    ["create"]) naming the candidate, while ["kept_existing"] leaves the
    store and the journal unchanged, so a discarded candidate is never
    journaled. *)
Theorem update_memory_similar_unique u new :
  similar_unique (memory_store u) ->
  similar_unique (memory_store (update_memory now set_iter u new).2) /\
  (let '((r, a), u') := update_memory now set_iter u new in
   (a = "kept_existing" /\ u' = u) \/
   (a <> "kept_existing" /\ exists e, u'.(update_log) = (u.(update_log) ++ [e])%list /\
      e.(log_action) ∈ ["merge"; "replace"; "create"] /\ e.(new_memory_id) = new.(id))).
Proof.
  intros Hu. split; [|exact (update_memory_log now set_iter u new)]. unfold update_memory.
  destruct (find_similar_memory _ new) as [e|] eqn:Hf.
  - apply find_similar_memory_Some in Hf as [He Hs].
    destruct (same_fact e new), (same_time_period e new),
      (chapter_start e <? chapter_start new)%Z; cbn [snd];
      try by apply similar_unique_replace.
    all: try done.
    all: cbn [merge_memories snd memory_store]; rewrite log_update_store; cbn [memory_store].
    all: apply similar_unique_upsert; [done|]; intros y Hy Hne.
    all: rewrite (is_similar_memory_fields _ e) by reflexivity.
    all: apply not_true_iff_false; intros Hy'; apply Hne; symmetry; exact (Hu e y He Hy Hy').
  - cbn [create_new_memory snd]. rewrite log_update_store. cbn [memory_store].
    apply similar_unique_upsert; [done|]. intros y Hy _. by eapply find_similar_memory_None.
Qed.

End UpdaterProofs.


(** ** Merging *)

Definition clock_str (n : nat) : string := String "t" (marks n).

Definition open_affair (i : string) (ch : Z) : MemoryUnit :=
  default_memory i "IC" ["byleth"; "dimitri"] "relationship_status" "started_affair"
    "Byleth and Dimitri start an affair" ch prov0.

(** The merged confidence never exceeds 1 and, for confidences in
    [0, 1], is at least the weaker confidence plus the 0.1 source bonus
    (capped at 1): repeated merges of the same fact raise its confidence
    to 1 whatever the sources say. *)
Theorem merged_confidence_bounds e n :
  0 <= e.(confidence) <= 1 -> 0 <= n.(confidence) <= 1 ->
  calculate_merged_confidence e n <= 1 /\
  py_min (Qmin e.(confidence) n.(confidence) + 0.1) 1 <= calculate_merged_confidence e n.
Proof.
  intros He Hn. unfold calculate_merged_confidence. cbn zeta. split; [apply py_min_le_r|].
  apply py_min_glb; [|apply py_min_le_r].
  eapply Qle_trans; [apply py_min_le_l|].
  assert (Hm : Qmin (confidence e) (confidence n) <= confidence e /\
               Qmin (confidence e) (confidence n) <= confidence n)
    by (split; [apply Q.le_min_l|apply Q.le_min_r]).
  apply Qplus_le_compat; [|apply Qle_refl].
  apply Qle_shift_div_l; [reflexivity|]. lra.
Qed.

Lemma merged_confidence_bounds_witness :
  0 <= (open_affair "a1" 3).(confidence) <= 1 /\ 0 <= (open_affair "a2" 5).(confidence) <= 1 /\
  calculate_merged_confidence (open_affair "a1" 3) (open_affair "a2" 5) <= 1 /\
  py_min (Qmin (open_affair "a1" 3).(confidence) (open_affair "a2" 5).(confidence) + 0.1) 1 <=
    calculate_merged_confidence (open_affair "a1" 3) (open_affair "a2" 5).
Proof.
  assert (H1 : 0 <= (open_affair "a1" 3).(confidence) <= 1) by (simpl; lra).
  assert (H2 : 0 <= (open_affair "a2" 5).(confidence) <= 1) by (simpl; lra).
  split; [exact H1|]. split; [exact H2|]. exact (merged_confidence_bounds _ _ H1 H2).
Defined.

(** ** Runs on the dict store *)

Definition empty_updater : MemoryUpdater DictStore := mkUpdater [] [] 0.

Definition status_at (i obj : string) (ch : Z) : MemoryUnit :=
  default_memory i "IC" ["byleth"; "dimitri"] "relationship_status" obj
    ("Byleth and Dimitri are " ++ obj) ch prov0.

Definition record_links (s : DictStore) : list (string * option string * option string * bool) :=
  map (fun m => (m.(id), m.(supersedes), m.(superseded_by), m.(is_active))) s.

(** C38. Merging and replacing lose the time line of a fact.  Merging
    closes an open-ended fact: two similar records without an end chapter
    (and with non-zero start chapters) merge into an active record whose
    [chapter_end] is the later of the two start chapters, so the store's
    point-in-time query ([visible_at]) hides the merged fact at every
    later chapter although it is still current.  Replacing cuts the
    history: of three successive statuses of one relationship (chapters
    1, 5, 9), each replaced by the next, [_replace_memory] clears the
    [supersedes] link of the record it deactivates and never sets
    [superseded_by], so the chain from the current record reaches only its
    immediate predecessor.  And time priority is not enforced for a
    restated fact: a record of the same fact from a chapter more than five
    chapters earlier replaces the current one, which is closed at a
    chapter before its own start, and the older statement becomes the
    active record. *)
Theorem merge_closes_open_record :
  (forall now set_iter t e n,
     e.(chapter_end) = None -> n.(chapter_end) = None ->
     e.(chapter_start) <> 0%Z -> n.(chapter_start) <> 0%Z ->
     let r := merged_record now set_iter t e n in
     r.(is_active) = true /\ r.(chapter_end) = Some (Z.max e.(chapter_start) n.(chapter_start)) /\
     forall c, (Z.max e.(chapter_start) n.(chapter_start) < c)%Z -> visible_at c r = false) /\
  (let '(results, u) := batch_update clock_str (fun l => l) empty_updater
                          [status_at "s1" "dating" 1; status_at "s2" "engaged" 5;
                           status_at "s3" "married" 9] in
   map snd results = ["created_new"; "replaced_different_fact"; "replaced_different_fact"] /\
   record_links u.(memory_store) =
     [("s1", None, None, false); ("s2", None, None, false); ("s3", Some "s2", None, true)]) /\
  (let '(results, u) := batch_update clock_str (fun l => l) empty_updater
                          [status_at "n1" "engaged" 10; status_at "n2" "engaged" 2] in
   map snd results = ["created_new"; "replaced_same_fact"] /\
   map (fun m => (m.(id), m.(chapter_start), m.(chapter_end), m.(is_active))) u.(memory_store) =
     [("n1", 10%Z, Some 1%Z, false); ("n2", 2%Z, None, true)]).
Proof.
  split; [|split; vm_compute; split; reflexivity].
  intros now set_iter t e n He Hn _ _. unfold merged_record, end_or_start. cbn zeta. rewrite He, Hn.
  split_and!; [done|done|]. intros c Hc. unfold visible_at. cbn [is_active chapter_end andb].
  apply Z.leb_gt. lia.
Qed.

Lemma merge_closes_open_record_witness :
  (open_affair "a1" 3).(chapter_end) = None /\ (open_affair "a2" 5).(chapter_end) = None /\
  (open_affair "a1" 3).(chapter_start) <> 0%Z /\ (open_affair "a2" 5).(chapter_start) <> 0%Z /\
  let r := merged_record clock_str (fun l => l) 0 (open_affair "a1" 3) (open_affair "a2" 5) in
  r.(is_active) = true /\ r.(chapter_end) = Some (Z.max 3 5) /\
  forall c, (Z.max 3 5 < c)%Z -> visible_at c r = false.
Proof.
  split; [reflexivity|]. split; [reflexivity|]. split; [discriminate|]. split; [discriminate|].
  exact (proj1 merge_closes_open_record clock_str (fun l => l) 0%nat (open_affair "a1" 3) (open_affair "a2" 5)
           eq_refl eq_refl ltac:(discriminate) ltac:(discriminate)).
Defined.

Lemma update_memory_similar_unique_witness :
  similar_unique (memory_store empty_updater) /\
  similar_unique (memory_store (update_memory clock_str (fun l => l) empty_updater
                                  (status_at "s1" "dating" 1)).2).
Proof.
  assert (H0 : similar_unique (memory_store empty_updater))
    by (intros x y Hx; cbn in Hx; set_solver).
  split; [exact H0|]. exact (proj1 (update_memory_similar_unique clock_str (fun l => l) _ _ H0)).
Defined.
