(* ===== verification/Pipeline.v ===== *)
(** * Pipeline: candidate construction and chapter-by-chapter ingestion
    (src/llm/memory_extractor.py, src/generate_memory_sets.py,
     src/config/*.py)

    The language model and the parsing of its answer are external: an
    oracle [llm] maps a sentence and a chapter to the parsed JSON object
    (or to nothing).  What the repository does with that object is
    modelled: [_create_memory_unit] (required fields, visibility default,
    140-character truncation), [validate_memory], the sentence splitting
    of [extract_memories_from_chapter] and the loop of
    [process_chapters_sequentially], which calls the store's
    [smart_update_or_create] on every candidate.  The extractor's own
    [uuid.uuid4()] and [datetime.now()] draws are a generator and a clock
    read at the extractor's counter; the candidate's id is always replaced
    by the store.

    [extract_memories_from_chapter] calls [extract_memories_from_sentence]
    on whatever extractor it is given: the Record [SentenceExtractor] is
    that interface and [extractor_fresh] the law the loop relies on.  The
    language-model extractor ([llm_extractor]) and the rule-based
    [MockMemoryExtractor] (Module of the same name) are its instances. *)

From S2P Require Import Prelude MemoryUnit MemoryStore.

Local Open Scope Q_scope.

(** ** Configuration (the fallbacks of src/config/*.py) *)

Record PredicateConfig := mkPredicateConfig {
  pred_type : string;
  object_enum : list string
}.

Record EntityRegistry := mkEntityRegistry {
  world_id : string;
  user_id : string;
  character_aliases : list (string * string)
}.

Record Defaults := mkDefaults {
  visibility_defaults : list (string * string);
  min_confidence : Q;
  max_fact_length : Z;
  language : string
}.

Definition default_entity_registry : EntityRegistry :=
  mkEntityRegistry "world" "user_123"
    [("Byleth", "byleth"); ("Dimitri", "dimitri"); ("Sylvain", "sylvain");
     ("Annette", "annette"); ("Dedue", "dedue"); ("Felix", "felix");
     ("Mercedes", "mercedes"); ("Ashe", "ashe")].

Definition default_predicate_vocabulary : list (string * PredicateConfig) :=
  [("relationship_status", mkPredicateConfig "IC"
      ["started_affair"; "affair_acknowledged"; "jealous"; "suspicious"; "reconciled";
       "proprietary_display"; "mentor_mask"; "confrontation"; "deception"; "manipulation";
       "betrayal_discovered"]);
   ("secrecy_pact", mkPredicateConfig "IC" ["true"; "false"]);
   ("contact", mkPredicateConfig "IC" ["exchanged_numbers"; "private_meeting"; "hotel_rendezvous"]);
   ("evidence", mkPredicateConfig "IC" ["dedue_found_earring"; "public_display"; "witnessed_betrayal"]);
   ("manipulation", mkPredicateConfig "IC"
      ["engineered_alibi_and_tryst"; "sabotaged_plans"; "created_conflict"]);
   ("alert", mkPredicateConfig "WM" ["health_alert_circulated"; "virus_warning"; "company_memo"]);
   ("world_discussion", mkPredicateConfig "WM"
      ["office_dismissive_attitude"; "virus_fearmongering"; "distant_threat"]);
   ("office_dynamics", mkPredicateConfig "WM"
      ["first_day_energy"; "professional_boundaries"; "workplace_entanglements"])].

Definition default_defaults : Defaults :=
  mkDefaults [("WM", "global"); ("IC", "shared"); ("C2U", "private")] 0.70 140 "en".

Record MemoryExtractor := mkExtractor {
  model_name : string;
  entity_registry : EntityRegistry;
  predicate_vocab : list (string * PredicateConfig);
  defaults : Defaults;
  client : bool
}.

(** ** Candidate records *)

(** The parsed JSON object: a field is [None] when the key is absent. *)
Record MemoryData := mkMemoryData {
  md_mem_type : option string;
  md_subjects : option (list string);
  md_fact_text : option string;
  md_predicate : option string;
  md_object : option string;
  md_confidence : option Q;
  md_visibility : option string;
  md_emit : option bool
}.

(** [_create_memory_unit]: [None] is the [ValueError] of a missing
    required field; [uid] and [ts] are the [uuid4()] and [now()] draws. *)
Definition create_memory_unit (ex : MemoryExtractor) (uid ts : string) (data : MemoryData)
    (chapter_number : Z) : option MemoryUnit :=
  match data.(md_mem_type), data.(md_subjects), data.(md_fact_text), data.(md_predicate),
        data.(md_object), data.(md_confidence) with
  | Some mt, Some subj, Some ft, Some pred, Some obj, Some conf =>
      let visibility0 :=
        match data.(md_visibility) with
        | Some v => if String.eqb v "" then None else Some v
        | None => None
        end in
      let vis := match visibility0 with
                 | Some v => v
                 | None => default "shared" (dict_get mt ex.(defaults).(visibility_defaults))
                 end in
      Some {| id := uid; mem_type := mt; subjects := subj;
              fact_text := String.substring 0 140 ft; predicate := pred; object := obj;
              chapter_start := chapter_number; chapter_end := None; visibility := vis;
              confidence := conf; is_active := true;
              provenance := mkProvenance chapter_number "synopsis" ts; version := 1;
              supersedes := None; superseded_by := None; update_reason := None;
              update_confidence := None; embedding := None;
              attrs := [("language", ex.(defaults).(language))] |}
  | _, _, _, _, _, _ => None
  end.

(** [validate_memory], with the source's [and] in the C2U subject test. *)
Definition validate_memory (ex : MemoryExtractor) (m : MemoryUnit) : bool :=
  if Qltb m.(confidence) ex.(defaults).(min_confidence) then false
  else if negb (bool_decide (m.(mem_type) ∈ ["WM"; "IC"; "C2U"])) then false
  else if String.eqb m.(mem_type) "WM" && negb (bool_decide (m.(subjects) = ["world"])) then false
  else if String.eqb m.(mem_type) "IC" && negb (length m.(subjects) =? 2)%nat then false
  else if String.eqb m.(mem_type) "C2U" && negb (length m.(subjects) =? 2)%nat &&
          negb (bool_decide ("user_123" ∈ m.(subjects))) then false
  else
    let valid_characters :=
      ex.(entity_registry).(world_id) :: ex.(entity_registry).(user_id) ::
      map snd ex.(entity_registry).(character_aliases) in
    if negb (forallb (fun s => bool_decide (s ∈ valid_characters)) m.(subjects)) then false
    else match dict_get m.(predicate) ex.(predicate_vocab) with
         | None => false
         | Some pc => bool_decide (m.(object) ∈ pc.(object_enum))
         end.

(** ** The extractor interface *)

(** What [extract_memories_from_chapter] calls on its [extractor]
    argument, a [MemoryExtractor] or a [MockMemoryExtractor] (the Python
    code relies on duck typing): [extract_memories_from_sentence(sentence,
    chapter_number)], which returns at most one candidate.  The counter
    [k] of the extractor's [uuid.uuid4()] and [datetime.now()] draws is
    threaded through. *)
Record SentenceExtractor := mkSentenceExtractor {
  extract_sentence : string -> Z -> nat -> option MemoryUnit * nat
}.

(** The law ingestion relies on: every candidate is fresh (active, open,
    unlinked) and starts at the chapter it was extracted for. *)
Definition extractor_fresh (x : SentenceExtractor) : Prop :=
  forall sentence ch k m k',
    x.(extract_sentence) sentence ch k = (Some m, k') ->
    fresh_candidate m = true /\ m.(chapter_start) = ch.

Section Extraction.
(** The language model with [_parse_llm_response]. *)
Variable llm : string -> Z -> option MemoryData.
(** The extractor's [uuid.uuid4()] and [datetime.now()] at its [k]-th record. *)
Variable ext_uuid : nat -> string.
Variable now : nat -> string.

(** [extract_memories_from_sentence]; the counter [k] advances when a
    record is built. *)
Definition extract_memories_from_sentence (ex : MemoryExtractor) (sentence : string)
    (chapter_number : Z) (k : nat) : option MemoryUnit * nat :=
  if negb ex.(client) then (None, k)
  else match llm sentence chapter_number with
       | Some data =>
           if default true data.(md_emit) then
             match create_memory_unit ex (ext_uuid k) (now k) data chapter_number with
             | Some m => (Some m, S k)
             | None => (None, k)
             end
           else (None, k)
       | None => (None, k)
       end.

Definition llm_extractor (ex : MemoryExtractor) : SentenceExtractor :=
  mkSentenceExtractor (extract_memories_from_sentence ex).
End Extraction.

Record ChapterData := mkChapterData {
  cd_chapter_number : option Z;
  cd_synopsis : option string
}.

(** [[s.strip() for s in synopsis.split('.') if s.strip()]]. *)
Definition split_sentences (synopsis : string) : list string :=
  List.filter (fun s => negb (String.eqb s "")) (map py_strip (py_split1 "." synopsis)).

Definition extract_memories_from_chapter (x : SentenceExtractor) (chapter_data : ChapterData)
    (chapter_number : Z) (k : nat) : list MemoryUnit * nat :=
  let synopsis := default "" chapter_data.(cd_synopsis) in
  if String.eqb synopsis "" then ([], k)
  else foldl (fun '(ms, k) sentence =>
         if (String.length sentence <? 10)%nat then (ms, k)
         else let '(r, k') := x.(extract_sentence) sentence chapter_number k in
              match r with Some m => ((ms ++ [m])%list, k') | None => (ms, k') end)
       ([], k) (split_sentences synopsis).

Record PipelineStats := mkPipelineStats {
  chapters_processed : nat;
  new_memories : nat;
  updated_memories : nat;
  total_memories : nat
}.

Section Ingestion.
Variable uuid4 : nat -> string.

(** The inner loop of [process_chapters_sequentially]: one
    [smart_update_or_create] per candidate, counting updates and
    creations. *)
Definition process_memories (chapter_number : Z) (acc : SimpleMemoryStore * nat * nat)
    (memories : list MemoryUnit) : SimpleMemoryStore * nat * nat :=
  foldl (fun '(st, nw, up) memory =>
           let '(_, action, st') :=
             smart_update_or_create uuid4 st memory chapter_number default_update_threshold in
           match action with
           | UpdatedExisting _ => (st', nw, S up)
           | CreatedNew => (st', S nw, up)
           end) acc memories.

Definition process_chapters_sequentially (chapters : list ChapterData) (x : SentenceExtractor)
    (st : SimpleMemoryStore) (k : nat) : PipelineStats * SimpleMemoryStore * nat :=
  let '(_, st', nw, up, k') :=
    foldl (fun '(i, st, nw, up, k) chapter_data =>
             let chapter_number := default (Z.of_nat i) chapter_data.(cd_chapter_number) in
             let '(memories, k') := extract_memories_from_chapter x chapter_data chapter_number k in
             let '(st', nw', up') := process_memories chapter_number (st, nw, up) memories in
             (S i, st', nw', up', k'))
          (1%nat, st, 0%nat, 0%nat, k) chapters in
  (mkPipelineStats (length chapters) nw up (get_total_memories st'), st', k').
End Ingestion.

(** ** The rule-based mock extractor *)

Module MockMemoryExtractor.

(** The fields in which the mock's records differ; every other field is
    the same in all of them. *)
Record MockRecord := mkMockRecord {
  mr_mem_type : string;
  mr_subjects : list string;
  mr_fact_text : string;
  mr_predicate : string;
  mr_object : string;
  mr_visibility : string;
  mr_confidence : Q
}.

(** The branches of [MockMemoryExtractor.extract_memories_from_sentence],
    in source order: the keywords that must all occur in
    [sentence.lower()], and the record the branch returns. *)
Definition rule_earring : list string * MockRecord :=
  (["earring"; "byleth"],
   mkMockRecord "IC" ["dedue"; "byleth"]
     "Dedue found evidence of Byleth's affair at Dimitri's home (earring)."
     "evidence" "dedue_found_earring" "shared" 0.9).

Definition rule_virus : list string * MockRecord :=
  (["virus"],
   mkMockRecord "WM" ["world"] "A company-wide memo warns about a novel virus."
     "alert" "health_alert_circulated" "global" 0.8).

Definition rule_affair : list string * MockRecord :=
  (["affair"; "dimitri"; "byleth"],
   mkMockRecord "IC" ["dimitri"; "byleth"] "Byleth and Dimitri started an affair."
     "relationship_status" "started_affair" "shared" 0.9).

Definition rule_sylvain_annette : list string * MockRecord :=
  (["sylvain"; "annette"],
   mkMockRecord "IC" ["sylvain"; "annette"] "Sylvain and Annette have an established relationship."
     "relationship_status" "reconciled" "shared" 0.8).

Definition rule_garreg_mach : list string * MockRecord :=
  (["garreg mach"; "first-day"],
   mkMockRecord "WM" ["world"]
     "Byleth steps into Garreg Mach Corp, the air buzzing with first-day energy"
     "setting" "garreg_mach_corp" "global" 0.95).

Definition rule_asset_dimitri : list string * MockRecord :=
  (["byleth"; "dimitri"; "asset"],
   mkMockRecord "IC" ["byleth"; "dimitri"]
     "Byleth notes Dimitri as a potential asset or obstacle in the games to come"
     "first_meeting" "noted_potential_asset" "shared" 0.9).

Definition rule_asset_sylvain : list string * MockRecord :=
  (["byleth"; "sylvain"; "asset"],
   mkMockRecord "IC" ["byleth"; "sylvain"]
     "Byleth notes Sylvain as a potential asset or obstacle in the games to come"
     "first_meeting" "noted_potential_asset" "shared" 0.9).

Definition rule_intimacy : list string * MockRecord :=
  (["intimacy"; "sylvain"; "annette"],
   mkMockRecord "IC" ["sylvain"; "annette"]
     "Sylvain and Annette share an easy intimacy, their established relationship is clear"
     "relationship_status" "proprietary_display" "shared" 0.9).

Definition rule_desk : list string * MockRecord :=
  (["desk"; "after hours"],
   mkMockRecord "IC" ["byleth"; "dimitri"]
     "Byleth approaches Dimitri's desk after hours and weaves a plausible story about needing help with a task"
     "manipulation" "engineered_alibi_and_tryst" "shared" 0.95).

(** The [if]/[elif] chain: its branches in order. *)
Definition mock_rules : list (list string * MockRecord) :=
  [rule_earring; rule_virus; rule_affair; rule_sylvain_annette; rule_garreg_mach;
   rule_asset_dimitri; rule_asset_sylvain; rule_intimacy; rule_desk].

(** The [MemoryUnit(...)] a branch builds: [uuid.uuid4()] for the id,
    [Provenance(chapter=chapter_number, source="synopsis")] with its
    [datetime.now()] timestamp, and the pydantic defaults. *)
Definition mock_memory (r : MockRecord) (uid ts : string) (chapter_number : Z) : MemoryUnit :=
  {| id := uid; mem_type := r.(mr_mem_type); subjects := r.(mr_subjects);
     predicate := r.(mr_predicate); object := r.(mr_object); fact_text := r.(mr_fact_text);
     chapter_start := chapter_number; chapter_end := None; visibility := r.(mr_visibility);
     confidence := r.(mr_confidence); is_active := true;
     provenance := mkProvenance chapter_number "synopsis" ts; version := 1;
     supersedes := None; superseded_by := None; update_reason := None;
     update_confidence := None; embedding := None; attrs := [("language", "en")] |}.

(** A branch's condition: [kw1 in sentence_lower and kw2 in sentence_lower ...]. *)
Definition rule_fires (sentence_lower : string) (keywords : list string) : bool :=
  forallb (fun kw => py_in kw sentence_lower) keywords.

(** The first branch whose condition holds returns its record; the
    counter [k] of the [uuid4()]/[now()] draws advances when it does. *)
Definition mock_extract_memories_from_sentence (uuid4 now : nat -> string) (sentence : string)
    (chapter_number : Z) (k : nat) : option MemoryUnit * nat :=
  let sentence_lower := py_lower sentence in
  match list_find (fun r => rule_fires sentence_lower r.1 = true) mock_rules with
  | Some (_, (_, r)) => (Some (mock_memory r (uuid4 k) (now k) chapter_number), S k)
  | None => (None, k)
  end.

Definition mock_extractor (uuid4 now : nat -> string) : SentenceExtractor :=
  mkSentenceExtractor (mock_extract_memories_from_sentence uuid4 now).

End MockMemoryExtractor.

(** ** Candidates are admissible ingestion steps *)

(** Every record [_create_memory_unit] builds is a fresh candidate of its
    chapter, with a text of at most 140 characters. *)
Lemma create_memory_unit_fresh ex uid ts data ch m :
  create_memory_unit ex uid ts data ch = Some m ->
  fresh_candidate m = true /\ m.(chapter_start) = ch /\ (String.length m.(fact_text) <= 140)%nat.
Proof.
  unfold create_memory_unit.
  destruct (md_mem_type data), (md_subjects data), (md_fact_text data), (md_predicate data),
    (md_object data), (md_confidence data); intros Hm; try discriminate.
  injection Hm as <-. split_and!; [reflexivity|reflexivity|apply substring_length_le].
Qed.

(** The LLM extractor satisfies the interface law, whatever the model
    answers. *)
Lemma llm_extractor_fresh llm ext_uuid now ex : extractor_fresh (llm_extractor llm ext_uuid now ex).
Proof.
  intros sentence ch k m k'. cbn. unfold extract_memories_from_sentence.
  destruct (client ex); [|done]. destruct (llm sentence ch) as [data|]; [|done].
  destruct (default true _); [|done].
  destruct (create_memory_unit _ _ _ _ _) as [m'|] eqn:E; [|done].
  intros [= <- _]. by apply create_memory_unit_fresh in E as (Hf & Hc & _).
Qed.

Module MockFacts.
Import MockMemoryExtractor.

(** A branch whose keywords include an earlier branch's keywords fires
    only when the earlier one does. *)
Lemma rule_fires_subset s kws kws' :
  kws ⊆ kws' -> rule_fires s kws' = true -> rule_fires s kws = true.
Proof.
  unfold rule_fires. rewrite !forallb_forall. intros Hs H kw Hkw.
  by apply H, list_elem_of_In, Hs, list_elem_of_In.
Qed.

(** Hence a branch after one with fewer keywords is never taken. *)
Lemma mock_rule_shadowed s i j kws r kws' r' :
  mock_rules !! j = Some (kws', r') -> (j < i)%nat -> kws' ⊆ kws ->
  list_find (fun r => rule_fires s r.1 = true) mock_rules <> Some (i, (kws, r)).
Proof.
  intros Hj Hji Hsub (_ & Hf & Hbefore)%list_find_Some.
  apply (Hbefore j _ Hj Hji), (rule_fires_subset _ _ _ Hsub Hf).
Qed.

(** The mock satisfies the interface law. *)
Lemma mock_extractor_fresh uuid4 now : extractor_fresh (mock_extractor uuid4 now).
Proof.
  intros sentence ch k m k'. cbn. unfold mock_extract_memories_from_sentence.
  destruct (list_find _ _) as [[i [kws r]]|]; [|done]. by intros [= <- _].
Qed.
End MockFacts.

Section ExtractionProofs.
Variable x : SentenceExtractor.
Hypothesis x_fresh : extractor_fresh x.
Variable uuid4 : nat -> string.

Definition candidates_of (ch : Z) (ms : list MemoryUnit) : Prop :=
  Forall (fun m => fresh_candidate m = true /\ m.(chapter_start) = ch) ms.

Lemma extract_memories_from_chapter_fresh cd ch k :
  candidates_of ch (extract_memories_from_chapter x cd ch k).1.
Proof.
  unfold extract_memories_from_chapter. destruct (String.eqb _ ""); [constructor|].
  apply (foldl_inv _ (fun acc => candidates_of ch acc.1) (fun _ => True));
    [constructor| |by apply Forall_true].
  intros [ms k'] sentence Hms _. destruct (String.length sentence <? 10)%nat; [done|].
  destruct (extract_sentence x sentence ch k') as [[m|] k''] eqn:E; [|done].
  apply x_fresh in E. apply Forall_app. split; [done|]. constructor; [exact E|constructor].
Qed.

Lemma process_memories_reachable ch st nw up ms :
  reachable uuid4 st -> candidates_of ch ms ->
  reachable uuid4 (process_memories uuid4 ch (st, nw, up) ms).1.1.
Proof.
  intros Hr Hms. unfold process_memories.
  apply (foldl_inv _ (fun acc => reachable uuid4 acc.1.1)
           (fun m => fresh_candidate m = true /\ m.(chapter_start) = ch)); [done| |done].
  intros [[st' nw'] up'] m Hst [Hf Hc]. cbn [fst] in Hst.
  destruct (smart_update_or_create uuid4 st' m ch default_update_threshold) as [[l a] st''] eqn:E.
  assert (Hstep : reachable uuid4 st'') by (econstructor; [exact Hst|]; by eapply ingest_step).
  by destruct a.
Qed.

(** Against the interface: any extractor satisfying the law keeps the
    store reachable. *)
Lemma process_chapters_reachable_gen chapters st k :
  reachable uuid4 st ->
  reachable uuid4 (process_chapters_sequentially uuid4 chapters x st k).1.2.
Proof.
  intros Hr. unfold process_chapters_sequentially.
  match goal with |- context [foldl ?f ?a chapters] =>
    assert (Hinv : reachable uuid4 (foldl f a chapters).1.1.1.2);
    [|destruct (foldl f a chapters) as [[[[i st'] nw] up] k']; exact Hinv] end.
  apply (foldl_inv _ (fun acc => reachable uuid4 acc.1.1.1.2) (fun _ => True));
    [done| |by apply Forall_true].
  intros [[[[i st'] nw] up] k'] cd Hst _. cbn [fst snd] in Hst. cbv beta iota.
  destruct (extract_memories_from_chapter _ _ _ _) as [ms k''] eqn:E.
  pose proof (extract_memories_from_chapter_fresh cd
                (default (Z.of_nat i) (cd_chapter_number cd)) k') as Hc.
  rewrite E in Hc. cbn [fst] in Hc.
  pose proof (process_memories_reachable _ st' nw up ms Hst Hc) as Hp.
  by destruct (process_memories _ _ _ _) as [[st'' nw'] up'].
Qed.
End ExtractionProofs.

(** C3. The ingestion pipeline only takes steps of the store's step
    relation: from a store reachable from the empty store,
    [process_chapters_sequentially] ends in a reachable store, with the
    language-model extractor whatever the model answers (every candidate
    [_create_memory_unit] builds is fresh and starts at the chapter it is
    resolved in) and with the rule-based [MockMemoryExtractor].  Hence
    the store invariants of [MemoryStore] hold after every run. *)
Theorem process_chapters_reachable llm ext_uuid now uuid4 chapters ex st k :
  reachable uuid4 st ->
  reachable uuid4
    (process_chapters_sequentially uuid4 chapters (llm_extractor llm ext_uuid now ex) st k).1.2 /\
  reachable uuid4
    (process_chapters_sequentially uuid4 chapters
       (MockMemoryExtractor.mock_extractor ext_uuid now) st k).1.2.
Proof.
  intros Hr. split; apply process_chapters_reachable_gen; try done.
  - apply llm_extractor_fresh.
  - apply MockFacts.mock_extractor_fresh.
Qed.

(** ** A run and the validation rule *)

Definition fallback_extractor : MemoryExtractor :=
  mkExtractor "mistral:7b" default_entity_registry default_predicate_vocabulary default_defaults true.

(** A model that reads every sentence as the affair. *)
Definition affair_llm (sentence : string) (ch : Z) : option MemoryData :=
  Some (mkMemoryData (Some "IC") (Some ["dimitri"; "byleth"]) (Some sentence)
          (Some "relationship_status") (Some "started_affair") (Some 0.9) None None).

Definition two_chapters : list ChapterData :=
  [mkChapterData (Some 3%Z) (Some "Byleth and Dimitri start an affair. Short. They meet at night");
   mkChapterData None (Some "Dimitri and Byleth confirm their affair in front of Dedue")].

Lemma process_chapters_reachable_witness :
  reachable test_uuid empty_store /\
  reachable test_uuid (process_chapters_sequentially test_uuid two_chapters
                         (llm_extractor affair_llm test_uuid (fun _ => "t") fallback_extractor)
                         empty_store 0).1.2 /\
  reachable test_uuid (process_chapters_sequentially test_uuid two_chapters
                         (MockMemoryExtractor.mock_extractor test_uuid (fun _ => "t"))
                         empty_store 0).1.2.
Proof.
  split; [constructor|].
  apply (process_chapters_reachable affair_llm test_uuid (fun _ => "t") test_uuid two_chapters
           fallback_extractor empty_store 0).
  constructor.
Defined.

(** The C2U subject rule of [validate_memory] joins its two
    conditions with [and]: a private record is rejected only when it has
    a number of subjects other than two and no user, so a C2U record
    between two characters without the user, or one with three subjects
    including the user, passes; a record outside the predicate
    vocabulary fails.  (The pipeline never calls [validate_memory].) *)
Theorem validate_memory_c2u :
  let c2u subj obj := default_memory "v" "C2U" subj "relationship_status" obj "x" 2 prov0 in
  validate_memory fallback_extractor (c2u ["annette"; "sylvain"] "jealous") = true /\
  validate_memory fallback_extractor (c2u ["annette"; "sylvain"; "user_123"] "jealous") = true /\
  validate_memory fallback_extractor (c2u ["annette"] "jealous") = false /\
  validate_memory fallback_extractor (c2u ["annette"; "user_123"] "in_love") = false.
Proof. split_and!; vm_compute; reflexivity. Qed.

(** C39. The mock extractor's eighth branch ([intimacy], [sylvain] and
    [annette] in the sentence) is dead: the fourth branch only asks for
    [sylvain] and [annette] and comes first, so no sentence ever yields
    the ["proprietary_display"] record, and the sentence that branch was
    written for yields the fourth branch's ["reconciled"] record.  Three
    of the mock's records (the ["setting"] and the two ["first_meeting"]
    facts) are outside the fallback predicate vocabulary, so
    [validate_memory] rejects them; the pipeline never calls it. *)
Theorem mock_intimacy_rule_dead :
  (forall uuid4 now sentence ch k m k',
     MockMemoryExtractor.mock_extract_memories_from_sentence uuid4 now sentence ch k = (Some m, k') ->
     m.(object) <> "proprietary_display") /\
  (MockMemoryExtractor.mock_extract_memories_from_sentence (fun _ => "u") (fun _ => "t")
     "Sylvain and Annette share an easy intimacy, their established relationship is clear" 2 0).1
     = Some (MockMemoryExtractor.mock_memory (MockMemoryExtractor.mkMockRecord "IC"
               ["sylvain"; "annette"] "Sylvain and Annette have an established relationship."
               "relationship_status" "reconciled" "shared" 0.8) "u" "t" 2) /\
  map (fun r => validate_memory fallback_extractor (MockMemoryExtractor.mock_memory r.2 "u" "t" 3))
    MockMemoryExtractor.mock_rules = [true; true; true; true; false; false; false; true; true].
Proof.
  split; [|split; vm_compute; reflexivity].
  intros uuid4 now sentence ch k m k'. unfold MockMemoryExtractor.mock_extract_memories_from_sentence.
  destruct (list_find _ _) as [[i [kws r]]|] eqn:E; [|discriminate]. intros [= <- _]. cbn.
  destruct (decide (i = 7%nat)) as [->|Hi].
  - pose proof E as (Hl & _)%list_find_Some. cbn in Hl. injection Hl as <- <-.
    exfalso. refine (MockFacts.mock_rule_shadowed _ 7 3 _ _ _ _ eq_refl _ _ E); [lia|set_solver].
  - apply list_find_Some in E as (Hl & _).
    do 9 (destruct i as [|i]; [cbn in Hl; injection Hl as _ <-; cbn; (discriminate || lia)|]).
    discriminate.
Qed.
