(* ===== verification/LlmResponse.v ===== *)
(** * LlmResponse: reading the language model's answer
    (src/llm/memory_extractor.py: [_parse_llm_response],
     [_repair_json_response], [_validate_repaired_data])

    The answer is free text.  [_parse_llm_response] cuts out the block
    from the first ["{"] to the last ["}"] ([re.search(r'\{.*\}', content,
    re.DOTALL)]), loads it, and accepts it when [emit] is truthy, every
    required field is present and not [None], and [object] is truthy.
    When anything in that attempt raises, [_repair_json_response] strips
    Markdown fences from the whole answer, quotes bare keys and bare
    values with two [re.sub] passes, loads the result and accepts it when
    [_validate_repaired_data] holds.

    [json.loads] is a library the code only calls: it is the Section
    variable [json_loads], any function from text to a JSON value or an
    error, and the theorems hold for every such function.  The regular
    expressions run on the engine of [Regex] ([re_search], [re_sub]). *)

From S2P Require Import Prelude Regex Json.
Import Regex.

Module LlmResponse.

Definition required_fields : list string :=
  ["mem_type"; "subjects"; "fact_text"; "predicate"; "object"; "confidence"].

(** [r'\{.*\}'] under [re.DOTALL]. *)
Definition json_block : regex := seqs [Chr (CLit "{"); Star (Chr CAny); Chr (CLit "}")].

(** [[a-zA-Z_][a-zA-Z0-9_]*] *)
Definition ident : regex :=
  Seq (Chr (CRange [("a", "z"); ("A", "Z"); ("_", "_")]%char))
      (Star (Chr (CRange [("a", "z"); ("A", "Z"); ("0", "9"); ("_", "_")]%char))).

(** The pattern of the first pass: the identifier as group 1, then a
    colon. *)
Definition key_pattern : regex := Seq (Group 1 ident) (Chr (CLit ":")).

(** The pattern of the second pass: a colon, white space, then the
    identifier as group 1. *)
Definition value_pattern : regex := seqs [Chr (CLit ":"); Star (Chr CSpace); Group 1 ident].

(** The double quote. *)
Definition dq : string := String (ascii_of_nat 34) EmptyString.

(** The replacements [r'"\1":'] and [r': "\1"']. *)
Definition quote_key (c : caps) : string := (dq ++ default "" (group 1 c) ++ dq ++ ":")%string.
Definition quote_value (c : caps) : string := (": " ++ dq ++ default "" (group 1 c) ++ dq)%string.

(** [s.endswith(suffix)] *)
Definition py_endswith (suffix s : string) : bool :=
  (String.length suffix <=? String.length s)%nat &&
  String.eqb (String.substring (String.length s - String.length suffix) (String.length suffix) s)
    suffix.

Definition is_none (v : json) : bool := match v with JNull => true | _ => false end.

(** [v == ""] *)
Definition eq_empty_str (v : json) : bool :=
  match v with JStr s => String.eqb s "" | _ => false end.

(** [field in data and data[field] is not None]; [in] and [[]] raise on
    values that are not containers. *)
Definition field_present (data : json) (field : string) : res bool :=
  b ← py_contains field data;
  if (b : bool) then (v ← py_index data field; Ok (negb (is_none v))) else Ok false.

(** [_validate_repaired_data] *)
Definition validate_repaired_data (data : json) : res bool :=
  res_all (field_present data) required_fields.

(** The cleaning of [_repair_json_response]: [strip()], a leading
    [```json] and a trailing [```] removed. *)
Definition strip_fences (content : string) : string :=
  let cleaned := py_strip content in
  let cleaned := if String.prefix "```json" cleaned
                 then String.substring 7 (String.length cleaned - 7) cleaned else cleaned in
  if py_endswith "```" cleaned
  then String.substring 0 (String.length cleaned - 3) cleaned else cleaned.

(** The two quoting passes. *)
Definition repair_text (content : string) : string :=
  re_sub value_pattern quote_value (re_sub key_pattern quote_key (strip_fences content)).

Section Parse.
Variable json_loads : string -> res json.

(** [_repair_json_response]: any exception gives [None]. *)
Definition repair_json_response (content : string) : option json :=
  match (parsed ← json_loads (repair_text content);
         ok ← validate_repaired_data parsed;
         Ok (if (ok : bool) then Some parsed else None)) with
  | Ok r => r
  | Err _ => None
  end.

(** The body of the [try] of [_parse_llm_response]: [Ok None] is a
    [return None] or the fall-through when there is no brace block. *)
Definition parse_attempt (content : string) : res (option json) :=
  match re_search (Group 0 json_block) content with
  | None => Ok None
  | Some c =>
      parsed_data ← json_loads (default "" (group 0 c));
      emit ← py_get parsed_data "emit" (JBool true);
      if py_truthy emit then
        (ok ← res_all (field_present parsed_data) required_fields;
         if (ok : bool) then
           (obj ← py_index parsed_data "object";
            Ok (if negb (py_truthy obj) || eq_empty_str obj then None else Some parsed_data))
         else Ok None)
      else Ok None
  end.

(** [_parse_llm_response]: on an exception the repair is tried on the
    whole answer, and its result is returned when truthy. *)
Definition parse_llm_response (content : string) : option json :=
  match parse_attempt content with
  | Ok r => r
  | Err _ =>
      match repair_json_response content with
      | Some d => if py_truthy d then Some d else None
      | None => None
      end
  end.
End Parse.

(** ** Lemmas *)

(** Only a non-empty dict passes [_validate_repaired_data]: a list or a
    string that contains a field name raises at [data[field]]. *)
Lemma validate_truthy d : validate_repaired_data d = Ok true -> py_truthy d = true.
Proof.
  destruct d as [| | | |s|l|l]; cbn; try discriminate.
  - by destruct (py_in "mem_type" s).
  - by destruct (existsb _ l).
  - destruct l; [|done]. discriminate.
Qed.

(** What an accepted first attempt guarantees: [emit] and [object] are
    truthy and every required field is present and not [None]. *)
Lemma parse_attempt_Some json_loads content d :
  parse_attempt json_loads content = Ok (Some d) ->
  validate_repaired_data d = Ok true /\
  (exists emit obj, py_get d "emit" (JBool true) = Ok emit /\ py_truthy emit = true /\
                    py_index d "object" = Ok obj /\ py_truthy obj = true).
Proof.
  unfold parse_attempt. intros H.
  destruct (re_search _ _) as [c|]; [|discriminate H].
  destruct (json_loads _) as [p|]; cbn [mbind res_bind] in H; [|discriminate H].
  destruct (py_get p "emit" _) as [emit|] eqn:He; cbn [mbind res_bind] in H; [|discriminate H].
  destruct (py_truthy emit) eqn:Hte; [|discriminate H].
  destruct (res_all (field_present p) required_fields) as [[|]|] eqn:Hall;
    cbn [mbind res_bind] in H; try discriminate H.
  destruct (py_index p "object") as [obj|] eqn:Ho; cbn [mbind res_bind] in H; [|discriminate H].
  destruct (py_truthy obj) eqn:Hto; cbn in H; [|discriminate H].
  destruct (eq_empty_str obj); [discriminate H|]. injection H as <-.
  split; [exact Hall|]. by exists emit, obj.
Qed.

(** The repair returns only what it validated. *)
Lemma repair_json_response_Some json_loads content d :
  repair_json_response json_loads content = Some d ->
  json_loads (repair_text content) = Ok d /\ validate_repaired_data d = Ok true.
Proof.
  unfold repair_json_response. intros H.
  destruct (json_loads _) as [p|]; cbn [mbind res_bind] in H; [|discriminate H].
  destruct (validate_repaired_data p) as [[|]|] eqn:Hv; cbn [mbind res_bind] in H;
    [|discriminate H..].
  by injection H as <-.
Qed.


(** A model answer with bare keys, an empty object and [emit: false]. *)
Definition bare_answer : string :=
  "{mem_type: IC, subjects: [dimitri, byleth], fact_text: x, predicate: p, object: , confidence: 1, emit: false}".

(** A loader that reads the repaired answer as such a dict and rejects
    everything else. *)
Definition bare_dict : json :=
  JObject [("mem_type", JStr "IC"); ("subjects", JArray [JStr "dimitri"; JStr "byleth"]);
           ("fact_text", JStr "x"); ("predicate", JStr "p"); ("object", JStr "");
           ("confidence", JInt 1); ("emit", JBool false)].

Definition bare_loads (s : string) : res json :=
  if String.eqb s (repair_text bare_answer) then Ok bare_dict else Err ValueError.


Definition newline : string := String (ascii_of_nat 10) EmptyString.
Definition quoted (s : string) : string := (dq ++ s ++ dq)%string.

(** The repair's quoting passes act only around colons: an answer
    without a colon (after the fences are stripped) is passed on
    unchanged, and quoted keys and values are left alone.  Bare words
    after a colon are quoted whatever they are, so [false] and [null]
    become the strings ["false"] and ["null"] (which count as present and
    truthy), and a colon inside a string value quotes the word before it
    and the word after it, which breaks the string. *)
Lemma repair_text_quotes :
  (forall content,
     str_free ":" (strip_fences content) = true -> repair_text content = strip_fences content) /\
  repair_text ("```json" ++ newline ++ "{mem_type: IC, emit: false, object: null}" ++
               newline ++ "```")%string =
    (newline ++ "{" ++ quoted "mem_type" ++ ": " ++ quoted "IC" ++ ", " ++ quoted "emit" ++ ": " ++
     quoted "false" ++ ", " ++ quoted "object" ++ ": " ++ quoted "null" ++ "}" ++ newline)%string /\
  repair_text ("{fact_text: " ++ quoted "Note: Byleth lies" ++ "}")%string =
    ("{" ++ quoted "fact_text" ++ ": " ++ dq ++ quoted "Note" ++ ": " ++ quoted "Byleth" ++
     " lies" ++ dq ++ "}")%string /\
  repair_text ("{" ++ quoted "confidence" ++ ": 0.9, " ++ quoted "subjects" ++ ": [" ++
               quoted "byleth" ++ "]}")%string =
    ("{" ++ quoted "confidence" ++ ": 0.9, " ++ quoted "subjects" ++ ": [" ++
     quoted "byleth" ++ "]}")%string.
Proof.
  split; [|split_and!; vm_compute; reflexivity].
  intros content Hfree. unfold repair_text, re_sub.
  rewrite (re_sub_go_must_have ":" key_pattern) by done.
  by rewrite (re_sub_go_must_have ":" value_pattern).
Qed.


(** C40. [_parse_llm_response] returns only answers whose required fields
    are all present and not [None], on both of its paths, and on the
    direct path [emit] and [object] are also truthy.  The repair path
    checks nothing more: when the first attempt raises, any dict the
    repaired text loads to that has the required fields is returned,
    whatever its [emit] and its [object] (an empty object or
    [emit: false] passes).  The repair's quoting passes act only around
    colons: an answer without a colon (after the fences are stripped) is
    passed on unchanged, and quoted keys and values are left alone; but
    bare words after a colon are quoted whatever they are, so [false] and
    [null] become the strings ["false"] and ["null"] (present and truthy),
    and a colon inside a string value breaks the string. *)
Theorem parse_llm_response_accepts :
  ((forall json_loads content d,
     parse_llm_response json_loads content = Some d ->
     validate_repaired_data d = Ok true) /\
  (forall json_loads content d,
     parse_attempt json_loads content = Ok (Some d) ->
     exists emit obj, py_get d "emit" (JBool true) = Ok emit /\ py_truthy emit = true /\
                      py_index d "object" = Ok obj /\ py_truthy obj = true) /\
  (forall json_loads content e d,
     parse_attempt json_loads content = Err e ->
     json_loads (repair_text content) = Ok d -> validate_repaired_data d = Ok true ->
     parse_llm_response json_loads content = Some d)) /\
  ((forall content,
       str_free ":" (strip_fences content) = true -> repair_text content = strip_fences content) /\
    repair_text ("```json" ++ newline ++ "{mem_type: IC, emit: false, object: null}" ++
                 newline ++ "```")%string =
      (newline ++ "{" ++ quoted "mem_type" ++ ": " ++ quoted "IC" ++ ", " ++ quoted "emit" ++ ": " ++
       quoted "false" ++ ", " ++ quoted "object" ++ ": " ++ quoted "null" ++ "}" ++ newline)%string /\
    repair_text ("{fact_text: " ++ quoted "Note: Byleth lies" ++ "}")%string =
      ("{" ++ quoted "fact_text" ++ ": " ++ dq ++ quoted "Note" ++ ": " ++ quoted "Byleth" ++
       " lies" ++ dq ++ "}")%string /\
    repair_text ("{" ++ quoted "confidence" ++ ": 0.9, " ++ quoted "subjects" ++ ": [" ++
                 quoted "byleth" ++ "]}")%string =
      ("{" ++ quoted "confidence" ++ ": 0.9, " ++ quoted "subjects" ++ ": [" ++
       quoted "byleth" ++ "]}")%string).
Proof.
  split; [|exact repair_text_quotes]. split_and!.
  - intros json_loads content d. unfold parse_llm_response.
    destruct (parse_attempt json_loads content) as [r|e] eqn:E.
    + intros ->. by apply parse_attempt_Some in E as [? _].
    + destruct (repair_json_response json_loads content) as [d'|] eqn:R; [|discriminate].
      destruct (py_truthy d'); [|discriminate]. intros [= <-].
      by apply repair_json_response_Some in R as [_ ?].
  - intros json_loads content d E. by apply parse_attempt_Some in E as [_ ?].
  - intros json_loads content e d E L V. unfold parse_llm_response, repair_json_response.
    rewrite E, L. cbn [mbind res_bind]. rewrite V. cbn. by rewrite (validate_truthy d V).
Qed.

Lemma parse_llm_response_accepts_witness :
  parse_attempt bare_loads bare_answer = Err ValueError /\
  bare_loads (repair_text bare_answer) = Ok bare_dict /\
  validate_repaired_data bare_dict = Ok true /\
  parse_llm_response bare_loads bare_answer = Some bare_dict.
Proof.
  assert (E : parse_attempt bare_loads bare_answer = Err ValueError) by (vm_compute; reflexivity).
  assert (L : bare_loads (repair_text bare_answer) = Ok bare_dict) by (vm_compute; reflexivity).
  assert (V : validate_repaired_data bare_dict = Ok true) by (vm_compute; reflexivity).
  split_and!; [exact E|exact L|exact V|].
  exact (proj2 (proj2 (proj1 parse_llm_response_accepts)) bare_loads bare_answer ValueError bare_dict E L V).
Defined.

End LlmResponse.
