(* ===== verification/Prompting.v ===== *)
(** * Prompting: the language-model extractor end to end
    (src/llm/memory_extractor.py: [extract_memories_from_sentence],
     [_create_system_prompt], [_create_user_prompt], [_create_memory_unit])

    [MemoryExtractor.extract_memories_from_sentence] builds a system
    prompt (constant text) and a user prompt (the entity registry, the
    predicate vocabulary as [json.dumps(..., indent=2)], the sentence and
    the chapter number), sends both to [self.client.chat], reads
    [response['message']['content']], parses it with
    [_parse_llm_response] (Module [LlmResponse]), and, when the parsed
    dict is truthy and its [emit] is, builds the record with
    [_create_memory_unit].  Any exception on the way is caught and gives
    [None].

    The chat call is the Section variable [chat] (the model name and the
    messages to the content of the answer, or an exception), [json.loads]
    is [json_loads] as in [LlmResponse], pydantic's validation of the
    [confidence] field is [py_float], and the [repr] of a float inside
    [json.dumps] is [float_repr].  [json.dumps] itself is modelled: the
    [indent=2] layout and the [ensure_ascii] escapes, reading the bytes of
    a Rocq string as Latin-1 code points.

    [Pipeline] abstracts the whole call as an oracle [llm] from a
    sentence and a chapter to a parsed record; [llm_extract_refines]
    shows that the end-to-end method is [Pipeline]'s extractor for the
    oracle [chat_llm], so the freshness law of [Pipeline] holds of the
    real extractor ([chat_extractor_fresh]).  The theorems: every record
    the extractor returns is the model's answer, unvalidated
    ([unvalidated_candidates_stored]); the user prompt determines the
    sentence and the chapter ([create_user_prompt_determines]); an answer
    listing two memories yields none ([multiple_memories_dropped]). *)

From S2P Require Import Prelude Json Regex MemoryUnit MemoryStore Pipeline LlmResponse.
Import Regex LlmResponse.

Module Prompting.

(** ** [json.dumps] with [indent=2] *)

Section Dumps.
(** [float.__repr__]. *)
Variable float_repr : Q -> string.

Definition hex_digit (n : nat) : ascii := ascii_of_nat (if n <? 10 then 48 + n else 87 + n)%nat.

(** [ESCAPE_DCT] and [py_encode_basestring_ascii]: the two-character
    escapes, [\u00XX] for the other characters outside [' '..'~']. *)
Definition json_escape_char (c : ascii) : string :=
  let n := nat_of_ascii c in
  if (n =? 34)%nat then ("\" ++ dq)%string
  else if (n =? 92)%nat then "\\"
  else if (n =? 10)%nat then "\n"
  else if (n =? 13)%nat then "\r"
  else if (n =? 9)%nat then "\t"
  else if (n =? 8)%nat then "\b"
  else if (n =? 12)%nat then "\f"
  else if ((32 <=? n) && (n <=? 126))%nat then String c ""
  else ("\u00" ++ String (hex_digit (n / 16)%nat) (String (hex_digit (n mod 16)%nat) ""))%string.

Fixpoint json_escape (s : string) : string :=
  match s with
  | EmptyString => ""
  | String c rest => (json_escape_char c ++ json_escape rest)%string
  end.

Definition json_quote (s : string) : string := (dq ++ json_escape s ++ dq)%string.

(** [newline_indent] of the encoder at a nesting level. *)
Definition json_newline_indent (level : nat) : string := (nl ++ str_repeat (2 * level)%nat " ")%string.

(** [_iterencode] with [indent=2]: items on lines of their own, separated
    by [","], keys followed by [": "], empty containers as [[]] and
    [{}]. *)
Fixpoint json_dumps_at (level : nat) (v : json) : string :=
  match v with
  | JNull => "null"
  | JBool b => if b then "true" else "false"
  | JInt z => py_str_Z z
  | JFloat q => float_repr q
  | JStr s => json_quote s
  | JArray [] => "[]"
  | JArray l =>
      ("[" ++ json_newline_indent (S level) ++
       String.concat ("," ++ json_newline_indent (S level)) (map (json_dumps_at (S level)) l) ++
       json_newline_indent level ++ "]")%string
  | JObject [] => "{}"
  | JObject d =>
      ("{" ++ json_newline_indent (S level) ++
       String.concat ("," ++ json_newline_indent (S level))
         (map (fun '(k, x) => json_quote k ++ ": " ++ json_dumps_at (S level) x) d) ++
       json_newline_indent level ++ "}")%string
  end.

Definition json_dumps (v : json) : string := json_dumps_at 0 v.
End Dumps.

(** ** The prompts *)

Definition py_lines (l : list string) : string := String.concat nl l.

(** [_create_system_prompt]. *)
Definition create_system_prompt : string :=
  py_lines
  ["You are a memory extractor. Extract facts from sentences and return JSON.";
   "";
   "Memory types:";
   "- WM: World events, policies, office dynamics";
   "- IC: Character interactions and relationships  ";
   "- C2U: Character knowledge about user";
   "";
   "Rules:";
   "- Return ONLY valid JSON";
   "- Use provided vocabulary for predicate/object";
   "- Set confidence 0.7-1.0";
   "- Keep fact_text under 140 characters";
   "- If no fact found, return {" ++ dq ++ "emit" ++ dq ++ ": false}";
   "- CRITICAL: Only use characters that exist in the provided character list";
   "- DO NOT invent or assume characters that aren't mentioned in the data";
   "- BE AGGRESSIVE: Extract multiple memories if a sentence contains multiple facts";
   "- Look for implicit relationships, character states, and world details";
   "- Even minor interactions or observations should be captured"]%string.

(** The [self.predicate_vocab] dict: each predicate's [type] and
    [object_enum], in that order. *)
Definition predicate_config_json (pc : PredicateConfig) : json :=
  JObject [("type", JStr pc.(pred_type)); ("object_enum", JArray (map JStr pc.(object_enum)))].

Definition predicate_vocab_json (vocab : list (string * PredicateConfig)) : json :=
  JObject (map (fun '(k, pc) => (k, predicate_config_json pc)) vocab).

(** [char_mapping]: [f'{name}->"{char_id}"'] over the aliases. *)
Definition char_mapping (aliases : list (string * string)) : list string :=
  map (fun '(name, char_id) => (name ++ "->" ++ dq ++ char_id ++ dq)%string) aliases.

Section UserPrompt.
Variable float_repr : Q -> string.

(** The f-string of [_create_user_prompt] up to the sentence. *)
Definition user_prompt_head (ex : MemoryExtractor) : string :=
  let reg := ex.(entity_registry) in
  py_lines
  ["Entities (IDs):";
   "- world: " ++ dq ++ reg.(world_id) ++ dq;
   "- user: " ++ dq ++ reg.(user_id) ++ dq;
   "- characters:";
   "  " ++ String.concat ", " (char_mapping reg.(character_aliases));
   "";
   "Predicate vocabulary:";
   json_dumps float_repr (predicate_vocab_json ex.(predicate_vocab));
   "";
   "Visibility defaults: WM=global, IC=shared, C2U=private";
   ""]%string.

(** The f-string after the chapter number. *)
Definition user_prompt_tail : string :=
  py_lines
  ["";
   "IMPORTANT: This sentence may contain multiple facts. Extract ALL relevant memories.";
   "Look for:";
   "- Character relationships and interactions";
   "- World events and settings";
   "- Character knowledge and observations";
   "- Implicit facts and implications";
   "";
   "Output JSON schema:";
   "{";
   "  " ++ dq ++ "emit" ++ dq ++ ": boolean,";
   "  " ++ dq ++ "mem_type" ++ dq ++ ": " ++ dq ++ "WM" ++ dq ++ " | " ++ dq ++ "IC" ++ dq ++ " | " ++
     dq ++ "C2U" ++ dq ++ ",";
   "  " ++ dq ++ "subjects" ++ dq ++ ": [string],";
   "  " ++ dq ++ "fact_text" ++ dq ++ ": string,";
   "  " ++ dq ++ "predicate" ++ dq ++ ": string,";
   "  " ++ dq ++ "object" ++ dq ++ ": string,";
   "  " ++ dq ++ "visibility" ++ dq ++ ": " ++ dq ++ "global" ++ dq ++ " | " ++ dq ++ "shared" ++ dq ++
     " | " ++ dq ++ "private" ++ dq ++ ",";
   "  " ++ dq ++ "confidence" ++ dq ++ ": number";
   "}";
   "";
   "If multiple memories exist, return the most important one first."]%string.

(** [_create_user_prompt]. *)
Definition create_user_prompt (ex : MemoryExtractor) (sentence : string) (chapter_number : Z) : string :=
  (user_prompt_head ex ++ nl ++
   "Sentence: " ++ dq ++ sentence ++ dq ++ nl ++
   "Chapter: " ++ py_str_Z chapter_number ++ nl ++
   user_prompt_tail)%string.
End UserPrompt.

(** ** The end-to-end extractor *)

(** pydantic's [str] and [List[str]] fields take strings and lists of
    strings only. *)
Definition as_py_str (v : json) : option string := match v with JStr s => Some s | _ => None end.

Definition as_py_str_list (v : json) : option (list string) :=
  match v with JArray l => mapM as_py_str l | _ => None end.

(** A field of [memory_data] as [_create_memory_unit] hands it to
    [MemoryUnit]: [Some None] when the key is absent (the [ValueError] of
    the required-field loop, raised by [create_memory_unit]), [None] when
    the value is rejected (slicing or pydantic's validation raises). *)
Definition md_field {A} (conv : json -> option A) (key : string) (d : list (string * json))
    : option (option A) :=
  match dict_get key d with
  | None => Some None
  | Some v => Some <$> conv v
  end.

(** [visibility = memory_data.get("visibility")]; a falsy value is
    replaced by the default, a truthy one must be a string. *)
Definition md_visibility_of (d : list (string * json)) : option (option string) :=
  match dict_get "visibility" d with
  | Some v => if py_truthy v then Some <$> as_py_str v else Some None
  | None => Some None
  end.

(** [memory_data.get("emit", True)], as a truth value. *)
Definition emit_of (d : list (string * json)) : bool :=
  py_truthy (default (JBool true) (dict_get "emit" d)).

Section Chat.
(** [self.client.chat(model=..., messages=...)['message']['content']]. *)
Variable chat : string -> list (string * string) -> res string.
Variable json_loads : string -> res json.
(** pydantic's validation of a [float] field. *)
Variable py_float : json -> option Q.
Variable float_repr : Q -> string.
Variables (ext_uuid now : nat -> string).

(** The fields of the parsed dict, read as [_create_memory_unit] reads
    them. *)
Definition memory_data_of (memory_data : json) : option MemoryData :=
  match memory_data with
  | JObject d =>
      mt ← md_field as_py_str "mem_type" d;
      subj ← md_field as_py_str_list "subjects" d;
      ft ← md_field as_py_str "fact_text" d;
      pred ← md_field as_py_str "predicate" d;
      obj ← md_field as_py_str "object" d;
      conf ← md_field py_float "confidence" d;
      vis ← md_visibility_of d;
      Some (mkMemoryData mt subj ft pred obj conf vis (Some (emit_of d)))
  | _ => None
  end.

(** The messages of the chat call. *)
Definition chat_messages (ex : MemoryExtractor) (sentence : string) (chapter_number : Z)
    : list (string * string) :=
  [("system", create_system_prompt); ("user", create_user_prompt float_repr ex sentence chapter_number)].

(** [MemoryExtractor.extract_memories_from_sentence], every step written
    out; the counter [k] of the [uuid4()] and [now()] draws advances when a
    record is built. *)
Definition llm_extract_memories_from_sentence (ex : MemoryExtractor) (sentence : string)
    (chapter_number : Z) (k : nat) : option MemoryUnit * nat :=
  if negb ex.(client) then (None, k)
  else
    match chat ex.(model_name) (chat_messages ex sentence chapter_number) with
    | Err _ => (None, k)
    | Ok content =>
        match parse_llm_response json_loads content with
        | Some memory_data =>
            match memory_data with
            | JObject d =>
                if py_truthy memory_data && emit_of d then
                  match memory_data_of memory_data with
                  | Some data =>
                      match create_memory_unit ex (ext_uuid k) (now k) data chapter_number with
                      | Some m => (Some m, S k)
                      | None => (None, k)
                      end
                  | None => (None, k)
                  end
                else (None, k)
            | _ => (None, k)  (* [.get] on a value that is not a dict raises *)
            end
        | None => (None, k)
        end
    end.

Definition chat_extractor (ex : MemoryExtractor) : SentenceExtractor :=
  mkSentenceExtractor (llm_extract_memories_from_sentence ex).

(** The oracle of [Pipeline] this extractor is: the chat call, the
    parse, and the fields of a truthy answer. *)
Definition chat_llm (ex : MemoryExtractor) (sentence : string) (chapter_number : Z) : option MemoryData :=
  match chat ex.(model_name) (chat_messages ex sentence chapter_number) with
  | Ok content =>
      match parse_llm_response json_loads content with
      | Some memory_data => if py_truthy memory_data then memory_data_of memory_data else None
      | None => None
      end
  | Err _ => None
  end.
End Chat.

(** ** Answers with one and with two memories *)

(** An answer holding one JSON object, as the schema of the prompt
    asks. *)
Definition answer_object (predicate object fact : string) : string :=
  ("{" ++ quoted "mem_type" ++ ": " ++ quoted "IC" ++ ", " ++
   quoted "subjects" ++ ": [" ++ quoted "byleth" ++ ", " ++ quoted "dimitri" ++ "], " ++
   quoted "fact_text" ++ ": " ++ quoted fact ++ ", " ++
   quoted "predicate" ++ ": " ++ quoted predicate ++ ", " ++
   quoted "object" ++ ": " ++ quoted object ++ ", " ++
   quoted "confidence" ++ ": 0.9}")%string.

Definition affair_answer : string :=
  answer_object "relationship_status" "started_affair" "Byleth and Dimitri begin an affair".

(** What [json.loads] reads [affair_answer] as. *)
Definition affair_dict : json :=
  JObject [("mem_type", JStr "IC"); ("subjects", JArray [JStr "byleth"; JStr "dimitri"]);
           ("fact_text", JStr "Byleth and Dimitri begin an affair");
           ("predicate", JStr "relationship_status"); ("object", JStr "started_affair");
           ("confidence", JFloat (9 # 10))].

(** The answer the prompt asks for when a sentence holds two facts: the
    most important object first, then the next. *)
Definition two_memory_answer : string :=
  (affair_answer ++ newline ++
   answer_object "contact" "private_meeting" "Byleth and Dimitri meet in private")%string.

Lemma affair_block :
  exists c, re_search (Group 0 json_block) affair_answer = Some c /\ group 0 c = Some affair_answer.
Proof.
  destruct (re_search (Group 0 json_block) affair_answer) as [c|] eqn:R; [|vm_compute in R; discriminate].
  exists c. split; [done|]. vm_compute in R. injection R as <-. vm_compute. reflexivity.
Qed.

(** [r'\{.*\}'] runs from the first brace to the last: the block handed
    to [json.loads] is the whole two-object answer. *)
Lemma two_memory_block :
  exists c, re_search (Group 0 json_block) two_memory_answer = Some c /\
            group 0 c = Some two_memory_answer.
Proof.
  destruct (re_search (Group 0 json_block) two_memory_answer) as [c|] eqn:R;
    [|vm_compute in R; discriminate].
  exists c. split; [done|]. vm_compute in R. injection R as <-. vm_compute. reflexivity.
Qed.

(** ** Lemmas *)

Lemma memory_data_of_emit py_float md data :
  memory_data_of py_float md = Some data ->
  exists d, md = JObject d /\ data.(md_emit) = Some (emit_of d).
Proof.
  destruct md as [| | | | | |d]; try discriminate. cbv [memory_data_of mbind option_bind].
  intros H. exists d. split; [done|].
  repeat (destruct (md_field _ _ d); [|discriminate]).
  destruct (md_visibility_of d); [|discriminate]. by injection H as <-.
Qed.


Lemma parse_affair_answer json_loads :
  json_loads affair_answer = Ok affair_dict -> parse_llm_response json_loads affair_answer = Some affair_dict.
Proof.
  intros L. destruct affair_block as (c & R & G).
  unfold parse_llm_response, parse_attempt. rewrite R, G. cbv [default from_option Datatypes.id]. rewrite L.
  vm_compute. reflexivity.
Qed.

Lemma parse_two_memory_answer json_loads e1 e2 :
  json_loads two_memory_answer = Err e1 -> json_loads (repair_text two_memory_answer) = Err e2 ->
  parse_llm_response json_loads two_memory_answer = None.
Proof.
  intros L1 L2. destruct two_memory_block as (c & R & G).
  unfold parse_llm_response, parse_attempt, repair_json_response. rewrite R, G. cbv [default from_option Datatypes.id].
  by rewrite L1, L2.
Qed.

Lemma as_py_str_Some v x : as_py_str v = Some x -> v = JStr x.
Proof. destruct v; try discriminate. by intros [= ->]. Qed.

Lemma as_py_str_list_Some v xs : as_py_str_list v = Some xs -> v = JArray (map JStr xs).
Proof.
  destruct v as [| | | | |l|]; try discriminate. cbn. revert xs.
  induction l as [|x l IH]; intros xs H; [by injection H as <-|].
  cbn in H. destruct (as_py_str x) as [y|] eqn:Hx; [|discriminate].
  destruct (mapM as_py_str l) as [ys|] eqn:Hl; [|discriminate]. injection H as <-.
  apply as_py_str_Some in Hx as ->. specialize (IH ys eq_refl). injection IH as ->. done.
Qed.

Lemma md_field_Some {A} (conv : json -> option A) key d x :
  md_field conv key d = Some (Some x) -> exists v, dict_get key d = Some v /\ conv v = Some x.
Proof.
  unfold md_field. destruct (dict_get key d) as [v|]; [|discriminate].
  destruct (conv v) eqn:E; [|discriminate]. intros [= ->]. by exists v.
Qed.

(** What [memory_data_of] reads from the dict. *)
Lemma memory_data_of_fields py_float d data :
  memory_data_of py_float (JObject d) = Some data ->
  (forall x, data.(md_mem_type) = Some x -> dict_get "mem_type" d = Some (JStr x)) /\
  (forall x, data.(md_subjects) = Some x -> dict_get "subjects" d = Some (JArray (map JStr x))) /\
  (forall x, data.(md_fact_text) = Some x -> dict_get "fact_text" d = Some (JStr x)) /\
  (forall x, data.(md_predicate) = Some x -> dict_get "predicate" d = Some (JStr x)) /\
  (forall x, data.(md_object) = Some x -> dict_get "object" d = Some (JStr x)) /\
  (forall x, data.(md_confidence) = Some x ->
     exists v, dict_get "confidence" d = Some v /\ py_float v = Some x).
Proof.
  cbv [memory_data_of mbind option_bind].
  destruct (md_field as_py_str "mem_type" d) as [mt|] eqn:E1; [|discriminate].
  destruct (md_field as_py_str_list "subjects" d) as [sj|] eqn:E2; [|discriminate].
  destruct (md_field as_py_str "fact_text" d) as [ft|] eqn:E3; [|discriminate].
  destruct (md_field as_py_str "predicate" d) as [pr|] eqn:E4; [|discriminate].
  destruct (md_field as_py_str "object" d) as [ob|] eqn:E5; [|discriminate].
  destruct (md_field py_float "confidence" d) as [cf|] eqn:E6; [|discriminate].
  destruct (md_visibility_of d); [|discriminate]. intros [= <-]. cbn.
  split_and!; intros x ->.
  - destruct (md_field_Some _ _ _ _ E1) as (v & Hv & Hc). by rewrite Hv, (as_py_str_Some _ _ Hc).
  - destruct (md_field_Some _ _ _ _ E2) as (v & Hv & Hc). by rewrite Hv, (as_py_str_list_Some _ _ Hc).
  - destruct (md_field_Some _ _ _ _ E3) as (v & Hv & Hc). by rewrite Hv, (as_py_str_Some _ _ Hc).
  - destruct (md_field_Some _ _ _ _ E4) as (v & Hv & Hc). by rewrite Hv, (as_py_str_Some _ _ Hc).
  - destruct (md_field_Some _ _ _ _ E5) as (v & Hv & Hc). by rewrite Hv, (as_py_str_Some _ _ Hc).
  - exact (md_field_Some _ _ _ _ E6).
Qed.

(** What [_create_memory_unit] copies into the record. *)
Lemma create_memory_unit_fields ex uid ts data ch m :
  create_memory_unit ex uid ts data ch = Some m ->
  data.(md_mem_type) = Some m.(mem_type) /\ data.(md_subjects) = Some m.(subjects) /\
  (exists ft, data.(md_fact_text) = Some ft /\ m.(fact_text) = String.substring 0 140 ft) /\
  data.(md_predicate) = Some m.(predicate) /\ data.(md_object) = Some m.(object) /\
  data.(md_confidence) = Some m.(confidence) /\ m.(chapter_start) = ch.
Proof.
  unfold create_memory_unit.
  destruct (md_mem_type data), (md_subjects data), (md_fact_text data) as [ft|], (md_predicate data),
    (md_object data), (md_confidence data); try discriminate.
  intros [= <-]. cbn. split_and!; try reflexivity. by exists ft.
Qed.

Section ChatProofs.
Variables (chat : string -> list (string * string) -> res string) (json_loads : string -> res json)
  (py_float : json -> option Q) (float_repr : Q -> string) (ext_uuid now : nat -> string).

(** The end-to-end method is [Pipeline]'s extractor for the oracle
    [chat_llm]. *)
Lemma llm_extract_refines ex sentence ch k :
  llm_extract_memories_from_sentence chat json_loads py_float float_repr ext_uuid now ex sentence ch k =
  extract_memories_from_sentence (chat_llm chat json_loads py_float float_repr ex) ext_uuid now
    ex sentence ch k.
Proof.
  unfold llm_extract_memories_from_sentence, extract_memories_from_sentence, chat_llm.
  destruct (client ex); [cbn|done].
  destruct (chat _ _) as [content|e]; [|done].
  destruct (parse_llm_response json_loads content) as [md|]; [|done].
  destruct (py_truthy md) eqn:Ht; [|by destruct md].
  destruct (memory_data_of py_float md) as [data|] eqn:Hd.
  - destruct (memory_data_of_emit _ _ _ Hd) as (d & -> & He). by rewrite He.
  - destruct md; try done. cbn. by destruct (emit_of _).
Qed.

Lemma chat_extractor_fresh ex :
  extractor_fresh (chat_extractor chat json_loads py_float float_repr ext_uuid now ex).
Proof.
  intros sentence ch k m k'. cbn. rewrite llm_extract_refines. apply llm_extractor_fresh.
Qed.
Lemma llm_extract_affair ex sentence ch k :
  ex.(client) = true ->
  chat ex.(model_name) (chat_messages float_repr ex sentence ch) = Ok affair_answer ->
  json_loads affair_answer = Ok affair_dict -> py_float (JFloat (9 # 10)) = Some (9 # 10) ->
  exists m, llm_extract_memories_from_sentence chat json_loads py_float float_repr ext_uuid now
              ex sentence ch k = (Some m, S k) /\
            m.(predicate) = "relationship_status" /\ m.(object) = "started_affair" /\
            m.(chapter_start) = ch.
Proof.
  intros Hc Hchat L F. unfold llm_extract_memories_from_sentence.
  rewrite Hc, Hchat, (parse_affair_answer _ L). simpl. unfold md_field. simpl. rewrite F. simpl.
  eexists. split_and!; reflexivity.
Qed.

Lemma llm_extract_two_memories ex sentence ch k e1 e2 :
  chat ex.(model_name) (chat_messages float_repr ex sentence ch) = Ok two_memory_answer ->
  json_loads two_memory_answer = Err e1 -> json_loads (repair_text two_memory_answer) = Err e2 ->
  llm_extract_memories_from_sentence chat json_loads py_float float_repr ext_uuid now ex sentence ch k =
  (None, k).
Proof.
  intros Hchat L1 L2. unfold llm_extract_memories_from_sentence.
  destruct (client ex); [|done]. cbn [negb]. by rewrite Hchat, (parse_two_memory_answer _ _ _ L1 L2).
Qed.

(** Every record the extractor returns is the model's answer: its
    fields are the strings and the number of the parsed dict. *)
Lemma llm_extract_Some ex sentence ch k m k' :
  llm_extract_memories_from_sentence chat json_loads py_float float_repr ext_uuid now ex sentence ch k =
    (Some m, k') ->
  exists content d,
    chat ex.(model_name) (chat_messages float_repr ex sentence ch) = Ok content /\
    parse_llm_response json_loads content = Some (JObject d) /\ emit_of d = true /\
    dict_get "mem_type" d = Some (JStr m.(mem_type)) /\
    dict_get "subjects" d = Some (JArray (map JStr m.(subjects))) /\
    (exists ft, dict_get "fact_text" d = Some (JStr ft) /\ m.(fact_text) = String.substring 0 140 ft) /\
    dict_get "predicate" d = Some (JStr m.(predicate)) /\
    dict_get "object" d = Some (JStr m.(object)) /\
    (exists v, dict_get "confidence" d = Some v /\ py_float v = Some m.(confidence)) /\
    m.(chapter_start) = ch /\ k' = S k.
Proof.
  unfold llm_extract_memories_from_sentence.
  destruct (client ex); [cbn|discriminate].
  destruct (chat _ _) as [content|e] eqn:Hchat; [|discriminate].
  destruct (parse_llm_response json_loads content) as [md|] eqn:Hp; [|discriminate].
  destruct md as [| | | | | |d]; try discriminate.
  destruct (py_truthy (JObject d) && emit_of d) eqn:Ht; [|discriminate].
  apply andb_true_iff in Ht as [_ He].
  destruct (memory_data_of py_float (JObject d)) as [data|] eqn:Hd; [|discriminate].
  destruct (create_memory_unit _ _ _ data ch) as [m'|] eqn:Hc; [|discriminate].
  intros [= <- <-]. exists content, d.
  destruct (memory_data_of_fields _ _ _ Hd) as (F1 & F2 & F3 & F4 & F5 & F6).
  destruct (create_memory_unit_fields _ _ _ _ _ _ Hc) as (C1 & C2 & (ft & C3 & Hft) & C4 & C5 & C6 & C7).
  split_and!; auto. by exists ft; split; [apply F3|].
Qed.

End ChatProofs.

(** The model answering every prompt with [affair_answer], and a
    [json.loads] that reads that answer and rejects every other text (as
    Python's does the two-object answer, with [Extra data], and its
    repair). *)
Definition affair_chat (answer : string) : string -> list (string * string) -> res string :=
  fun _ _ => Ok answer.

Definition answer_loads (s : string) : res json :=
  if String.eqb s affair_answer then Ok affair_dict else Err ValueError.

(** ** Candidates reach the store unvalidated *)

(** A model answer naming a character outside the registry, a predicate
    outside the vocabulary and a confidence of 0.1. *)
Definition ghost_answer : string :=
  ("{" ++ quoted "mem_type" ++ ": " ++ quoted "IC" ++ ", " ++
   quoted "subjects" ++ ": [" ++ quoted "byleth" ++ ", " ++ quoted "ghost" ++ "], " ++
   quoted "fact_text" ++ ": " ++ quoted "Byleth sees a ghost in the office" ++ ", " ++
   quoted "predicate" ++ ": " ++ quoted "haunts" ++ ", " ++
   quoted "object" ++ ": " ++ quoted "office" ++ ", " ++
   quoted "confidence" ++ ": 0.1}")%string.

Definition ghost_dict : json :=
  JObject [("mem_type", JStr "IC"); ("subjects", JArray [JStr "byleth"; JStr "ghost"]);
           ("fact_text", JStr "Byleth sees a ghost in the office");
           ("predicate", JStr "haunts"); ("object", JStr "office"); ("confidence", JFloat (1 # 10))].

Definition ghost_loads (s : string) : res json :=
  if String.eqb s ghost_answer then Ok ghost_dict else Err ValueError.

(** pydantic's [float] on the numbers of a JSON answer. *)
Definition number_float (v : json) : option Q :=
  match v with JFloat q => Some q | JInt z => Some (inject_Z z) | _ => None end.

Definition ghost_chapters : list ChapterData :=
  [mkChapterData (Some 1%Z) (Some "Byleth sees a ghost in the office late at night.")].

(** C4. The front end never validates its candidates: [validate_memory]
    (the registry, vocabulary, confidence and subject-shape checks of
    memory_extractor.py) is called nowhere, so every record the
    language-model extractor returns is exactly what the model answered
    (type, subjects, predicate, object and confidence of the parsed
    dict, the fact text cut to 140 characters, the chapter asked about),
    with only a truthy [emit] required.  Run by the generator's chapter
    loop, an answer with an unregistered character, a predicate outside
    the vocabulary and a confidence of 0.1 is stored as a record that
    [validate_memory] rejects, although the spec has the extraction
    front-end reject such candidates before they reach the store. *)
Theorem unvalidated_candidates_stored :
  (forall chat json_loads py_float float_repr ext_uuid now ex sentence ch k m k',
     llm_extract_memories_from_sentence chat json_loads py_float float_repr ext_uuid now
       ex sentence ch k = (Some m, k') ->
     exists content d,
       chat ex.(model_name) (chat_messages float_repr ex sentence ch) = Ok content /\
       parse_llm_response json_loads content = Some (JObject d) /\ emit_of d = true /\
       dict_get "mem_type" d = Some (JStr m.(mem_type)) /\
       dict_get "subjects" d = Some (JArray (map JStr m.(subjects))) /\
       (exists ft, dict_get "fact_text" d = Some (JStr ft) /\ m.(fact_text) = String.substring 0 140 ft) /\
       dict_get "predicate" d = Some (JStr m.(predicate)) /\
       dict_get "object" d = Some (JStr m.(object)) /\
       (exists v, dict_get "confidence" d = Some v /\ py_float v = Some m.(confidence)) /\
       m.(chapter_start) = ch /\ k' = S k) /\
  existsb (fun m => negb (validate_memory fallback_extractor m) && String.eqb m.(predicate) "haunts")
    (all_values (process_chapters_sequentially test_uuid ghost_chapters
       (chat_extractor (affair_chat ghost_answer) ghost_loads number_float (fun _ => "")
          test_uuid (fun _ => "t") fallback_extractor) empty_store 0).1.2) = true.
Proof. split; [exact llm_extract_Some|vm_compute; reflexivity]. Qed.

Lemma unvalidated_candidates_stored_witness :
  match llm_extract_memories_from_sentence (affair_chat ghost_answer) ghost_loads number_float
          (fun _ => "") test_uuid (fun _ => "t") fallback_extractor "Byleth sees a ghost in the office" 1 0 with
  | (Some m, k') =>
      exists content d,
        affair_chat ghost_answer "mistral:7b"
          (chat_messages (fun _ => "") fallback_extractor "Byleth sees a ghost in the office" 1) = Ok content /\
        parse_llm_response ghost_loads content = Some (JObject d) /\ emit_of d = true /\
        dict_get "mem_type" d = Some (JStr m.(mem_type)) /\
        dict_get "subjects" d = Some (JArray (map JStr m.(subjects))) /\
        (exists ft, dict_get "fact_text" d = Some (JStr ft) /\ m.(fact_text) = String.substring 0 140 ft) /\
        dict_get "predicate" d = Some (JStr m.(predicate)) /\
        dict_get "object" d = Some (JStr m.(object)) /\
        (exists v, dict_get "confidence" d = Some v /\ number_float v = Some m.(confidence)) /\
        m.(chapter_start) = 1%Z /\ k' = 1%nat
  | _ => False
  end.
Proof.
  destruct (llm_extract_memories_from_sentence _ _ _ _ _ _ _ _ _ _) as [[m|] k'] eqn:E;
    [|vm_compute in E; discriminate].
  exact (proj1 unvalidated_candidates_stored _ _ _ _ _ _ _ _ _ _ m k' E).
Defined.

(** C33. What the extractor sends the model determines the sentence and
    the chapter: [_create_user_prompt] is injective, since the chapter
    number is what follows the last [Chapter: ] before the fixed tail
    (a numeral holds no line break), the sentence what lies between the
    opening quote of the [Sentence:] line and the quote ending the line
    before, and the text around them is fixed by the extractor.
    Distinct sentences of a synopsis, or one sentence at two chapters,
    are never asked as the same question. *)
Theorem create_user_prompt_determines float_repr ex s1 s2 c1 c2 :
  create_user_prompt float_repr ex s1 c1 = create_user_prompt float_repr ex s2 c2 ->
  s1 = s2 /\ c1 = c2.
Proof.
  unfold create_user_prompt. intros E.
  do 4 apply str_app_cancel_l in E.
  assert (E' : ((((s1 ++ dq) ++ String "010" ("Chapter: " ++ py_str_Z c1)) ++ nl ++ user_prompt_tail) =
                (((s2 ++ dq) ++ String "010" ("Chapter: " ++ py_str_Z c2)) ++ nl ++ user_prompt_tail))%string)
    by (rewrite !str_app_assoc; exact E).
  apply str_app_cancel_r, str_free_app_cancel_r in E' as [Hs Hc];
    [|by rewrite str_free_app, py_str_Z_free_nl..].
  apply str_app_cancel_r in Hs. apply str_app_cancel_l, py_str_Z_inj in Hc. done.
Qed.


Lemma create_user_prompt_determines_witness :
  create_user_prompt (fun _ => "") fallback_extractor "Byleth meets Dimitri" 3 =
    create_user_prompt (fun _ => "") fallback_extractor "Byleth meets Dimitri" 3 /\
  ("Byleth meets Dimitri" = "Byleth meets Dimitri" /\ 3%Z = 3%Z).
Proof.
  split; [reflexivity|]. exact (create_user_prompt_determines (fun _ => "") fallback_extractor "Byleth meets Dimitri"
           "Byleth meets Dimitri" 3 3 eq_refl).
Defined.

(** C24. The prompts ask the model for every memory of a sentence (the
    system prompt's BE AGGRESSIVE rule, the user prompt's "Extract ALL
    relevant memories" and "If multiple memories exist, return the most
    important one first"), but the extractor keeps at most one, and an
    answer that follows the instruction loses them all: an answer holding
    one object of the schema yields its record, while for the same object
    followed by a second one the block [r'\{.*\}'] runs from the first
    brace to the last, [json.loads] rejects the two objects and their
    repair, and the sentence yields nothing. *)
Theorem multiple_memories_dropped :
  (forall chat json_loads py_float float_repr ext_uuid now ex sentence ch k,
     ex.(client) = true ->
     chat ex.(model_name) (chat_messages float_repr ex sentence ch) = Ok affair_answer ->
     json_loads affair_answer = Ok affair_dict -> py_float (JFloat (9 # 10)) = Some (9 # 10) ->
     exists m, llm_extract_memories_from_sentence chat json_loads py_float float_repr ext_uuid now
                 ex sentence ch k = (Some m, S k) /\
               m.(predicate) = "relationship_status" /\ m.(object) = "started_affair" /\
               m.(chapter_start) = ch) /\
  (exists c, re_search (Group 0 json_block) two_memory_answer = Some c /\
             group 0 c = Some two_memory_answer) /\
  (forall chat json_loads py_float float_repr ext_uuid now ex sentence ch k e1 e2,
     chat ex.(model_name) (chat_messages float_repr ex sentence ch) = Ok two_memory_answer ->
     json_loads two_memory_answer = Err e1 -> json_loads (repair_text two_memory_answer) = Err e2 ->
     llm_extract_memories_from_sentence chat json_loads py_float float_repr ext_uuid now
       ex sentence ch k = (None, k)).
Proof. split_and!; [exact llm_extract_affair|exact two_memory_block|exact llm_extract_two_memories]. Qed.

Lemma multiple_memories_dropped_witness :
  (exists m, llm_extract_memories_from_sentence (affair_chat affair_answer) answer_loads
               (fun _ => Some (9 # 10)) (fun _ => "") test_uuid (fun _ => "t") fallback_extractor
               "Byleth and Dimitri begin an affair" 1 0 = (Some m, 1%nat) /\
             m.(predicate) = "relationship_status" /\ m.(object) = "started_affair" /\
             m.(chapter_start) = 1%Z) /\
  llm_extract_memories_from_sentence (affair_chat two_memory_answer) answer_loads
    (fun _ => Some (9 # 10)) (fun _ => "") test_uuid (fun _ => "t") fallback_extractor
    "Byleth and Dimitri begin an affair" 1 0 = (None, 0%nat).
Proof.
  split.
  - apply (proj1 multiple_memories_dropped); reflexivity.
  - apply (proj2 (proj2 multiple_memories_dropped)) with (e1 := ValueError) (e2 := ValueError);
      [reflexivity|vm_compute; reflexivity|vm_compute; reflexivity].
Defined.

End Prompting.
