(* ===== verification/Refinement.v ===== *)
(** * Refinement: the store implements the spec's fact-list semantics

    The spec (section "UpdateResolver") describes ingestion on the list of
    stored facts: a candidate is either appended as a new active, open,
    unlinked fact with a fresh id ([Create]), or it supersedes an active
    fact [p] of the same canonical key from an earlier chapter: [p] is
    closed in place (inactive, [chapter_end = c - 1], [superseded_by] the
    new id) and the successor, with the next version and a back link, is
    appended ([Supersede]).  [spec_step] is that abstract machine on
    [list MemoryUnit].

    The abstraction of a concrete [SimpleMemoryStore] (heap, id index,
    chapter index, uuid counter) is [all_values], the list that
    [save_memories] writes.  [ingest_refines] is the simulation diagram:
    every concrete ingestion step maps to one abstract step, so every
    reachable store abstracts to a list the spec machine reaches from the
    empty list ([reachable_refines]). *)

From stdpp Require Import relations.
From S2P Require Import Prelude MemoryUnit MemoryStore.

(** The spec's closing of a superseded fact: inactive, ended at [e],
    pointing to its successor [sb]; every other field is kept. *)
Definition spec_close (p : MemoryUnit) (e : Z) (sb : string) : MemoryUnit :=
  {| id := p.(id); mem_type := p.(mem_type); subjects := p.(subjects);
     predicate := p.(predicate); object := p.(object); fact_text := p.(fact_text);
     chapter_start := p.(chapter_start); chapter_end := Some e; visibility := p.(visibility);
     confidence := p.(confidence); is_active := false; provenance := p.(provenance);
     version := p.(version); supersedes := p.(supersedes); superseded_by := Some sb;
     update_reason := p.(update_reason); update_confidence := p.(update_confidence);
     embedding := p.(embedding); attrs := p.(attrs) |}.

Inductive spec_step : list MemoryUnit -> list MemoryUnit -> Prop :=
| spec_create facts r :
    r.(id) ∉ map id facts -> r.(is_active) = true -> r.(chapter_end) = None ->
    r.(supersedes) = None -> r.(superseded_by) = None ->
    spec_step facts (facts ++ [r])
| spec_supersede pre p post r :
    p.(is_active) = true -> (p.(chapter_start) < r.(chapter_start))%Z ->
    get_key r = get_key p -> r.(id) ∉ map id (pre ++ p :: post) ->
    r.(supersedes) = Some p.(id) -> r.(version) = (p.(version) + 1)%Z ->
    r.(is_active) = true -> r.(chapter_end) = None -> r.(superseded_by) = None ->
    spec_step (pre ++ p :: post)
              (pre ++ spec_close p (r.(chapter_start) - 1) r.(id) :: post ++ [r]).

(** Rewriting the object at [l0] and appending a fresh one rewrites the
    fact in place and appends the new fact. *)
Lemma all_values_extend_write st l0 p x new c :
  store_wf st -> deref st l0 = Some p -> dict_get new.(id) st.(all_memories) = None ->
  exists pre post, all_values st = (pre ++ p :: post)%list /\
    all_values (extend_store st (Some (l0, x)) new c) = (pre ++ x :: post ++ [new])%list.
Proof.
  intros Hwf Hp Hfresh.
  assert (Hin : (p.(id), l0) ∈ st.(all_memories)) by (apply dict_get_Some, (wf_heap _ Hwf), Hp).
  apply list_elem_of_split in Hin as (d1 & d2 & Hd).
  assert (Hother : forall k l, In (k, l) (d1 ++ d2)%list -> l <> l0 /\ l < length st.(heap)).
  { intros k l Hkl. assert (Hkl' : (k, l) ∈ st.(all_memories)).
    { rewrite Hd. apply list_elem_of_In in Hkl. set_solver. }
    split; [|by eapply store_wf_loc]. intros ->.
    destruct (wf_ids _ Hwf k l0) as (r & Hr & Hk); [by apply dict_get_elem; [apply Hwf|]|].
    rewrite Hp in Hr. injection Hr as <-. subst k. pose proof (wf_nodup _ Hwf) as Hnd.
    rewrite Hd, map_app in Hnd. cbn in Hnd. apply NoDup_app in Hnd as (_ & Hdis & Hnd2).
    apply NoDup_cons in Hnd2 as [Hn2 _]. apply in_app_or in Hkl as [H1|H2].
    - apply (Hdis (id p)); [apply list_elem_of_In, in_map_iff; by exists (id p, l0)|set_solver].
    - apply Hn2, list_elem_of_In, in_map_iff. by exists (id p, l0). }
  exists (omap (fun '(_, l) => deref st l) d1), (omap (fun '(_, l) => deref st l) d2).
  rewrite !all_values_alt. cbn [extend_store all_memories]. rewrite dict_set_fresh by done.
  rewrite Hd, <- app_assoc, !omap_app_l, !omap_cons. cbn [app]. rewrite Hp, deref_extend.
  rewrite decide_False by (apply lookup_lt_Some in Hp; lia). cbn. rewrite Hp, decide_True by done.
  rewrite deref_extend, decide_True by done. cbn [fmap option_fmap option_map app].
  split; [done|]. f_equal; [|f_equal; f_equal].
  - apply omap_ext_in. intros [k l] Hkl. destruct (Hother k l) as [Hne Hlt]; [apply in_or_app; by left|].
    rewrite deref_extend, decide_False by lia. cbn. by rewrite decide_False.
  - apply omap_ext_in. intros [k l] Hkl. destruct (Hother k l) as [Hne Hlt]; [apply in_or_app; by right|].
    rewrite deref_extend, decide_False by lia. cbn. by rewrite decide_False.
Qed.

Section Refines.
Variable uuid4 : nat -> string.
Hypothesis uuid4_inj : Inj eq eq uuid4.

  (** The id the store allocates is not yet among the stored facts. *)
Lemma fresh_id_not_stored st k :
    store_inv uuid4 st -> (st.(uuid_ctr) <= k)%nat -> uuid4 k ∉ map id (all_values st).
  Proof.
    intros [Hwf _ Hfr _] Hk. rewrite all_values_ids by done.
    intros Hin. apply list_elem_of_In, in_map_iff in Hin as ([k' l] & Hk' & Hin).
    cbn in Hk'. subst k'. apply list_elem_of_In, dict_get_elem in Hin; [|apply Hwf].
    by rewrite fresh_not_indexed in Hin.
  Qed.

  (** One concrete ingestion step is one step of the spec machine. *)
Lemma ingest_refines st st' :
    store_inv uuid4 st -> ingest uuid4 st st' -> spec_step (all_values st) (all_values st').
  Proof.
    intros Hinv Hstep. revert Hinv. destruct Hstep as [st m ch thr l a st' Hm Hcs Hsu].
    intros Hinv. pose proof Hinv as [Hwf Hch Hfr Hgen].
    unfold smart_update_or_create in Hsu.
    destruct (find_best_update_candidate st m thr) as [[[l0 p] score]|] eqn:Hf.
    - apply find_best_update_candidate_spec in Hf as (Hp & Hcu & _).
      apply can_update_true in Hcu as (Hkey & Hact & Hlt).
      rewrite (update_existing_memory_extend uuid4 _ _ p) in Hsu by done. injection Hsu as <- <- <-.
      destruct (all_values_extend_write st l0 p (close_record p (ch - 1) (uuid4 (S (uuid_ctr st))))
                  (successor p m (uuid4 (S (uuid_ctr st))) ch (update_reason_of score))
                  (S (S (uuid_ctr st))) Hwf Hp) as (pre & post & Hv & Hv');
        [by apply (fresh_not_indexed uuid4); auto|].
      rewrite Hv, Hv'.
      apply (spec_supersede pre p post (successor p m (uuid4 (S (uuid_ctr st))) ch (update_reason_of score)));
        try done; cbn.
      + lia.
      + by rewrite <- Hv; apply fresh_id_not_stored; [|lia].
    - rewrite add_new_memory_extend in Hsu. injection Hsu as <- <- <-.
      destruct (fresh_candidate_spec m Hm) as (Hs & Hsb & Ha & He).
      rewrite all_values_extend_fresh by (done || by apply (fresh_not_indexed uuid4)).
      apply spec_create; cbn; try done. by apply fresh_id_not_stored.
  Qed.
End Refines.

(** The spec machine keeps the ids of its facts distinct. *)
Lemma spec_step_nodup facts facts' :
  spec_step facts facts' -> NoDup (map id facts) -> NoDup (map id facts').
Proof.
  destruct 1 as [facts r Hr| pre p post r _ _ _ Hr]; intros Hnd.
  - rewrite map_app. apply NoDup_app. split_and!; [done| |apply NoDup_singleton].
    intros x Hx ->%list_elem_of_singleton. contradiction.
  - replace (map id (pre ++ spec_close p (chapter_start r - 1) (id r) :: post ++ [r])%list)
      with (map id (pre ++ p :: post) ++ [id r])%list
      by (rewrite !map_app; cbn [map]; rewrite ?map_app, <- app_assoc; reflexivity).
    apply NoDup_app. split_and!; [done| |apply NoDup_singleton].
    intros x Hx ->%list_elem_of_singleton. contradiction.
Qed.

Section Reachable.
Variable uuid4 : nat -> string.
Hypothesis uuid4_inj : Inj eq eq uuid4.

(** C2. Refinement: the fact list of every store reachable by
      ingestion ([save_memories]' output) is reached from the empty list
      by [Create] and [Supersede] steps of the spec's fact-list machine.
      As the machine only ever adds fresh ids, the ids of the saved facts
      are distinct. *)
Theorem reachable_refines st :
    reachable uuid4 st ->
    rtc spec_step [] (all_values st) /\ NoDup (map id (all_values st)).
  Proof.
    intros Hr. assert (Hrtc : rtc spec_step [] (all_values st)).
    { induction Hr as [|st st' Hr IH Hstep]; [constructor|].
      eapply rtc_r; [exact IH|]. apply (ingest_refines uuid4); [|done].
      by apply reachable_inv. }
    split; [done|]. clear Hr. remember [] as l0 eqn:E.
    assert (Hnd0 : NoDup (map id l0)) by (subst; constructor).
    clear E. induction Hrtc as [|x y z Hxy _ IH]; [done|].
    apply IH, (spec_step_nodup x); done.
  Qed.
End Reachable.

Lemma reachable_refines_witness :
  reachable test_uuid store_ch10 /\
  rtc spec_step [] (all_values store_ch10) /\ NoDup (map id (all_values store_ch10)).
Proof.
  split; [apply store_ch10_reachable|].
  apply (reachable_refines test_uuid test_uuid_inj), store_ch10_reachable.
Defined.
