(* ===== verification/QueryInterface.v ===== *)
(** * QueryInterface: the free-text query front-end (src/query_memories.py)

    [MemoryQueryInterface] holds a store and a retriever over the same
    store.  [query] strips and lower-cases the question, classifies it
    with [_parse_query] (the first pattern of the first list that
    [re.search] matches, in the order relationship, character, world,
    personal, timeline, with "general" as the fallback) and answers with
    the matching [_query_*] handler.  The patterns are transcribed into
    the syntax of [Regex]; the handlers read the store through
    [get_memories_at_chapter] and [all_memories.values()], sort with
    Python's stable sort on the handlers' key tuples and build the answer
    text.  The bullet "•" of the answers is the UTF-8 encoding of the
    character; ['\n'] is [nl].  The order of a Python [set] (the
    characters of a timeline answer) is a section variable. *)

From stdpp Require Import gmap.
From S2P Require Import Prelude MemoryUnit MemoryStore Retriever Regex.
Import Regex.

Local Open Scope string_scope.

Module QueryInterface.

Record MemoryQueryInterface := mkQueryInterface {
  qi_memory_store : SimpleMemoryStore;
  qi_retriever : SimpleMemoryRetriever
}.

(** [__init__]: the retriever reads the interface's own store. *)
Definition make_interface (st : SimpleMemoryStore) (client_ok : bool) : MemoryQueryInterface :=
  mkQueryInterface st (mkRetriever st "mistral:7b" client_ok).

(** ** The patterns of [_parse_query] *)

(** [(?:a|b|...)] over literal words. *)
Fixpoint alts (l : list string) : regex :=
  match l with
  | [] => Eps
  | [w] => lit w
  | w :: rest => Alt (lit w) (alts rest)
  end.

(** [what'?s?] *)
Definition whats : regex := seqs [lit "what"; Opt (lit "'"); Opt (lit "s")].

(** [(?:\s+<kw>\s+chapter\s+(\d+))?] with the group numbered [i]. *)
Definition opt_chapter (kw : string) (i : nat) : regex :=
  Opt (seqs [ws; lit kw; ws; lit "chapter"; ws; Group i digits]).

(** [(?:the\s+)?] *)
Definition opt_the : regex := Opt (seqs [lit "the"; ws]).

Definition relationship_patterns : list regex := [
  seqs [whats; ws; opt_the; alts ["relationship"; "relation"]; ws; alts ["of"; "between"];
        ws; Group 1 word; ws; lit "and"; ws; Group 2 word; opt_chapter "before" 3];
  seqs [lit "how"; ws; lit "do"; ws; Group 1 word; ws; lit "and"; ws; Group 2 word; ws;
        alts ["get along"; "interact"]; opt_chapter "before" 3];
  seqs [lit "what"; ws; lit "does"; ws; Group 1 word; ws; lit "think"; ws; lit "of"; ws;
        Group 2 word; opt_chapter "in" 3];
  seqs [Group 1 word; ws; lit "and"; ws; Group 2 word; ws; lit "relationship";
        opt_chapter "before" 3]
].

Definition character_patterns : list regex := [
  seqs [lit "what"; ws; alts ["does"; "do"]; ws; Group 1 word; ws;
        alts ["know"; "think"; "feel"]; opt_chapter "in" 2];
  seqs [Group 1 word; ws; alts ["personality"; "background"; "role"]; opt_chapter "in" 2];
  seqs [lit "what"; ws; lit "happened"; ws; lit "to"; ws; Group 1 word; opt_chapter "in" 2]
].

Definition world_patterns : list regex := [
  seqs [whats; ws; alts ["happening"; "going on"]; ws; lit "in"; ws; opt_the;
        alts ["world"; "company"; "office"]; opt_chapter "in" 1];
  seqs [alts ["company"; "office"; "world"]; ws; alts ["policies"; "rules"; "culture"];
        opt_chapter "in" 1];
  seqs [whats; ws; lit "new"; ws; lit "in"; ws; opt_the; alts ["company"; "office"];
        opt_chapter "in" 1]
].

Definition personal_pattern_know : regex :=
  seqs [lit "what"; ws; Alt (seqs [lit "do"; ws; lit "I"; ws; lit "know"])
                            (seqs [lit "am"; ws; lit "I"; ws; lit "aware"; ws; lit "of"]);
        opt_chapter "in" 1].

Definition personal_pattern_my : regex :=
  seqs [lit "my"; ws; alts ["thoughts"; "feelings"; "experiences"]; opt_chapter "in" 1].

Definition personal_pattern_learned : regex :=
  seqs [lit "what"; ws; Alt (seqs [lit "have"; ws; lit "I"; ws; lit "learned"])
                            (seqs [lit "did"; ws; lit "I"; ws; lit "experience"]);
        opt_chapter "in" 1].

Definition personal_patterns : list regex :=
  [personal_pattern_know; personal_pattern_my; personal_pattern_learned].

Definition timeline_patterns : list regex := [
  seqs [lit "what"; ws; lit "happened"; ws;
        Alt (seqs [lit "in"; ws; lit "chapter"; ws; Group 1 digits])
            (seqs [lit "before"; ws; lit "chapter"; ws; Group 2 digits])];
  seqs [lit "timeline"; ws; alts ["of"; "for"]; ws; lit "chapter"; ws; Group 1 digits];
  seqs [lit "summary"; ws; alts ["of"; "for"]; ws; lit "chapter"; ws; Group 1 digits]
].

(** ** [_parse_query] *)

Inductive ParsedQuery :=
| QRelationship (char1 char2 : string) (chapter_limit : option Z)
| QCharacterFacts (character : string) (chapter : option Z)
| QWorldFacts (chapter : option Z)
| QPersonalFacts (chapter : option Z)
| QTimeline (chapter : option Z)
| QGeneral (query_text original_query : string).

(** [for pattern in patterns: match = re.search(pattern, q); if match: ...] *)
Fixpoint first_match (ps : list regex) (q : string) : option caps :=
  match ps with
  | [] => None
  | p :: rest =>
      match re_search p q with
      | Some c => Some c
      | None => first_match rest q
      end
  end.

(** [int(g) if g else None] for a group [g] of [\d+]: [int] never raises
    on such a group. *)
Definition int_group (g : option string) : option Z :=
  match g with
  | Some (String _ _ as s) => py_int s
  | _ => None
  end.

(** [match.group(i)] of a group that always takes part. *)
Definition grp (i : nat) (c : caps) : string := default "" (group i c).

(** [g1 or g2] on groups ([None] and [""] are false). *)
Definition py_or (g1 g2 : option string) : option string :=
  match g1 with
  | Some (String _ _) => g1
  | _ => g2
  end.

Definition parse_query (query_text : string) : ParsedQuery :=
  match first_match relationship_patterns query_text with
  | Some c => QRelationship (grp 1 c) (grp 2 c) (int_group (group 3 c))
  | None =>
  match first_match character_patterns query_text with
  | Some c => QCharacterFacts (grp 1 c) (int_group (group 2 c))
  | None =>
  match first_match world_patterns query_text with
  | Some c => QWorldFacts (int_group (group 1 c))
  | None =>
  match first_match personal_patterns query_text with
  | Some c => QPersonalFacts (int_group (group 1 c))
  | None =>
  match first_match timeline_patterns query_text with
  | Some c => QTimeline (int_group (py_or (group 1 c) (group 2 c)))
  | None => QGeneral query_text query_text
  end end end end end.

(** [query_text.strip().lower()] *)
Definition normalize_query (text : string) : string := py_lower (py_strip text).

(** ** The handlers *)

Definition bullet : string := "•".

(** [if chapter:] on an [Optional[int]]: [None] and [0] are false. *)
Definition truthy (o : option Z) : option Z :=
  match o with
  | Some z => if (z =? 0)%Z then None else Some z
  | None => None
  end.

(** The sort key [(x.chapter_start, -x.confidence)]. *)
Definition chapter_order (a b : MemoryUnit) : bool :=
  (a.(chapter_start) <? b.(chapter_start))%Z ||
  ((a.(chapter_start) =? b.(chapter_start))%Z && Qle_bool b.(confidence) a.(confidence)).

(** The records a character, world or personal query lists: those of
    [get_memories_at_chapter(chapter)] when [chapter] is true, else those
    of [all_memories.values()], that pass [keep]. *)
Definition facts_at (st : SimpleMemoryStore) (chapter : option Z)
    (keep : MemoryUnit -> bool) : list MemoryUnit :=
  match truthy chapter with
  | Some ch => List.filter keep (get_memories_at_chapter st ch)
  | None => List.filter keep (all_values st)
  end.

(** [f"• {chapter_info} {memory.fact_text}\n"] *)
Definition fact_line (with_chapter : bool) (m : MemoryUnit) : string :=
  bullet ++ " " ++ (if with_chapter then "[Chapter " ++ py_str_Z m.(chapter_start) ++ "]" else "")
  ++ " " ++ m.(fact_text) ++ nl.

(** The answer of a handler that found [ms]: the heading, [" in chapter
    N:\n\n"] or [":\n\n"] (the relationship handler says "before
    chapter"), and one line per record in the sorted order. *)
Definition facts_answer (heading kw : string) (chapter : option Z) (with_chapter : bool)
    (ms : list MemoryUnit) : string :=
  heading ++
  (match truthy chapter with
   | Some ch => " " ++ kw ++ " chapter " ++ py_str_Z ch ++ ":" ++ nl ++ nl
   | None => ":" ++ nl ++ nl
   end) ++
  String.concat "" (map (fact_line with_chapter) (sort_by chapter_order ms)).

Definition is_relationship_memory (char1 char2 : string) (m : MemoryUnit) : bool :=
  String.eqb m.(mem_type) "IC" && m.(is_active) &&
  bool_decide (char1 ∈ m.(subjects)) && bool_decide (char2 ∈ m.(subjects)).

(** The records [_query_relationship] lists: with a limit, the records of
    [get_memories_at_chapter(c)] for every [c] in [range(1, limit + 1)],
    concatenated. *)
Definition relationship_memories (st : SimpleMemoryStore) (char1 char2 : string)
    (chapter_limit : option Z) : list MemoryUnit :=
  match truthy chapter_limit with
  | Some lim =>
      List.concat (map (fun ch => List.filter (is_relationship_memory char1 char2)
                                    (get_memories_at_chapter st ch))
                       (py_range 1 (lim + 1)))
  | None => List.filter (is_relationship_memory char1 char2) (all_values st)
  end.

Definition query_relationship (st : SimpleMemoryStore) (char1 char2 : string)
    (chapter_limit : option Z) : string :=
  match relationship_memories st char1 char2 chapter_limit with
  | [] => "I don't have any information about the relationship between " ++ char1 ++ " and " ++ char2
  | ms => facts_answer ("Here's what I know about the relationship between " ++ char1 ++ " and " ++ char2)
            "before" chapter_limit (bool_decide (truthy chapter_limit <> None)) ms
  end.

Definition character_fact (character : string) (m : MemoryUnit) : bool :=
  m.(is_active) && bool_decide (character ∈ m.(subjects)).

Definition query_character_facts (st : SimpleMemoryStore) (character : string)
    (chapter : option Z) : string :=
  match facts_at st chapter (character_fact character) with
  | [] => "I don't have any information about " ++ character
  | ms => facts_answer ("Here's what I know about " ++ character) "in" chapter
            (bool_decide (truthy chapter = None)) ms
  end.

Definition type_fact (t : string) (m : MemoryUnit) : bool :=
  String.eqb m.(mem_type) t && m.(is_active).

Definition query_world_facts (st : SimpleMemoryStore) (chapter : option Z) : string :=
  match facts_at st chapter (type_fact "WM") with
  | [] => "I don't have any information about the world or company"
  | ms => facts_answer "Here's what I know about the world/company" "in" chapter
            (bool_decide (truthy chapter = None)) ms
  end.

Definition query_personal_facts (st : SimpleMemoryStore) (chapter : option Z) : string :=
  match facts_at st chapter (type_fact "C2U") with
  | [] => "I don't have any personal information about you"
  | ms => facts_answer "Here's what I know about you" "in" chapter
            (bool_decide (truthy chapter = None)) ms
  end.

(** [_query_general]: the active records sharing a word with the query,
    with the size of the overlap. *)
Definition general_hit (query_text : string) (m : MemoryUnit) : option (MemoryUnit * nat) :=
  if m.(is_active) then
    let overlap := set_inter_size (word_set query_text) (word_set m.(fact_text)) in
    if (0 <? overlap)%nat then Some (m, overlap) else None
  else None.

(** The sort key [(-x[1], -x[0].confidence)]. *)
Definition general_order (a b : MemoryUnit * nat) : bool :=
  (b.2 <? a.2)%nat || ((a.2 =? b.2)%nat && Qle_bool b.1.(confidence) a.1.(confidence)).

Definition general_line (h : MemoryUnit * nat) : string :=
  bullet ++ " [Chapter " ++ py_str_Z h.1.(chapter_start) ++ ", " ++ h.1.(mem_type) ++ "] "
  ++ h.1.(fact_text) ++ nl.

Definition query_general (st : SimpleMemoryStore) (query_text original_query : string) : string :=
  match omap (general_hit query_text) (all_values st) with
  | [] => "I couldn't find any relevant information for: '" ++ original_query ++ "'"
  | hits => "Here's what I found for: '" ++ original_query ++ "'" ++ nl ++ nl ++
            String.concat "" (map general_line (py_take 5 (sort_by general_order hits)))
  end.

Section Answer.
  (** The iteration order of the Python [set] of characters. *)
Variable set_order : gset string -> list string.

Definition query_timeline (r : SimpleMemoryRetriever) (chapter : option Z) : string :=
    match truthy chapter with
    | None => "Please specify which chapter you'd like a summary for."
    | Some ch =>
        let summary := retriever_chapter_summary r ch in
        "Chapter " ++ py_str_Z ch ++ " Summary:" ++ nl ++ nl ++
        "Total Memories: " ++ py_str_Z (Z.of_nat summary.(rs_total_memories)) ++ nl ++
        "Characters: " ++ String.concat ", " (set_order summary.(rs_characters)) ++ nl ++ nl ++
        "Memories by Type:" ++ nl ++
        String.concat "" (map (fun '(t, n) => bullet ++ " " ++ t ++ ": " ++ py_str_Z (Z.of_nat n) ++ nl)
                              summary.(rs_by_type)) ++
        nl ++ "Top Memories:" ++ nl ++
        String.concat "" (map (fun tm => bullet ++ " [" ++ tm.(tm_mem_type) ++ "] " ++ tm.(tm_fact_text) ++ nl)
                              summary.(rs_top_memories))
    end.

  (** [query]: strip, lower-case, classify, dispatch. *)
Definition query (qi : MemoryQueryInterface) (text : string) : string :=
    let st := qi.(qi_memory_store) in
    match parse_query (normalize_query text) with
    | QRelationship c1 c2 lim => query_relationship st c1 c2 lim
    | QCharacterFacts c ch => query_character_facts st c ch
    | QWorldFacts ch => query_world_facts st ch
    | QPersonalFacts ch => query_personal_facts st ch
    | QTimeline ch => query_timeline qi.(qi_retriever) ch
    | QGeneral q orig => query_general st q orig
    end.
End Answer.

(** ** Classification *)

(** A normalised query holds no upper-case letter; in particular no ["I"]. *)
Lemma normalize_query_no_I text : str_free "I" (normalize_query text) = true.
Proof. apply py_lower_upper_free. vm_compute. lia. Qed.

Lemma first_match_cons p ps q :
  first_match (p :: ps) q = match re_search p q with Some c => Some c | None => first_match ps q end.
Proof. reflexivity. Qed.

(** C14. The first and third personal patterns of [_parse_query] contain a
    literal upper-case "I", but [query] lower-cases the text before
    matching: for every input they never match, and a query is classified
    as personal facts only through the "my ..." pattern, with the chapter
    of that pattern's group.  Hence the six examples printed by [main]'s
    help text are classified as a relationship query about "a" and "b"
    limited to chapter 10, a relationship query about "byleth" and
    "edelgard", the character facts of "byleth" in chapter 5, the world
    facts of chapter 3 and the summary of chapter 7, but "what do I know
    about the office" becomes a character query about the character "i",
    not a personal query; and a question about a role captures the word
    before "role" as the character. *)
Theorem personal_patterns_unreachable text ch :
  (re_search personal_pattern_know (normalize_query text) = None /\
   re_search personal_pattern_learned (normalize_query text) = None /\
   (parse_query (normalize_query text) = QPersonalFacts ch ->
    exists c, re_search personal_pattern_my (normalize_query text) = Some c /\
              ch = int_group (group 1 c))) /\
   map (fun t => parse_query (normalize_query t))
     ["what's the relation of A and B before chapter 10";
      "how do Byleth and Edelgard get along";
      "what does Byleth know in chapter 5";
      "what's happening in the company in chapter 3";
      "what do I know about the office";
      "summary of chapter 7";
      "what is the role of Dimitri"] =
   [QRelationship "a" "b" (Some 10%Z);
    QRelationship "byleth" "edelgard" None;
    QCharacterFacts "byleth" (Some 5%Z);
    QWorldFacts (Some 3%Z);
    QCharacterFacts "i" None;
    QTimeline (Some 7%Z);
    QCharacterFacts "the" None].
Proof.
  split; [|vm_compute; reflexivity].
  assert (Hk : re_search personal_pattern_know (normalize_query text) = None)
    by (apply (re_search_must_have "I"); [reflexivity|apply normalize_query_no_I]).
  assert (Hl : re_search personal_pattern_learned (normalize_query text) = None)
    by (apply (re_search_must_have "I"); [reflexivity|apply normalize_query_no_I]).
  split_and!; [done|done|]. unfold parse_query.
  destruct (first_match relationship_patterns _); [done|].
  destruct (first_match character_patterns _); [done|].
  destruct (first_match world_patterns _); [done|].
  unfold personal_patterns. rewrite !first_match_cons, Hk, Hl.
  destruct (re_search personal_pattern_my _) as [c|]; [intros [= <-]; by exists c|].
  by destruct (first_match timeline_patterns _).
Qed.

(** ** Answers *)

Lemma truthy_nonzero z : z <> 0%Z -> truthy (Some z) = Some z.
Proof. intros Hz. unfold truthy. by rewrite (proj2 (Z.eqb_neq z 0) Hz). Qed.

(** C13. With a chapter, the character, world and personal handlers list
    exactly the stored records that pass their filter and are visible at
    that chapter: active, started in a chapter from 1 to it, and not
    ended before it.  No answer mentions a record from a later chapter. *)
Theorem facts_at_visible st chapter keep c m :
  store_wf st -> truthy chapter = Some c ->
  (m ∈ facts_at st chapter keep <->
   keep m = true /\
   exists l, deref st l = Some m /\ (1 <= m.(chapter_start) <= c)%Z /\ m.(is_active) = true /\
             match m.(chapter_end) with None => True | Some e => (c <= e)%Z end).
Proof.
  intros Hwf Hc. unfold facts_at. rewrite Hc, elem_of_List_filter.
  rewrite in_get_memories_at_chapter by done. tauto.
Qed.

(** C22. With a chapter limit, [_query_relationship] collects the records
    of [get_memories_at_chapter(c)] for every chapter [c] up to the limit
    and concatenates them: an open relationship record that started in
    chapter [s <= limit] is listed once for every chapter from [s] to the
    limit, [limit - s + 1] times, so the answer repeats it; the limit
    itself is included although the answer says "before chapter". *)
Theorem relationship_limit_repeats st r c1 c2 lim loc :
  store_wf st -> deref st loc = Some r -> is_relationship_memory c1 c2 r = true ->
  r.(chapter_end) = None -> (1 <= r.(chapter_start) <= lim)%Z ->
  (Z.to_nat (lim - r.(chapter_start) + 1) <=
   length (List.filter (fun m => String.eqb m.(id) r.(id))
             (relationship_memories st c1 c2 (Some lim))))%nat.
Proof.
  intros Hwf Hr Hrel Hend Hs. unfold relationship_memories.
  rewrite truthy_nonzero by lia.
  replace (Z.to_nat (lim - r.(chapter_start) + 1))
    with (length (py_range r.(chapter_start) (lim + 1))) by (rewrite py_range_length; lia).
  rewrite <- (filter_py_range_ge 1 r.(chapter_start) (lim + 1)) by lia.
  apply filter_concat_length. intros c _ Hc%Z.leb_le. exists r.
  split; [|apply String.eqb_refl]. apply filter_In. split; [|done].
  apply list_elem_of_In, in_get_memories_at_chapter; [done|].
  unfold is_relationship_memory in Hrel. rewrite !andb_true_iff in Hrel.
  exists loc. rewrite Hend. split_and!; try tauto; lia.
Qed.

(** ** Witnesses *)

Lemma personal_patterns_unreachable_witness :
  parse_query (normalize_query "My feelings in chapter 7") = QPersonalFacts (Some 7%Z) /\
  exists c, re_search personal_pattern_my (normalize_query "My feelings in chapter 7") = Some c /\
            Some 7%Z = int_group (group 1 c).
Proof.
  assert (H : parse_query (normalize_query "My feelings in chapter 7") = QPersonalFacts (Some 7%Z))
    by (vm_compute; reflexivity).
  split; [exact H|].
  exact (proj2 (proj2 (proj1 (personal_patterns_unreachable "My feelings in chapter 7" (Some 7%Z)))) H).
Defined.

Lemma facts_at_visible_witness :
  let m := default affair_ch10 (deref store_ch10 1) in
  (m ∈ facts_at store_ch10 (Some 12%Z) (character_fact "byleth") <->
   character_fact "byleth" m = true /\
   exists l, deref store_ch10 l = Some m /\ (1 <= m.(chapter_start) <= 12)%Z /\
             m.(is_active) = true /\
             match m.(chapter_end) with None => True | Some e => (12 <= e)%Z end) /\
  m.(id) = "uxx".
Proof.
  split; [|vm_compute; reflexivity].
  apply facts_at_visible; [apply store_ch10_wf|vm_compute; reflexivity].
Defined.

Lemma relationship_limit_repeats_witness :
  exists r, deref store_ch10 1 = Some r /\
  (3 <= length (List.filter (fun m => String.eqb m.(id) r.(id))
                  (relationship_memories store_ch10 "byleth" "dimitri" (Some 12%Z))))%nat.
Proof.
  eexists. split; [vm_compute; reflexivity|].
  eapply Nat.le_trans;
    [|apply (relationship_limit_repeats store_ch10 _ "byleth" "dimitri" 12 1);
      [apply store_ch10_wf|vm_compute; reflexivity..|vm_compute; split; discriminate]].
  vm_compute. lia.
Defined.

End QueryInterface.
