(* ===== verification/QueryCli.v ===== *)
(** * QueryCli: the command line of src/query_memories.py ([main])

    [main] loads the store, prints its size and chapters, then answers
    one [--query], runs the interactive loop ([--interactive]) or prints
    the help text.  The program talks to its terminal, and its loop is a
    [while True] that only a [break] ends, so it is an interaction tree:
    the events are [input(prompt)] ([Input], answered by a line, the end
    of the input or Ctrl-C) and [print] ([Print]); the loop is
    [ITree.iter] over one iteration, [interactive_step].  [h_cli] gives
    the events their meaning on a terminal state (the lines still to be
    read and the lines printed, the prompt included, as [input] writes
    it); a closed input answers every read with [EOFError].

    [interactive_main_liveness] shows that a session whose input reaches
    a quit word ends there, having answered every earlier non-empty
    query; [loop_closed_stdin] shows, by coinduction (Paco), that once the
    input is closed the loop never ends: [input] raises [EOFError], the
    [except Exception] branch prints it and the loop asks again. *)

From ITree Require Import ITree ITreeFacts Events.State Events.StateFacts.
From Paco Require Import paco.
From stdpp Require Import gmap.
From S2P Require Import Prelude MemoryUnit MemoryStore Regex QueryInterface.
Import QueryInterface.

Module QueryCli.

Inductive input_result := Line (s : string) | EndOfInput | Interrupt.

Variant cliE : Type -> Type :=
| Input (prompt : string) : cliE input_result
| Print (s : string) : cliE unit.

Definition print (s : string) : itree cliE unit := ITree.trigger (Print s).

Definition query_prompt : string := (nl ++ "❓ Your query: ")%string.
Definition processing_msg : string := (nl ++ "💭 Processing...")%string.
Definition answer_msg : string := (nl ++ "📝 Answer:")%string.
Definition error_msg (e : string) : string := (nl ++ "❌ Error: " ++ e)%string.
Definition goodbye_msg : string := (nl ++ nl ++ "👋 Goodbye!")%string.
Definition eof_error : string := "EOF when reading a line".

Definition is_quit (q : string) : bool := existsb (String.eqb (py_lower q)) ["quit"; "exit"; "q"].

Section Loop.
Variable set_order : gset string -> list string.
Variable interface : MemoryQueryInterface.

Definition interactive_step (u : unit) : itree cliE (unit + unit) :=
  ITree.bind (ITree.trigger (Input query_prompt)) (fun r =>
  match r with
  | Line raw =>
      let q := py_strip raw in
      if is_quit q then Ret (inr tt)
      else if String.eqb q "" then Ret (inl tt)
      else ITree.bind (print processing_msg) (fun _ =>
           ITree.bind (print answer_msg) (fun _ =>
           ITree.bind (print (query set_order interface q)) (fun _ => Ret (inl tt))))
  | EndOfInput => ITree.bind (print (error_msg eof_error)) (fun _ => Ret (inl tt))
  | Interrupt => ITree.bind (print goodbye_msg) (fun _ => Ret (inr tt))
  end).

Definition interactive_loop : itree cliE unit := ITree.iter interactive_step tt.
End Loop.

(** [print] of each line in turn. *)
Definition prints (l : list string) : itree cliE unit :=
  fold_right (fun str t => ITree.bind (print str) (fun _ => t)) (Ret tt) l.


Definition rule : string := str_repeat 50 "=".

(** [str(l)] of a list of integers. *)
Definition py_list_repr (l : list Z) : string :=
  ("[" ++ String.concat ", " (map py_str_Z l) ++ "]")%string.

(** The arguments [main] reads. *)
Record CliArgs := mkCliArgs {
  memory_store_path : string;
  query_arg : option string;
  interactive : bool
}.

(** What [main] prints once the store is loaded. *)
Definition loaded_lines (args : CliArgs) (interface : MemoryQueryInterface) : list string :=
  let st := interface.(qi_memory_store) in
  [("✅ Loaded memory store: " ++ args.(memory_store_path))%string;
   ("📚 Total memories: " ++ py_str_Z (Z.of_nat (get_total_memories st)))%string;
   ("📖 Chapters: " ++ py_list_repr (get_chapters_with_memories st))%string; ""].

Definition interactive_banner : list string :=
  ["🎯 Interactive Query Mode"; "Type 'quit' or 'exit' to end"; rule].

Definition help_lines : list string :=
  ["🔍 Sekai Memory Query Interface"; rule; "Examples:";
   "• what's the relation of A and B before chapter 10";
   "• how do Byleth and Edelgard get along";
   "• what does Byleth know in chapter 5";
   "• what's happening in the company in chapter 3";
   "• what do I know about the office";
   "• summary of chapter 7"; "";
   "Usage:";
   "• python query_memories.py --query 'your query here'";
   "• python query_memories.py --interactive"; "";
   "For more help: python query_memories.py --help"].

(** [main] after [parse_args]: [loaded] is the interface built from the
    store file, or the text of the exception that building it raised. *)
Definition query_main (set_order : gset string -> list string) (args : CliArgs)
    (loaded : string + MemoryQueryInterface) : itree cliE unit :=
  match loaded with
  | inl e => print ("❌ Error loading memory store: " ++ e)%string
  | inr interface =>
      ITree.bind (prints (loaded_lines args interface)) (fun _ =>
      let q := default "" args.(query_arg) in
      if negb (String.eqb q "") then
        prints [("🔍 Query: " ++ q)%string; rule; query set_order interface q]
      else if args.(interactive) then
        ITree.bind (prints interactive_banner) (fun _ => interactive_loop set_order interface)
      else prints help_lines)
  end.

Definition io_state := (list input_result * list string)%type.

Definition h_cli : cliE ~> Monads.stateT io_state (itree void1) :=
  fun _ e s =>
    match e with
    | Input p => match s.1 with
                 | l :: rest => Ret ((rest, s.2 ++ [p])%list, l)
                 | [] => Ret (([], s.2 ++ [p])%list, EndOfInput)
                 end
    | Print str => Ret ((s.1, s.2 ++ [str])%list, tt)
    end.

Ltac cli_event :=
  unfold print; rewrite ?bind_bind, interp_state_bind, interp_state_trigger; cbn -[is_quit py_strip query];
  setoid_rewrite bind_ret_l; cbn -[is_quit py_strip query].

(** Printing lines appends them to the output. *)
Lemma prints_run {R} (l : list string) (k : unit -> itree cliE R) ins out :
  interp_state h_cli (ITree.bind (prints l) k) (ins, out) ≈
  interp_state h_cli (k tt) (ins, out ++ l)%list.
Proof.
  revert out. induction l as [|str l IH]; intros out; cbn [prints fold_right].
  - rewrite bind_ret_l, app_nil_r. reflexivity.
  - cli_event. rewrite IH, <- app_assoc. reflexivity.
Qed.

Section Facts.
Variable set_order : gset string -> list string.
Variable interface : MemoryQueryInterface.

Lemma step_quit raw rest out :
  is_quit (py_strip raw) = true ->
  interp_state h_cli (interactive_loop set_order interface) (Line raw :: rest, out) ≈ Ret ((rest, out ++ [query_prompt])%list, tt).
Proof.
  intros Hq. unfold interactive_loop. rewrite unfold_iter. unfold interactive_step.
  cli_event. rewrite Hq. rewrite bind_ret_l, interp_state_ret. reflexivity.
Qed.

Lemma step_answer raw rest out :
  is_quit (py_strip raw) = false -> String.eqb (py_strip raw) "" = false ->
  interp_state h_cli (interactive_loop set_order interface) (Line raw :: rest, out) ≈
  interp_state h_cli (interactive_loop set_order interface) (rest, out ++ [query_prompt; processing_msg; answer_msg;
                                         query set_order interface (py_strip raw)])%list.
Proof.
  intros Hq He. unfold interactive_loop at 1. rewrite unfold_iter. unfold interactive_step at 1.
  cli_event. rewrite Hq, He. cli_event. cli_event. cli_event.
  setoid_rewrite bind_ret_l. cbn [fst].
  rewrite interp_state_tau, tau_eutt. rewrite <- !app_assoc. reflexivity.
Qed.

Lemma step_empty raw rest out :
  is_quit (py_strip raw) = false -> String.eqb (py_strip raw) "" = true ->
  interp_state h_cli (interactive_loop set_order interface) (Line raw :: rest, out) ≈
  interp_state h_cli (interactive_loop set_order interface) (rest, out ++ [query_prompt])%list.
Proof.
  intros Hq He. unfold interactive_loop at 1. rewrite unfold_iter. unfold interactive_step at 1.
  cli_event. rewrite Hq, He. setoid_rewrite bind_ret_l.
  rewrite interp_state_tau, tau_eutt. reflexivity.
Qed.

Definition line_transcript (raw : string) : list string :=
  query_prompt :: (if String.eqb (py_strip raw) "" then []
                   else [processing_msg; answer_msg; query set_order interface (py_strip raw)]).

Lemma quit_liveness pre q rest out :
  Forall (fun raw => is_quit (py_strip raw) = false) pre -> is_quit (py_strip q) = true ->
  interp_state h_cli (interactive_loop set_order interface) ((map Line pre ++ Line q :: rest)%list, out)
  ≈ Ret ((rest, out ++ flat_map line_transcript pre ++ [query_prompt])%list, tt).
Proof.
  intros Hpre Hq. revert out. induction Hpre as [|raw pre Hraw Hpre IH]; intros out; cbn [map app flat_map].
  - by rewrite step_quit.
  - destruct (String.eqb (py_strip raw) "") eqn:He.
    + rewrite step_empty by done. rewrite IH. unfold line_transcript. rewrite He.
      by rewrite <- !app_assoc.
    + rewrite step_answer by done. rewrite IH. unfold line_transcript. rewrite He.
      by rewrite <- !app_assoc.
Qed.
End Facts.

Inductive closed_stdin_genF (r : itree cliE unit -> Prop) : itree' cliE unit -> Prop :=
| cs_tau t : r t -> closed_stdin_genF r (TauF t)
| cs_input k : r (k EndOfInput) -> closed_stdin_genF r (VisF (Input query_prompt) k)
| cs_print k : r (k tt) -> closed_stdin_genF r (VisF (Print (error_msg eof_error)) k).

Definition closed_stdin_gen (r : itree cliE unit -> Prop) (t : itree cliE unit) : Prop :=
  closed_stdin_genF r (observe t).

Lemma closed_stdin_gen_mon : monotone1 closed_stdin_gen.
Proof. intros t r r' H LE. unfold closed_stdin_gen in *. destruct H; constructor; auto. Qed.
#[local] Hint Resolve closed_stdin_gen_mon : paco.

Definition runs_on_closed_stdin (t : itree cliE unit) : Prop := paco1 closed_stdin_gen bot1 t.

Lemma loop_closed_stdin set_order interface : runs_on_closed_stdin (interactive_loop set_order interface).
Proof.
  pcofix CIH. pfold. unfold closed_stdin_gen. cbn. constructor.
  left. pfold. unfold closed_stdin_gen. cbn. constructor.
  left. pfold. unfold closed_stdin_gen. cbn. constructor.
  right. apply CIH.
Qed.

(** C23. Liveness of the query command line.  Run with [--interactive]
    (and no [--query]), [main] prints the store summary and the banner,
    then answers every non-empty line it reads, and stops at the first
    line that is a quit word ([quit], [exit], [q], in any case): a
    session whose input reaches one ends there, with the transcript of
    the earlier lines.  Without one the loop does not end: once the input
    is closed, [input] raises [EOFError], which the loop's
    [except Exception] prints before asking again, forever. *)
Theorem interactive_main_liveness :
  (forall set_order args interface pre q rest out,
     args.(interactive) = true -> default "" args.(query_arg) = "" ->
     Forall (fun raw => is_quit (py_strip raw) = false) pre -> is_quit (py_strip q) = true ->
     interp_state h_cli (query_main set_order args (inr interface))
       ((map Line pre ++ Line q :: rest)%list, out) ≈
     Ret ((rest, out ++ loaded_lines args interface ++ interactive_banner ++
                 flat_map (line_transcript set_order interface) pre ++ [query_prompt])%list, tt)) /\
  (forall set_order interface, runs_on_closed_stdin (interactive_loop set_order interface)).
Proof.
  split; [|apply loop_closed_stdin].
  intros set_order args interface pre q rest out Hi Hq Hpre Hquit. unfold query_main.
  rewrite prints_run, Hq, Hi. cbn -[prints interactive_loop]. rewrite prints_run.
  rewrite quit_liveness by done. by rewrite <- !app_assoc.
Qed.
End QueryCli.
