(* ===== verification/Scoring.v ===== *)
(** * Scoring: the pass/fail gates of the evaluation (src/eval/scoring.py)

    [apply_gates metrics config] reads [config["gates"]] and runs three
    loops in a fixed order: the retrieval gates (a minimum on
    [metrics["retrieval"]["overall_metrics"][name]], with the gate names
    mapped by [metric_mapping]), the consistency gates (a maximum on
    [metrics["consistency"][name]], compared only when that value is a
    number) and the coverage gates (a minimum on
    [metrics["coverage"][name]], the name stripped of ["min_"] and mapped
    by [coverage_mapping], with the per-chapter list averaged).  Each
    gate writes its result into the [gate_results] dict and a failing gate
    sets [status] to ["FAIL"].  Every [.get], [.items()], [in], [<] and
    [sum] may raise: the loops run in the error monad [res] of [Json].
    The expected bound [f">= {min_value}"] is kept as the operator and
    the bound's value (the text of a [float] is not modelled); the
    timestamp is a section variable.

    [consistency_results_json] is the JSON dict that
    consistency_eval.run_consistency_eval builds from its four scans, and
    [default_scoring_config] the dict that [create_default_scoring_config]
    writes. *)

From S2P Require Import Prelude Json MemoryUnit MemoryStore Consistency.

Local Open Scope string_scope.

Module Scoring.

Record GateResult := mkGateResult {
  gr_status : string;
  gr_expected_op : string;
  gr_expected : json;
  gr_actual : json
}.

(** The state of the three loops: [status] and [gate_results]. *)
Record GateState := mkGateState {
  status : string;
  gate_results : list (string * GateResult)
}.

Record GateReport := mkGateReport {
  report_status : string;
  report_gate_results : list (string * GateResult);
  report_timestamp : string
}.

(** Record the result of one gate; a failure also sets [status]. *)
Definition record_gate (st : GateState) (gate_name : string) (failed : bool)
    (op : string) (bound actual : json) : GateState :=
  if failed
  then mkGateState "FAIL" (dict_set gate_name (mkGateResult "FAIL" op bound actual) st.(gate_results))
  else mkGateState st.(status) (dict_set gate_name (mkGateResult "PASS" op bound actual) st.(gate_results)).

Definition metric_mapping : list (string * string) :=
  [("precision_at_5", "precision"); ("recall_at_10", "recall"); ("mrr", "mrr")].

Definition coverage_mapping : list (string * string) :=
  [("overall", "overall_coverage"); ("per_chapter", "chapter_coverage")].

(** [if isinstance(actual_value, (list, dict)): actual_value = 0.0] *)
Definition numeric_or_zero (v : json) : json := if is_list_or_dict v then JFloat 0 else v.

(** One retrieval gate. *)
Definition retrieval_gate (retrieval_metrics : json) (st : GateState)
    (gate : string * json) : res GateState :=
  let '(gate_name, gate_config) := gate in
  min_value ← py_get gate_config "min" (JFloat 0);
  let actual_metric_name := default gate_name (dict_get gate_name metric_mapping) in
  overall ← py_get retrieval_metrics "overall_metrics" (JObject []);
  actual_value ← py_get overall actual_metric_name (JFloat 0);
  let actual_value := numeric_or_zero actual_value in
  failed ← py_lt actual_value min_value;
  Ok (record_gate st gate_name failed ">=" min_value actual_value).

(** One consistency gate: the comparison only happens for a number. *)
Definition consistency_gate (consistency_metrics : json) (st : GateState)
    (gate : string * json) : res GateState :=
  let '(gate_name, gate_config) := gate in
  max_value ← py_get gate_config "max" (JInt 0);
  actual_value ← py_get consistency_metrics gate_name (JInt 0);
  failed ← (if is_number actual_value then py_lt max_value actual_value else Ok false);
  Ok (record_gate st gate_name failed "<=" max_value actual_value).

(** [sum(chapter.get("coverage_rate", 0.0) for chapter in chapters)]. *)
Definition coverage_rate_sum (chapters : list json) : res Q :=
  res_foldl (fun acc ch => r ← py_get ch "coverage_rate" (JFloat 0); py_add_num acc r) 0%Q chapters.

(** The per-chapter average; other values are left as they are. *)
Definition per_chapter_value (metric_name : string) (actual_value : json) : res json :=
  match actual_value with
  | JArray chapters =>
      if String.eqb metric_name "per_chapter" then
        match chapters with
        | [] => Ok (JFloat 0)
        | _ => total ← coverage_rate_sum chapters;
               Ok (JFloat (total / inject_Z (Z.of_nat (length chapters))))
        end
      else Ok actual_value
  | _ => Ok actual_value
  end.

(** One coverage gate. *)
Definition coverage_gate (coverage_metrics : json) (st : GateState)
    (gate : string * json) : res GateState :=
  let '(gate_name, gate_config) := gate in
  min_value ← py_get gate_config "min" (JFloat 0);
  let metric_name := py_replace "min_" "" gate_name in
  let actual_metric_name := default metric_name (dict_get metric_name coverage_mapping) in
  actual_value ← py_get coverage_metrics actual_metric_name (JFloat 0);
  actual_value ← per_chapter_value metric_name actual_value;
  let actual_value := numeric_or_zero actual_value in
  failed ← py_lt actual_value min_value;
  Ok (record_gate st gate_name failed ">=" min_value actual_value).

(** One block of gates: [if "<name>" in gates: ... for ... in gates["<name>"].items()]. *)
Definition gate_block (name : string) (gate : json -> GateState -> string * json -> res GateState)
    (metrics gates : json) (st : GateState) : res GateState :=
  present ← py_contains name gates;
  if (present : bool) then
    (block ← py_index gates name;
     block_metrics ← py_get metrics name (JObject []);
     items ← py_items block;
     res_foldl (gate block_metrics) st items)
  else Ok st.

Section Gates.
  (** [timestamp_dir()] *)
Variable timestamp : string.

Definition apply_gates (metrics config : json) : res GateReport :=
    gates ← py_get config "gates" (JObject []);
    st ← gate_block "retrieval" retrieval_gate metrics gates (mkGateState "PASS" []);
    st ← gate_block "consistency" consistency_gate metrics gates st;
    st ← gate_block "coverage" coverage_gate metrics gates st;
    Ok (mkGateReport st.(status) st.(gate_results) timestamp).
End Gates.

(** [consolidate_metrics]: the three result files that exist, each under
    its name ([None] for a missing file). *)
Definition consolidate_metrics (retrieval consistency coverage : option json) : json :=
  JObject ((match retrieval with Some r => [("retrieval", r)] | None => [] end) ++
           (match consistency with Some c => [("consistency", c)] | None => [] end) ++
           (match coverage with Some v => [("coverage", v)] | None => [] end))%list.

(** [f"{result['actual']:.3f}"]: a number formats, anything else raises
    ([TypeError] for a list, a dict or [None], [ValueError] for a
    string). *)
Definition format_3f (v : json) : res unit :=
  match v with
  | JBool _ | JInt _ | JFloat _ => Ok tt
  | JStr _ => Err ValueError
  | _ => Err TypeError
  end.

(** [run_scoring] after loading: the gates are applied, the results file
    is written, and the report loop prints every gate result with its
    actual value formatted by [:.3f]. *)
Definition run_scoring (timestamp : string) (metrics config : json) : res GateReport :=
  report ← apply_gates timestamp metrics config;
  _ ← res_foldl (fun _ '(_, gr) => format_3f gr.(gr_actual)) tt report.(report_gate_results);
  Ok report.

(** [create_default_scoring_config]'s dict. *)
Definition default_gates : json :=
  JObject [
    ("retrieval", JObject [
       ("precision_at_5", JObject [("min", JFloat 0.65)]);
       ("recall_at_10", JObject [("min", JFloat 0.75)]);
       ("mrr", JObject [("min", JFloat 0.70)])]);
    ("consistency", JObject [
       ("max_time_overlap_conflicts", JInt 0);
       ("max_world_future_leaks", JInt 0);
       ("max_crosstalk_leaks", JInt 0)]);
    ("coverage", JObject [
       ("min_overall", JFloat 0.75);
       ("min_per_chapter", JFloat 0.60)])].

Definition default_scoring_config : json := JObject [("gates", default_gates)].

(** ** The consistency report as JSON (consistency_eval.py) *)

Definition overlap_json (c : OverlapConflict) : json :=
  JObject [("type", JStr "time_overlap_conflict");
           ("memory1_id", JStr c.(oc_memory1_id)); ("memory2_id", JStr c.(oc_memory2_id));
           ("canonical_key", JStr c.(oc_canonical_key));
           ("memory1_chapter", JInt c.(oc_memory1_chapter));
           ("memory2_chapter", JInt c.(oc_memory2_chapter));
           ("memory1_fact", JStr c.(oc_memory1_fact)); ("memory2_fact", JStr c.(oc_memory2_fact));
           ("description", JStr ("Same fact appears in chapters " ++ py_str_Z c.(oc_memory1_chapter)
                                 ++ " and " ++ py_str_Z c.(oc_memory2_chapter)))].

Definition leak_json (l : FutureLeak) : json :=
  JObject [("type", JStr "world_future_leak"); ("memory_id", JStr l.(fl_memory_id));
           ("canonical_key", JStr l.(fl_canonical_key)); ("chapter", JInt l.(fl_chapter));
           ("fact_text", JStr l.(fl_fact_text)); ("future_indicator", JStr l.(fl_future_indicator));
           ("description", JStr ("World memory contains future reference: '"
                                 ++ l.(fl_future_indicator) ++ "'"))].

Definition crosstalk_json (v : CrosstalkViolation) : json :=
  JObject [("type", JStr "crosstalk_violation"); ("memory_id", JStr v.(cv_memory_id));
           ("character", JStr v.(cv_character)); ("chapter", JInt v.(cv_chapter));
           ("referenced_character", JStr v.(cv_referenced_character));
           ("referenced_chapter", JInt v.(cv_referenced_chapter));
           ("fact_text", JStr v.(cv_fact_text));
           ("description", JStr ("Character " ++ v.(cv_character) ++ " at chapter "
              ++ py_str_Z v.(cv_chapter) ++ " references future private information about "
              ++ v.(cv_referenced_character)))].

Definition symmetry_json (v : SymmetryViolation) : json :=
  JObject [("type", JStr "symmetry_violation"); ("memory_id", JStr v.(sv_memory_id));
           ("relationship_key", JStr v.(sv_relationship_key));
           ("character1", JStr v.(sv_character1)); ("character2", JStr v.(sv_character2));
           ("fact_text", JStr v.(sv_fact_text));
           ("asymmetric_indicator", JStr v.(sv_asymmetric_indicator));
           ("description", JStr ("Asymmetric relationship: " ++ v.(sv_character1) ++ " "
              ++ v.(sv_asymmetric_indicator) ++ " " ++ v.(sv_character2)
              ++ " but no reciprocal memory found"))].

(** The [results] dict of [run_consistency_eval]. *)
Definition consistency_results_json (r : ConsistencyResults) : json :=
  let n := fun {A} (l : list A) => JInt (Z.of_nat (length l)) in
  JObject [("time_overlap_conflicts", JArray (map overlap_json r.(time_overlap_conflicts)));
           ("world_future_leaks", JArray (map leak_json r.(world_future_leaks)));
           ("crosstalk_violations", JArray (map crosstalk_json r.(crosstalk_violations)));
           ("symmetry_violations", JArray (map symmetry_json r.(symmetry_violations)));
           ("summary", JObject [("total_conflicts", JInt (Z.of_nat r.(total_conflicts)));
                                ("time_overlap_conflicts", n r.(time_overlap_conflicts));
                                ("world_future_leaks", n r.(world_future_leaks));
                                ("crosstalk_violations", n r.(crosstalk_violations));
                                ("symmetry_violations", n r.(symmetry_violations))])].

(** A consistency gate whose configuration is a dict with a non-negative
    numeric ["max"] (or none, which means [0]). *)
Definition max_ok (gate_config : json) : bool :=
  match gate_config with
  | JObject d =>
      match num_of (default (JInt 0) (dict_get "max" d)) with
      | Some q => Qle_bool 0 q
      | None => false
      end
  | _ => false
  end.

(** What [status] says of the gate results: it is "PASS" or "FAIL", and
    "FAIL" whenever a recorded gate failed. *)
Definition status_sound (st : GateState) : Prop :=
  (st.(status) = "PASS" \/ st.(status) = "FAIL") /\
  forall name gr, dict_get name st.(gate_results) = Some gr -> gr.(gr_status) = "FAIL" ->
                  st.(status) = "FAIL".

(** A retrieval gate and a coverage gate with the same name. *)
Definition colliding_gates : json :=
  JObject [("gates", JObject [
    ("retrieval", JObject [("mrr", JObject [("min", JFloat 0.7)])]);
    ("coverage", JObject [("mrr", JObject [("min", JFloat 0)])])])].

(** A report with one overlap conflict, and strict gates on its counts. *)
Definition one_conflict : ConsistencyResults :=
  mkConsistencyResults [mkOverlapConflict "e1" "e2" "byleth::dimitri::relationship_status::started_affair"
                          3 10 "Byleth and Dimitri start an affair" "Byleth and Dimitri continue their affair"]
    [] [] [] 1.

Definition strict_consistency_gates : list (string * json) :=
  [("max_time_overlap_conflicts", JObject [("max", JInt 0)]);
   ("time_overlap_conflicts", JObject [("max", JInt 0)]);
   ("summary", JObject [("max", JInt 0)])].

(** ** Theorems *)

Ltac res_inv H := repeat (apply res_bind_inv in H as (? & ? & H)).

(** [create_default_scoring_config] writes the consistency gates as bare
    integers, so [gate_config.get("max", 0)] is called on an [int]:
    [apply_gates] with the default configuration never returns a report;
    on metrics without a consistency part the error is the
    [AttributeError] of that call. *)
Theorem default_config_always_raises ts metrics :
  is_ok (apply_gates ts metrics default_scoring_config) = false /\
  apply_gates ts (JObject []) default_scoring_config = Err AttributeError.
Proof.
  split; [|vm_compute; reflexivity].
  unfold apply_gates. change (py_get default_scoring_config "gates" (JObject [])) with (Ok default_gates).
  rewrite res_bind_Ok.
  destruct (gate_block "retrieval" retrieval_gate metrics default_gates _) as [st|e]; [|done].
  rewrite res_bind_Ok. unfold gate_block.
  destruct (py_get metrics "consistency" (JObject [])) as [bm|e]; reflexivity.
Qed.

(** Every key of the consistency report holds a list or a dict. *)
Lemma consistency_results_get r name v :
  py_get (consistency_results_json r) name (JInt 0) = Ok v ->
  v = JInt 0 \/ is_list_or_dict v = true.
Proof.
  intros [= <-]. cbn [dict_get default].
  repeat (case_decide; [by right|]). by left.
Qed.

(** On the consistency report, a gate with a non-negative maximum passes. *)
Lemma consistency_gate_pass r st name cfg :
  max_ok cfg = true ->
  exists mv av, consistency_gate (consistency_results_json r) st (name, cfg) =
    Ok (mkGateState st.(status) (dict_set name (mkGateResult "PASS" "<=" mv av) st.(gate_results))).
Proof.
  destruct cfg as [| | | | | |d]; try discriminate. unfold max_ok, consistency_gate.
  destruct (num_of (default (JInt 0) (dict_get "max" d))) as [q|] eqn:Hq; [|discriminate].
  intros Hq0%Qle_bool_iff. cbn [py_get]. rewrite res_bind_Ok.
  destruct (py_get (consistency_results_json r) name (JInt 0)) as [av|e] eqn:Ha; [|discriminate].
  rewrite res_bind_Ok. exists (default (JInt 0) (dict_get "max" d)), av.
  destruct (consistency_results_get r name av Ha) as [->|Hl].
  - cbn [is_number num_of]. unfold py_lt. rewrite Hq. cbn [num_of].
    rewrite (proj2 (Qltb_false q (inject_Z 0))) by exact Hq0. reflexivity.
  - destruct av as [| | | | |l|l]; try discriminate; reflexivity.
Qed.

(** With non-negative maxima, the consistency gates on the report of
    [run_consistency_eval] all pass and leave [status] unchanged. *)
Lemma consistency_gates_all_pass r items st :
  Forall (fun g => max_ok g.2 = true) items ->
  exists st', res_foldl (consistency_gate (consistency_results_json r)) st items = Ok st' /\
    st'.(status) = st.(status) /\
    forall name gr, dict_get name st'.(gate_results) = Some gr -> gr.(gr_status) = "FAIL" ->
                    dict_get name st.(gate_results) = Some gr.
Proof.
  intros Hall. revert st. induction Hall as [|[name cfg] items Hg _ IH]; intros st.
  { by exists st. }
  destruct (consistency_gate_pass r st name cfg Hg) as (mv & av & Hstep).
  cbn [res_foldl]. rewrite Hstep, res_bind_Ok.
  destruct (IH (mkGateState st.(status) (dict_set name (mkGateResult "PASS" "<=" mv av)
                                            st.(gate_results)))) as (st' & Hf & Hs & Hr).
  exists st'. split_and!; [done|done|]. intros name' gr Hget Hfail.
  specialize (Hr name' gr Hget Hfail). cbn in Hr.
  destruct (decide (name' = name)) as [->|Hne].
  - rewrite dict_get_set_eq in Hr. injection Hr as <-. discriminate.
  - by rewrite dict_get_set_ne in Hr.
Qed.

Lemma record_gate_sound st name failed op bound actual :
  status_sound st -> status_sound (record_gate st name failed op bound actual).
Proof.
  intros [Hs Hf]. unfold record_gate. destruct failed; split; cbn; auto.
  intros name' gr Hget Hfail. destruct (decide (name' = name)) as [->|Hne].
  - rewrite dict_get_set_eq in Hget. by injection Hget as <-.
  - rewrite dict_get_set_ne in Hget by done. eauto.
Qed.

Lemma gate_block_sound name gate metrics gates st st' :
  (forall bm x y y', status_sound y -> gate bm y x = Ok y' -> status_sound y') ->
  status_sound st -> gate_block name gate metrics gates st = Ok st' -> status_sound st'.
Proof.
  intros Hgate Hst H. unfold gate_block in H. res_inv H.
  destruct x; [|by injection H as <-]. res_inv H.
  eapply (res_foldl_inv _ status_sound (fun _ => True)); [exact Hst| |by eauto|exact H].
  apply List.Forall_forall. done.
Qed.

Ltac gate_sound := intros bm [gate_name cfg] y y' Hy H; simpl in H; res_inv H;
  injection H as <-; by apply record_gate_sound.

(** C20. A report of [apply_gates] has status "PASS" or "FAIL", and "FAIL"
    whenever one of its recorded gate results is "FAIL", so a "PASS"
    report has only passing gates.  The converse fails: [gate_results] is
    one dict for the three blocks, so a coverage gate named like a failed
    retrieval gate overwrites its "FAIL" entry, and the report says
    "FAIL" while every recorded result is "PASS". *)
Theorem apply_gates_status_sound ts metrics config rep :
  apply_gates ts metrics config = Ok rep ->
  ((rep.(report_status) = "PASS" \/ rep.(report_status) = "FAIL") /\
   forall name gr, dict_get name rep.(report_gate_results) = Some gr ->
                   gr.(gr_status) = "FAIL" -> rep.(report_status) = "FAIL") /\
  exists rep', apply_gates ts (JObject []) colliding_gates = Ok rep' /\
    rep'.(report_status) = "FAIL" /\ Forall (fun g => g.2.(gr_status) = "PASS") rep'.(report_gate_results).
Proof.
  intros H. split.
  - unfold apply_gates in H. res_inv H. injection H as <-.
    assert (Hs0 : status_sound (mkGateState "PASS" [])) by (split; [by left|done]).
    repeat match goal with
    | Hb : gate_block _ _ _ _ _ = Ok _ |- _ =>
        apply gate_block_sound in Hb; [clear Hs0; rename Hb into Hs0|gate_sound|exact Hs0]
    end.
    exact Hs0.
  - eexists. split; [vm_compute; reflexivity|]. split; [reflexivity|].
    repeat constructor.
Qed.

(** A consistency gate named after a list of the report. *)
Definition list_gate_config : json :=
  JObject [("gates", JObject [("consistency", JObject [
     ("time_overlap_conflicts", JObject [("max", JInt 0)])])])].

(** C18. The consistency gates compare [metrics["consistency"][gate_name]]
    only when it is a number, but every entry of the report of
    [run_consistency_eval] is a list or a dict (the counts sit under
    ["summary"]), and the default gate names ("max_...") are not keys of
    it: with non-negative maxima, the consistency gates never fail and
    never change [status], however many violations the report lists.
    And the report loop of [run_scoring] formats every gate's actual value
    with [:.3f], but a consistency gate keeps a non-numeric actual value
    and passes: with a gate named after one of the lists of the
    consistency report, [run_scoring] on the consolidated metrics raises
    [TypeError] after the gate passed, for every consistency report. *)
Theorem consistency_gates_never_fail :
  (forall r items st,
     Forall (fun g => max_ok g.2 = true) items ->
     exists st', res_foldl (consistency_gate (consistency_results_json r)) st items = Ok st' /\
       st'.(status) = st.(status) /\
       forall name gr, dict_get name st'.(gate_results) = Some gr -> gr.(gr_status) = "FAIL" ->
                       dict_get name st.(gate_results) = Some gr) /\
  (forall ts r,
     (exists rep, apply_gates ts (consolidate_metrics None (Some (consistency_results_json r)) None)
                    list_gate_config = Ok rep /\ rep.(report_status) = "PASS") /\
     run_scoring ts (consolidate_metrics None (Some (consistency_results_json r)) None)
       list_gate_config = Err TypeError).
Proof.
  split; [exact consistency_gates_all_pass|].
  intros ts r. split; [eexists; split; reflexivity|reflexivity].
Qed.

(** ** Witnesses *)

Lemma consistency_gates_never_fail_witness :
  exists st', res_foldl (consistency_gate (consistency_results_json one_conflict))
                (mkGateState "PASS" []) strict_consistency_gates = Ok st' /\
    st'.(status) = "PASS" /\
    forall name gr, dict_get name st'.(gate_results) = Some gr -> gr.(gr_status) = "FAIL" ->
                    dict_get name (mkGateState "PASS" []).(gate_results) = Some gr.
Proof.
  apply (proj1 consistency_gates_never_fail one_conflict strict_consistency_gates).
  repeat constructor.
Defined.

Lemma apply_gates_status_sound_witness :
  exists rep, apply_gates "20250101_000000" (JObject []) colliding_gates = Ok rep /\
  ((rep.(report_status) = "PASS" \/ rep.(report_status) = "FAIL") /\
   forall name gr, dict_get name rep.(report_gate_results) = Some gr ->
                   gr.(gr_status) = "FAIL" -> rep.(report_status) = "FAIL").
Proof.
  eexists. split; [vm_compute; reflexivity|].
  apply (apply_gates_status_sound "20250101_000000" (JObject []) colliding_gates).
  vm_compute. reflexivity.
Defined.

End Scoring.
