(* ===== verification/EvalUtils.v ===== *)
(** * EvalUtils: the metric helpers of the evaluation (src/eval/utils.py)

    [canonical_key] is the key formula of [MemoryUnit.get_key] on loose
    fields; [text_similarity] is the Jaccard ratio of the word sets of two
    texts after [re.sub(r'[^\w\s]', '', text.lower())];
    [calculate_precision_recall_mrr] counts the retrieved keys that are
    gold keys and derives precision, recall and the reciprocal rank of the
    first hit.  Python [set]s are duplicate-free lists (only their sizes
    and membership are read), [float]s are [Q]. *)

From S2P Require Import Prelude Regex MemoryUnit Retriever.
Import Regex.

Local Open Scope Q_scope.

(** [canonical_key(subjects, predicate, object_val)]. *)
Definition canonical_key (subjects : list string) (predicate object_val : string) : string :=
  String.append (String.concat "::" (sorted_subjects subjects))
    (String.append "::" (String.append predicate (String.append "::" object_val))).

(** [re.sub(r'[^\w\s]', '', s)]: drop every character that is neither a
    word character nor white space. *)
Fixpoint strip_punct (s : string) : string :=
  match s with
  | EmptyString => EmptyString
  | String c rest => if is_word c || py_isspace c then String c (strip_punct rest) else strip_punct rest
  end.

(** [set(re.sub(r'[^\w\s]', '', text.lower()).split())] *)
Definition norm_words (text : string) : list string :=
  remove_dups (py_split (strip_punct (py_lower text))).

Definition text_similarity (text1 text2 : string) : Q :=
  if String.eqb text1 "" || String.eqb text2 "" then 0
  else
    let words1 := norm_words text1 in
    let words2 := norm_words text2 in
    if (length words1 =? 0)%nat || (length words2 =? 0)%nat then 0
    else
      let intersection := set_inter_size words1 words2 in
      let union := set_union_size words1 words2 in
      if (0 <? union)%nat then inject_Z (Z.of_nat intersection) / inject_Z (Z.of_nat union) else 0.

(** [correct]: the retrieved keys found among all the gold keys, counted
    with repetition. *)
Definition count_correct (retrieved_keys all_gold_keys : list string) : nat :=
  length (List.filter (fun key => bool_decide (key ∈ all_gold_keys)) retrieved_keys).

(** The reciprocal rank of the first retrieved key that is a gold key. *)
Fixpoint first_hit_rr (i : nat) (retrieved_keys all_gold_keys : list string) : Q :=
  match retrieved_keys with
  | [] => 0
  | key :: rest =>
      if bool_decide (key ∈ all_gold_keys) then 1 / inject_Z (Z.of_nat (i + 1))
      else first_hit_rr (S i) rest all_gold_keys
  end.

Definition ratio (n : nat) {A} (l : list A) : Q :=
  match l with
  | [] => 0
  | _ => inject_Z (Z.of_nat n) / inject_Z (Z.of_nat (length l))
  end.

(** [calculate_precision_recall_mrr(retrieved_keys, all_gold_keys, gold_ids)]. *)
Definition calculate_precision_recall_mrr (retrieved_keys all_gold_keys gold_ids : list string)
    : Q * Q * Q :=
  let correct := count_correct retrieved_keys all_gold_keys in
  (ratio correct retrieved_keys, ratio correct gold_ids, first_hit_rr 0 retrieved_keys all_gold_keys).

(** ** Lemmas *)

Lemma canonical_key_get_key m :
  canonical_key m.(subjects) m.(predicate) m.(object) = get_key m.
Proof. reflexivity. Qed.

Lemma filter_length_split {A} (f : A -> bool) (l : list A) :
  (length (List.filter f l) + length (List.filter (fun x => negb (f x)) l))%nat = length l.
Proof. induction l as [|x l IH]; simpl; [done|]. destruct (f x); simpl; lia. Qed.

Lemma set_inter_size_comm a b :
  NoDup a -> NoDup b -> set_inter_size a b = set_inter_size b a.
Proof.
  intros Ha Hb. unfold set_inter_size. apply Permutation_length, NoDup_Permutation.
  - apply NoDup_ListNoDup, List.NoDup_filter, NoDup_ListNoDup, Ha.
  - apply NoDup_ListNoDup, List.NoDup_filter, NoDup_ListNoDup, Hb.
  - intros x. rewrite !elem_of_List_filter, !bool_decide_eq_true. tauto.
Qed.

Lemma set_union_size_comm a b :
  NoDup a -> NoDup b -> set_union_size a b = set_union_size b a.
Proof.
  intros Ha Hb. unfold set_union_size.
  pose proof (set_inter_size_comm a b Ha Hb) as Hi. unfold set_inter_size in Hi.
  pose proof (filter_length_split (fun w => bool_decide (w ∈ b)) a).
  pose proof (filter_length_split (fun w => bool_decide (w ∈ a)) b). lia.
Qed.

Lemma ratio_bounds n {A} (l : list A) : (n <= length l)%nat -> 0 <= ratio n l <= 1.
Proof. intros Hn. destruct l as [|x l]; [simpl; lra|]. apply nat_ratio_bounds; simpl in *; lia. Qed.

Lemma count_correct_le retrieved all_gold :
  (count_correct retrieved all_gold <= length retrieved)%nat.
Proof.
  unfold count_correct.
  rewrite <- (filter_length_split (fun key => bool_decide (key ∈ all_gold)) retrieved).
  apply Nat.le_add_r.
Qed.

Lemma first_hit_rr_bounds i retrieved all_gold : 0 <= first_hit_rr i retrieved all_gold <= 1.
Proof.
  revert i. induction retrieved as [|key rest IH]; intros i; simpl; [lra|].
  case_bool_decide; [|apply IH].
  replace (1 / inject_Z (Z.of_nat (i + 1)))
    with (inject_Z (Z.of_nat 1) / inject_Z (Z.of_nat (i + 1))) by reflexivity.
  apply nat_ratio_bounds; lia.
Qed.

(** [text_similarity] is symmetric and lies between 0 and 1: the word
    sets are duplicate-free, so their intersection and union have the
    same sizes in either order. *)
Lemma text_similarity_sym_bounds text1 text2 :
  text_similarity text1 text2 = text_similarity text2 text1 /\
  0 <= text_similarity text1 text2 <= 1.
Proof.
  unfold text_similarity.
  pose proof (NoDup_remove_dups (py_split (strip_punct (py_lower text1)))) as H1.
  pose proof (NoDup_remove_dups (py_split (strip_punct (py_lower text2)))) as H2.
  fold (norm_words text1) in H1. fold (norm_words text2) in H2.
  rewrite (orb_comm (String.eqb text2 "")), (orb_comm (length (norm_words text2) =? 0)%nat).
  rewrite (set_inter_size_comm (norm_words text2)), (set_union_size_comm (norm_words text2)) by done.
  split; [done|].
  destruct (_ || _); [lra|]. destruct (_ || _); [lra|].
  destruct (Nat.ltb_spec 0 (set_union_size (norm_words text1) (norm_words text2))); [|lra].
  apply nat_ratio_bounds; [apply set_inter_le_union|lia].
Qed.

(** C28. Bounds of the evaluation metrics (utils.py): [text_similarity]
    is symmetric and lies between 0 and 1; precision and the reciprocal
    rank lie between 0 and 1, but [correct] counts every retrieved key
    that is some gold key (of any query), with repetition, and recall
    divides it by the number of the query's own gold ids: recall can
    exceed 1. *)
Theorem precision_recall_mrr_bounds retrieved all_gold gold_ids :
  (forall text1 text2,
     text_similarity text1 text2 = text_similarity text2 text1 /\
     0 <= text_similarity text1 text2 <= 1) /\
  (let '(p, _, m) := calculate_precision_recall_mrr retrieved all_gold gold_ids in
   0 <= p <= 1 /\ 0 <= m <= 1) /\
  calculate_precision_recall_mrr ["a::x::y"; "a::x::y"; "b::x::y"] ["a::x::y"; "b::x::y"] ["g1"] =
    (inject_Z 3 / inject_Z 3, inject_Z 3 / inject_Z 1, 1 / inject_Z 1).
Proof.
  split_and!; [exact text_similarity_sym_bounds|
               split; [apply ratio_bounds, count_correct_le|apply first_hit_rr_bounds]|
               vm_compute; reflexivity].
Qed.
