(* ===== verification/Evaluations.v ===== *)
(** * Evaluations: the coverage and retrieval evaluations
    (src/eval/coverage_eval.py, src/eval/retrieval_eval.py)

    [run_coverage_eval] checks every key fact of every chapter entry
    against the records visible at that chapter ([check_fact_coverage]:
    an exact match of subjects, predicate and object first, else the best
    [text_similarity] above 0.7) and aggregates the rates per chapter and
    overall.  [run_retrieval_eval] runs [search_memories_at_chapter] for
    every query, scores the top [k] keys against the gold keys with
    [calculate_precision_recall_mrr] and averages the scores.  Both
    reports are also given as the JSON that [json.dump] writes, which is
    what [Scoring.apply_gates] reads.  Module [SekaiEval] composes the
    three evaluations and the gates as the [all] command of
    src/eval/sekai_eval.py does.

    The JSONL inputs are typed records whose optional fields are those the
    code reads with [.get(key, default)]; a field of another JSON type than
    the code expects is not modelled.  File output and printing are not
    modelled. *)

From S2P Require Import Prelude Json MemoryUnit MemoryStore Consistency Retriever EvalUtils Scoring.

Local Open Scope Q_scope.

Module Coverage.

(** One key fact of keyfacts.jsonl. *)
Record KeyFact := mkKeyFact {
  kf_fact : option string;
  kf_id : option string;
  kf_subjects : option (list string);
  kf_predicate : option string;
  kf_object : option string
}.

(** One line of keyfacts.jsonl: a chapter and its facts. *)
Record FactEntry := mkFactEntry {
  fe_chapter : option Z;
  fe_facts : option (list KeyFact)
}.

Record CoverageResult := mkCoverageResult {
  cr_fact_id : string;
  cr_fact_text : string;
  cr_is_covered : bool;
  cr_coverage_type : string;
  cr_matched_memory_id : option string;
  cr_matched_memory_text : option string;
  cr_confidence : option Q;
  cr_similarity_score : Q
}.

Record ChapterCoverage := mkChapterCoverage {
  cc_chapter : Z;
  cc_facts : list CoverageResult;
  cc_total_facts : nat;
  cc_covered_facts : nat;
  cc_coverage_rate : Q
}.

Record CoverageReport := mkCoverageReport {
  overall_coverage : Q;
  total_facts : nat;
  covered_facts : nat;
  chapter_coverage : list ChapterCoverage;
  by_chapter : list (Z * Q)
}.

Definition exact_key_match (fact_subjects : list string) (fact_predicate object_val : string)
    (m : MemoryUnit) : bool :=
  bool_decide (m.(subjects) = fact_subjects) && String.eqb m.(predicate) fact_predicate &&
  String.eqb m.(object) object_val.

(** The loop [if similarity > best_similarity: best_similarity = ...;
    best_match = memory]: the first record of highest similarity. *)
Definition best_similar (text : string) (memories : list MemoryUnit) : option MemoryUnit * Q :=
  foldl (fun '(best, best_similarity) m =>
           let similarity := text_similarity text m.(fact_text) in
           if Qltb best_similarity similarity then (Some m, similarity) else (best, best_similarity))
        (None, 0) memories.

Definition check_fact_coverage (fact : KeyFact) (st : SimpleMemoryStore) (target_chapter : Z)
    : CoverageResult :=
  let text := default "" fact.(kf_fact) in
  let fact_id := default "unknown" fact.(kf_id) in
  let memories := get_memories_at_chapter st target_chapter in
  match List.find (exact_key_match (default [] fact.(kf_subjects)) (default "" fact.(kf_predicate))
                     (default "" fact.(kf_object))) memories with
  | Some m =>
      mkCoverageResult fact_id text true "exact_key_match" (Some m.(id)) (Some m.(fact_text))
        (Some m.(confidence)) 1
  | None =>
      let '(best_match, best_similarity) := best_similar text memories in
      let is_covered := Qltb (7 # 10) best_similarity in
      mkCoverageResult fact_id text is_covered
        (if is_covered then "text_similarity" else "not_covered")
        (id <$> best_match) (fact_text <$> best_match) (confidence <$> best_match) best_similarity
  end.

(** The body of the loop over [keyfacts] for one entry. *)
Definition chapter_entry (st : SimpleMemoryStore) (fact_entry : FactEntry) : ChapterCoverage :=
  let chapter := default 1%Z fact_entry.(fe_chapter) in
  let facts := default [] fact_entry.(fe_facts) in
  let results := map (fun fact => check_fact_coverage fact st chapter) facts in
  let covered := length (List.filter cr_is_covered results) in
  mkChapterCoverage chapter results (length facts) covered (ratio covered facts).

Definition run_coverage_eval (st : SimpleMemoryStore) (keyfacts : list FactEntry) : CoverageReport :=
  let chapters := map (chapter_entry st) keyfacts in
  let total := sum_list_with cc_total_facts chapters in
  let covered := sum_list_with cc_covered_facts chapters in
  let overall := if (0 <? total)%nat then inject_Z (Z.of_nat covered) / inject_Z (Z.of_nat total) else 0 in
  mkCoverageReport overall total covered chapters
    (foldl (fun d c => dict_set c.(cc_chapter) c.(cc_coverage_rate) d) [] chapters).

(** ** The report as JSON *)

Definition opt_str (o : option string) : json := match o with Some s => JStr s | None => JNull end.
Definition opt_num (o : option Q) : json := match o with Some q => JFloat q | None => JNull end.

Definition coverage_result_json (r : CoverageResult) : json :=
  JObject [("fact_id", JStr r.(cr_fact_id)); ("fact_text", JStr r.(cr_fact_text));
           ("is_covered", JBool r.(cr_is_covered)); ("coverage_type", JStr r.(cr_coverage_type));
           ("matched_memory_id", opt_str r.(cr_matched_memory_id));
           ("matched_memory_text", opt_str r.(cr_matched_memory_text));
           ("confidence", opt_num r.(cr_confidence));
           ("similarity_score", JFloat r.(cr_similarity_score))].

Definition chapter_coverage_json (c : ChapterCoverage) : json :=
  JObject [("chapter", JInt c.(cc_chapter)); ("facts", JArray (map coverage_result_json c.(cc_facts)));
           ("total_facts", JInt (Z.of_nat c.(cc_total_facts)));
           ("covered_facts", JInt (Z.of_nat c.(cc_covered_facts)));
           ("coverage_rate", JFloat c.(cc_coverage_rate))].

(** [json.dump] writes the integer keys of ["by_chapter"] as strings. *)
Definition coverage_report_json (r : CoverageReport) : json :=
  JObject [("overall_coverage", JFloat r.(overall_coverage));
           ("total_facts", JInt (Z.of_nat r.(total_facts)));
           ("covered_facts", JInt (Z.of_nat r.(covered_facts)));
           ("chapter_coverage", JArray (map chapter_coverage_json r.(chapter_coverage)));
           ("summary", JObject [("overall", JFloat r.(overall_coverage));
                                ("by_chapter", JObject (map (fun '(c, q) => (py_str_Z c, JFloat q))
                                                            r.(by_chapter)))])].

End Coverage.

Module Retrieval.

(** One line of queries.jsonl. *)
Record EvalQuery := mkEvalQuery {
  eq_qid : option string;
  eq_query : option string;
  eq_chapter : option Z;
  eq_k : option Z;
  eq_gold_ids : option (list string)
}.

(** One line of the gold memories file: the fields the code indexes. *)
Record GoldMemory := mkGoldMemory {
  gm_id : string;
  gm_subjects : list string;
  gm_predicate : string;
  gm_object : string
}.

Record Analysis := mkAnalysis {
  an_rank : nat;
  an_memory_id : string;
  an_canonical_key : string;
  an_matched_gold_id : option string;
  an_fact_text : string;
  an_subjects : list string;
  an_predicate : string;
  an_object : string;
  an_chapter_start : Z;
  an_mem_type : string;
  an_confidence : Q;
  an_is_correct : bool
}.

Record QueryResult := mkQueryResult {
  qr_query_id : string;
  qr_target_chapter : Z;
  qr_k : Z;
  qr_gold_ids : list string;
  qr_retrieved_keys : list string;
  qr_precision : Q;
  qr_recall : Q;
  qr_mrr : Q;
  qr_retrieval_analysis : list Analysis
}.

(** [gold_key_map[key] = gold_memory["id"]] for every gold memory. *)
Definition gold_key_map (gold_memories : list GoldMemory) : list (string * string) :=
  foldl (fun d g => dict_set (canonical_key g.(gm_subjects) g.(gm_predicate) g.(gm_object)) g.(gm_id) d)
        [] gold_memories.

(** [query["qid"]] *)
Definition query_id_of (q : EvalQuery) : res string :=
  match q.(eq_qid) with Some i => Ok i | None => Err KeyError end.

(** [set(query.get("gold_ids", []))], as a duplicate-free list. *)
Definition gold_id_set (q : EvalQuery) : list string := remove_dups (default [] q.(eq_gold_ids)).

Definition analysis_of (gkm : list (string * string)) (gold_ids : list string) (i : nat)
    (m : MemoryUnit) : Analysis :=
  let key := canonical_key m.(subjects) m.(predicate) m.(object) in
  let gold_id := dict_get key gkm in
  let is_correct := match gold_id with
                    | Some (String _ _ as g) => bool_decide (g ∈ gold_ids)
                    | _ => false
                    end in
  mkAnalysis (i + 1) m.(id) key gold_id m.(fact_text) m.(subjects) m.(predicate) m.(object)
    m.(chapter_start) m.(mem_type) m.(confidence) is_correct.

(** [_evaluate_query]. *)
Definition evaluate_query (q : EvalQuery) (retrieved : list MemoryUnit)
    (gkm : list (string * string)) (target_chapter : Z) : res QueryResult :=
  query_id ← query_id_of q;
  let gold_ids := gold_id_set q in
  let k := default 5%Z q.(eq_k) in
  let top := py_take k retrieved in
  let retrieved_keys := map (fun m => canonical_key m.(subjects) m.(predicate) m.(object)) top in
  let analysis := imap (analysis_of gkm gold_ids) top in
  let '(precision, recall, mrr) :=
    calculate_precision_recall_mrr retrieved_keys (map fst gkm) gold_ids in
  Ok (mkQueryResult query_id target_chapter k gold_ids retrieved_keys precision recall mrr analysis).

Record ChapterPerformance := mkChapterPerformance {
  cp_count : nat;
  cp_precision : Q;
  cp_recall : Q;
  cp_mrr : Q
}.

Record PerformanceAnalysis := mkPerformanceAnalysis {
  pa_total_queries : nat;
  pa_perfect_queries : nat;
  pa_partial_queries : nat;
  pa_failed_queries : nat;
  pa_success_rate : Q
}.

Record RetrievalReport := mkRetrievalReport {
  overall_precision : Q;
  overall_recall : Q;
  overall_mrr : Q;
  query_results : list QueryResult;
  performance_analysis : PerformanceAnalysis;
  top_performing : list QueryResult;
  bottom_performing : list QueryResult;
  chapter_performance : list (Z * ChapterPerformance);
  failed_query_ids : list string;
  partial_query_ids : list string
}.

Definition perf_add (cp : ChapterPerformance) (r : QueryResult) : ChapterPerformance :=
  mkChapterPerformance (S cp.(cp_count)) (cp.(cp_precision) + r.(qr_precision))
    (cp.(cp_recall) + r.(qr_recall)) (cp.(cp_mrr) + r.(qr_mrr)).

Definition perf_avg (cp : ChapterPerformance) : ChapterPerformance :=
  let n := inject_Z (Z.of_nat cp.(cp_count)) in
  mkChapterPerformance cp.(cp_count) (cp.(cp_precision) / n) (cp.(cp_recall) / n) (cp.(cp_mrr) / n).

Definition is_failed (r : QueryResult) : bool := Qeq_bool r.(qr_precision) 0.
Definition is_partial (r : QueryResult) : bool := Qltb 0 r.(qr_precision) && Qltb r.(qr_precision) 1.
Definition is_perfect (r : QueryResult) : bool := Qeq_bool r.(qr_precision) 1.

(** [_generate_detailed_report]; [success_rate] divides by the number of
    results. *)
Definition generate_detailed_report (results : list QueryResult) (p r m : Q) : res RetrievalReport :=
  let by_perf := py_sort_desc qr_precision results in
  let top := py_take 5 by_perf in
  let bottom := drop (length by_perf - 5) by_perf in
  let failed := List.filter is_failed results in
  let partial := List.filter is_partial results in
  let perfect := List.filter is_perfect results in
  let sums := foldl (fun d res0 =>
                dict_set res0.(qr_target_chapter)
                  (perf_add (default (mkChapterPerformance 0 0 0 0) (dict_get res0.(qr_target_chapter) d)) res0) d)
              [] results in
  let chapters := map (fun '(c, cp) => (c, perf_avg cp)) sums in
  match results with
  | [] => Err ZeroDivisionError
  | _ =>
      Ok (mkRetrievalReport p r m results
            (mkPerformanceAnalysis (length results) (length perfect) (length partial) (length failed)
               (ratio (length perfect) results))
            top bottom chapters (map qr_query_id failed) (map qr_query_id partial))
  end.

Section Run.
  (** Whether [ollama.Client()] succeeded when the retriever was built. *)
Variable client_ok : bool.

  (** The body of the loop over the queries. *)
Definition run_query (retriever : SimpleMemoryRetriever) (gkm : list (string * string))
      (q : EvalQuery) : res QueryResult :=
    _ ← query_id_of q;
    let target_chapter := default 1%Z q.(eq_chapter) in
    let retrieved := search_memories_at_chapter retriever (default "" q.(eq_query)) target_chapter
                       (default 5%Z q.(eq_k)) in
    evaluate_query q retrieved gkm target_chapter.

  (** [run_retrieval_eval]: the averages divide by [len(queries)]. *)
Definition run_retrieval_eval (st : SimpleMemoryStore) (gold_memories : list GoldMemory)
      (queries : list EvalQuery) : res RetrievalReport :=
    let retriever := mkRetriever st "mistral:7b" client_ok in
    let gkm := gold_key_map gold_memories in
    results ← mapM (run_query retriever gkm) queries;
    let tp := foldl Qplus 0 (map qr_precision results) in
    let tr := foldl Qplus 0 (map qr_recall results) in
    let tm := foldl Qplus 0 (map qr_mrr results) in
    match queries with
    | [] => Err ZeroDivisionError
    | _ =>
        let n := inject_Z (Z.of_nat (length queries)) in
        generate_detailed_report results (tp / n) (tr / n) (tm / n)
    end.
End Run.

(** ** The report as JSON *)

Definition analysis_json (a : Analysis) : json :=
  JObject [("rank", JInt (Z.of_nat a.(an_rank))); ("memory_id", JStr a.(an_memory_id));
           ("canonical_key", JStr a.(an_canonical_key));
           ("matched_gold_id", Coverage.opt_str a.(an_matched_gold_id));
           ("fact_text", JStr a.(an_fact_text)); ("subjects", JArray (map JStr a.(an_subjects)));
           ("predicate", JStr a.(an_predicate)); ("object", JStr a.(an_object));
           ("chapter_start", JInt a.(an_chapter_start)); ("mem_type", JStr a.(an_mem_type));
           ("confidence", JFloat a.(an_confidence)); ("is_correct", JBool a.(an_is_correct))].

Definition query_result_json (r : QueryResult) : json :=
  JObject [("query_id", JStr r.(qr_query_id)); ("target_chapter", JInt r.(qr_target_chapter));
           ("k", JInt r.(qr_k)); ("gold_ids", JArray (map JStr r.(qr_gold_ids)));
           ("retrieved_keys", JArray (map JStr r.(qr_retrieved_keys)));
           ("precision", JFloat r.(qr_precision)); ("recall", JFloat r.(qr_recall));
           ("mrr", JFloat r.(qr_mrr));
           ("retrieval_analysis", JArray (map analysis_json r.(qr_retrieval_analysis)))].

(** An entry of [top_performing_queries] and [bottom_performing_queries]. *)
Definition query_summary_json (r : QueryResult) : json :=
  JObject [("query_id", JStr r.(qr_query_id)); ("precision", JFloat r.(qr_precision));
           ("recall", JFloat r.(qr_recall)); ("mrr", JFloat r.(qr_mrr))].

Definition chapter_performance_json (cp : ChapterPerformance) : json :=
  JObject [("count", JInt (Z.of_nat cp.(cp_count))); ("precision", JFloat cp.(cp_precision));
           ("recall", JFloat cp.(cp_recall)); ("mrr", JFloat cp.(cp_mrr))].

(** The dict [_generate_detailed_report] returns, as [json.dump] writes it
    (the integer keys of [chapter_performance] become strings). *)
Definition retrieval_report_json (r : RetrievalReport) : json :=
  let pa := r.(performance_analysis) in
  JObject [("overall_metrics", JObject [("precision", JFloat r.(overall_precision));
                                         ("recall", JFloat r.(overall_recall));
                                         ("mrr", JFloat r.(overall_mrr))]);
           ("query_results", JArray (map query_result_json r.(query_results)));
           ("performance_analysis",
              JObject [("total_queries", JInt (Z.of_nat pa.(pa_total_queries)));
                       ("perfect_queries", JInt (Z.of_nat pa.(pa_perfect_queries)));
                       ("partial_queries", JInt (Z.of_nat pa.(pa_partial_queries)));
                       ("failed_queries", JInt (Z.of_nat pa.(pa_failed_queries)));
                       ("success_rate", JFloat pa.(pa_success_rate))]);
           ("top_performing_queries", JArray (map query_summary_json r.(top_performing)));
           ("bottom_performing_queries", JArray (map query_summary_json r.(bottom_performing)));
           ("chapter_performance",
              JObject (map (fun '(c, cp) => (py_str_Z c, chapter_performance_json cp))
                           r.(chapter_performance)));
           ("failure_analysis", JObject [("failed_query_ids", JArray (map JStr r.(failed_query_ids)));
                                         ("partial_query_ids", JArray (map JStr r.(partial_query_ids)))])].

End Retrieval.

(** ** Theorems *)

Module RetrievalFacts.
Import Retrieval.

(** Two gold memories and a query that names only the second one. *)
Definition ex_gold : list GoldMemory :=
  [mkGoldMemory "g1" ["dimitri"; "byleth"] "relationship_status" "started_affair";
   mkGoldMemory "g2" ["byleth"] "occupation" "professor"].

Definition ex_query (gold : list string) : EvalQuery :=
  mkEvalQuery (Some "q1") (Some "affair") (Some 12%Z) (Some 5%Z) (Some gold).

Lemma evaluate_query_Ok q retrieved gkm ch r :
  evaluate_query q retrieved gkm ch = Ok r ->
  exists qid, q.(eq_qid) = Some qid /\
  let keys := map (fun m => canonical_key m.(subjects) m.(predicate) m.(object))
                  (py_take (default 5%Z q.(eq_k)) retrieved) in
  r.(qr_retrieved_keys) = keys /\
  r.(qr_precision) = ratio (count_correct keys (map fst gkm)) keys /\
  r.(qr_recall) = ratio (count_correct keys (map fst gkm)) (gold_id_set q) /\
  r.(qr_mrr) = first_hit_rr 0 keys (map fst gkm).
Proof.
  unfold evaluate_query, query_id_of. destruct (eq_qid q) as [qid|]; [|done].
  cbn [mbind res_bind]. intros [= <-]. by exists qid.
Qed.

(** C25. [_evaluate_query] scores the retrieved keys against all the gold
    keys ([list(gold_key_map.keys())]), not against the gold ids of the
    query: two queries that differ only in their gold ids get the same
    retrieved keys, the same precision and the same reciprocal rank.  A
    query whose gold ids name none of the retrieved records still scores
    precision 1, although the per-record analysis marks every retrieved
    record incorrect. *)
Theorem precision_ignores_gold_ids q gold1 gold2 retrieved gkm ch r1 r2 :
  evaluate_query (mkEvalQuery q.(eq_qid) q.(eq_query) q.(eq_chapter) q.(eq_k) gold1) retrieved gkm ch = Ok r1 ->
  evaluate_query (mkEvalQuery q.(eq_qid) q.(eq_query) q.(eq_chapter) q.(eq_k) gold2) retrieved gkm ch = Ok r2 ->
  (r1.(qr_retrieved_keys) = r2.(qr_retrieved_keys) /\ r1.(qr_precision) = r2.(qr_precision) /\
   r1.(qr_mrr) = r2.(qr_mrr)) /\
  exists r, evaluate_query (ex_query ["g2"]) [affair_ch10] (gold_key_map ex_gold) 12 = Ok r /\
    r.(qr_precision) == 1 /\ Forall (fun a => a.(an_is_correct) = false) r.(qr_retrieval_analysis).
Proof.
  intros (i1 & _ & Hk1 & Hp1 & _ & Hm1)%evaluate_query_Ok (i2 & _ & Hk2 & Hp2 & _ & Hm2)%evaluate_query_Ok.
  split.
  - cbn in *. by rewrite Hk1, Hp1, Hm1, Hk2, Hp2, Hm2.
  - eexists. split; [vm_compute; reflexivity|]. split; [reflexivity|]. repeat constructor.
Qed.

Lemma precision_ignores_gold_ids_witness :
  exists r1 r2,
    evaluate_query (ex_query ["g2"]) [affair_ch10] (gold_key_map ex_gold) 12 = Ok r1 /\
    evaluate_query (ex_query ["g1"]) [affair_ch10] (gold_key_map ex_gold) 12 = Ok r2 /\
    r1.(qr_retrieved_keys) = r2.(qr_retrieved_keys) /\ r1.(qr_precision) = r2.(qr_precision) /\
    r1.(qr_mrr) = r2.(qr_mrr).
Proof.
  assert (H1 : exists r1, evaluate_query (ex_query ["g2"]) [affair_ch10] (gold_key_map ex_gold) 12 = Ok r1)
    by (eexists; vm_compute; reflexivity).
  assert (H2 : exists r2, evaluate_query (ex_query ["g1"]) [affair_ch10] (gold_key_map ex_gold) 12 = Ok r2)
    by (eexists; vm_compute; reflexivity).
  destruct H1 as [r1 H1], H2 as [r2 H2]. exists r1, r2. split; [exact H1|]. split; [exact H2|].
  exact (proj1 (precision_ignores_gold_ids (ex_query []) (Some ["g2"]) (Some ["g1"]) _ _ _ r1 r2 H1 H2)).
Defined.

End RetrievalFacts.

Module RetrievalRun.
Import Retrieval RetrievalFacts.

Definition score_ok (r : QueryResult) : Prop :=
  0 <= r.(qr_precision) <= 1 /\ 0 <= r.(qr_mrr) <= 1.

Lemma evaluate_query_score q retrieved gkm ch r :
  evaluate_query q retrieved gkm ch = Ok r -> score_ok r.
Proof.
  unfold score_ok. intros (qid & _ & _ & -> & _ & ->)%evaluate_query_Ok.
  split; [apply ratio_bounds, count_correct_le|apply first_hit_rr_bounds].
Qed.

Lemma classify_one r :
  score_ok r ->
  ((if is_perfect r then 1 else 0) + (if is_partial r then 1 else 0) +
   (if is_failed r then 1 else 0))%nat = 1%nat.
Proof.
  intros [[H0 H1] _]. unfold is_perfect, is_partial, is_failed.
  destruct (Qeq_bool _ 1) eqn:E1, (Qeq_bool _ 0) eqn:E0, (Qltb 0 _) eqn:Ea, (Qltb _ 1) eqn:Eb;
    simpl; try reflexivity; exfalso;
    repeat match goal with
    | E : Qeq_bool _ _ = true |- _ => apply Qeq_bool_iff in E
    | E : Qeq_bool _ _ = false |- _ => apply Qeq_bool_neq in E
    | E : Qltb _ _ = true |- _ => apply Qltb_spec in E
    | E : Qltb _ _ = false |- _ => apply Qltb_false in E
    end;
    first [lra | match goal with E : ~ _ == _ |- _ => apply E; apply Qle_antisym; lra end].
Qed.

(** Every query is exactly one of perfect, partial or failed. *)
Lemma classify_partition rs :
  Forall score_ok rs ->
  (length (List.filter is_perfect rs) + length (List.filter is_partial rs) +
   length (List.filter is_failed rs))%nat = length rs.
Proof.
  induction 1 as [|r rs Hr _ IH]; [done|]. pose proof (classify_one r Hr) as H1.
  cbn [List.filter length].
  destruct (is_perfect r), (is_partial r), (is_failed r); cbn [length] in *; lia.
Qed.

Lemma foldl_Qplus_bounds (ps : list Q) a :
  Forall (fun p => 0 <= p <= 1) ps -> 0 <= a ->
  0 <= foldl Qplus a ps /\ foldl Qplus a ps <= a + inject_Z (Z.of_nat (length ps)).
Proof.
  intros Hps. revert a. induction Hps as [|p ps Hp _ IH]; intros a Ha; simpl.
  - split; [done|]. change (inject_Z (Z.of_nat 0)) with 0. lra.
  - destruct (IH (a + p)) as [H1 H2]; [lra|]. split; [done|].
    cbn [length]. rewrite Nat2Z.inj_succ, <- Z.add_1_r, inject_Z_plus.
    change (inject_Z 1) with 1. lra.
Qed.

(** The average of scores between 0 and 1 lies between 0 and 1. *)
Lemma average_bounds (ps : list Q) (n : nat) :
  Forall (fun p => 0 <= p <= 1) ps -> length ps = n -> (0 < n)%nat ->
  0 <= foldl Qplus 0 ps / inject_Z (Z.of_nat n) <= 1.
Proof.
  intros Hps <- Hn. destruct (foldl_Qplus_bounds ps 0 Hps) as [H1 H2]; [lra|].
  assert (Hpos : 0 < inject_Z (Z.of_nat (length ps))) by (change 0 with (inject_Z 0); rewrite <- Zlt_Qlt; lia).
  split.
  - apply Qle_shift_div_l; [done|]. lra.
  - apply Qle_shift_div_r; [done|]. lra.
Qed.

Lemma Forall2_Forall_snd {A B} (R : A -> B -> Prop) (P : B -> Prop) l1 l2 :
  Forall2 R l1 l2 -> (forall x y, R x y -> P y) -> Forall P l2.
Proof. induction 1; constructor; eauto. Qed.

Lemma run_query_score retriever gkm q r : run_query retriever gkm q = Ok r -> score_ok r.
Proof.
  unfold run_query. intros (qid & _ & H)%res_bind_inv. by apply evaluate_query_score in H.
Qed.

(** C26. [run_retrieval_eval] divides the summed scores by the number of
    queries: with no query it raises [ZeroDivisionError].  Otherwise the
    report counts every query once as perfect, partial or failed, and the
    overall precision and reciprocal rank are averages of per-query values
    between 0 and 1, so they lie between 0 and 1 (the overall recall need
    not: see [precision_recall_mrr_bounds]). *)
Theorem run_retrieval_eval_report client_ok st golds queries rep :
  run_retrieval_eval client_ok st golds [] = Err ZeroDivisionError /\
  (run_retrieval_eval client_ok st golds queries = Ok rep ->
   rep.(performance_analysis).(pa_total_queries) = length queries /\
   (rep.(performance_analysis).(pa_perfect_queries) + rep.(performance_analysis).(pa_partial_queries) +
    rep.(performance_analysis).(pa_failed_queries) = rep.(performance_analysis).(pa_total_queries))%nat /\
   0 <= rep.(overall_precision) <= 1 /\ 0 <= rep.(overall_mrr) <= 1).
Proof.
  split; [reflexivity|]. unfold run_retrieval_eval.
  intros (results & Hres & H)%res_bind_inv. apply res_mapM_Ok in Hres.
  pose proof (Forall2_length _ _ _ Hres) as Hlen.
  pose proof (Forall2_Forall_snd _ score_ok _ _ Hres ltac:(intros ? ? Hq; exact (run_query_score _ _ _ _ Hq))) as Hs.
  destruct queries as [|q0 qs]; [done|]. destruct results as [|r0 rs]; [done|].
  unfold generate_detailed_report in H. injection H as <-. cbn [performance_analysis pa_total_queries
    pa_perfect_queries pa_partial_queries pa_failed_queries overall_precision overall_mrr].
  split; [done|]. split; [exact (classify_partition _ Hs)|]. split.
  - apply (average_bounds (map qr_precision (r0 :: rs)) (length (q0 :: qs)));
      [|by rewrite length_map|simpl; lia].
    apply List.Forall_map. eapply List.Forall_impl; [|exact Hs]. by intros r [? ?].
  - apply (average_bounds (map qr_mrr (r0 :: rs)) (length (q0 :: qs)));
      [|by rewrite length_map|simpl; lia].
    apply List.Forall_map. eapply List.Forall_impl; [|exact Hs]. by intros r [? ?].
Qed.

Lemma run_retrieval_eval_report_witness :
  exists rep, run_retrieval_eval true store_ch10 ex_gold [ex_query ["g2"]] = Ok rep /\
   rep.(performance_analysis).(pa_total_queries) = 1%nat /\
   (rep.(performance_analysis).(pa_perfect_queries) + rep.(performance_analysis).(pa_partial_queries) +
    rep.(performance_analysis).(pa_failed_queries) = rep.(performance_analysis).(pa_total_queries))%nat /\
   0 <= rep.(overall_precision) <= 1 /\ 0 <= rep.(overall_mrr) <= 1.
Proof.
  assert (Hrun : exists rep, run_retrieval_eval true store_ch10 ex_gold [ex_query ["g2"]] = Ok rep)
    by (eexists; vm_compute; reflexivity).
  destruct Hrun as [rep Hrun]. exists rep. split; [exact Hrun|].
  exact (proj2 (run_retrieval_eval_report true store_ch10 ex_gold _ rep) Hrun).
Defined.

End RetrievalRun.

Module CoverageGates.
Import Coverage Scoring.

Lemma coverage_rate_sum_map acc chs :
  res_foldl (fun acc ch => r ← py_get ch "coverage_rate" (JFloat 0); py_add_num acc r) acc
    (map chapter_coverage_json chs) = Ok (foldl Qplus acc (map cc_coverage_rate chs)).
Proof. revert acc. induction chs as [|c chs IH]; intros acc; [done|]. apply IH. Qed.

(** The mean of the chapter rates, as the per-chapter gate computes it. *)
Definition mean_rate (rep : CoverageReport) : Q :=
  foldl Qplus 0 (map cc_coverage_rate rep.(chapter_coverage)) /
  inject_Z (Z.of_nat (length rep.(chapter_coverage))).

(** Three key facts of chapter 3 stated like the record of [store_ch3],
    and one stating the same fact with its subjects in the other order. *)
Definition affair_fact (subjects0 : list string) : KeyFact :=
  mkKeyFact None (Some "kf") (Some subjects0) (Some "relationship_status") (Some "started_affair").

Definition ex_keyfacts : list FactEntry :=
  [mkFactEntry (Some 3%Z) (Some (repeat (affair_fact ["dimitri"; "byleth"]) 3));
   mkFactEntry (Some 3%Z) (Some [affair_fact ["byleth"; "dimitri"]])].

Definition coverage_config : json :=
  JObject [("gates", JObject [("coverage", JObject [
     ("min_overall", JObject [("min", JFloat 0.75)]);
     ("min_per_chapter", JObject [("min", JFloat 0.60)])])])].

(** C27. On the report of [run_coverage_eval], the coverage gate
    "min_overall" compares the overall rate (covered facts over all facts)
    and "min_per_chapter" compares the unweighted mean of the chapter
    rates.  The two disagree: with three covered facts in one entry and
    one uncovered fact in another (the same fact with its subjects listed
    in the other order, which the order-sensitive exact match misses), the
    overall rate 3/4 passes its 0.75 bound while the mean 1/2 fails the
    0.60 bound, and the report fails. *)
Theorem coverage_gates_on_report rep st0 m :
  rep.(chapter_coverage) <> [] ->
  coverage_gate (coverage_report_json rep) st0 ("min_overall", JObject [("min", JFloat m)]) =
    Ok (record_gate st0 "min_overall" (Qltb rep.(overall_coverage) m) ">=" (JFloat m)
          (JFloat rep.(overall_coverage))) /\
  coverage_gate (coverage_report_json rep) st0 ("min_per_chapter", JObject [("min", JFloat m)]) =
    Ok (record_gate st0 "min_per_chapter" (Qltb (mean_rate rep) m) ">=" (JFloat m)
          (JFloat (mean_rate rep))) /\
  exists r, apply_gates "20250101_000000"
              (JObject [("coverage", coverage_report_json (run_coverage_eval store_ch3 ex_keyfacts))])
              coverage_config = Ok r /\
    r.(report_status) = "FAIL" /\
    option_map gr_status (dict_get "min_overall" r.(report_gate_results)) = Some "PASS".
Proof.
  intros Hne. split_and!; [reflexivity| |].
  - unfold coverage_gate. cbv beta iota zeta.
    change (py_get (JObject [("min", JFloat m)]) "min" (JFloat 0)) with (Ok (JFloat m) : res json).
    change (py_replace "min_" "" "min_per_chapter") with "per_chapter".
    change (py_get (coverage_report_json rep) (default "per_chapter" (dict_get "per_chapter" coverage_mapping))
              (JFloat 0)) with (Ok (JArray (map chapter_coverage_json rep.(chapter_coverage))) : res json).
    rewrite !res_bind_Ok. unfold per_chapter_value, mean_rate.
    destruct (chapter_coverage rep) as [|c chs] eqn:E; [done|].
    change (String.eqb "per_chapter" "per_chapter") with true. cbv iota.
    unfold coverage_rate_sum. rewrite coverage_rate_sum_map.
    rewrite res_bind_Ok, length_map. reflexivity.
  - eexists. split; [vm_compute; reflexivity|]. split; reflexivity.
Qed.

Lemma coverage_gates_on_report_witness :
  (run_coverage_eval store_ch3 ex_keyfacts).(chapter_coverage) <> [] /\
  coverage_gate (coverage_report_json (run_coverage_eval store_ch3 ex_keyfacts)) (mkGateState "PASS" [])
    ("min_per_chapter", JObject [("min", JFloat 0.60)]) =
  Ok (record_gate (mkGateState "PASS" []) "min_per_chapter"
        (Qltb (mean_rate (run_coverage_eval store_ch3 ex_keyfacts)) 0.60) ">=" (JFloat 0.60)
        (JFloat (mean_rate (run_coverage_eval store_ch3 ex_keyfacts)))).
Proof.
  assert (Hne : (run_coverage_eval store_ch3 ex_keyfacts).(chapter_coverage) <> [])
    by (vm_compute; discriminate).
  split; [exact Hne|].
  exact (proj1 (proj2 (coverage_gates_on_report _ (mkGateState "PASS" []) 0.60 Hne))).
Defined.

End CoverageGates.

Module SekaiEval.
Import Coverage Retrieval Scoring.

(** The [all] command of [sekai_eval.py]: the retrieval, consistency and
    coverage evaluations on the same store file, each writing its results
    file into the output directory, then [run_scoring] on those three
    files with the configuration [eval/scoring.yaml].  An evaluation that
    raises aborts the command (the symmetry scan's [ValueError] is the
    [None] of [run_consistency_eval]). *)
Definition sekai_eval_all (client_ok : bool) (timestamp : string) (st : SimpleMemoryStore)
    (gold_memories : list GoldMemory) (queries : list EvalQuery) (keyfacts : list FactEntry)
    (config : json) : res GateReport :=
  retrieval ← run_retrieval_eval client_ok st gold_memories queries;
  consistency ← (match run_consistency_eval st with Some r => Ok r | None => Err ValueError end);
  let coverage := run_coverage_eval st keyfacts in
  run_scoring timestamp
    (consolidate_metrics (Some (retrieval_report_json retrieval))
       (Some (consistency_results_json consistency)) (Some (coverage_report_json coverage)))
    config.

(** C15. [create_default_scoring_config] writes the consistency gates as
    bare integers ([{"max_time_overlap_conflicts": 0, ...}]), so
    [gate_config.get("max", 0)] is called on an [int]: [apply_gates] with
    the default configuration never returns a report, whatever the
    metrics (on metrics without a consistency part the error is the
    [AttributeError] of that call), and so the [all] command of
    [sekai_eval.py] run with that configuration raises on every store,
    gold file, query file and key-fact file. *)
Theorem sekai_eval_all_default_raises :
  (forall ts metrics, is_ok (apply_gates ts metrics default_scoring_config) = false) /\
  (forall ts, apply_gates ts (JObject []) default_scoring_config = Err AttributeError) /\
  (forall client_ok ts st gold_memories queries keyfacts,
     is_ok (sekai_eval_all client_ok ts st gold_memories queries keyfacts default_scoring_config)
       = false).
Proof.
  split_and!.
  - intros ts metrics. exact (proj1 (default_config_always_raises ts metrics)).
  - intros ts. exact (proj2 (default_config_always_raises ts (JObject []))).
  - intros client_ok ts st gold_memories queries keyfacts. unfold sekai_eval_all.
    destruct (run_retrieval_eval _ _ _ _) as [rep|e]; [cbn [mbind res_bind]|done].
    destruct (run_consistency_eval st) as [r|]; [cbn [mbind res_bind]|done].
    unfold run_scoring.
    match goal with |- context [apply_gates ?t ?m default_scoring_config] =>
      pose proof (proj1 (default_config_always_raises t m)) as Hr;
      destruct (apply_gates t m default_scoring_config) end; done.
Qed.

End SekaiEval.
