(* ===== verification/ReportTypes.v ===== *)
(** * ReportTypes: the JSON types of the scoring configuration and of the
    evaluation reports (src/eval/scoring.py, src/eval/*_eval.py)

    [apply_gates] reads its configuration and the three reports with
    [.get], [in], [[]] and [.items()] and compares what it finds with [<]:
    each of these raises on a value of the wrong shape.  [jtype] is the
    language of the shapes it needs and [has_type] the (executable)
    typing judgement, in the manner of a data-typing relation for JSON
    values: a record type [TRec] lists keys that, when present (the code
    reads them with [.get(key, default)]), hold a value of the given type,
    and [TDict] types every value of a dict.  [config_t] and [metrics_t]
    are the shapes [apply_gates] needs.

    The theorem of this file is a type-safety theorem: the reports the
    evaluations write are well typed, and [apply_gates] on well-typed
    metrics and a well-typed configuration always returns a report; the
    default configuration is not well typed, which is where [C14]'s
    exception comes from. *)

From S2P Require Import Prelude Json MemoryUnit MemoryStore Consistency Retriever EvalUtils Scoring Evaluations.

Module ReportTypes.
Import Scoring Coverage Retrieval.

(** ** Types and the typing judgement *)

Inductive jtype :=
| TAny
| TNum                                    (** [int], [float] or [bool] *)
| TStr
| TList (t : jtype)
| TDict (t : jtype)                       (** a dict whose values all have type [t] *)
| TRec (fields : list (string * jtype))   (** a dict whose listed keys, when present, have their types *)
| TUnion (t1 t2 : jtype).

Fixpoint has_type (v : json) (t : jtype) {struct t} : bool :=
  match t with
  | TAny => true
  | TNum => is_number v
  | TStr => match v with JStr _ => true | _ => false end
  | TList t' => match v with JArray l => forallb (fun x => has_type x t') l | _ => false end
  | TDict t' => match v with JObject d => forallb (fun kx => has_type kx.2 t') d | _ => false end
  | TRec fs =>
      match v with
      | JObject d =>
          (fix fields_ok (fs : list (string * jtype)) : bool :=
             match fs with
             | [] => true
             | (k, t') :: rest =>
                 match dict_get k d with Some x => has_type x t' | None => true end &&
                 fields_ok rest
             end) fs
      | _ => false
      end
  | TUnion t1 t2 => has_type v t1 || has_type v t2
  end.

(** What a gate may read as its actual value: a number, or a list or a
    dict (which the gate replaces by [0.0]). *)
Definition gate_value_t : jtype := TUnion TNum (TUnion (TList TAny) (TDict TAny)).

(** A coverage value; a list must be the chapters that the [per_chapter]
    gate averages: dicts with a numeric [coverage_rate]. *)
Definition coverage_value_t : jtype :=
  TUnion TNum (TUnion (TDict TAny) (TList (TRec [("coverage_rate", TNum)]))).

Definition metrics_t : jtype :=
  TRec [("retrieval", TRec [("overall_metrics", TDict gate_value_t)]);
        ("consistency", TDict TAny);
        ("coverage", TDict coverage_value_t)].

Definition config_t : jtype :=
  TRec [("gates", TRec [("retrieval", TDict (TRec [("min", TNum)]));
                        ("consistency", TDict (TRec [("max", TNum)]));
                        ("coverage", TDict (TRec [("min", TNum)]))])].

(** The default configuration with each consistency gate written as the
    gate reads it, [{"max": 0}]. *)
Definition typed_scoring_config : json :=
  JObject [("gates", JObject [
    ("retrieval", JObject [
       ("precision_at_5", JObject [("min", JFloat 0.65)]);
       ("recall_at_10", JObject [("min", JFloat 0.75)]);
       ("mrr", JObject [("min", JFloat 0.70)])]);
    ("consistency", JObject [
       ("max_time_overlap_conflicts", JObject [("max", JInt 0)]);
       ("max_world_future_leaks", JObject [("max", JInt 0)]);
       ("max_crosstalk_leaks", JObject [("max", JInt 0)])]);
    ("coverage", JObject [
       ("min_overall", JObject [("min", JFloat 0.75)]);
       ("min_per_chapter", JObject [("min", JFloat 0.60)])])])].

(** ** Typing lemmas *)

Lemma has_type_rec d fs :
  has_type (JObject d) (TRec fs) =
  forallb (fun kt => match dict_get kt.1 d with Some x => has_type x kt.2 | None => true end) fs.
Proof. induction fs as [|[k t] fs IH]; [done|]. simpl in *. by rewrite IH. Qed.

Lemma has_type_dict d t : has_type (JObject d) (TDict t) = forallb (fun kx => has_type kx.2 t) d.
Proof. done. Qed.

(** [v.get(k, dflt)] on a record: the field's type, when the default has it. *)
Lemma py_get_rec v fs k t dflt :
  has_type v (TRec fs) = true -> dict_get k fs = Some t -> has_type dflt t = true ->
  exists x, py_get v k dflt = Ok x /\ has_type x t = true.
Proof.
  destruct v as [| | | | | |d]; try done. rewrite has_type_rec, forallb_forall.
  intros Hfs Hk%dict_get_Some Hd. eexists; split; [done|].
  apply list_elem_of_In in Hk. specialize (Hfs _ Hk). simpl in Hfs. by destruct (dict_get k d).
Qed.

Lemma py_get_dict v t k dflt :
  has_type v (TDict t) = true -> has_type dflt t = true ->
  exists x, py_get v k dflt = Ok x /\ has_type x t = true.
Proof.
  destruct v as [| | | | | |d]; try done. rewrite has_type_dict, forallb_forall.
  intros Hd Hdflt. eexists; split; [done|].
  destruct (dict_get k d) as [x|] eqn:Hx; [|done]. apply (Hd (k, x)), list_elem_of_In, dict_get_Some, Hx.
Qed.

Lemma has_type_any_list l : has_type (JArray l) (TList TAny) = true.
Proof. induction l; [done|]. exact IHl. Qed.

Lemma has_type_any_dict d : has_type (JObject d) (TDict TAny) = true.
Proof. induction d; [done|]. exact IHd. Qed.

Lemma has_type_list l t : has_type (JArray l) (TList t) = true <-> Forall (fun x => has_type x t = true) l.
Proof. simpl. rewrite forallb_forall, Forall_forall. by setoid_rewrite list_elem_of_In. Qed.

Lemma has_type_union v t1 t2 : has_type v (TUnion t1 t2) = has_type v t1 || has_type v t2.
Proof. done. Qed.

Create Rewrite HintDb typing.
#[local] Hint Rewrite has_type_union has_type_any_list has_type_any_dict orb_true_l orb_true_r : typing.

(** Close a goal [has_type v t = true] for a value of a given shape. *)
Ltac typing_auto :=
  unfold gate_value_t, coverage_value_t in *; autorewrite with typing in *; simpl in *;
  rewrite ?orb_true_r in *; done.

Lemma has_type_num v : has_type v TNum = true -> exists q, num_of v = Some q.
Proof. simpl. unfold is_number. destruct (num_of v); [by eexists|done]. Qed.

Lemma py_lt_num a b :
  has_type a TNum = true -> has_type b TNum = true -> exists r, py_lt a b = Ok r.
Proof.
  intros [x Hx]%has_type_num [y Hy]%has_type_num. unfold py_lt. rewrite Hx, Hy. by eexists.
Qed.

Lemma numeric_or_zero_num v : has_type v gate_value_t = true -> has_type (numeric_or_zero v) TNum = true.
Proof. by destruct v. Qed.

Lemma coverage_rate_sum_total chapters :
  Forall (fun ch => has_type ch (TRec [("coverage_rate", TNum)]) = true) chapters ->
  exists q, coverage_rate_sum chapters = Ok q.
Proof.
  intros Hch. apply (res_foldl_total _ _ _ _ Hch). intros acc ch Hty.
  destruct (py_get_rec ch _ "coverage_rate" TNum (JFloat 0) Hty) as (r & -> & Hr); [done..|].
  destruct (has_type_num _ Hr) as [q Hq]. unfold py_add_num. cbn [mbind res_bind].
  rewrite Hq. by eexists.
Qed.

(** The [per_chapter] average of a well-typed coverage value is a value a
    gate may compare. *)
Lemma per_chapter_value_typed metric_name v :
  has_type v coverage_value_t = true ->
  exists v', per_chapter_value metric_name v = Ok v' /\ has_type v' gate_value_t = true.
Proof.
  intros Hv. destruct v as [| | | | |chs|d]; try done;
    try (eexists; split; [done|]; typing_auto).
  unfold per_chapter_value. destruct (String.eqb metric_name "per_chapter").
  2: { eexists; split; [done|]. typing_auto. }
  destruct chs as [|ch chs]; [eexists; split; [done|typing_auto]|].
  change (has_type (JArray (ch :: chs)) (TList (TRec [("coverage_rate", TNum)])) = true) in Hv.
  apply has_type_list in Hv as Hall.
  destruct (coverage_rate_sum_total _ Hall) as [q ->]. eexists; split; [done|typing_auto].
Qed.

(** ** Each gate returns on well-typed arguments *)

Lemma retrieval_gate_total bm st name cfg :
  has_type bm (TRec [("overall_metrics", TDict gate_value_t)]) = true ->
  has_type cfg (TRec [("min", TNum)]) = true ->
  exists st', retrieval_gate bm st (name, cfg) = Ok st'.
Proof.
  intros Hbm Hcfg. unfold retrieval_gate. cbn beta iota zeta.
  destruct (py_get_rec cfg _ "min" TNum (JFloat 0) Hcfg) as (mn & -> & Hmn); [done..|]. cbn [mbind res_bind].
  destruct (py_get_rec bm _ "overall_metrics" (TDict gate_value_t) (JObject []) Hbm) as (ov & -> & Hov); [done..|]. cbn [mbind res_bind].
  destruct (py_get_dict ov _ (default name (dict_get name metric_mapping)) (JFloat 0) Hov)
    as (a & -> & Ha); [done|]. cbn [mbind res_bind].
  cbn [mbind res_bind].
  destruct (py_lt_num _ _ (numeric_or_zero_num _ Ha) Hmn) as [r ->]. by eexists.
Qed.

Lemma consistency_gate_total bm st name cfg :
  has_type bm (TDict TAny) = true -> has_type cfg (TRec [("max", TNum)]) = true ->
  exists st', consistency_gate bm st (name, cfg) = Ok st'.
Proof.
  intros Hbm Hcfg. unfold consistency_gate. cbn beta iota zeta.
  destruct (py_get_rec cfg _ "max" TNum (JInt 0) Hcfg) as (mx & -> & Hmx); [done..|]. cbn [mbind res_bind].
  destruct (py_get_dict bm _ name (JInt 0) Hbm) as (a & -> & _); [done|]. cbn [mbind res_bind].
  cbn [mbind res_bind]. destruct (is_number a) eqn:Ha; [|by eexists].
  destruct (py_lt_num mx a Hmx Ha) as [r ->]. by eexists.
Qed.

Lemma coverage_gate_total bm st name cfg :
  has_type bm (TDict coverage_value_t) = true -> has_type cfg (TRec [("min", TNum)]) = true ->
  exists st', coverage_gate bm st (name, cfg) = Ok st'.
Proof.
  intros Hbm Hcfg. unfold coverage_gate. cbn beta iota zeta.
  destruct (py_get_rec cfg _ "min" TNum (JFloat 0) Hcfg) as (mn & -> & Hmn); [done..|]. cbn [mbind res_bind].
  set (m := py_replace "min_" "" name).
  destruct (py_get_dict bm _ (default m (dict_get m coverage_mapping)) (JFloat 0) Hbm)
    as (a & -> & Ha); [done|]. cbn [mbind res_bind].
  destruct (per_chapter_value_typed m a Ha) as (a' & Hpc & Ha'). cbn [mbind res_bind].
  rewrite Hpc. cbn [mbind res_bind].
  destruct (py_lt_num _ _ (numeric_or_zero_num _ Ha') Hmn) as [r ->]. by eexists.
Qed.

Lemma dict_in_get {V} k (d : list (string * V)) : dict_in k d = true -> exists v, dict_get k d = Some v.
Proof.
  intros Hin. destruct (dict_get k d) as [v|] eqn:Hk; [by eexists|].
  apply dict_get_None in Hk. unfold dict_in in Hin. by apply bool_decide_eq_true in Hin.
Qed.

(** A block of gates returns when the block is a dict of gate
    configurations of type [ct], the metrics the block reads have type
    [bt] (or are absent: [{}] has type [bt]), and each gate returns on
    such arguments. *)
Lemma gate_block_total name gate metrics gates st gs ms ct bt :
  has_type gates (TRec gs) = true -> dict_get name gs = Some (TDict ct) ->
  has_type metrics (TRec ms) = true -> dict_get name ms = Some bt ->
  has_type (JObject []) bt = true ->
  (forall bm st n cfg, has_type bm bt = true -> has_type cfg ct = true ->
     exists st', gate bm st (n, cfg) = Ok st') ->
  exists st', gate_block name gate metrics gates st = Ok st'.
Proof.
  intros Hg Hgs Hm Hms Hempty Hgate. unfold gate_block.
  destruct gates as [| | | | | |d]; try done. cbn [py_contains mbind res_bind].
  destruct (dict_in name d) eqn:Hin; [|by eexists].
  destruct (dict_in_get _ _ Hin) as [block Hb]. cbn [py_index]. rewrite Hb. cbn [mbind res_bind].
  destruct (py_get_rec metrics _ name bt (JObject []) Hm Hms Hempty) as (bm & -> & Hbm).
  rewrite has_type_rec, forallb_forall in Hg.
  specialize (Hg (name, TDict ct) (proj1 (list_elem_of_In _ _) (dict_get_Some _ _ _ Hgs))).
  cbn [fst snd] in Hg. rewrite Hb in Hg.
  destruct block as [| | | | | |items]; try done. cbn [py_items mbind res_bind].
  rewrite has_type_dict, forallb_forall in Hg.
  apply (res_foldl_total _ (fun it => has_type it.2 ct = true)).
  - apply Forall_forall. intros it Hit%list_elem_of_In. by apply Hg.
  - intros y [n cfg] Hcfg. by apply Hgate.
Qed.

Lemma apply_gates_total ts metrics config :
  has_type metrics metrics_t = true -> has_type config config_t = true ->
  exists rep, apply_gates ts metrics config = Ok rep.
Proof.
  intros Hm Hc. unfold apply_gates.
  destruct (py_get_rec config _ "gates" (TRec [("retrieval", TDict (TRec [("min", TNum)]));
                                                ("consistency", TDict (TRec [("max", TNum)]));
                                                ("coverage", TDict (TRec [("min", TNum)]))])
              (JObject []) Hc) as (gates & -> & Hg); [done..|].
  cbn [mbind res_bind].
  destruct (gate_block_total "retrieval" retrieval_gate metrics gates (mkGateState "PASS" [])
              _ _ _ _ Hg eq_refl Hm eq_refl eq_refl (retrieval_gate_total)) as [st1 ->].
  cbn [mbind res_bind].
  destruct (gate_block_total "consistency" consistency_gate metrics gates st1
              _ _ _ _ Hg eq_refl Hm eq_refl eq_refl (consistency_gate_total)) as [st2 ->].
  cbn [mbind res_bind].
  destruct (gate_block_total "coverage" coverage_gate metrics gates st2
              _ _ _ _ Hg eq_refl Hm eq_refl eq_refl (coverage_gate_total)) as [st3 ->].
  by eexists.
Qed.

(** ** The reports the evaluations write are well typed *)

Lemma retrieval_report_typed r :
  has_type (retrieval_report_json r) (TRec [("overall_metrics", TDict gate_value_t)]) = true.
Proof. done. Qed.

Lemma consistency_results_typed c : has_type (consistency_results_json c) (TDict TAny) = true.
Proof. apply has_type_any_dict. Qed.

Lemma coverage_report_typed v : has_type (coverage_report_json v) (TDict coverage_value_t) = true.
Proof.
  unfold coverage_report_json. rewrite has_type_dict. cbn [forallb fst snd].
  unfold coverage_value_t. rewrite !has_type_union. cbn [has_type is_number num_of orb andb].
  apply andb_true_intro; split; [|done].
  apply forallb_forall. intros c (ch & <- & _)%in_map_iff. done.
Qed.

Lemma consolidate_typed r c v :
  has_type (consolidate_metrics (retrieval_report_json <$> r) (consistency_results_json <$> c)
              (coverage_report_json <$> v)) metrics_t = true.
Proof.
  destruct r as [r|], c as [c|], v as [v|]; cbn [fmap option_fmap option_map];
    repeat match goal with
    | |- context [retrieval_report_json ?x] =>
        generalize (retrieval_report_typed x); generalize (retrieval_report_json x); intros ? ?
    | |- context [consistency_results_json ?x] =>
        generalize (consistency_results_typed x); generalize (consistency_results_json x); intros ? ?
    | |- context [coverage_report_json ?x] =>
        generalize (coverage_report_typed x); generalize (coverage_report_json x); intros ? ?
    end;
    unfold consolidate_metrics, metrics_t; simpl in *;
    repeat match goal with H : _ = true |- _ => rewrite H; clear H end; done.
Qed.



(** ** Type safety *)

(** C21. Type safety of the quality gates (scoring.py, apply_gates): the
    consolidated metrics built from any subset of the three reports the
    evaluations write have the type [metrics_t]; on metrics of that type
    and a configuration of type [config_t] (every gate a dict with a
    numeric ["min"], or ["max"] for a consistency gate) [apply_gates]
    never raises and returns a report; and the configuration
    [create_default_scoring_config] writes is not of type [config_t], its
    consistency gates being bare integers. *)
Theorem apply_gates_type_safety :
  (forall r c v,
     has_type (consolidate_metrics (retrieval_report_json <$> r) (consistency_results_json <$> c)
                 (coverage_report_json <$> v)) metrics_t = true) /\
  (forall ts metrics config,
     has_type metrics metrics_t = true -> has_type config config_t = true ->
     exists rep, apply_gates ts metrics config = Ok rep) /\
  has_type default_scoring_config config_t = false.
Proof.
  split_and!; [exact consolidate_typed|exact apply_gates_total|vm_compute; reflexivity].
Qed.

Lemma apply_gates_type_safety_witness :
  let m := JObject [("retrieval", JObject [("overall_metrics", JObject [
                        ("precision", JFloat 0.7); ("recall", JFloat 0.8); ("mrr", JFloat 0.75)])]);
                    ("coverage", JObject [("overall_coverage", JFloat 0.8);
                        ("chapter_coverage", JArray [JObject [("coverage_rate", JFloat 0.5)]])])] in
  has_type m metrics_t = true /\ has_type typed_scoring_config config_t = true /\
  exists rep, apply_gates "20250101_000000" m typed_scoring_config = Ok rep.
Proof.
  split; [vm_compute; reflexivity|]. split; [vm_compute; reflexivity|].
  apply (proj1 (proj2 apply_gates_type_safety)); vm_compute; reflexivity.
Defined.

End ReportTypes.
