(* ===== verification/EvalSuite.v ===== *)
(** * EvalSuite: the evaluation commands over a file system
    (src/eval/sekai_eval.py, the loading and saving of the run_* functions
    of src/eval/*_eval.py, src/eval/scoring.py run_scoring)

    The evaluations communicate through files: each [run_*_eval] loads its
    inputs, writes its results file into the output directory, and
    [run_scoring] reads the three results files back (those that exist),
    loads the configuration, and writes the final results.  The file
    system is a finite map from paths to file contents, [fsys]; a command
    is a computation [io A] that threads it and may raise, a small state
    and error monad with stdpp's [mret] and [x ← m; k].

    A file holds its parsed content ([json.loads] and pydantic are not
    modelled): a memory store, a gold, query or key-fact JSONL file, or a
    JSON/YAML document.  Reading a file of another kind is a decoding
    error, reported as [ValueError].  Paths are strings: [Path(d) / n] and
    [f"{d}/{n}"] are both [path_join d n], which is exact for a directory
    written without a trailing slash.  Directories are not modelled
    ([mkdir] always succeeds), and neither is the text printed. *)

From stdpp Require Import gmap.
From S2P Require Import Prelude Json MemoryUnit MemoryStore Consistency Retriever EvalUtils Scoring Evaluations.

Module EvalSuite.
Import Coverage Retrieval Scoring SekaiEval.

(** ** Files and the monad *)

Inductive file :=
| FMemories (ms : list MemoryUnit)
| FGold (gs : list GoldMemory)
| FQueries (qs : list EvalQuery)
| FKeyfacts (ks : list FactEntry)
| FJson (j : json).

Abbreviation fsys := (gmap string file).

Definition io (A : Type) : Type := fsys -> fsys * res A.

#[export] Instance io_ret : MRet io := fun A a fs => (fs, Ok a).
#[export] Instance io_bind : MBind io := fun A B k m fs =>
  match m fs with
  | (fs', Ok a) => k a fs'
  | (fs', Err e) => (fs', Err e)
  end.

Definition io_lift {A} (r : res A) : io A := fun fs => (fs, r).

(** [open(path, 'w')] and a dump: the file is replaced. *)
Definition write_file (path : string) (f : file) : io unit := fun fs => (<[path := f]> fs, Ok tt).

(** [Path(d) / n] and [f"{d}/{n}"]. *)
Definition path_join (d n : string) : string := (d ++ "/" ++ n)%string.

(** ** Loading *)

Definition as_memories (f : file) : option (list MemoryUnit) :=
  match f with FMemories ms => Some ms | _ => None end.
Definition as_gold (f : file) : option (list GoldMemory) :=
  match f with FGold gs => Some gs | _ => None end.
Definition as_queries (f : file) : option (list EvalQuery) :=
  match f with FQueries qs => Some qs | _ => None end.
Definition as_keyfacts (f : file) : option (list FactEntry) :=
  match f with FKeyfacts ks => Some ks | _ => None end.
Definition as_json (f : file) : option json := match f with FJson j => Some j | _ => None end.

(** Decode an existing file. *)
Definition decode {A} (sel : file -> option A) (f : file) : res A :=
  match sel f with Some a => Ok a | None => Err ValueError end.

(** [load_jsonl(path)]: [open] raises [FileNotFoundError] on a missing file. *)
Definition load_jsonl {A} (sel : file -> option A) (path : string) : io A := fun fs =>
  (fs, match fs !! path with Some f => decode sel f | None => Err FileNotFoundError end).

(** [SimpleMemoryStore(path)]: a missing file is an empty store. *)
Definition read_store (path : string) : io SimpleMemoryStore := fun fs =>
  (fs, match fs !! path with
       | Some f => ms ← decode as_memories f; Ok (load_memories ms)
       | None => Ok (load_memories [])
       end).

(** [load_scoring_config]: [yaml.safe_load] of the file. *)
Definition load_scoring_config (path : string) : io json := load_jsonl as_json path.

(** [if Path(file).exists(): ... json.load(f)] in [consolidate_metrics]. *)
Definition load_result (path : string) : io (option json) := fun fs =>
  (fs, match fs !! path with
       | Some f => j ← decode as_json f; Ok (Some j)
       | None => Ok None
       end).

(** ** The evaluation functions with their files *)

Section Commands.
(** Whether [ollama.Client()] succeeds when the retriever is built. *)
Variable client_ok : bool.
(** [timestamp_dir()]. *)
Variable timestamp : string.
(** [str] of a gate's bound in [f">= {min_value}"] (Python's float repr is
    not modelled). *)
Variable py_str_num : json -> string.

Definition run_retrieval_eval_io (memory_store_path gold_memories_path queries_path output_dir : string)
    : io RetrievalReport :=
  st ← read_store memory_store_path;
  gold_memories ← load_jsonl as_gold gold_memories_path;
  queries ← load_jsonl as_queries queries_path;
  report ← io_lift (run_retrieval_eval client_ok st gold_memories queries);
  _ ← write_file (path_join output_dir "retrieval_eval_results.json") (FJson (retrieval_report_json report));
  mret report.

Definition run_consistency_eval_io (memory_store_path output_dir : string) : io ConsistencyResults :=
  st ← read_store memory_store_path;
  results ← io_lift (match run_consistency_eval st with Some r => Ok r | None => Err ValueError end);
  _ ← write_file (path_join output_dir "consistency_eval_results.json")
        (FJson (consistency_results_json results));
  mret results.

Definition run_coverage_eval_io (memory_store_path keyfacts_path output_dir : string) : io CoverageReport :=
  st ← read_store memory_store_path;
  keyfacts ← load_jsonl as_keyfacts keyfacts_path;
  let report := run_coverage_eval st keyfacts in
  _ ← write_file (path_join output_dir "coverage_eval_results.json") (FJson (coverage_report_json report));
  mret report.

(** ** Scoring with its files *)

Definition gate_result_json (gr : GateResult) : json :=
  JObject [("status", JStr gr.(gr_status));
           ("expected", JStr (gr.(gr_expected_op) ++ " " ++ py_str_num gr.(gr_expected)));
           ("actual", gr.(gr_actual))].

Definition gate_report_json (rep : GateReport) : list (string * json) :=
  [("status", JStr rep.(report_status));
   ("gate_results", JObject (map (fun '(n, gr) => (n, gate_result_json gr)) rep.(report_gate_results)));
   ("timestamp", JStr rep.(report_timestamp))].

(** [{**a, **b}]. *)
Definition py_dict_merge (a b : list (string * json)) : list (string * json) :=
  foldl (fun d '(k, v) => dict_set k v d) a b.

(** [final_results = {**metrics, **gate_results}]; [metrics] is the dict
    [consolidate_metrics] builds. *)
Definition final_results_json (metrics : json) (rep : GateReport) : json :=
  match metrics with
  | JObject d => JObject (py_dict_merge d (gate_report_json rep))
  | _ => JObject (gate_report_json rep)
  end.

(** [create_default_scoring_config]: the [yaml.dump] of the default
    dict to the file. *)
Definition create_default_scoring_config_io (output_file : string) : io unit :=
  write_file output_file (FJson default_scoring_config).

(** [run_scoring]: the results file is written before the loop that
    prints every gate result, whose [:.3f] may raise. *)
Definition run_scoring_io (retrieval_file consistency_file coverage_file config_file output_file : string)
    : io GateReport :=
  r ← load_result retrieval_file;
  c ← load_result consistency_file;
  v ← load_result coverage_file;
  let metrics := consolidate_metrics r c v in
  config ← load_scoring_config config_file;
  gate_results ← io_lift (apply_gates timestamp metrics config);
  _ ← write_file output_file (FJson (final_results_json metrics gate_results));
  _ ← io_lift (res_foldl (fun _ '(_, gr) => format_3f gr.(gr_actual)) tt gate_results.(report_gate_results));
  mret gate_results.

(** ** The command line *)

(** The sub-commands with their arguments after [parse_args()]. *)
Inductive command :=
| CmdRetrieval (memory_store gold_memories queries output_dir : string)
| CmdConsistency (memory_store output_dir : string)
| CmdCoverage (memory_store keyfacts output_dir : string)
| CmdScore (results_dir config : string)
| CmdAll (memory_store gold_dir output_dir : string) (use_updated_gold : bool).

(** The gold files of the [all] command. *)
Definition gold_files (gold_dir : string) (use_updated_gold : bool) : string * string * string :=
  if use_updated_gold
  then (path_join gold_dir "memories_gold_updated.jsonl", path_join gold_dir "queries_updated.jsonl",
        path_join gold_dir "keyfacts_updated.jsonl")
  else (path_join gold_dir "memories_gold.jsonl", path_join gold_dir "queries.jsonl",
        path_join gold_dir "keyfacts.jsonl").

Definition results_files (d : string) : string * string * string :=
  (path_join d "retrieval_eval_results.json", path_join d "consistency_eval_results.json",
   path_join d "coverage_eval_results.json").

(** [main()]; [None] is a command line without a sub-command
    ([print_help]). *)
Definition sekai_main (cmd : option command) : io unit :=
  match cmd with
  | None => mret tt
  | Some (CmdRetrieval store gold queries out) =>
      _ ← run_retrieval_eval_io store gold queries out; mret tt
  | Some (CmdConsistency store out) => _ ← run_consistency_eval_io store out; mret tt
  | Some (CmdCoverage store keyfacts out) => _ ← run_coverage_eval_io store keyfacts out; mret tt
  | Some (CmdScore results_dir config) =>
      let '(rf, cf, vf) := results_files results_dir in
      _ ← run_scoring_io rf cf vf config (path_join results_dir "final_scoring_results.json"); mret tt
  | Some (CmdAll store gold_dir out use_updated_gold) =>
      let '(gold, queries, keyfacts) := gold_files gold_dir use_updated_gold in
      _ ← run_retrieval_eval_io store gold queries out;
      _ ← run_consistency_eval_io store out;
      _ ← run_coverage_eval_io store keyfacts out;
      let '(rf, cf, vf) := results_files out in
      _ ← run_scoring_io rf cf vf "eval/scoring.yaml" (path_join out "final_scoring_results.json");
      mret tt
  end.
End Commands.

(** ** Lemmas *)

Lemma io_bind_ok {A B} (m : io A) (k : A -> io B) fs fs' a :
  m fs = (fs', Ok a) -> (x ← m; k x) fs = k a fs'.
Proof. intros H. cbv [mbind io_bind]. by rewrite H. Qed.

Lemma io_bind_err {A B} (m : io A) (k : A -> io B) fs fs' e :
  m fs = (fs', Err e) -> (x ← m; k x) fs = (fs', Err e).
Proof. intros H. cbv [mbind io_bind]. by rewrite H. Qed.

Lemma path_join_inj d n1 n2 : n1 <> n2 -> path_join d n1 <> path_join d n2.
Proof.
  unfold path_join. intros Hn Heq. rewrite <- !str_app_assoc in Heq.
  by apply Hn, (str_app_cancel_l (d ++ "/")), Heq.
Qed.

(** A path whose name is longer than [p] is not [p]. *)
Lemma path_join_long d n p : String.length p < String.length n -> path_join d n <> p.
Proof.
  intros Hl <-. unfold path_join in Hl. rewrite !str_length_app in Hl. simpl in Hl. lia.
Qed.

Lemma read_store_spec fs path ms :
  fs !! path = Some (FMemories ms) -> read_store path fs = (fs, Ok (load_memories ms)).
Proof. unfold read_store. by intros ->. Qed.

Lemma load_jsonl_spec {A} (sel : file -> option A) fs path f a :
  fs !! path = Some f -> sel f = Some a -> load_jsonl sel path fs = (fs, Ok a).
Proof. unfold load_jsonl, decode. by intros -> ->. Qed.

(** A results file holds the JSON [o] or is missing ([o = None]). *)
Lemma load_result_spec fs path o :
  fs !! path = FJson <$> o -> load_result path fs = (fs, Ok o).
Proof. unfold load_result. intros ->. by destruct o. Qed.

Section Specs.
Variables (client_ok : bool) (timestamp : string) (py_str_num : json -> string).

Lemma run_retrieval_eval_io_spec fs store gold queries out ms gs qs :
  fs !! store = Some (FMemories ms) -> fs !! gold = Some (FGold gs) -> fs !! queries = Some (FQueries qs) ->
  run_retrieval_eval_io client_ok store gold queries out fs =
  match run_retrieval_eval client_ok (load_memories ms) gs qs with
  | Ok r => (<[path_join out "retrieval_eval_results.json" := FJson (retrieval_report_json r)]> fs, Ok r)
  | Err e => (fs, Err e)
  end.
Proof.
  intros Hs Hg Hq. unfold run_retrieval_eval_io.
  rewrite (io_bind_ok _ _ _ _ _ (read_store_spec _ _ _ Hs)).
  rewrite (io_bind_ok _ _ _ _ _ (load_jsonl_spec as_gold _ _ _ _ Hg eq_refl)).
  rewrite (io_bind_ok _ _ _ _ _ (load_jsonl_spec as_queries _ _ _ _ Hq eq_refl)).
  by destruct (run_retrieval_eval _ _ _ _).
Qed.

Lemma run_consistency_eval_io_spec fs store out ms :
  fs !! store = Some (FMemories ms) ->
  run_consistency_eval_io store out fs =
  match run_consistency_eval (load_memories ms) with
  | Some r => (<[path_join out "consistency_eval_results.json" := FJson (consistency_results_json r)]> fs, Ok r)
  | None => (fs, Err ValueError)
  end.
Proof.
  intros Hs. unfold run_consistency_eval_io.
  rewrite (io_bind_ok _ _ _ _ _ (read_store_spec _ _ _ Hs)).
  by destruct (run_consistency_eval _).
Qed.

Lemma run_coverage_eval_io_spec fs store keyfacts out ms ks :
  fs !! store = Some (FMemories ms) -> fs !! keyfacts = Some (FKeyfacts ks) ->
  run_coverage_eval_io store keyfacts out fs =
  (<[path_join out "coverage_eval_results.json" :=
       FJson (coverage_report_json (run_coverage_eval (load_memories ms) ks))]> fs,
   Ok (run_coverage_eval (load_memories ms) ks)).
Proof.
  intros Hs Hk. unfold run_coverage_eval_io.
  rewrite (io_bind_ok _ _ _ _ _ (read_store_spec _ _ _ Hs)).
  by rewrite (io_bind_ok _ _ _ _ _ (load_jsonl_spec as_keyfacts _ _ _ _ Hk eq_refl)).
Qed.

Lemma run_scoring_io_spec fs rf cf vf cfg_file out r c v config :
  fs !! rf = FJson <$> r -> fs !! cf = FJson <$> c -> fs !! vf = FJson <$> v ->
  fs !! cfg_file = Some (FJson config) ->
  run_scoring_io timestamp py_str_num rf cf vf cfg_file out fs =
  match apply_gates timestamp (consolidate_metrics r c v) config with
  | Ok rep => (<[out := FJson (final_results_json py_str_num (consolidate_metrics r c v) rep)]> fs,
               run_scoring timestamp (consolidate_metrics r c v) config)
  | Err e => (fs, Err e)
  end.
Proof.
  intros Hr Hc Hv Hcfg. unfold run_scoring_io, run_scoring.
  rewrite (io_bind_ok _ _ _ _ _ (load_result_spec _ _ _ Hr)).
  rewrite (io_bind_ok _ _ _ _ _ (load_result_spec _ _ _ Hc)).
  rewrite (io_bind_ok _ _ _ _ _ (load_result_spec _ _ _ Hv)).
  rewrite (io_bind_ok _ _ _ _ _ (load_jsonl_spec as_json _ _ _ _ Hcfg eq_refl)).
  destruct (apply_gates _ _ _) as [rep|e]; [|done].
  cbv [mbind io_bind res_bind io_lift write_file mret io_ret].
  by destruct (res_foldl _ _ _).
Qed.
End Specs.

(** Distinct paths of the files the [all] command writes and reads. *)
Ltac path_neq :=
  solve [ apply path_join_inj; discriminate
        | apply path_join_long; simpl; lia
        | apply not_eq_sym; apply path_join_long; simpl; lia
        | assumption | apply not_eq_sym; assumption ].

Lemma sekai_main_score client_ok ts py_str_num fs results_dir config_file r c v config :
  fs !! path_join results_dir "retrieval_eval_results.json" = FJson <$> r ->
  fs !! path_join results_dir "consistency_eval_results.json" = FJson <$> c ->
  fs !! path_join results_dir "coverage_eval_results.json" = FJson <$> v ->
  fs !! config_file = Some (FJson config) ->
  sekai_main client_ok ts py_str_num (Some (CmdScore results_dir config_file)) fs =
  match apply_gates ts (consolidate_metrics r c v) config with
  | Ok rep => (<[path_join results_dir "final_scoring_results.json" :=
                   FJson (final_results_json py_str_num (consolidate_metrics r c v) rep)]> fs,
               _ ← run_scoring ts (consolidate_metrics r c v) config; Ok tt)
  | Err e => (fs, Err e)
  end.
Proof.
  intros Hr Hc Hv Hcfg. unfold sekai_main, results_files.
  cbv [mbind io_bind]. rewrite (run_scoring_io_spec ts py_str_num _ _ _ _ _ _ _ _ _ config Hr Hc Hv Hcfg).
  destruct (apply_gates _ _ _); [|done]. by destruct (run_scoring _ _ _).
Qed.

(** The score command run on the configuration the code writes itself
    raises, and writes nothing. *)
Lemma sekai_main_default_config client_ok ts py_str_num fs results_dir config_file r c v :
  config_file <> path_join results_dir "retrieval_eval_results.json" ->
  config_file <> path_join results_dir "consistency_eval_results.json" ->
  config_file <> path_join results_dir "coverage_eval_results.json" ->
  fs !! path_join results_dir "retrieval_eval_results.json" = FJson <$> r ->
  fs !! path_join results_dir "consistency_eval_results.json" = FJson <$> c ->
  fs !! path_join results_dir "coverage_eval_results.json" = FJson <$> v ->
  exists e,
    sekai_main client_ok ts py_str_num (Some (CmdScore results_dir config_file))
      (create_default_scoring_config_io config_file fs).1 =
    ((create_default_scoring_config_io config_file fs).1, Err e).
Proof.
  intros N1 N2 N3 Hr Hc Hv. cbn [create_default_scoring_config_io write_file fst].
  rewrite (sekai_main_score _ _ _ _ _ _ r c v default_scoring_config);
    [|by rewrite lookup_insert_ne..|apply lookup_insert_eq].
  pose proof (proj1 (default_config_always_raises ts (consolidate_metrics r c v))) as He.
  destruct (apply_gates _ _ _) as [rep|e]; [discriminate|by exists e].
Qed.

Lemma sekai_main_all client_ok ts py_str_num fs store gold_dir out upd gold queries keyfacts
    ms gs qs ks config :
  gold_files gold_dir upd = (gold, queries, keyfacts) ->
  fs !! store = Some (FMemories ms) -> fs !! gold = Some (FGold gs) ->
  fs !! queries = Some (FQueries qs) -> fs !! keyfacts = Some (FKeyfacts ks) ->
  fs !! "eval/scoring.yaml" = Some (FJson config) ->
  store <> path_join out "retrieval_eval_results.json" ->
  store <> path_join out "consistency_eval_results.json" ->
  keyfacts <> path_join out "retrieval_eval_results.json" ->
  keyfacts <> path_join out "consistency_eval_results.json" ->
  snd (sekai_main client_ok ts py_str_num (Some (CmdAll store gold_dir out upd)) fs) =
  (_ ← sekai_eval_all client_ok ts (load_memories ms) gs qs ks config; Ok tt).
Proof.
  intros Hgf Hs Hg Hq Hk Hcfg Hs1 Hs2 Hk1 Hk2.
  unfold sekai_main, sekai_eval_all. rewrite Hgf. cbv [mbind io_bind res_bind].
  rewrite (run_retrieval_eval_io_spec client_ok fs store gold queries out ms gs qs Hs Hg Hq).
  destruct (run_retrieval_eval _ _ _ _) as [rr|e]; [cbn beta iota|done].
  rewrite run_consistency_eval_io_spec with (ms := ms) by (rewrite lookup_insert_ne; [done|path_neq]).
  destruct (run_consistency_eval _) as [cr|]; [cbn beta iota|done].
  rewrite run_coverage_eval_io_spec with (ms := ms) (ks := ks)
    by (rewrite !lookup_insert_ne; [done|path_neq..]).
  unfold results_files. cbn beta iota zeta.
  rewrite (run_scoring_io_spec ts py_str_num _ _ _ _ _ _
             (Some (retrieval_report_json rr)) (Some (consistency_results_json cr))
             (Some (coverage_report_json (run_coverage_eval (load_memories ms) ks))) config).
  2-5: repeat (rewrite lookup_insert_ne by path_neq); rewrite ?lookup_insert_eq; done.
  unfold run_scoring. cbv [mbind res_bind].
  destruct (apply_gates _ _ _) as [rep|e]; [|done]. by destruct (res_foldl _ _ _).
Qed.

(** C16. The evaluation commands over their files (sekai_eval.py main,
    scoring.py run_scoring, the run_* functions).  The [score] command
    reads the results files that exist and the configuration; whenever
    [apply_gates] returns a report it writes final_scoring_results.json,
    before the report loop whose [:.3f] may still raise, and its outcome
    is that of [run_scoring] on the consolidated files.  The [all] command
    refines the pure composition [sekai_eval_all]: with the store, the
    gold files and eval/scoring.yaml present, and the store and key-fact
    paths distinct from the results files written before they are read,
    its outcome, errors included, is that of [sekai_eval_all] on the
    contents of the files (each results file is read back as written).
    And the configuration file [create_default_scoring_config] writes
    makes the [score] command raise before it writes anything. *)
Theorem sekai_main_refines :
  (forall client_ok ts py_str_num fs results_dir config_file r c v config,
     fs !! path_join results_dir "retrieval_eval_results.json" = FJson <$> r ->
     fs !! path_join results_dir "consistency_eval_results.json" = FJson <$> c ->
     fs !! path_join results_dir "coverage_eval_results.json" = FJson <$> v ->
     fs !! config_file = Some (FJson config) ->
     sekai_main client_ok ts py_str_num (Some (CmdScore results_dir config_file)) fs =
     match apply_gates ts (consolidate_metrics r c v) config with
     | Ok rep => (<[path_join results_dir "final_scoring_results.json" :=
                      FJson (final_results_json py_str_num (consolidate_metrics r c v) rep)]> fs,
                  _ ← run_scoring ts (consolidate_metrics r c v) config; Ok tt)
     | Err e => (fs, Err e)
     end) /\
  (forall client_ok ts py_str_num fs store gold_dir out upd gold queries keyfacts ms gs qs ks config,
     gold_files gold_dir upd = (gold, queries, keyfacts) ->
     fs !! store = Some (FMemories ms) -> fs !! gold = Some (FGold gs) ->
     fs !! queries = Some (FQueries qs) -> fs !! keyfacts = Some (FKeyfacts ks) ->
     fs !! "eval/scoring.yaml" = Some (FJson config) ->
     store <> path_join out "retrieval_eval_results.json" ->
     store <> path_join out "consistency_eval_results.json" ->
     keyfacts <> path_join out "retrieval_eval_results.json" ->
     keyfacts <> path_join out "consistency_eval_results.json" ->
     snd (sekai_main client_ok ts py_str_num (Some (CmdAll store gold_dir out upd)) fs) =
     (_ ← sekai_eval_all client_ok ts (load_memories ms) gs qs ks config; Ok tt)) /\
  (forall client_ok ts py_str_num fs results_dir config_file r c v,
     config_file <> path_join results_dir "retrieval_eval_results.json" ->
     config_file <> path_join results_dir "consistency_eval_results.json" ->
     config_file <> path_join results_dir "coverage_eval_results.json" ->
     fs !! path_join results_dir "retrieval_eval_results.json" = FJson <$> r ->
     fs !! path_join results_dir "consistency_eval_results.json" = FJson <$> c ->
     fs !! path_join results_dir "coverage_eval_results.json" = FJson <$> v ->
     exists e,
       sekai_main client_ok ts py_str_num (Some (CmdScore results_dir config_file))
         (create_default_scoring_config_io config_file fs).1 =
       ((create_default_scoring_config_io config_file fs).1, Err e)).
Proof. split_and!; [exact sekai_main_score|exact sekai_main_all|exact sekai_main_default_config]. Qed.

(** A results directory holding a consistency report, scored with a gate
    named after one of its lists. *)
Definition runs_fs : fsys :=
  <["runs/consistency_eval_results.json" := FJson (consistency_results_json one_conflict)]>
    (<["scoring.yaml" := FJson list_gate_config]> ∅).

Lemma sekai_main_refines_witness :
  snd (sekai_main true "20250101_000000" (fun _ => "0") (Some (CmdScore "runs" "scoring.yaml")) runs_fs)
    = Err TypeError /\
  fst (sekai_main true "20250101_000000" (fun _ => "0") (Some (CmdScore "runs" "scoring.yaml")) runs_fs)
    !! "runs/final_scoring_results.json" <> None.
Proof.
  rewrite (proj1 sekai_main_refines true "20250101_000000" (fun _ => "0") runs_fs "runs" "scoring.yaml"
             None (Some (consistency_results_json one_conflict)) None list_gate_config);
    [|vm_compute; reflexivity..].
  vm_compute. split; [reflexivity|discriminate].
Defined.

End EvalSuite.
