(* ===== verification/Summaries.v ===== *)
(** * Summaries: the summary printers of the evaluations
    (src/eval/consistency_eval.py print_consistency_summary,
    src/eval/coverage_eval.py print_coverage_summary,
    src/eval/retrieval_eval.py print_summary_report)

    A printer reads the results dict an evaluation returned and prints
    lines; reading a missing key raises [KeyError] after the lines printed
    so far.  Its effect is a small writer and error monad [pr]: the lines
    printed, and the outcome.  The consistency and coverage printers read
    the dicts as [Scoring.consistency_results_json] and
    [Coverage.coverage_report_json] build them (the in-memory dicts have
    the same keys); the retrieval printer reads the in-memory report,
    whose [chapter_performance] keys are ints, sorted numerically.

    [str()] and the [:.3f] and [:.1%] formats of a float are parameters
    (Python's float repr and rounding are not modelled); [str()] of an int
    is its decimal numeral.  Slicing [s[:60]] counts the characters of the
    string, which is exact for ASCII text.

    The modules' [__main__] blocks run the evaluation with fixed paths on
    the file system of [EvalSuite] (writing its results file) and then the
    printer on its results. *)

From stdpp Require Import gmap.
From S2P Require Import Prelude Json Regex MemoryUnit MemoryStore Consistency Retriever EvalUtils Scoring Evaluations EvalSuite.

Module Summaries.
Import Regex Coverage Retrieval Scoring EvalSuite.

(** ** Printing with exceptions *)

Definition pr (A : Type) : Type := list string * res A.

#[export] Instance pr_ret : MRet pr := fun A a => ([], Ok a).
#[export] Instance pr_bind : MBind pr := fun A B k m =>
  match m with
  | (o, Ok a) => let '(o', r) := k a in ((o ++ o')%list, r)
  | (o, Err e) => (o, Err e)
  end.

Definition print_line (s : string) : pr unit := ([s], Ok tt).
Definition raise_res {A} (r : res A) : pr A := ([], r).

(** [for i, x in enumerate(l, start): body] *)
Fixpoint pr_iter_from {A} (i : nat) (body : nat -> A -> pr unit) (l : list A) : pr unit :=
  match l with
  | [] => mret tt
  | x :: rest => _ ← body i x; pr_iter_from (S i) body rest
  end.

Definition pr_iter {A} (body : A -> pr unit) (l : list A) : pr unit :=
  pr_iter_from 1 (fun _ => body) l.

(** ** Python helpers *)

Definition ascii_upper (c : ascii) : ascii :=
  let n := nat_of_ascii c in
  if (97 <=? n)%nat && (n <=? 122)%nat then ascii_of_nat (n - 32) else c.

(** [s.title()] on ASCII: a letter is upper-cased after a non-letter and
    lower-cased after a letter. *)
Fixpoint py_title_go (prev_cased : bool) (s : string) : string :=
  match s with
  | EmptyString => EmptyString
  | String c rest =>
      let cased := is_alpha c in
      String (if cased then (if prev_cased then ascii_lower c else ascii_upper c) else c)
        (py_title_go cased rest)
  end.

Definition py_title (s : string) : string := py_title_go false s.

(** [isinstance(v, list)]: the value iterated by a [for] loop or sliced. *)
Definition py_list (v : json) : res (list json) :=
  match v with JArray l => Ok l | _ => Err TypeError end.

(** [v == 0] *)
Definition py_eq_zero (v : json) : bool :=
  match num_of v with Some q => Qeq_bool q 0 | None => false end.

Definition rule60 : string := str_repeat 60 "=".

Section Printing.
(** [str()] of a float, a list or a dict. *)
Variable py_str_other : json -> string.
(** [format(x, '.3f')] and [format(x, '.1%')] of a number. *)
Variables (fmt_3f fmt_pct : Q -> string).

Definition py_str (v : json) : string :=
  match v with
  | JInt z => py_str_Z z
  | JStr s => s
  | JBool b => if b then "True" else "False"
  | JNull => "None"
  | _ => py_str_other v
  end.

(** [f"{v:.3f}"]: a string raises [ValueError], any other non-number
    [TypeError]. *)
Definition py_format (f : Q -> string) (v : json) : res string :=
  match v with
  | JStr _ => Err ValueError
  | _ => match num_of v with Some q => Ok (f q) | None => Err TypeError end
  end.

(** [v[:60]] inside an f-string. *)
Definition py_slice60 (v : json) : res string :=
  match v with
  | JStr s => Ok (String.substring 0 60 s)
  | JArray l => Ok (py_str_other (JArray (firstn 60 l)))
  | _ => Err TypeError
  end.

(** ** [print_consistency_summary] *)

Definition conflict_types : list string :=
  ["time_overlap_conflicts"; "world_future_leaks"; "crosstalk_violations"; "symmetry_violations"].

(** The two lines printed for one of the first two conflicts of a type. *)
Definition conflict_example (i : nat) (conflict : json) : pr unit :=
  description ← raise_res (py_index conflict "description");
  _ ← print_line ("  " ++ py_str_Z (Z.of_nat i) ++ ". " ++ py_str description);
  fact_text ← raise_res (py_index conflict "fact_text" ≫= py_slice60);
  print_line ("     Memory: " ++ fact_text ++ "...").

Definition conflict_type_examples (results : json) (conflict_type : string) : pr unit :=
  conflicts ← raise_res (py_index results conflict_type);
  if py_truthy conflicts then
    (_ ← print_line (nl ++ py_title (py_replace "_" " " conflict_type) ++ ":");
     l ← raise_res (py_list conflicts);
     pr_iter_from 1 conflict_example (firstn 2 l))
  else mret tt.

(** One summary count line. *)
Definition count_line (summary : json) (label key : string) : pr unit :=
  v ← raise_res (py_index summary key);
  print_line (label ++ ": " ++ py_str v).

Definition print_consistency_summary (results : json) : pr unit :=
  _ ← print_line (nl ++ rule60);
  _ ← print_line "CONSISTENCY EVALUATION SUMMARY";
  _ ← print_line rule60;
  summary ← raise_res (py_index results "summary");
  _ ← count_line summary "Total Conflicts Found" "total_conflicts";
  _ ← count_line summary "Time Overlap Conflicts" "time_overlap_conflicts";
  _ ← count_line summary "World Future Leaks" "world_future_leaks";
  _ ← count_line summary "Crosstalk Violations" "crosstalk_violations";
  _ ← count_line summary "Symmetry Violations" "symmetry_violations";
  total ← raise_res (py_index summary "total_conflicts");
  if py_eq_zero total then print_line (nl ++ "✅ No consistency issues found!")
  else
    (_ ← print_line (nl ++ "⚠️  " ++ py_str total ++ " consistency issues detected");
     pr_iter (conflict_type_examples results) conflict_types).
End Printing.

(** ** [print_coverage_summary] *)

Section CoveragePrinting.
Variable py_str_other : json -> string.
Variables (fmt_3f fmt_pct : Q -> string).

Definition chapter_line (chapter_result : json) : pr unit :=
  chapter ← raise_res (py_index chapter_result "chapter");
  coverage_rate ← raise_res (py_index chapter_result "coverage_rate");
  covered ← raise_res (py_index chapter_result "covered_facts");
  total ← raise_res (py_index chapter_result "total_facts");
  rate ← raise_res (py_format fmt_pct coverage_rate);
  print_line ("  Chapter " ++ py_str py_str_other chapter ++ ": " ++ rate ++ " ("
              ++ py_str py_str_other covered ++ "/" ++ py_str py_str_other total ++ ")").

(** The example loops: at most three covered and three uncovered facts,
    in report order. *)
Definition collect_examples (chapters : list json) : res (list json * list json) :=
  res_foldl (fun acc chapter_result =>
    facts ← py_index chapter_result "facts" ≫= py_list;
    res_foldl (fun '(covered, uncovered) fact_result =>
      is_covered ← py_index fact_result "is_covered";
      if py_truthy is_covered && (length covered <? 3)%nat then Ok ((covered ++ [fact_result])%list, uncovered)
      else if negb (py_truthy is_covered) && (length uncovered <? 3)%nat
      then Ok (covered, (uncovered ++ [fact_result])%list)
      else Ok (covered, uncovered)) acc facts) ([], []) chapters.

Definition covered_example (i : nat) (example : json) : pr unit :=
  fact_text ← raise_res (py_index example "fact_text" ≫= py_slice60 py_str_other);
  _ ← print_line ("  " ++ py_str_Z (Z.of_nat i) ++ ". " ++ fact_text ++ "...");
  matched ← raise_res (py_index example "matched_memory_text" ≫= py_slice60 py_str_other);
  _ ← print_line ("     Matched: " ++ matched ++ "...");
  sim ← raise_res (py_index example "similarity_score" ≫= py_format fmt_3f);
  print_line ("     Similarity: " ++ sim).

Definition uncovered_example (i : nat) (example : json) : pr unit :=
  fact_text ← raise_res (py_index example "fact_text" ≫= py_slice60 py_str_other);
  _ ← print_line ("  " ++ py_str_Z (Z.of_nat i) ++ ". " ++ fact_text ++ "...");
  matched ← raise_res (py_index example "matched_memory_text");
  if py_truthy matched then
    (m ← raise_res (py_slice60 py_str_other matched);
     _ ← print_line ("     Best Match: " ++ m ++ "...");
     sim ← raise_res (py_index example "similarity_score" ≫= py_format fmt_3f);
     print_line ("     Similarity: " ++ sim))
  else print_line "     No matches found".

Definition print_coverage_summary (results : json) : pr unit :=
  _ ← print_line (nl ++ rule60);
  _ ← print_line "COVERAGE EVALUATION SUMMARY";
  _ ← print_line rule60;
  overall ← raise_res (py_index results "overall_coverage" ≫= py_format fmt_pct);
  _ ← print_line ("Overall Coverage: " ++ overall);
  total_facts ← raise_res (py_index results "total_facts");
  _ ← print_line ("Total Facts: " ++ py_str py_str_other total_facts);
  covered_facts ← raise_res (py_index results "covered_facts");
  _ ← print_line ("Covered Facts: " ++ py_str py_str_other covered_facts);
  _ ← print_line (nl ++ "Chapter-wise Coverage:");
  chapters ← raise_res (py_index results "chapter_coverage" ≫= py_list);
  _ ← pr_iter chapter_line chapters;
  _ ← print_line (nl ++ "Example Covered Facts:");
  '(covered_examples, uncovered_examples) ← raise_res (collect_examples chapters);
  _ ← pr_iter_from 1 covered_example covered_examples;
  _ ← print_line (nl ++ "Example Uncovered Facts:");
  pr_iter_from 1 uncovered_example uncovered_examples.
End CoveragePrinting.

(** ** [print_summary_report] *)

Section RetrievalPrinting.
Variables (fmt_3f fmt_pct : Q -> string).

Definition query_line (i : nat) (q : QueryResult) : string :=
  "  " ++ py_str_Z (Z.of_nat i) ++ ". " ++ q.(qr_query_id) ++ ": P=" ++ fmt_3f q.(qr_precision)
  ++ ", R=" ++ fmt_3f q.(qr_recall) ++ ", MRR=" ++ fmt_3f q.(qr_mrr).

(** [sorted(results["chapter_performance"].keys())]: the int keys in
    ascending order. *)
Definition chapter_key_le (a b : Z * ChapterPerformance) : Prop := (a.1 <= b.1)%Z.
#[local] Instance chapter_key_le_dec : RelDecision chapter_key_le := fun a b => decide (a.1 <= b.1)%Z.

Definition sorted_chapters (cps : list (Z * ChapterPerformance)) : list (Z * ChapterPerformance) :=
  merge_sort chapter_key_le cps.

Definition chapter_perf_line (c : Z * ChapterPerformance) : string :=
  "  Chapter " ++ py_str_Z c.1 ++ ": P=" ++ fmt_3f c.2.(cp_precision) ++ ", R=" ++ fmt_3f c.2.(cp_recall)
  ++ ", MRR=" ++ fmt_3f c.2.(cp_mrr) ++ " (" ++ py_str_Z (Z.of_nat c.2.(cp_count)) ++ " queries)".

(** The printer reads only keys the report always has: it prints. *)
Definition print_summary_report (r : RetrievalReport) : list string :=
  let pa := r.(performance_analysis) in
  [nl ++ rule60; "RETRIEVAL EVALUATION SUMMARY"; rule60;
   "Overall Performance:";
   "  Precision: " ++ fmt_3f r.(overall_precision);
   "  Recall: " ++ fmt_3f r.(overall_recall);
   "  MRR: " ++ fmt_3f r.(overall_mrr);
   nl ++ "Query Performance:";
   "  Total Queries: " ++ py_str_Z (Z.of_nat pa.(pa_total_queries));
   "  Perfect Queries: " ++ py_str_Z (Z.of_nat pa.(pa_perfect_queries)) ++ " ("
     ++ fmt_pct pa.(pa_success_rate) ++ ")";
   "  Partial Queries: " ++ py_str_Z (Z.of_nat pa.(pa_partial_queries));
   "  Failed Queries: " ++ py_str_Z (Z.of_nat pa.(pa_failed_queries));
   nl ++ "Top Performing Queries:"] ++
  imap (fun i q => query_line (S i) q) (firstn 3 r.(top_performing)) ++
  [nl ++ "Bottom Performing Queries:"] ++
  imap (fun i q => query_line (S i) q) (firstn 3 r.(bottom_performing)) ++
  [nl ++ "Chapter-wise Performance:"] ++
  map chapter_perf_line (sorted_chapters r.(chapter_performance)).
End RetrievalPrinting.

(** ** The evaluation modules run as scripts

    The [__main__] block of each evaluation module runs the evaluation on
    fixed paths (which writes its results file) and prints its summary:
    the file system afterwards, and the printed lines with the outcome. *)

Definition default_store_path : string := "enhanced_chapter_memories.jsonl".
Definition default_runs_dir : string := "eval/runs".

Definition consistency_eval_script (py_str_other : json -> string) (fs : fsys) : fsys * pr unit :=
  match run_consistency_eval_io default_store_path default_runs_dir fs with
  | (fs', Ok results) => (fs', print_consistency_summary py_str_other (consistency_results_json results))
  | (fs', Err e) => (fs', ([], Err e))
  end.

Definition coverage_eval_script (py_str_other : json -> string) (fmt_3f fmt_pct : Q -> string)
    (fs : fsys) : fsys * pr unit :=
  match run_coverage_eval_io default_store_path "eval/gold/keyfacts.jsonl" default_runs_dir fs with
  | (fs', Ok results) =>
      (fs', print_coverage_summary py_str_other fmt_3f fmt_pct (coverage_report_json results))
  | (fs', Err e) => (fs', ([], Err e))
  end.

Definition retrieval_eval_script (client_ok : bool) (fmt_3f fmt_pct : Q -> string) (fs : fsys)
    : fsys * pr unit :=
  match run_retrieval_eval_io client_ok default_store_path "eval/gold/memories_gold.jsonl"
          "eval/gold/queries.jsonl" default_runs_dir fs with
  | (fs', Ok results) => (fs', (print_summary_report fmt_3f fmt_pct results, Ok tt))
  | (fs', Err e) => (fs', ([], Err e))
  end.

(** ** Lemmas *)

Lemma pr_bind_snd {A B} (m : pr A) (k : A -> pr B) :
  snd (m ≫= k) = (a ← snd m; snd (k a)).
Proof. destruct m as [o [a|e]]; [|done]. cbn. by destruct (k a). Qed.

Lemma pr_iter_from_ok {A} i (body : nat -> A -> pr unit) l :
  (forall j x, x ∈ l -> snd (body j x) = Ok tt) -> snd (pr_iter_from i body l) = Ok tt.
Proof.
  intros Hb. revert i. induction l as [|x l IH]; intros i; [done|].
  cbn [pr_iter_from]. rewrite pr_bind_snd, Hb by set_solver. apply IH. set_solver.
Qed.

Create Rewrite HintDb pr_rw.
#[local] Hint Rewrite @pr_bind_snd : pr_rw.

(** The conflicts of the three scans other than the overlap scan carry a
    [description] and a [fact_text]. *)
Lemma conflict_example_leak py_str_other i l :
  snd (conflict_example py_str_other i (leak_json l)) = Ok tt.
Proof. done. Qed.

Lemma conflict_example_crosstalk py_str_other i v :
  snd (conflict_example py_str_other i (crosstalk_json v)) = Ok tt.
Proof. done. Qed.

Lemma conflict_example_symmetry py_str_other i v :
  snd (conflict_example py_str_other i (symmetry_json v)) = Ok tt.
Proof. done. Qed.

(** An overlap conflict has no [fact_text]. *)
Lemma conflict_example_overlap py_str_other i c :
  snd (conflict_example py_str_other i (overlap_json c)) = Err KeyError.
Proof. done. Qed.

Lemma conflict_type_examples_ok {T} py_str_other results key (f : T -> json) l :
  py_index results key = Ok (JArray (map f l)) ->
  (forall i x, x ∈ l -> snd (conflict_example py_str_other i (f x)) = Ok tt) ->
  snd (conflict_type_examples py_str_other results key) = Ok tt.
Proof.
  intros Hk Hf. unfold conflict_type_examples. rewrite pr_bind_snd, Hk. cbn [mbind res_bind raise_res snd].
  destruct (py_truthy _); [|done]. rewrite !pr_bind_snd. cbn [mbind res_bind raise_res snd py_list print_line].
  apply pr_iter_from_ok. intros j x Hx.
  assert (Hin : x ∈ map f l) by (rewrite <- (firstn_skipn 2 (map f l)); set_solver).
  apply list_elem_of_fmap in Hin as (y & -> & Hy). by apply Hf.
Qed.

Lemma conflict_type_examples_overlap py_str_other results key c cs :
  py_index results key = Ok (JArray (map overlap_json (c :: cs))) ->
  snd (conflict_type_examples py_str_other results key) = Err KeyError.
Proof.
  intros Hk. unfold conflict_type_examples. rewrite pr_bind_snd, Hk. cbn [mbind res_bind raise_res snd].
  cbn [py_truthy map length Nat.eqb negb]. rewrite !pr_bind_snd. cbn [mbind res_bind raise_res snd py_list print_line].
  cbn [firstn map pr_iter_from]. rewrite pr_bind_snd, conflict_example_overlap. done.
Qed.


Lemma py_eq_zero_nat n : py_eq_zero (JInt (Z.of_nat n)) = (n =? 0)%nat.
Proof.
  unfold py_eq_zero. cbn [num_of]. destruct n as [|n]; [done|].
  destruct (Qeq_bool _ _) eqn:E; [|done]. apply Qeq_bool_iff in E. unfold Qeq in E. simpl in E. lia.
Qed.

Lemma print_consistency_summary_outcome py_str_other r :
  snd (print_consistency_summary py_str_other (consistency_results_json r)) =
  if (total_conflicts r =? 0)%nat then Ok tt
  else match time_overlap_conflicts r with [] => Ok tt | _ => Err KeyError end.
Proof.
  unfold print_consistency_summary, count_line. repeat setoid_rewrite pr_bind_snd.
  cbn [raise_res print_line snd consistency_results_json py_index]. simpl dict_get.
  cbn [mbind res_bind]. rewrite py_eq_zero_nat.
  destruct (total_conflicts r =? 0)%nat; [done|].
  rewrite pr_bind_snd. cbn [print_line snd mbind res_bind]. unfold pr_iter, conflict_types.
  cbn [pr_iter_from]. rewrite !pr_bind_snd.
  destruct (time_overlap_conflicts r) as [|c cs] eqn:E.
  - rewrite (conflict_type_examples_ok _ _ "time_overlap_conflicts" overlap_json [])
      by (set_solver || (simpl; by rewrite E)).
    rewrite (conflict_type_examples_ok _ _ "world_future_leaks" leak_json (world_future_leaks r)) by done.
    rewrite (conflict_type_examples_ok _ _ "crosstalk_violations" crosstalk_json (crosstalk_violations r))
      by done.
    by rewrite (conflict_type_examples_ok _ _ "symmetry_violations" symmetry_json (symmetry_violations r))
      by done.
  - by rewrite (conflict_type_examples_overlap _ _ "time_overlap_conflicts" c cs) by (simpl; by rewrite E).
Qed.

(** Two active records of one key starting in chapters 3 and 10. *)
Definition overlap_memories : list MemoryUnit :=
  [default_memory "e1" "IC" ["byleth"; "dimitri"] "relationship_status" "started_affair"
     "Byleth and Dimitri start an affair" 3 prov0;
   default_memory "e2" "IC" ["dimitri"; "byleth"] "relationship_status" "started_affair"
     "Byleth and Dimitri continue their affair" 10 prov0].

Definition overlap_fs : fsys := <[default_store_path := FMemories overlap_memories]> ∅.

Lemma consistency_eval_script_spec py_str_other fs ms r :
  fs !! default_store_path = Some (FMemories ms) -> run_consistency_eval (load_memories ms) = Some r ->
  consistency_eval_script py_str_other fs =
  (<[path_join default_runs_dir "consistency_eval_results.json" := FJson (consistency_results_json r)]> fs,
   print_consistency_summary py_str_other (consistency_results_json r)).
Proof.
  intros Hs Hr. unfold consistency_eval_script. by rewrite (run_consistency_eval_io_spec _ _ _ ms Hs), Hr.
Qed.

(** C19. The consistency summary (consistency_eval.py
    print_consistency_summary, which the module's [__main__] runs on the
    results of [run_consistency_eval]) prints, for the first two conflicts
    of each type, its ["description"] and its ["fact_text"]; but the dict
    of a time-overlap conflict has no ["fact_text"] key (its texts are
    ["memory1_fact"] and ["memory2_fact"]).  On the results of
    [run_consistency_eval] on any store, the printer raises [KeyError]
    exactly when the overlap scan found a conflict, after printing the
    header, the counts and the first conflict's description; otherwise it
    returns normally.  Run as a script on a store file, the module writes
    eval/runs/consistency_eval_results.json and then raises exactly
    then. *)
Theorem consistency_summary_raises :
  (forall py_str_other st r,
     run_consistency_eval st = Some r ->
     snd (print_consistency_summary py_str_other (consistency_results_json r)) =
     match check_time_overlap_conflicts st with [] => Ok tt | _ => Err KeyError end) /\
  (forall py_str_other fs ms r,
     fs !! default_store_path = Some (FMemories ms) -> run_consistency_eval (load_memories ms) = Some r ->
     fst (consistency_eval_script py_str_other fs) !! "eval/runs/consistency_eval_results.json" =
       Some (FJson (consistency_results_json r)) /\
     snd (snd (consistency_eval_script py_str_other fs)) =
       match check_time_overlap_conflicts (load_memories ms) with [] => Ok tt | _ => Err KeyError end).
Proof.
  assert (Hprint : forall py_str_other st r,
     run_consistency_eval st = Some r ->
     snd (print_consistency_summary py_str_other (consistency_results_json r)) =
     match check_time_overlap_conflicts st with [] => Ok tt | _ => Err KeyError end).
  { intros py_str_other st r Hr. rewrite print_consistency_summary_outcome.
    unfold run_consistency_eval in Hr.
    destruct (check_symmetry_violations st) as [s|]; [|done]. injection Hr as <-. cbn.
    destruct (check_time_overlap_conflicts st); [|done]. by destruct (_ =? 0)%nat. }
  split; [exact Hprint|]. intros py_str_other fs ms r Hs Hr.
  rewrite (consistency_eval_script_spec py_str_other fs ms r Hs Hr). split.
  - apply lookup_insert_eq.
  - exact (Hprint py_str_other _ r Hr).
Qed.

Lemma consistency_summary_raises_witness :
  match run_consistency_eval (load_memories overlap_memories) with
  | Some r =>
      fst (consistency_eval_script (fun _ => "") overlap_fs) !! "eval/runs/consistency_eval_results.json" =
        Some (FJson (consistency_results_json r)) /\
      snd (snd (consistency_eval_script (fun _ => "") overlap_fs)) = Err KeyError
  | None => False
  end.
Proof.
  destruct (run_consistency_eval (load_memories overlap_memories)) as [r|] eqn:E;
    [|vm_compute in E; discriminate].
  destruct (proj2 consistency_summary_raises (fun _ => "") overlap_fs overlap_memories r eq_refl E)
    as [Hf Hout].
  split; [exact Hf|]. rewrite Hout. vm_compute. reflexivity.
Defined.

End Summaries.
