(* ===== verification/Generator.v ===== *)
(** * Generator: the memory-set generator's command line
    (src/generate_memory_sets.py load_chapters and main)

    [main] loads the chapters from the input file, builds the extractor
    (the rule-based mock, or the language-model extractor of [Prompting]
    with the chosen model: prompts, chat call, parse and record), opens the memory store on the OUTPUT file (loading the records
    it already holds), runs [process_chapters_sequentially] and saves the
    store back to the output file.  The file system and the [io] monad are
    those of [EvalSuite]; printing is not modelled.

    The chapter list is decoded into [ChapterData] when it is loaded: a
    chapter that is not a dict raises [AttributeError] (as [.get] does when
    the loop reaches it; every error aborts [main] before the store is
    saved, so raising early changes no file).  A [chapter_number] that is
    not an int, or a [synopsis] that is not a string or [null], is
    rejected with [TypeError]; Python fails later on such a chapter or,
    when it yields no candidate, not at all. *)

From stdpp Require Import gmap.
From S2P Require Import Prelude Json MemoryUnit MemoryStore Consistency Pipeline Prompting EvalSuite.

Module Generator.
Import Prompting EvalSuite.

(** ** Loading the chapters *)

(** [load_chapters] after [json.load]: a list, or a dict with a
    ["chapters"] key. *)
Definition chapters_json (data : json) : res json :=
  match data with
  | JArray _ => Ok data
  | JObject d => match dict_get "chapters" d with Some c => Ok c | None => Err ValueError end
  | _ => Err ValueError
  end.

(** One element of the chapter list, read with [chapter_data.get]. *)
Definition chapter_of (v : json) : res ChapterData :=
  match v with
  | JObject d =>
      num ← match dict_get "chapter_number" d with
            | None => Ok None
            | Some (JInt z) => Ok (Some z)
            | Some _ => Err TypeError
            end;
      syn ← match dict_get "synopsis" d with
            | None | Some JNull => Ok None
            | Some (JStr s) => Ok (Some s)
            | Some _ => Err TypeError
            end;
      Ok (mkChapterData num syn)
  | _ => Err AttributeError
  end.

(** [for i, chapter_data in enumerate(chapters, 1)] over the loaded value:
    iterating an empty dict or string does nothing, a non-empty one gives
    strings (whose [.get] raises), and a number or [null] is not
    iterable. *)
Definition chapter_list (chapters : json) : res (list ChapterData) :=
  match chapters with
  | JArray l => mapM chapter_of l
  | JObject [] | JStr "" => Ok []
  | JObject _ | JStr _ => Err AttributeError
  | _ => Err TypeError
  end.

Definition load_chapters (input_file : string) : io (list ChapterData) := fun fs =>
  (fs, match fs !! input_file with
       | Some f => data ← decode as_json f; c ← chapters_json data; chapter_list c
       | None => Err FileNotFoundError
       end).

(** ** The command line *)

Record GenArgs := mkGenArgs {
  gen_input : string;
  gen_output : string;
  gen_mock : bool;
  gen_model : string;
  gen_stats : bool
}.

(** [model_name = "mistral:7b" if args.model == "mistral" else "qwen3:8b"]. *)
Definition llm_model_name (model : string) : string :=
  if String.eqb model "mistral" then "mistral:7b" else "qwen3:8b".

(** [MemoryExtractor(model_name=...)]: the configuration is loaded and the
    client is built ([client_ok] says whether [ollama.Client()]
    succeeded). *)
Definition new_memory_extractor (model_name : string) (client_ok : bool) : MemoryExtractor :=
  mkExtractor model_name default_entity_registry default_predicate_vocabulary default_defaults client_ok.

Section Main.
(** The parameters of the end-to-end extractor of [Prompting]: the chat
    call, [json.loads], pydantic's [float] and the [repr] of a float. *)
Variable chat : string -> list (string * string) -> res string.
Variable json_loads : string -> res json.
Variable py_float : json -> option Q.
Variable float_repr : Q -> string.
Variable client_ok : bool.
(** The extractors' and the store's [uuid.uuid4()] and [datetime.now()]. *)
Variables (ext_uuid now uuid4 : nat -> string).

Definition choose_extractor (args : GenArgs) : SentenceExtractor :=
  if args.(gen_mock) then MockMemoryExtractor.mock_extractor ext_uuid now
  else chat_extractor chat json_loads py_float float_repr ext_uuid now
         (new_memory_extractor (llm_model_name args.(gen_model)) client_ok).

Definition generate_main (args : GenArgs) : io PipelineStats :=
  chapters ← load_chapters args.(gen_input);
  let extractor := choose_extractor args in
  memory_store ← read_store args.(gen_output);
  let '(results, memory_store', _) :=
    process_chapters_sequentially uuid4 chapters extractor memory_store 0 in
  _ ← write_file args.(gen_output) (FMemories (save_memories memory_store'));
  mret results.
End Main.

(** ** Lemmas *)

(** The store [SimpleMemoryStore(args.output)] opens: the saved records,
    or none when the file is missing. *)
Definition output_holds (fs : fsys) (path : string) (ms : list MemoryUnit) : Prop :=
  fs !! path = Some (FMemories ms) \/ (fs !! path = None /\ ms = []).

Lemma read_store_holds fs path ms :
  output_holds fs path ms -> read_store path fs = (fs, Ok (load_memories ms)).
Proof. intros [H|[H ->]]; [by apply read_store_spec|unfold read_store; by rewrite H]. Qed.

Lemma load_chapters_spec fs path j chapters :
  fs !! path = Some (FJson j) -> (c ← chapters_json j; chapter_list c) = Ok chapters ->
  load_chapters path fs = (fs, Ok chapters).
Proof. unfold load_chapters. intros -> Hc. rewrite <- Hc. reflexivity. Qed.

Lemma generate_main_spec chat json_loads py_float float_repr client_ok ext_uuid now uuid4 args fs j chapters ms :
  fs !! args.(gen_input) = Some (FJson j) -> (c ← chapters_json j; chapter_list c) = Ok chapters ->
  output_holds fs args.(gen_output) ms ->
  generate_main chat json_loads py_float float_repr client_ok ext_uuid now uuid4 args fs =
  (<[args.(gen_output) := FMemories (save_memories
      (process_chapters_sequentially uuid4 chapters (choose_extractor chat json_loads py_float float_repr client_ok ext_uuid now args)
         (load_memories ms) 0).1.2)]> fs,
   Ok (process_chapters_sequentially uuid4 chapters (choose_extractor chat json_loads py_float float_repr client_ok ext_uuid now args)
         (load_memories ms) 0).1.1).
Proof.
  intros Hin Hc Hout. unfold generate_main.
  rewrite (io_bind_ok _ _ _ _ _ (load_chapters_spec _ _ _ _ Hin Hc)).
  rewrite (io_bind_ok _ _ _ _ _ (read_store_holds _ _ _ Hout)).
  by destruct (process_chapters_sequentially _ _ _ _ _) as [[results st'] k'].
Qed.

(** ** The generator on its own output *)

(** A one-chapter input, and the [--mock] command line writing out.jsonl. *)
Definition affair_input : fsys :=
  <["chapters.json" := FJson (JObject [("chapters", JArray [JObject [("chapter_number", JInt 1);
      ("synopsis", JStr "Byleth and Dimitri begin an affair.")]])])]> ∅.

Definition mock_args : GenArgs := mkGenArgs "chapters.json" "out.jsonl" true "mistral" false.

(** A run whose [uuid.uuid4()] draws are tagged by [tag]. *)
Definition mock_run (tag : string) : io PipelineStats :=
  generate_main (fun _ _ => Err ValueError) (fun _ => Err ValueError) (fun _ => None) (fun _ => "") true
    (fun n => tag ++ test_uuid n)%string (fun _ => "t") (fun n => tag ++ test_uuid n)%string mock_args.

(** C17. The generator's command line (generate_memory_sets.py main):
    when the input file decodes to a chapter list, [main] loads the store
    from the OUTPUT file (the records a previous run saved, or none), runs
    [process_chapters_sequentially] on it, and saves the resulting store
    to the output file, returning the run's statistics.  So running the
    generator twice on the same input and output is not idempotent: the
    second run resolves each candidate against the record the first run
    saved at the same chapter, which cannot be updated (an update needs a
    later chapter), and adds a second active copy; the overlap scan of
    the consistency evaluation does not report the pair. *)
Theorem generate_main_rerun :
  (forall chat json_loads py_float float_repr client_ok ext_uuid now uuid4 args fs j chapters ms,
     fs !! args.(gen_input) = Some (FJson j) -> (c ← chapters_json j; chapter_list c) = Ok chapters ->
     output_holds fs args.(gen_output) ms ->
     generate_main chat json_loads py_float float_repr client_ok ext_uuid now uuid4 args fs =
     (<[args.(gen_output) := FMemories (save_memories
         (process_chapters_sequentially uuid4 chapters (choose_extractor chat json_loads py_float float_repr client_ok ext_uuid now args)
            (load_memories ms) 0).1.2)]> fs,
      Ok (process_chapters_sequentially uuid4 chapters (choose_extractor chat json_loads py_float float_repr client_ok ext_uuid now args)
            (load_memories ms) 0).1.1)) /\
  (match (mock_run "b" (mock_run "a" affair_input).1).1 !! "out.jsonl" with
   | Some (FMemories ms) =>
       map (fun m => (get_key m, m.(chapter_start), m.(is_active))) ms =
         [("byleth::dimitri::relationship_status::started_affair", 1%Z, true);
          ("byleth::dimitri::relationship_status::started_affair", 1%Z, true)] /\
       check_time_overlap_conflicts (load_memories ms) = []
   | _ => False
   end).
Proof. split; [exact generate_main_spec|vm_compute; split; reflexivity]. Qed.

Lemma generate_main_rerun_witness :
  (mock_run "a" affair_input).2 = Ok (mkPipelineStats 1 1 0 1).
Proof.
  unfold mock_run.
  rewrite (proj1 generate_main_rerun (fun _ _ => Err ValueError) (fun _ => Err ValueError) (fun _ => None)
             (fun _ => "") true (fun n => "a" ++ test_uuid n)%string
             (fun _ => "t") (fun n => "a" ++ test_uuid n)%string mock_args affair_input
             (JObject [("chapters", JArray [JObject [("chapter_number", JInt 1);
                ("synopsis", JStr "Byleth and Dimitri begin an affair.")]])])
             [mkChapterData (Some 1%Z) (Some "Byleth and Dimitri begin an affair.")] []);
    [vm_compute; reflexivity|reflexivity|reflexivity|right; split; [vm_compute|]; reflexivity].
Defined.

End Generator.
